(** * Panel-flow simulation, environmental KPIs, sensitivity grid and
      investment evaluation: a shallow embedding and its verified properties

    The TypeScript sources embedded here are, under the names their
    importers use,

    - [packages/core/src/simulatePanelFlow.ts]   (module [Simulation]),
    - [packages/core/src/environmentalKpis.ts]   (module [Kpi]),
    - [packages/core/src/investmentEvaluator.ts] (module [Investment]),
    - [apps/lab/app/api/simulate/simulation.ts] and
      [apps/lab/app/api/sensitivity/simulation.ts] (module [Sensitivity]).

    Numbers.  A JavaScript [number] is an IEEE 754 double, and it is
    modelled twice.  Most of the development takes a number for an exact
    rational [Q], with [Qeq] (written [==]) as equality: this settles
    what survives rounding - orders, monotonicity, bounds, the shape of
    lists, and identities between sums up to the last bit.  Rounding
    error, overflow, [NaN] and infinities are outside that model.  Every
    division of the embedded code has a divisor that a guard of the code or
    the request schema makes positive, so the convention [x / 0 == 0] of
    [Q] is not observable on a path that returns a value.  Where a rounded
    comparison selects the result (the trips of a load, the payback
    period, the bracket accepted by [IRR]), the functions are embedded a
    second time on binary64 numbers, in module [Binary64], and the
    statements about those results are made there.

    Exceptions.  [throw new Error(msg)] is the constructor [Throw msg] of
    [result]; the branded unit constructors [kg], [km], [usd], [tCO2e],
    [hours], [miles] and the helper [toNumber] are identities at run time
    and are not written. *)

From Stdlib Require Import QArith Qround Qminmax Qabs Qreduction Qpower.
From Stdlib Require Import Lqa Lia ZArith List String Bool.
From Stdlib Require DecimalString.
Import ListNotations.
Open Scope Q_scope.

(* ================================================================== *)
(** * Definitions *)
(* ================================================================== *)

(** ** JavaScript primitives on numbers *)

Module Js.

(** [x < y] and [x <= y] as the boolean tests the code branches on. *)
Definition ltb (x y : Q) : bool := negb (Qle_bool y x).
Definition leb (x y : Q) : bool := Qle_bool x y.

(** [Math.ceil], [Math.max], [Math.abs] on exact numbers; [Math.floor] is
    [Qfloor] where the code uses its result as a loop bound.  The ceiling
    of a rounded quotient is [Binary64.Math_ceil]. *)
Definition Math_ceil (x : Q) : Q := inject_Z (Qceiling x).
Definition Math_max (x y : Q) : Q := Qmax x y.
Definition Math_abs (x : Q) : Q := Qabs x.

(** [Number.isInteger]. *)
Definition isInteger (x : Q) : bool := Pos.eqb (Qden (Qred x)) 1.

(** [Number(value.toFixed(digits))]: the decimal with [digits] fraction
    digits nearest to [value], a tie going away from zero ([toFixed]
    rounds the magnitude and picks the larger candidate on a tie). *)
Definition toFixed (value : Q) (digits : nat) : Q :=
  let scale := inject_Z (10 ^ Z.of_nat digits) in
  let n := inject_Z (Qfloor (Qabs value * scale + 0.5)) in
  if ltb value 0 then - (n / scale) else n / scale.

(** [value ?? fallback] on an optional field. *)
Definition nullish {A : Type} (value : option A) (fallback : A) : A :=
  match value with
  | Some v => v
  | None => fallback
  end.

(** [[...new Set(values)]]: the distinct values in order of first
    occurrence ([Set] compares numbers by value). *)
Fixpoint dedupe_from (seen values : list Q) : list Q :=
  match values with
  | [] => []
  | v :: rest =>
      if existsb (Qeq_bool v) seen
      then dedupe_from seen rest
      else v :: dedupe_from (v :: seen) rest
  end.

Definition dedupe (values : list Q) : list Q := dedupe_from [] values.

(** [values.sort((a, b) => a - b)]: a stable ascending sort. *)
Fixpoint insert_sorted (x : Q) (sorted : list Q) : list Q :=
  match sorted with
  | [] => [x]
  | y :: rest =>
      if Qle_bool x y then x :: y :: rest else y :: insert_sorted x rest
  end.

Definition sort_ascending (values : list Q) : list Q :=
  fold_right insert_sorted [] values.

(** Decimal rendering of a count inside a template string. *)
Definition string_of_nat (n : nat) : string :=
  DecimalString.NilEmpty.string_of_uint (Nat.to_uint n).

End Js.

Notation "x <? y" := (Js.ltb x y) : Q_scope.
Notation "x <=? y" := (Js.leb x y) : Q_scope.

(** ** Exceptions: the error monad *)

Inductive result (A : Type) : Type :=
| Ok (value : A)
| Throw (message : string).
Arguments Ok {A} value.
Arguments Throw {A} message.

Definition bind {A B : Type} (r : result A) (k : A -> result B) : result B :=
  match r with
  | Ok a => k a
  | Throw m => Throw m
  end.

Notation "x <- c ;; k" := (bind c (fun x => k))
  (at level 61, c at next level, right associativity).
Notation "c ;; k" := (bind c (fun _ => k))
  (at level 61, right associativity).

(** ** Observable effects: a state layer over the error monad

    Two claims are about what the code does on the way to its result (which
    discount rates [IRR] hands to [NPV]; how many simulations a grid sweep
    has run).  The functions concerned are written in [M S]: the state [S]
    records the calls made so far and survives a thrown error. *)

Definition M (S A : Type) : Type := S -> result A * S.

Definition mret {S A : Type} (a : A) : M S A := fun s => (Ok a, s).

Definition mthrow {S A : Type} (message : string) : M S A :=
  fun s => (Throw message, s).

Definition mbind {S A B : Type} (c : M S A) (k : A -> M S B) : M S B :=
  fun s =>
    match c s with
    | (Ok a, s') => k a s'
    | (Throw m, s') => (Throw m, s')
    end.

Notation "x <~ c ;; k" := (mbind c (fun x => k))
  (at level 61, c at next level, right associativity).

(** [mapM]: a [for ... of] loop pushing one result per element, stopped by
    the first exception. *)
Fixpoint mapM {S A B : Type} (f : A -> M S B) (xs : list A) : M S (list B) :=
  match xs with
  | [] => mret []
  | x :: rest =>
      y <~ f x ;;
      ys <~ mapM f rest ;;
      mret (y :: ys)
  end.

(** ** simulatePanelFlow.ts *)

Module Simulation.

Definition DEFAULT_TRUCK_SPEED_KM_PER_HOUR : Q := 50.
Definition DEFAULT_LOAD_UNLOAD_HOURS_PER_TRIP : Q := 0.25.

Record UnitOfWork : Type := {
  inboundMaterial : Q;
  haulDistancePerTrip : Q
}.

Record CostDrivers : Type := {
  truckCapacity : Q;
  haulCostPerKm : Q;
  laborCostPerHour : Q;
  crusherProcessingCostPerKg : Q;
  grinderProcessingCostPerKg : Q;
  crusherThroughputKgPerHour : Q;
  grinderThroughputKgPerHour : Q
}.

Record SustainabilityDrivers : Type := {
  haulEmissionsPerKm : Q;
  crusherEmissionsPerKg : Q;
  grinderEmissionsPerKg : Q;
  crusherRecoveryRate : Q;
  grinderRecoveryRate : Q
}.

Record SimulationOptions : Type := {
  useCrusher : bool;
  truckSpeedKmPerHour : option Q;
  loadUnloadHoursPerTrip : option Q
}.

Record SimulationResult : Type := {
  totalCost : Q;
  totalTime : Q;
  totalEmissions : Q;
  truckTrips : Q;
  materialRecovered : Q
}.

Definition validateRate (rate : Q) (name : string) : result unit :=
  if (rate <? 0) || (1 <? rate)
  then Throw (name ++ " must be between 0 and 1")%string
  else Ok tt.

Definition validatePositive (value : Q) (name : string) : result unit :=
  if value <=? 0
  then Throw (name ++ " must be > 0")%string
  else Ok tt.

Definition simulatePanelFlow
    (unitOfWork : UnitOfWork) (costDrivers : CostDrivers)
    (sustainabilityDrivers : SustainabilityDrivers)
    (options : SimulationOptions) : result SimulationResult :=
  let truckSpeed :=
    Js.nullish (truckSpeedKmPerHour options) DEFAULT_TRUCK_SPEED_KM_PER_HOUR in
  let loadUnloadHours :=
    Js.nullish (loadUnloadHoursPerTrip options)
               DEFAULT_LOAD_UNLOAD_HOURS_PER_TRIP in
  validatePositive truckSpeed "truckSpeedKmPerHour" ;;
  validatePositive loadUnloadHours "loadUnloadHoursPerTrip" ;;
  validatePositive (truckCapacity costDrivers) "truckCapacity" ;;
  validatePositive (inboundMaterial unitOfWork) "inboundMaterial" ;;
  validatePositive (haulDistancePerTrip unitOfWork) "haulDistancePerTrip" ;;
  validateRate (crusherRecoveryRate sustainabilityDrivers)
               "crusherRecoveryRate" ;;
  validateRate (grinderRecoveryRate sustainabilityDrivers)
               "grinderRecoveryRate" ;;
  let inputKg := inboundMaterial unitOfWork in
  let distancePerTripKm := haulDistancePerTrip unitOfWork in
  let trips := Js.Math_ceil (inputKg / truckCapacity costDrivers) in
  let processingThroughput :=
    if useCrusher options
    then crusherThroughputKgPerHour costDrivers
    else grinderThroughputKgPerHour costDrivers in
  validatePositive processingThroughput "processingThroughputKgPerHour" ;;
  let processingCostPerKg :=
    if useCrusher options
    then crusherProcessingCostPerKg costDrivers
    else grinderProcessingCostPerKg costDrivers in
  let processEmissionsPerKg :=
    if useCrusher options
    then crusherEmissionsPerKg sustainabilityDrivers
    else grinderEmissionsPerKg sustainabilityDrivers in
  let recoveryRate :=
    if useCrusher options
    then crusherRecoveryRate sustainabilityDrivers
    else grinderRecoveryRate sustainabilityDrivers in
  let totalDistanceKm := trips * distancePerTripKm in
  let haulTimeHours := totalDistanceKm / truckSpeed + trips * loadUnloadHours in
  let processingTimeHours := inputKg / processingThroughput in
  let totalTimeHours := haulTimeHours + processingTimeHours in
  let haulCost := totalDistanceKm * haulCostPerKm costDrivers in
  let processingCost := inputKg * processingCostPerKg in
  let laborCost := totalTimeHours * laborCostPerHour costDrivers in
  let totalCostValue := haulCost + processingCost + laborCost in
  let haulEmissions :=
    totalDistanceKm * haulEmissionsPerKm sustainabilityDrivers in
  let processEmissions := inputKg * processEmissionsPerKg in
  let totalEmissionsValue := haulEmissions + processEmissions in
  let recoveredKg := inputKg * recoveryRate in
  Ok {| totalCost := totalCostValue;
        totalTime := totalTimeHours;
        totalEmissions := totalEmissionsValue;
        truckTrips := trips;
        materialRecovered := recoveredKg |}.

End Simulation.

(** ** environmentalKpis.ts *)

Module Kpi.
Import Simulation.

Record EnvironmentalKpiFactors : Type := {
  co2AvoidedPerKgRecovered : Q;
  carbonCapturePotentialPerKgRecovered : Q;
  baselineTruckMilesPerTrip : Q;
  optimizedTruckMilesPerTrip : Q
}.

(** [Partial<EnvironmentalKpiFactors>]: every key may be absent. *)
Record PartialEnvironmentalKpiFactors : Type := {
  co2AvoidedPerKgRecovered_override : option Q;
  carbonCapturePotentialPerKgRecovered_override : option Q;
  baselineTruckMilesPerTrip_override : option Q;
  optimizedTruckMilesPerTrip_override : option Q
}.

Definition DEFAULT_ENVIRONMENTAL_KPI_FACTORS : EnvironmentalKpiFactors :=
  {| co2AvoidedPerKgRecovered := 0.00012;
     carbonCapturePotentialPerKgRecovered := 0.00003;
     baselineTruckMilesPerTrip := 42;
     optimizedTruckMilesPerTrip := 30 |}.

(** [{ ...DEFAULT_ENVIRONMENTAL_KPI_FACTORS, ...overrides }] *)
Definition resolvedFactors
    (overrides : option PartialEnvironmentalKpiFactors)
    : EnvironmentalKpiFactors :=
  match overrides with
  | None => DEFAULT_ENVIRONMENTAL_KPI_FACTORS
  | Some o =>
      let d := DEFAULT_ENVIRONMENTAL_KPI_FACTORS in
      {| co2AvoidedPerKgRecovered :=
           Js.nullish (co2AvoidedPerKgRecovered_override o)
                      (co2AvoidedPerKgRecovered d);
         carbonCapturePotentialPerKgRecovered :=
           Js.nullish (carbonCapturePotentialPerKgRecovered_override o)
                      (carbonCapturePotentialPerKgRecovered d);
         baselineTruckMilesPerTrip :=
           Js.nullish (baselineTruckMilesPerTrip_override o)
                      (baselineTruckMilesPerTrip d);
         optimizedTruckMilesPerTrip :=
           Js.nullish (optimizedTruckMilesPerTrip_override o)
                      (optimizedTruckMilesPerTrip d) |}
  end.

Definition validateFactors (factors : EnvironmentalKpiFactors) : result unit :=
  if co2AvoidedPerKgRecovered factors <? 0
  then Throw "co2AvoidedPerKgRecovered must be >= 0"
  else if carbonCapturePotentialPerKgRecovered factors <? 0
  then Throw "carbonCapturePotentialPerKgRecovered must be >= 0"
  else if (baselineTruckMilesPerTrip factors <? 0)
          || (optimizedTruckMilesPerTrip factors <? 0)
  then Throw "truck miles factors must be >= 0"
  else Ok tt.

Definition computeCO2Avoided
    (simulationResult : SimulationResult)
    (factorOverrides : option PartialEnvironmentalKpiFactors) : result Q :=
  let factors := resolvedFactors factorOverrides in
  validateFactors factors ;;
  let grossAvoided :=
    materialRecovered simulationResult * co2AvoidedPerKgRecovered factors in
  let netAvoided :=
    Js.Math_max 0 (grossAvoided - totalEmissions simulationResult) in
  Ok netAvoided.

Definition computeCarbonCapturePotential
    (simulationResult : SimulationResult)
    (factorOverrides : option PartialEnvironmentalKpiFactors) : result Q :=
  let factors := resolvedFactors factorOverrides in
  validateFactors factors ;;
  let potential :=
    materialRecovered simulationResult
    * carbonCapturePotentialPerKgRecovered factors in
  Ok potential.

Definition computeTruckMilesAvoided
    (simulationResult : SimulationResult)
    (factorOverrides : option PartialEnvironmentalKpiFactors) : result Q :=
  let factors := resolvedFactors factorOverrides in
  validateFactors factors ;;
  let milesAvoidedPerTrip :=
    Js.Math_max 0 (baselineTruckMilesPerTrip factors
                   - optimizedTruckMilesPerTrip factors) in
  Ok (truckTrips simulationResult * milesAvoidedPerTrip).

End Kpi.

(** ** investmentEvaluator.ts *)

Module Investment.
Import Simulation.

Record SimulationCashFlowPoint : Type := {
  period : Q;
  simulationResult : SimulationResult;
  recoveredMaterialRevenue : Q;
  otherCashFlow : option Q
}.

Record InvestmentScenarioInput : Type := {
  points : list SimulationCashFlowPoint;
  initialInvestment : option Q
}.

Record ScenarioFinancialMetrics : Type := {
  cashFlows : list Q;
  npv : Q;
  irr : option Q;
  paybackPeriod : option Q
}.

Record EvaluateInvestmentInput : Type := {
  discountRate : Q;
  baseline : InvestmentScenarioInput;
  grinderPurchase : InvestmentScenarioInput
}.

Inductive PreferredOption : Type :=
| preferBaseline
| preferGrinderPurchase
| preferTie.

Record InvestmentComparisonResult : Type := {
  baselineMetrics : ScenarioFinancialMetrics;
  grinderPurchaseMetrics : ScenarioFinancialMetrics;
  incrementalMetrics : ScenarioFinancialMetrics;
  preferredOption : PreferredOption
}.

(** [Map<number, number>]: entries in insertion order; [set] on a key
    already present replaces its value in place. *)
Definition NumberMap : Type := list (Q * Q).

Fixpoint Map_get (m : NumberMap) (key : Q) : option Q :=
  match m with
  | [] => None
  | (k, v) :: rest => if Qeq_bool k key then Some v else Map_get rest key
  end.

Fixpoint Map_set (m : NumberMap) (key value : Q) : NumberMap :=
  match m with
  | [] => [(key, value)]
  | (k, v) :: rest =>
      if Qeq_bool k key then (k, value) :: rest
      else (k, v) :: Map_set rest key value
  end.

Definition Map_keys (m : NumberMap) : list Q := map fst m.

(** The three values [seriesFromScenario] returns. *)
Record ScenarioSeries : Type := {
  periods : list Q;
  netByPeriod : NumberMap;
  seriesCashFlows : list Q
}.

(** The [for (const point of scenario.points)] loop of
    [seriesFromScenario]. *)
Fixpoint accumulatePoints (pts : list SimulationCashFlowPoint)
    (netByPeriod : NumberMap) : result NumberMap :=
  match pts with
  | [] => Ok netByPeriod
  | point :: rest =>
      if (period point <? 1) || negb (Js.isInteger (period point))
      then Throw "period must be a positive integer starting at 1"
      else
        let net :=
          recoveredMaterialRevenue point
          - totalCost (simulationResult point)
          + Js.nullish (otherCashFlow point) 0 in
        accumulatePoints rest
          (Map_set netByPeriod (period point)
             (Js.nullish (Map_get netByPeriod (period point)) 0 + net))
  end.

Definition seriesFromScenario (scenario : InvestmentScenarioInput)
    : result ScenarioSeries :=
  netByPeriod <- accumulatePoints (points scenario) [] ;;
  let periods := Js.sort_ascending (Map_keys netByPeriod) in
  let rawInitial := - Js.nullish (initialInvestment scenario) 0 in
  (* [Object.is(rawInitial, -0) ? 0 : rawInitial]: a rational has one zero *)
  let initial := rawInitial in
  let cashFlows :=
    initial
    :: map (fun period => Js.nullish (Map_get netByPeriod period) 0) periods in
  Ok {| periods := periods;
        netByPeriod := netByPeriod;
        seriesCashFlows := cashFlows |}.

(** The [reduce] of [NPV]: [periodIndex] is the array index of the flow. *)
Fixpoint NPV_reduce (discountRate : Q) (periodIndex : nat) (acc : Q)
    (cashFlows : list Q) : Q :=
  match cashFlows with
  | [] => acc
  | cashFlow :: rest =>
      NPV_reduce discountRate (S periodIndex)
        (acc + cashFlow / (1 + discountRate) ^ Z.of_nat periodIndex) rest
  end.

Definition NPV (discountRate : Q) (cashFlows : list Q) : result Q :=
  if discountRate <=? -1
  then Throw "discountRate must be greater than -1"
  else Ok (NPV_reduce discountRate 0 0 cashFlows).

(** The [for (let i = 1; ...)] loop of [PaybackPeriod]; [rest] holds
    [cashFlows[i]], [cashFlows[i+1]], ...  On exact numbers, as a field
    of the metrics record; the period the running double sum selects is
    [Binary64.Investment.PaybackPeriod]. *)
Fixpoint PaybackPeriod_loop (i : nat) (cumulative : Q) (rest : list Q)
    : option Q :=
  match rest with
  | [] => None
  | flow :: rest' =>
      let previous := cumulative in
      let cumulative := cumulative + flow in
      if 0 <=? cumulative then
        if flow <=? 0 then Some (inject_Z (Z.of_nat i))
        else
          let fraction := - previous / flow in
          Some ((inject_Z (Z.of_nat i) - 1) + fraction)
      else PaybackPeriod_loop (S i) cumulative rest'
  end.

Definition PaybackPeriod (cashFlows : list Q) : option Q :=
  match cashFlows with
  | [] => None
  | first :: rest =>
      let cumulative := first in
      if 0 <=? cumulative then Some 0
      else PaybackPeriod_loop 1 cumulative rest
  end.

(** [const f = (rate) => NPV(rate, cashFlows)]; the state records the
    rates [f] has been called with, oldest first. *)
Definition f (cashFlows : list Q) (rate : Q) : M (list Q) Q :=
  fun calls => (NPV rate cashFlows, calls ++ [rate]).

(** [while (fLow * fHigh > 0 && expansions < 20)], with
    [remaining = 20 - expansions]; returns the final [high], [fHigh]. *)
Fixpoint IRR_expand (cashFlows : list Q) (remaining : nat)
    (fLow high fHigh : Q) : M (list Q) (Q * Q) :=
  match remaining with
  | O => mret (high, fHigh)
  | S remaining' =>
      if 0 <? fLow * fHigh then
        let high := high * 2 in
        fHigh <~ f cashFlows high ;;
        IRR_expand cashFlows remaining' fLow high fHigh
      else mret (high, fHigh)
  end.

(** [for (let i = 0; i < maxIterations; i += 1)] followed by the final
    [return (low + high) / 2], with [remaining = maxIterations - i].
    [Qred] only normalises the fraction of the midpoint ([Qred q == q]);
    it keeps the iterates small when the function is run. *)
Fixpoint IRR_bisect (cashFlows : list Q) (tolerance : Q) (remaining : nat)
    (low high fLow fHigh : Q) : M (list Q) Q :=
  match remaining with
  | O => mret ((low + high) / 2)
  | S remaining' =>
      let mid := Qred ((low + high) / 2) in
      fMid <~ f cashFlows mid ;;
      if Js.Math_abs fMid <? tolerance then mret mid
      else if fLow * fMid <? 0
      then IRR_bisect cashFlows tolerance remaining' low mid fLow fMid
      else IRR_bisect cashFlows tolerance remaining' mid high fMid fHigh
  end.

Definition IRR_traced (cashFlows : list Q) (maxIterations : nat)
    (tolerance : Q) : M (list Q) (option Q) :=
  if (List.length cashFlows <? 2)%nat then mret None
  else
    let hasPositive := existsb (fun value => 0 <? value) cashFlows in
    let hasNegative := existsb (fun value => value <? 0) cashFlows in
    if negb hasPositive || negb hasNegative then mret None
    else
      let low := -0.9999 in
      let high := 1 in
      fLow <~ f cashFlows low ;;
      fHigh <~ f cashFlows high ;;
      expanded <~ IRR_expand cashFlows 20 fLow high fHigh ;;
      let high := fst expanded in
      let fHigh := snd expanded in
      if 0 <? fLow * fHigh then mret None
      else
        root <~ IRR_bisect cashFlows tolerance maxIterations
                  low high fLow fHigh ;;
        mret (Some root).

(** [IRR(cashFlows)] with its default arguments [maxIterations = 200],
    [tolerance = 1e-7], as a value or an exception. *)
Definition IRR (cashFlows : list Q) : result (option Q) :=
  fst (IRR_traced cashFlows 200 0.0000001 []).

Definition makeMetrics (discountRate : Q) (cashFlows : list Q)
    : result ScenarioFinancialMetrics :=
  npvValue <- NPV discountRate cashFlows ;;
  irrValue <- IRR cashFlows ;;
  Ok {| cashFlows := cashFlows;
        npv := npvValue;
        irr := irrValue;
        paybackPeriod := PaybackPeriod cashFlows |}.

Definition evaluateInvestment (input : EvaluateInvestmentInput)
    : result InvestmentComparisonResult :=
  baselineSeries <- seriesFromScenario (baseline input) ;;
  grinderSeries <- seriesFromScenario (grinderPurchase input) ;;
  let allPeriods :=
    Js.sort_ascending
      (Js.dedupe (periods baselineSeries ++ periods grinderSeries)) in
  let incrementalInitial :=
    - Js.nullish (initialInvestment (grinderPurchase input)) 0
    + Js.nullish (initialInvestment (baseline input)) 0 in
  let incrementalCashFlows :=
    incrementalInitial
    :: map (fun period =>
              Js.nullish (Map_get (netByPeriod grinderSeries) period) 0
              - Js.nullish (Map_get (netByPeriod baselineSeries) period) 0)
           allPeriods in
  baselineM <- makeMetrics (discountRate input)
                 (seriesCashFlows baselineSeries) ;;
  grinderM <- makeMetrics (discountRate input)
                (seriesCashFlows grinderSeries) ;;
  incrementalM <- makeMetrics (discountRate input) incrementalCashFlows ;;
  let preferred :=
    if npv baselineM <? npv grinderM then preferGrinderPurchase
    else if npv grinderM <? npv baselineM then preferBaseline
    else preferTie in
  Ok {| baselineMetrics := baselineM;
        grinderPurchaseMetrics := grinderM;
        incrementalMetrics := incrementalM;
        preferredOption := preferred |}.

End Investment.

(** ** api/simulate/simulation.ts (request schemas) and
       api/sensitivity/simulation.ts

    A zod schema is modelled by the boolean it decides ([safeParse(..).success])
    on a value that already has the right shape.  The audit list
    [assumptionsUsed] (names and descriptions of the defaults applied) is
    output only and is not modelled. *)

Module Sensitivity.

Definition EPSILON : Q := 0.000000001.
Definition MAX_GRID_POINTS : nat := 2500.

Definition round (value : Q) : Q := Js.toFixed value 6.

Definition roundNullable (value : option Q) : option Q :=
  match value with
  | None => None
  | Some v => Some (round v)
  end.

(** *** Request payload *)

Module Range.
Record t : Type := { start : Q; end_ : Q; step : Q }.
End Range.

Module Ranges.
Record t : Type := {
  haulDistancePerTrip : Range.t;
  reuseUptakeRate : Range.t;
  grinderUtilization : option Range.t;
  grinderThroughputKgPerHour : option Range.t
}.
End Ranges.

Module Assumptions.
Record t : Type := {
  virginAggregateEmissionsPerKg : option Q;
  virginAggregateCostPerKg : option Q;
  landfillDisposalCostPerKg : option Q;
  grinderCapitalCostUsd : option Q;
  runsPerDay : option Q
}.
End Assumptions.

Module Proxy.
Record t : Type := {
  enabled : option bool;
  specReadiness : option Q;
  lowSpecReadinessThreshold : option Q;
  readinessExponent : option Q;
  baseCostPenaltyUsd : option Q;
  baseEmissionsPenaltyTonsCO2e : option Q;
  haulDistanceThresholdKm : option Q;
  haulCostPenaltyUsdPerKm : option Q;
  haulEmissionsPenaltyTonsCO2ePerKm : option Q
}.
End Proxy.

Module Payload.
Record t : Type := {
  unitOfWork : Simulation.UnitOfWork;
  costDrivers : Simulation.CostDrivers;
  sustainabilityDrivers : Simulation.SustainabilityDrivers;
  ranges : Ranges.t;
  assumptions : option Assumptions.t;
  expeditePenaltyProxy : option Proxy.t
}.
End Payload.

(** *** Schemas *)

Definition positive (x : Q) : bool := 0 <? x.
Definition nonnegative (x : Q) : bool := 0 <=? x.
Definition unitInterval (x : Q) : bool := (0 <=? x) && (x <=? 1).

Definition optional {A : Type} (check : A -> bool) (value : option A) : bool :=
  match value with
  | None => true
  | Some v => check v
  end.

Definition isSome {A : Type} (value : option A) : bool :=
  match value with
  | None => false
  | Some _ => true
  end.

Definition unitOfWorkSchema (u : Simulation.UnitOfWork) : bool :=
  positive (Simulation.inboundMaterial u)
  && positive (Simulation.haulDistancePerTrip u).

Definition costDriversSchema (c : Simulation.CostDrivers) : bool :=
  positive (Simulation.truckCapacity c)
  && nonnegative (Simulation.haulCostPerKm c)
  && nonnegative (Simulation.laborCostPerHour c)
  && nonnegative (Simulation.crusherProcessingCostPerKg c)
  && nonnegative (Simulation.grinderProcessingCostPerKg c)
  && positive (Simulation.crusherThroughputKgPerHour c)
  && positive (Simulation.grinderThroughputKgPerHour c).

Definition sustainabilityDriversSchema
    (s : Simulation.SustainabilityDrivers) : bool :=
  nonnegative (Simulation.haulEmissionsPerKm s)
  && nonnegative (Simulation.crusherEmissionsPerKg s)
  && nonnegative (Simulation.grinderEmissionsPerKg s)
  && unitInterval (Simulation.crusherRecoveryRate s)
  && unitInterval (Simulation.grinderRecoveryRate s).

Definition numericRangeSchema (r : Range.t) : bool :=
  positive (Range.step r) && negb (Range.end_ r <? Range.start r).

Definition positiveRangeSchema (r : Range.t) : bool :=
  numericRangeSchema r && negb (Range.start r <=? 0).

Definition unitIntervalRangeSchema (r : Range.t) : bool :=
  numericRangeSchema r
  && negb ((Range.start r <? 0) || (1 <? Range.start r)
           || (Range.end_ r <? 0) || (1 <? Range.end_ r)).

Definition sensitivityRangesSchema (r : Ranges.t) : bool :=
  positiveRangeSchema (Ranges.haulDistancePerTrip r)
  && unitIntervalRangeSchema (Ranges.reuseUptakeRate r)
  && optional unitIntervalRangeSchema (Ranges.grinderUtilization r)
  && optional positiveRangeSchema (Ranges.grinderThroughputKgPerHour r)
  && negb (Bool.eqb (isSome (Ranges.grinderUtilization r))
                    (isSome (Ranges.grinderThroughputKgPerHour r))).

Definition sensitivityAssumptionsSchema (a : option Assumptions.t) : bool :=
  optional
    (fun a =>
       optional nonnegative (Assumptions.virginAggregateEmissionsPerKg a)
       && optional nonnegative (Assumptions.virginAggregateCostPerKg a)
       && optional nonnegative (Assumptions.landfillDisposalCostPerKg a)
       && optional positive (Assumptions.grinderCapitalCostUsd a)
       && optional positive (Assumptions.runsPerDay a))
    a.

Definition expeditePenaltyProxySchema (p : option Proxy.t) : bool :=
  optional
    (fun p =>
       optional unitInterval (Proxy.specReadiness p)
       && optional unitInterval (Proxy.lowSpecReadinessThreshold p)
       && optional (fun e => 1 <=? e) (Proxy.readinessExponent p)
       && optional nonnegative (Proxy.baseCostPenaltyUsd p)
       && optional nonnegative (Proxy.baseEmissionsPenaltyTonsCO2e p)
       && optional nonnegative (Proxy.haulDistanceThresholdKm p)
       && optional nonnegative (Proxy.haulCostPenaltyUsdPerKm p)
       && optional nonnegative (Proxy.haulEmissionsPenaltyTonsCO2ePerKm p))
    p.

Definition sensitivityRequestSchema (payload : Payload.t) : bool :=
  unitOfWorkSchema (Payload.unitOfWork payload)
  && costDriversSchema (Payload.costDrivers payload)
  && sustainabilityDriversSchema (Payload.sustainabilityDrivers payload)
  && sensitivityRangesSchema (Payload.ranges payload)
  && sensitivityAssumptionsSchema (Payload.assumptions payload)
  && expeditePenaltyProxySchema (Payload.expeditePenaltyProxy payload).

(** *** Defaults and normalised inputs *)

Module NormalizedSensitivityAssumptions.
Record t : Type := {
  virginAggregateEmissionsPerKg : Q;
  virginAggregateCostPerKg : Q;
  landfillDisposalCostPerKg : Q;
  grinderCapitalCostUsd : Q;
  runsPerDay : Q
}.
End NormalizedSensitivityAssumptions.

Module NormalizedPenaltyProxy.
Record t : Type := {
  enabled : bool;
  specReadiness : Q;
  lowSpecReadinessThreshold : Q;
  readinessExponent : Q;
  baseCostPenaltyUsd : Q;
  baseEmissionsPenaltyTonsCO2e : Q;
  haulDistanceThresholdKm : Q;
  haulCostPenaltyUsdPerKm : Q;
  haulEmissionsPenaltyTonsCO2ePerKm : Q
}.
End NormalizedPenaltyProxy.

Definition DEFAULT_SENSITIVITY_ASSUMPTIONS
    : NormalizedSensitivityAssumptions.t :=
  {| NormalizedSensitivityAssumptions.virginAggregateEmissionsPerKg := 0.000005;
     NormalizedSensitivityAssumptions.virginAggregateCostPerKg := 0.03;
     NormalizedSensitivityAssumptions.landfillDisposalCostPerKg := 0.045;
     NormalizedSensitivityAssumptions.grinderCapitalCostUsd := 90000;
     NormalizedSensitivityAssumptions.runsPerDay := 1 |}.

Definition DEFAULT_EXPEDITE_PENALTY_PROXY : NormalizedPenaltyProxy.t :=
  {| NormalizedPenaltyProxy.enabled := false;
     NormalizedPenaltyProxy.specReadiness := 1;
     NormalizedPenaltyProxy.lowSpecReadinessThreshold := 0.65;
     NormalizedPenaltyProxy.readinessExponent := 2;
     NormalizedPenaltyProxy.baseCostPenaltyUsd := 350;
     NormalizedPenaltyProxy.baseEmissionsPenaltyTonsCO2e := 0.02;
     NormalizedPenaltyProxy.haulDistanceThresholdKm := 40;
     NormalizedPenaltyProxy.haulCostPenaltyUsdPerKm := 4;
     NormalizedPenaltyProxy.haulEmissionsPenaltyTonsCO2ePerKm := 0.0004 |}.

(** [payload.assumptions?.field] and [payload.expeditePenaltyProxy?.field] *)
Definition optionalField {R A : Type} (record : option R)
    (field : R -> option A) : option A :=
  match record with
  | None => None
  | Some r => field r
  end.

(** [resolveAssumption] and [resolveBooleanAssumption], without the push
    onto [assumptionsUsed]. *)
Definition resolveAssumption {A : Type} (value : option A) (fallback : A) : A :=
  Js.nullish value fallback.

Definition resolveNormalizedInput (payload : Payload.t)
    : NormalizedSensitivityAssumptions.t * NormalizedPenaltyProxy.t :=
  let a := Payload.assumptions payload in
  let p := Payload.expeditePenaltyProxy payload in
  let da := DEFAULT_SENSITIVITY_ASSUMPTIONS in
  let dp := DEFAULT_EXPEDITE_PENALTY_PROXY in
  ({| NormalizedSensitivityAssumptions.virginAggregateEmissionsPerKg :=
        resolveAssumption
          (optionalField a Assumptions.virginAggregateEmissionsPerKg)
          (NormalizedSensitivityAssumptions.virginAggregateEmissionsPerKg da);
      NormalizedSensitivityAssumptions.virginAggregateCostPerKg :=
        resolveAssumption
          (optionalField a Assumptions.virginAggregateCostPerKg)
          (NormalizedSensitivityAssumptions.virginAggregateCostPerKg da);
      NormalizedSensitivityAssumptions.landfillDisposalCostPerKg :=
        resolveAssumption
          (optionalField a Assumptions.landfillDisposalCostPerKg)
          (NormalizedSensitivityAssumptions.landfillDisposalCostPerKg da);
      NormalizedSensitivityAssumptions.grinderCapitalCostUsd :=
        resolveAssumption
          (optionalField a Assumptions.grinderCapitalCostUsd)
          (NormalizedSensitivityAssumptions.grinderCapitalCostUsd da);
      NormalizedSensitivityAssumptions.runsPerDay :=
        resolveAssumption
          (optionalField a Assumptions.runsPerDay)
          (NormalizedSensitivityAssumptions.runsPerDay da) |},
   {| NormalizedPenaltyProxy.enabled :=
        resolveAssumption (optionalField p Proxy.enabled)
          (NormalizedPenaltyProxy.enabled dp);
      NormalizedPenaltyProxy.specReadiness :=
        resolveAssumption (optionalField p Proxy.specReadiness)
          (NormalizedPenaltyProxy.specReadiness dp);
      NormalizedPenaltyProxy.lowSpecReadinessThreshold :=
        resolveAssumption (optionalField p Proxy.lowSpecReadinessThreshold)
          (NormalizedPenaltyProxy.lowSpecReadinessThreshold dp);
      NormalizedPenaltyProxy.readinessExponent :=
        resolveAssumption (optionalField p Proxy.readinessExponent)
          (NormalizedPenaltyProxy.readinessExponent dp);
      NormalizedPenaltyProxy.baseCostPenaltyUsd :=
        resolveAssumption (optionalField p Proxy.baseCostPenaltyUsd)
          (NormalizedPenaltyProxy.baseCostPenaltyUsd dp);
      NormalizedPenaltyProxy.baseEmissionsPenaltyTonsCO2e :=
        resolveAssumption (optionalField p Proxy.baseEmissionsPenaltyTonsCO2e)
          (NormalizedPenaltyProxy.baseEmissionsPenaltyTonsCO2e dp);
      NormalizedPenaltyProxy.haulDistanceThresholdKm :=
        resolveAssumption (optionalField p Proxy.haulDistanceThresholdKm)
          (NormalizedPenaltyProxy.haulDistanceThresholdKm dp);
      NormalizedPenaltyProxy.haulCostPenaltyUsdPerKm :=
        resolveAssumption (optionalField p Proxy.haulCostPenaltyUsdPerKm)
          (NormalizedPenaltyProxy.haulCostPenaltyUsdPerKm dp);
      NormalizedPenaltyProxy.haulEmissionsPenaltyTonsCO2ePerKm :=
        resolveAssumption
          (optionalField p Proxy.haulEmissionsPenaltyTonsCO2ePerKm)
          (NormalizedPenaltyProxy.haulEmissionsPenaltyTonsCO2ePerKm dp) |}).

(** *** Range expansion *)

(** The indices [0, 1, ..., steps] of the [for] loop (none when
    [steps < 0]). *)
Definition stepIndices (steps : Z) : list Z :=
  if (steps <? 0)%Z then []
  else map Z.of_nat (seq 0 (S (Z.to_nat steps))).

Definition expandRangeValues (input : Range.t) : list Q :=
  let span := Range.end_ input - Range.start input in
  let steps := Qfloor (span / Range.step input + EPSILON) in
  let values :=
    map (fun idx => round (Range.start input + inject_Z idx * Range.step input))
        (stepIndices steps) in
  let values :=
    match List.rev values with
    | [] => values
    | lastValue :: _ =>
        if EPSILON <? Range.end_ input - lastValue
        then values ++ [round (Range.end_ input)]
        else values
    end in
  Js.dedupe values.

(** *** Grid points *)

Inductive GrinderAxisMode : Type := utilization | throughput.

Module SensitivityPlotPoint.
Record t : Type := {
  haulDistancePerTripKm : Q;
  reuseUptakeRate : Q;
  grinderUtilization : option Q;
  grinderThroughputKgPerHour : Q;
  costDeltaUsd : Q;
  emissionsAvoidedTonsCO2e : Q;
  paybackDays : option Q
}.
End SensitivityPlotPoint.

Module SensitivityPointDiagnostics.
Record t : Type := {
  baselineVirginAggregateEmissionsTonsCO2e : Q;
  scenarioVirginAggregateEmissionsTonsCO2e : Q;
  baselineTotalCostUsd : Q;
  scenarioTotalCostUsd : Q;
  baselineTotalEmissionsTonsCO2e : Q;
  scenarioTotalEmissionsTonsCO2e : Q;
  baselineResidualKg : Q;
  scenarioResidualKg : Q;
  scenarioReuseKg : Q;
  scenarioLandfillKg : Q;
  baselineDisposalTrips : Q;
  scenarioDisposalTrips : Q;
  expeditePenaltyCostUsd : Q;
  expeditePenaltyEmissionsTonsCO2e : Q
}.
End SensitivityPointDiagnostics.

Record SensitivityPointComputation : Type := {
  point : SensitivityPlotPoint.t;
  diagnostics : SensitivityPointDiagnostics.t
}.

Module SensitivityGridResult.
Record t : Type := {
  axisMode : GrinderAxisMode;
  axes_haulDistancePerTripKm : list Q;
  axes_reuseUptakeRate : list Q;
  axes_grinderAxisValues : list Q;
  points : list SensitivityPointComputation;
  penaltyProxy : NormalizedPenaltyProxy.t
}.
End SensitivityGridResult.

Record ExpeditePenaltyResult : Type := {
  costPenaltyUsd : Q;
  emissionsPenaltyTonsCO2e : Q
}.

Module SensitivityPointInput.
Record t : Type := {
  haulDistancePerTripKm : Q;
  reuseUptakeRate : Q;
  grinderUtilization : option Q;
  grinderThroughputKgPerHour : Q
}.
End SensitivityPointInput.

Module SensitivityContext.
Record t : Type := {
  unitOfWork : Simulation.UnitOfWork;
  costDrivers : Simulation.CostDrivers;
  sustainabilityDrivers : Simulation.SustainabilityDrivers;
  assumptions : NormalizedSensitivityAssumptions.t;
  penaltyProxy : NormalizedPenaltyProxy.t
}.
End SensitivityContext.

Definition toCoreUnitOfWork (input : Simulation.UnitOfWork)
    (haulDistancePerTripKm : Q) : Simulation.UnitOfWork :=
  {| Simulation.inboundMaterial := Simulation.inboundMaterial input;
     Simulation.haulDistancePerTrip := haulDistancePerTripKm |}.

Definition toCoreCostDrivers (input : Simulation.CostDrivers)
    (grinderThroughputKgPerHour : Q) : Simulation.CostDrivers :=
  {| Simulation.truckCapacity := Simulation.truckCapacity input;
     Simulation.haulCostPerKm := Simulation.haulCostPerKm input;
     Simulation.laborCostPerHour := Simulation.laborCostPerHour input;
     Simulation.crusherProcessingCostPerKg :=
       Simulation.crusherProcessingCostPerKg input;
     Simulation.grinderProcessingCostPerKg :=
       Simulation.grinderProcessingCostPerKg input;
     Simulation.crusherThroughputKgPerHour :=
       Simulation.crusherThroughputKgPerHour input;
     Simulation.grinderThroughputKgPerHour := grinderThroughputKgPerHour |}.

Definition toCoreSustainabilityDrivers
    (input : Simulation.SustainabilityDrivers)
    : Simulation.SustainabilityDrivers :=
  {| Simulation.haulEmissionsPerKm := Simulation.haulEmissionsPerKm input;
     Simulation.crusherEmissionsPerKg := Simulation.crusherEmissionsPerKg input;
     Simulation.grinderEmissionsPerKg := Simulation.grinderEmissionsPerKg input;
     Simulation.crusherRecoveryRate := Simulation.crusherRecoveryRate input;
     Simulation.grinderRecoveryRate := Simulation.grinderRecoveryRate input |}.

(** One call of [simulatePanelFlow] from the sweep; the state counts the
    simulations run so far. *)
Definition simulatePanelFlow
    (unitOfWork : Simulation.UnitOfWork)
    (costDrivers : Simulation.CostDrivers)
    (sustainabilityDrivers : Simulation.SustainabilityDrivers)
    (options : Simulation.SimulationOptions)
    : M nat Simulation.SimulationResult :=
  fun runs =>
    (Simulation.simulatePanelFlow unitOfWork costDrivers
       sustainabilityDrivers options,
     S runs).

Section RealPower.

(** [base ** exponent] at a real exponent ([readinessExponent] is any
    number [>= 1]) has no rational model; the sweep is stated for every
    function in its place. *)
Variable Math_pow : Q -> Q -> Q.

Definition computeExpeditePenaltyProxy (haulDistancePerTripKm : Q)
    (proxy : NormalizedPenaltyProxy.t) : ExpeditePenaltyResult :=
  if negb (NormalizedPenaltyProxy.enabled proxy) then
    {| costPenaltyUsd := 0; emissionsPenaltyTonsCO2e := 0 |}
  else
    let thresholdBase :=
      Js.Math_max (NormalizedPenaltyProxy.lowSpecReadinessThreshold proxy)
                  EPSILON in
    let readinessGap :=
      Js.Math_max 0 (NormalizedPenaltyProxy.lowSpecReadinessThreshold proxy
                     - NormalizedPenaltyProxy.specReadiness proxy) in
    let readinessFactor :=
      Math_pow (readinessGap / thresholdBase)
               (NormalizedPenaltyProxy.readinessExponent proxy) in
    let haulExcessKm :=
      Js.Math_max 0 (haulDistancePerTripKm
                     - NormalizedPenaltyProxy.haulDistanceThresholdKm proxy) in
    let haulScale :=
      1 + haulExcessKm
          / Js.Math_max
              (NormalizedPenaltyProxy.haulDistanceThresholdKm proxy) 1 in
    let costPenaltyUsd :=
      NormalizedPenaltyProxy.baseCostPenaltyUsd proxy
      * readinessFactor * haulScale
      + haulExcessKm * NormalizedPenaltyProxy.haulCostPenaltyUsdPerKm proxy in
    let emissionsPenaltyTonsCO2e :=
      NormalizedPenaltyProxy.baseEmissionsPenaltyTonsCO2e proxy
      * readinessFactor * haulScale
      + haulExcessKm
        * NormalizedPenaltyProxy.haulEmissionsPenaltyTonsCO2ePerKm proxy in
    {| costPenaltyUsd := costPenaltyUsd;
       emissionsPenaltyTonsCO2e := emissionsPenaltyTonsCO2e |}.

(** Everything [computeSensitivityPoint] does after its two
    simulations. *)
Definition assemblePoint (input : SensitivityPointInput.t)
    (context : SensitivityContext.t)
    (baselineSimulation scenarioSimulation : Simulation.SimulationResult)
    : SensitivityPointComputation :=
  let cd := SensitivityContext.costDrivers context in
  let sd := SensitivityContext.sustainabilityDrivers context in
  let assumptions := SensitivityContext.assumptions context in
  let haulKm := SensitivityPointInput.haulDistancePerTripKm input in
  let inboundKg :=
    Simulation.inboundMaterial (SensitivityContext.unitOfWork context) in
  let truckCapacityKg := Simulation.truckCapacity cd in
  let baselineRecoveredKg := Simulation.materialRecovered baselineSimulation in
  let scenarioRecoveredKg := Simulation.materialRecovered scenarioSimulation in
  let baselineResidualKg := Js.Math_max 0 (inboundKg - baselineRecoveredKg) in
  let scenarioResidualKg := Js.Math_max 0 (inboundKg - scenarioRecoveredKg) in
  let scenarioReuseKg :=
    scenarioResidualKg * SensitivityPointInput.reuseUptakeRate input in
  let scenarioLandfillKg :=
    Js.Math_max 0 (scenarioResidualKg - scenarioReuseKg) in
  let baselineDisposalTrips :=
    Js.Math_ceil (baselineResidualKg / truckCapacityKg) in
  let scenarioDisposalTrips :=
    Js.Math_ceil (scenarioLandfillKg / truckCapacityKg) in
  let baselineDisposalDistanceKm := baselineDisposalTrips * haulKm in
  let scenarioDisposalDistanceKm := scenarioDisposalTrips * haulKm in
  let baselineDisposalHaulCostUsd :=
    baselineDisposalDistanceKm * Simulation.haulCostPerKm cd in
  let scenarioDisposalHaulCostUsd :=
    scenarioDisposalDistanceKm * Simulation.haulCostPerKm cd in
  let baselineDisposalHaulEmissionsTonsCO2e :=
    baselineDisposalDistanceKm * Simulation.haulEmissionsPerKm sd in
  let scenarioDisposalHaulEmissionsTonsCO2e :=
    scenarioDisposalDistanceKm * Simulation.haulEmissionsPerKm sd in
  let baselineVirginAggregateKg := inboundKg in
  let scenarioVirginAggregateKg :=
    Js.Math_max 0 (inboundKg - scenarioReuseKg) in
  let baselineVirginAggregateEmissionsTonsCO2e :=
    baselineVirginAggregateKg
    * NormalizedSensitivityAssumptions.virginAggregateEmissionsPerKg
        assumptions in
  let scenarioVirginAggregateEmissionsTonsCO2e :=
    scenarioVirginAggregateKg
    * NormalizedSensitivityAssumptions.virginAggregateEmissionsPerKg
        assumptions in
  let baselineVirginAggregateCostUsd :=
    baselineVirginAggregateKg
    * NormalizedSensitivityAssumptions.virginAggregateCostPerKg assumptions in
  let scenarioVirginAggregateCostUsd :=
    scenarioVirginAggregateKg
    * NormalizedSensitivityAssumptions.virginAggregateCostPerKg assumptions in
  let baselineDisposalCostUsd :=
    baselineResidualKg
    * NormalizedSensitivityAssumptions.landfillDisposalCostPerKg assumptions in
  let scenarioDisposalCostUsd :=
    scenarioLandfillKg
    * NormalizedSensitivityAssumptions.landfillDisposalCostPerKg assumptions in
  let expeditePenalty :=
    computeExpeditePenaltyProxy haulKm
      (SensitivityContext.penaltyProxy context) in
  let baselineTotalCostUsd :=
    Simulation.totalCost baselineSimulation
    + baselineDisposalHaulCostUsd
    + baselineDisposalCostUsd
    + baselineVirginAggregateCostUsd in
  let scenarioTotalCostUsd :=
    Simulation.totalCost scenarioSimulation
    + scenarioDisposalHaulCostUsd
    + scenarioDisposalCostUsd
    + scenarioVirginAggregateCostUsd
    + costPenaltyUsd expeditePenalty in
  let baselineTotalEmissionsTonsCO2e :=
    Simulation.totalEmissions baselineSimulation
    + baselineDisposalHaulEmissionsTonsCO2e
    + baselineVirginAggregateEmissionsTonsCO2e in
  let scenarioTotalEmissionsTonsCO2e :=
    Simulation.totalEmissions scenarioSimulation
    + scenarioDisposalHaulEmissionsTonsCO2e
    + scenarioVirginAggregateEmissionsTonsCO2e
    + emissionsPenaltyTonsCO2e expeditePenalty in
  let costDeltaUsd := scenarioTotalCostUsd - baselineTotalCostUsd in
  let emissionsAvoidedTonsCO2e :=
    baselineTotalEmissionsTonsCO2e - scenarioTotalEmissionsTonsCO2e in
  let dailySavingsUsd :=
    (baselineTotalCostUsd - scenarioTotalCostUsd)
    * NormalizedSensitivityAssumptions.runsPerDay assumptions in
  let paybackDays :=
    if 0 <? dailySavingsUsd
    then Some (NormalizedSensitivityAssumptions.grinderCapitalCostUsd
                 assumptions / dailySavingsUsd)
    else None in
  {| point :=
       {| SensitivityPlotPoint.haulDistancePerTripKm := round haulKm;
          SensitivityPlotPoint.reuseUptakeRate :=
            round (SensitivityPointInput.reuseUptakeRate input);
          SensitivityPlotPoint.grinderUtilization :=
            match SensitivityPointInput.grinderUtilization input with
            | None => None
            | Some u => Some (round u)
            end;
          SensitivityPlotPoint.grinderThroughputKgPerHour :=
            round (SensitivityPointInput.grinderThroughputKgPerHour input);
          SensitivityPlotPoint.costDeltaUsd := round costDeltaUsd;
          SensitivityPlotPoint.emissionsAvoidedTonsCO2e :=
            round emissionsAvoidedTonsCO2e;
          SensitivityPlotPoint.paybackDays := roundNullable paybackDays |};
     diagnostics :=
       {| SensitivityPointDiagnostics.baselineVirginAggregateEmissionsTonsCO2e :=
            round baselineVirginAggregateEmissionsTonsCO2e;
          SensitivityPointDiagnostics.scenarioVirginAggregateEmissionsTonsCO2e :=
            round scenarioVirginAggregateEmissionsTonsCO2e;
          SensitivityPointDiagnostics.baselineTotalCostUsd :=
            round baselineTotalCostUsd;
          SensitivityPointDiagnostics.scenarioTotalCostUsd :=
            round scenarioTotalCostUsd;
          SensitivityPointDiagnostics.baselineTotalEmissionsTonsCO2e :=
            round baselineTotalEmissionsTonsCO2e;
          SensitivityPointDiagnostics.scenarioTotalEmissionsTonsCO2e :=
            round scenarioTotalEmissionsTonsCO2e;
          SensitivityPointDiagnostics.baselineResidualKg :=
            round baselineResidualKg;
          SensitivityPointDiagnostics.scenarioResidualKg :=
            round scenarioResidualKg;
          SensitivityPointDiagnostics.scenarioReuseKg := round scenarioReuseKg;
          SensitivityPointDiagnostics.scenarioLandfillKg :=
            round scenarioLandfillKg;
          SensitivityPointDiagnostics.baselineDisposalTrips :=
            baselineDisposalTrips;
          SensitivityPointDiagnostics.scenarioDisposalTrips :=
            scenarioDisposalTrips;
          SensitivityPointDiagnostics.expeditePenaltyCostUsd :=
            round (costPenaltyUsd expeditePenalty);
          SensitivityPointDiagnostics.expeditePenaltyEmissionsTonsCO2e :=
            round (emissionsPenaltyTonsCO2e expeditePenalty) |} |}.

Definition computeSensitivityPoint (input : SensitivityPointInput.t)
    (context : SensitivityContext.t) : M nat SensitivityPointComputation :=
  let unitOfWork :=
    toCoreUnitOfWork (SensitivityContext.unitOfWork context)
      (SensitivityPointInput.haulDistancePerTripKm input) in
  let costDrivers :=
    toCoreCostDrivers (SensitivityContext.costDrivers context)
      (SensitivityPointInput.grinderThroughputKgPerHour input) in
  let sustainabilityDrivers :=
    toCoreSustainabilityDrivers
      (SensitivityContext.sustainabilityDrivers context) in
  baselineSimulation <~
    simulatePanelFlow unitOfWork costDrivers sustainabilityDrivers
      {| Simulation.useCrusher := true;
         Simulation.truckSpeedKmPerHour :=
           Some Simulation.DEFAULT_TRUCK_SPEED_KM_PER_HOUR;
         Simulation.loadUnloadHoursPerTrip :=
           Some Simulation.DEFAULT_LOAD_UNLOAD_HOURS_PER_TRIP |} ;;
  scenarioSimulation <~
    simulatePanelFlow unitOfWork costDrivers sustainabilityDrivers
      {| Simulation.useCrusher := false;
         Simulation.truckSpeedKmPerHour :=
           Some Simulation.DEFAULT_TRUCK_SPEED_KM_PER_HOUR;
         Simulation.loadUnloadHoursPerTrip :=
           Some Simulation.DEFAULT_LOAD_UNLOAD_HOURS_PER_TRIP |} ;;
  mret (assemblePoint input context baselineSimulation scenarioSimulation).

(** The inputs of the three nested [for ... of] loops, in the order the
    loops visit them. *)
Definition gridInputs (payload : Payload.t) (axisMode : GrinderAxisMode)
    (haulDistanceValues reuseValues grinderAxisValues : list Q)
    : list SensitivityPointInput.t :=
  flat_map (fun haulDistancePerTripKm =>
    flat_map (fun reuseUptakeRate =>
      map (fun grinderAxisValue =>
             {| SensitivityPointInput.haulDistancePerTripKm :=
                  haulDistancePerTripKm;
                SensitivityPointInput.reuseUptakeRate := reuseUptakeRate;
                SensitivityPointInput.grinderUtilization :=
                  match axisMode with
                  | utilization => Some grinderAxisValue
                  | throughput => None
                  end;
                SensitivityPointInput.grinderThroughputKgPerHour :=
                  match axisMode with
                  | utilization =>
                      Simulation.grinderThroughputKgPerHour
                        (Payload.costDrivers payload)
                      * grinderAxisValue
                  | throughput => grinderAxisValue
                  end |})
          grinderAxisValues)
      reuseValues)
    haulDistanceValues.

(** The range of the grinder axis,
    [grinderUtilization ?? grinderThroughputKgPerHour!].  A payload
    accepted by the schema has exactly one of the two.  With neither, the
    code hands [undefined] to [expandRangeValues] and a TypeError
    follows; the last arm below only makes the function total, and every
    statement about the grid assumes the schema, under which it is never
    reached. *)
Definition grinderAxisRange (ranges : Ranges.t) : Range.t :=
  match Ranges.grinderUtilization ranges with
  | Some r => r
  | None =>
      match Ranges.grinderThroughputKgPerHour ranges with
      | Some r => r
      | None => {| Range.start := 0; Range.end_ := 0; Range.step := 1 |}
      end
  end.

Definition buildSensitivityGrid (payload : Payload.t)
    : M nat SensitivityGridResult.t :=
  let normalized := resolveNormalizedInput payload in
  let haulDistanceValues :=
    expandRangeValues (Ranges.haulDistancePerTrip (Payload.ranges payload)) in
  let reuseValues :=
    expandRangeValues (Ranges.reuseUptakeRate (Payload.ranges payload)) in
  let axisMode :=
    if isSome (Ranges.grinderUtilization (Payload.ranges payload))
    then utilization else throughput in
  let grinderAxisValues :=
    expandRangeValues (grinderAxisRange (Payload.ranges payload)) in
  let gridPointCount :=
    (List.length haulDistanceValues * List.length reuseValues
     * List.length grinderAxisValues)%nat in
  if (MAX_GRID_POINTS <? gridPointCount)%nat then
    mthrow ("Grid too large: " ++ Js.string_of_nat gridPointCount
            ++ " points exceeds limit "
            ++ Js.string_of_nat MAX_GRID_POINTS)%string
  else
    let context :=
      {| SensitivityContext.unitOfWork := Payload.unitOfWork payload;
         SensitivityContext.costDrivers := Payload.costDrivers payload;
         SensitivityContext.sustainabilityDrivers :=
           Payload.sustainabilityDrivers payload;
         SensitivityContext.assumptions := fst normalized;
         SensitivityContext.penaltyProxy := snd normalized |} in
    points <~
      mapM (fun input => computeSensitivityPoint input context)
           (gridInputs payload axisMode haulDistanceValues reuseValues
              grinderAxisValues) ;;
    mret {| SensitivityGridResult.axisMode := axisMode;
            SensitivityGridResult.axes_haulDistancePerTripKm :=
              haulDistanceValues;
            SensitivityGridResult.axes_reuseUptakeRate := reuseValues;
            SensitivityGridResult.axes_grinderAxisValues := grinderAxisValues;
            SensitivityGridResult.points := points;
            SensitivityGridResult.penaltyProxy := snd normalized |}.

End RealPower.

End Sensitivity.

(* ================================================================== *)
(** * Specification-side notions and fixtures *)
(* ================================================================== *)

(** Equality of optional numbers up to [==]. *)
Definition optionQeq (a b : option Q) : Prop :=
  match a, b with
  | Some x, Some y => x == y
  | None, None => True
  | _, _ => False
  end.

Definition sumList (values : list Q) : Q := fold_right Qplus 0 values.

Module SimulationSpec.
Import Simulation.

Definition selectedThroughput (cd : CostDrivers) (o : SimulationOptions) : Q :=
  if useCrusher o then crusherThroughputKgPerHour cd
  else grinderThroughputKgPerHour cd.

Definition truckSpeedOf (o : SimulationOptions) : Q :=
  Js.nullish (truckSpeedKmPerHour o) DEFAULT_TRUCK_SPEED_KM_PER_HOUR.

Definition loadUnloadOf (o : SimulationOptions) : Q :=
  Js.nullish (loadUnloadHoursPerTrip o) DEFAULT_LOAD_UNLOAD_HOURS_PER_TRIP.

(** The eight conditions [simulatePanelFlow] checks. *)
Definition guardsHold (u : UnitOfWork) (cd : CostDrivers)
    (sd : SustainabilityDrivers) (o : SimulationOptions) : Prop :=
  0 < truckSpeedOf o
  /\ 0 < loadUnloadOf o
  /\ 0 < truckCapacity cd
  /\ 0 < inboundMaterial u
  /\ 0 < haulDistancePerTrip u
  /\ 0 <= crusherRecoveryRate sd <= 1
  /\ 0 <= grinderRecoveryRate sd <= 1
  /\ 0 < selectedThroughput cd o.

Definition guardViolated (u : UnitOfWork) (cd : CostDrivers)
    (sd : SustainabilityDrivers) (o : SimulationOptions) : Prop :=
  truckSpeedOf o <= 0
  \/ loadUnloadOf o <= 0
  \/ truckCapacity cd <= 0
  \/ inboundMaterial u <= 0
  \/ haulDistancePerTrip u <= 0
  \/ (crusherRecoveryRate sd < 0 \/ 1 < crusherRecoveryRate sd)
  \/ (grinderRecoveryRate sd < 0 \/ 1 < grinderRecoveryRate sd)
  \/ selectedThroughput cd o <= 0.

(** Steps 1 to 8 of the simulation algorithm, as the specification
    lists them. *)
Definition outcome (u : UnitOfWork) (cd : CostDrivers)
    (sd : SustainabilityDrivers) (o : SimulationOptions) : SimulationResult :=
  let trips := inject_Z (Qceiling (inboundMaterial u / truckCapacity cd)) in
  let totalDistance := trips * haulDistancePerTrip u in
  let haulTimeHours :=
    totalDistance / truckSpeedOf o + trips * loadUnloadOf o in
  let processingTimeHours := inboundMaterial u / selectedThroughput cd o in
  let time := haulTimeHours + processingTimeHours in
  let cost :=
    totalDistance * haulCostPerKm cd
    + inboundMaterial u
      * (if useCrusher o then crusherProcessingCostPerKg cd
         else grinderProcessingCostPerKg cd)
    + time * laborCostPerHour cd in
  let emissions :=
    totalDistance * haulEmissionsPerKm sd
    + inboundMaterial u
      * (if useCrusher o then crusherEmissionsPerKg sd
         else grinderEmissionsPerKg sd) in
  let recovered :=
    inboundMaterial u
    * (if useCrusher o then crusherRecoveryRate sd
       else grinderRecoveryRate sd) in
  {| totalCost := cost;
     totalTime := time;
     totalEmissions := emissions;
     truckTrips := trips;
     materialRecovered := recovered |}.

(** The fixtures of [simulatePanelFlow.test.ts]. *)
Definition testCostDrivers : CostDrivers :=
  {| truckCapacity := 2000;
     haulCostPerKm := 3;
     laborCostPerHour := 40;
     crusherProcessingCostPerKg := 0.02;
     grinderProcessingCostPerKg := 0.03;
     crusherThroughputKgPerHour := 2500;
     grinderThroughputKgPerHour := 2000 |}.

Definition testSustainabilityDrivers : SustainabilityDrivers :=
  {| haulEmissionsPerKm := 0.001;
     crusherEmissionsPerKg := 0.00004;
     grinderEmissionsPerKg := 0.00006;
     crusherRecoveryRate := 0.82;
     grinderRecoveryRate := 0.75 |}.

Definition testUnitOfWork : UnitOfWork :=
  {| inboundMaterial := 10000; haulDistancePerTrip := 30 |}.




Definition knownOptions : SimulationOptions :=
  {| useCrusher := true;
     truckSpeedKmPerHour := Some 60;
     loadUnloadHoursPerTrip := Some 0.5 |}.

(** A request whose haul cost per km is negative. *)
Definition negativeHaulCostDrivers : CostDrivers :=
  {| truckCapacity := 2000;
     haulCostPerKm := -3;
     laborCostPerHour := 40;
     crusherProcessingCostPerKg := 0.02;
     grinderProcessingCostPerKg := 0.03;
     crusherThroughputKgPerHour := 2500;
     grinderThroughputKgPerHour := 2000 |}.

End SimulationSpec.

Module KpiSpec.
Import Simulation Kpi.

Definition factorsValid (f : EnvironmentalKpiFactors) : Prop :=
  0 <= co2AvoidedPerKgRecovered f
  /\ 0 <= carbonCapturePotentialPerKgRecovered f
  /\ 0 <= baselineTruckMilesPerTrip f
  /\ 0 <= optimizedTruckMilesPerTrip f.

(** The result and the override of the KPI floor test. *)
Definition floorTestResult : SimulationResult :=
  {| totalCost := 1120;
     totalTime := 9.25;
     totalEmissions := 3;
     truckTrips := 5;
     materialRecovered := 7500 |}.

Definition floorTestOverrides : PartialEnvironmentalKpiFactors :=
  {| co2AvoidedPerKgRecovered_override := Some 0.0001;
     carbonCapturePotentialPerKgRecovered_override := None;
     baselineTruckMilesPerTrip_override := None;
     optimizedTruckMilesPerTrip_override := None |}.

End KpiSpec.

Module InvestmentSpec.
Import Simulation Investment.

(** [NPV(rate, flows)] on a rate it accepts. *)
Definition npvAt (flows : list Q) (rate : Q) : Q := NPV_reduce rate 0 0 flows.

(** The specification of [IRR], in its words: the candidate upper bounds
    [1, 2, 4, ..., 2^20] (the start and up to 20 doublings), the first of
    them at which the signs of NPV at the two ends no longer agree, and
    the bisection of the bracket found. *)
Definition lowerBound : Q := -0.9999.

Fixpoint doublings (times : nat) (high : Q) : list Q :=
  match times with
  | O => [high]
  | S times' => high :: doublings times' (high * 2)
  end.

Definition upperBounds : list Q := doublings 20 1.

Definition signsAgree (a b : Q) : bool := 0 <? a * b.

Definition firstSignChange (flows : list Q) : option Q :=
  find (fun high =>
          negb (signsAgree (npvAt flows lowerBound) (npvAt flows high)))
       upperBounds.

Fixpoint bisection (flows : list Q) (tolerance : Q) (budget : nat)
    (low high : Q) : Q :=
  let mid := (low + high) / 2 in
  match budget with
  | O => mid
  | S budget' =>
      if Qabs (npvAt flows mid) <? tolerance then mid
      else if npvAt flows low * npvAt flows mid <? 0
      then bisection flows tolerance budget' low mid
      else bisection flows tolerance budget' mid high
  end.

Definition IRR_spec_with (budget : nat) (tolerance : Q) (flows : list Q)
    : option Q :=
  if existsb (fun v => 0 <? v) flows && existsb (fun v => v <? 0) flows
  then
    match firstSignChange flows with
    | None => None
    | Some high => Some (bisection flows tolerance budget lowerBound high)
    end
  else None.

(** Up to 200 iterations, tolerance 1e-7. *)
Definition IRR_spec (flows : list Q) : option Q :=
  IRR_spec_with 200 0.0000001 flows.

(** The interval in which every rate handled by [IRR] lies; the upper
    end is 2^20. *)
Definition rateInRange (rate : Q) : Prop :=
  -0.9999 <= rate <= 1048576.

(** A comparison in which the grinder scenario has no point at period 2
    while the baseline has points at periods 1, 2 and 3. *)
Definition resultWithCost (cost : Q) : SimulationResult :=
  {| totalCost := cost;
     totalTime := 1;
     totalEmissions := 0;
     truckTrips := 1;
     materialRecovered := 1000 |}.

Definition pointAt (p revenue cost : Q) : SimulationCashFlowPoint :=
  {| period := p;
     simulationResult := resultWithCost cost;
     recoveredMaterialRevenue := revenue;
     otherCashFlow := None |}.

Definition gapInput : EvaluateInvestmentInput :=
  {| discountRate := 0.1;
     baseline :=
       {| points := [pointAt 1 120 100; pointAt 2 120 100; pointAt 3 120 100];
          initialInvestment := None |};
     grinderPurchase :=
       {| points := [pointAt 1 170 80; pointAt 3 170 80];
          initialInvestment := Some 100 |} |}.

(** The comparison of [investmentEvaluator.test.ts]. *)
Definition testInput : EvaluateInvestmentInput :=
  {| discountRate := 0.1;
     baseline :=
       {| points := [pointAt 1 120 100; pointAt 2 120 100; pointAt 3 120 100];
          initialInvestment := None |};
     grinderPurchase :=
       {| points := [pointAt 1 170 80; pointAt 2 170 80; pointAt 3 170 80];
          initialInvestment := Some 100 |} |}.

End InvestmentSpec.

Module SensitivitySpec.
Import Sensitivity.

Definition haulAxis (payload : Payload.t) : list Q :=
  expandRangeValues (Ranges.haulDistancePerTrip (Payload.ranges payload)).

Definition reuseAxis (payload : Payload.t) : list Q :=
  expandRangeValues (Ranges.reuseUptakeRate (Payload.ranges payload)).

Definition grinderAxis (payload : Payload.t) : list Q :=
  expandRangeValues (grinderAxisRange (Payload.ranges payload)).

(** The product of the three expanded axis lengths. *)
Definition gridPointCount (payload : Payload.t) : nat :=
  (List.length (haulAxis payload) * List.length (reuseAxis payload)
   * List.length (grinderAxis payload))%nat.

(** The options of the two simulations of a grid point. *)
Definition baselineOptions : Simulation.SimulationOptions :=
  {| Simulation.useCrusher := true;
     Simulation.truckSpeedKmPerHour :=
       Some Simulation.DEFAULT_TRUCK_SPEED_KM_PER_HOUR;
     Simulation.loadUnloadHoursPerTrip :=
       Some Simulation.DEFAULT_LOAD_UNLOAD_HOURS_PER_TRIP |}.

Definition scenarioOptions : Simulation.SimulationOptions :=
  {| Simulation.useCrusher := false;
     Simulation.truckSpeedKmPerHour :=
       Some Simulation.DEFAULT_TRUCK_SPEED_KM_PER_HOUR;
     Simulation.loadUnloadHoursPerTrip :=
       Some Simulation.DEFAULT_LOAD_UNLOAD_HOURS_PER_TRIP |}.

(** The core inputs [computeSensitivityPoint] simulates. *)
Definition coreUnitOfWork (input : SensitivityPointInput.t)
    (context : SensitivityContext.t) : Simulation.UnitOfWork :=
  toCoreUnitOfWork (SensitivityContext.unitOfWork context)
    (SensitivityPointInput.haulDistancePerTripKm input).

Definition coreCostDrivers (input : SensitivityPointInput.t)
    (context : SensitivityContext.t) : Simulation.CostDrivers :=
  toCoreCostDrivers (SensitivityContext.costDrivers context)
    (SensitivityPointInput.grinderThroughputKgPerHour input).

Definition coreSustainabilityDrivers (context : SensitivityContext.t)
    : Simulation.SustainabilityDrivers :=
  toCoreSustainabilityDrivers (SensitivityContext.sustainabilityDrivers context).

(** The context [buildSensitivityGrid] hands to every point. *)
Definition contextOf (payload : Payload.t) : SensitivityContext.t :=
  {| SensitivityContext.unitOfWork := Payload.unitOfWork payload;
     SensitivityContext.costDrivers := Payload.costDrivers payload;
     SensitivityContext.sustainabilityDrivers :=
       Payload.sustainabilityDrivers payload;
     SensitivityContext.assumptions := fst (resolveNormalizedInput payload);
     SensitivityContext.penaltyProxy := snd (resolveNormalizedInput payload) |}.

Definition axisModeOf (payload : Payload.t) : GrinderAxisMode :=
  if isSome (Ranges.grinderUtilization (Payload.ranges payload))
  then utilization else throughput.

(** The points a sweep returns (none if it throws). *)
Definition gridPoints (Math_pow : Q -> Q -> Q) (payload : Payload.t)
    (runs : nat) : list SensitivityPointComputation :=
  match fst (buildSensitivityGrid Math_pow payload runs) with
  | Ok grid => SensitivityGridResult.points grid
  | Throw _ => []
  end.

(** Two reported points at the same grinder-axis value. *)
Definition sameGrinderAxis (p q : SensitivityPlotPoint.t) : Prop :=
  optionQeq (SensitivityPlotPoint.grinderUtilization p)
            (SensitivityPlotPoint.grinderUtilization q)
  /\ SensitivityPlotPoint.grinderThroughputKgPerHour p
     == SensitivityPlotPoint.grinderThroughputKgPerHour q.

(** The request of [sensitivity/simulation.test.ts]. *)
Definition basePayload : Payload.t :=
  {| Payload.unitOfWork := SimulationSpec.testUnitOfWork;
     Payload.costDrivers := SimulationSpec.testCostDrivers;
     Payload.sustainabilityDrivers := SimulationSpec.testSustainabilityDrivers;
     Payload.ranges :=
       {| Ranges.haulDistancePerTrip :=
            {| Range.start := 20; Range.end_ := 40; Range.step := 20 |};
          Ranges.reuseUptakeRate :=
            {| Range.start := 0; Range.end_ := 1; Range.step := 0.5 |};
          Ranges.grinderUtilization :=
            Some {| Range.start := 0.8; Range.end_ := 1; Range.step := 0.2 |};
          Ranges.grinderThroughputKgPerHour := None |};
     Payload.assumptions := None;
     Payload.expeditePenaltyProxy := None |}.


(** A request of 51 x 1 x 50 = 2550 grid points. *)
Definition oversizedPayload : Payload.t :=
  {| Payload.unitOfWork := SimulationSpec.testUnitOfWork;
     Payload.costDrivers := SimulationSpec.testCostDrivers;
     Payload.sustainabilityDrivers := SimulationSpec.testSustainabilityDrivers;
     Payload.ranges :=
       {| Ranges.haulDistancePerTrip :=
            {| Range.start := 10; Range.end_ := 60; Range.step := 1 |};
          Ranges.reuseUptakeRate :=
            {| Range.start := 0.5; Range.end_ := 0.5; Range.step := 1 |};
          Ranges.grinderUtilization := None;
          Ranges.grinderThroughputKgPerHour :=
            Some {| Range.start := 1010; Range.end_ := 1500; Range.step := 10 |}
       |};
     Payload.assumptions := None;
     Payload.expeditePenaltyProxy := None |}.

(** An integer-exponent stand-in for the real power, used to run the
    sweep on the fixtures. *)
Definition integerPower (base exponent : Q) : Q := base ^ Qfloor exponent.

End SensitivitySpec.

From Stdlib Require Import Ascii.

(* ================================================================== *)
(** * Further definitions: the callers and neighbours of the core *)
(* ================================================================== *)

(** ** scenarioModel.ts *)

Module ScenarioModel.

Inductive ScenarioMode : Type := Crusher | Grinder.

Inductive AssumptionCategory : Type := operational | financial | environmental.

Module ScenarioAssumptionTraceItem.
Record t : Type := {
  name : string;
  category : AssumptionCategory;
  unit : string;
  value : Q
}.
End ScenarioAssumptionTraceItem.

Module ScenarioAssumptions.
Record t : Type := {
  truckSpeedKmPerHour : Q;
  loadUnloadHoursPerTrip : Q;
  recoveredMaterialPricePerKg : Q;
  carbonCreditPricePerTonCO2e : Q;
  co2AvoidedPerKgRecovered : Q;
  carbonCapturePotentialPerKgRecovered : Q;
  baselineTruckMilesPerTrip : Q;
  optimizedTruckMilesPerTrip : Q
}.
End ScenarioAssumptions.

Module ScenarioInput.
Record t : Type := {
  mode : ScenarioMode;
  unitOfWork : Simulation.UnitOfWork;
  costDrivers : Simulation.CostDrivers;
  sustainabilityDrivers : Simulation.SustainabilityDrivers;
  assumptions : ScenarioAssumptions.t
}.
End ScenarioInput.

Module ScenarioCostBreakdown.
Record t : Type := {
  haulCost : Q;
  processingCost : Q;
  laborCost : Q;
  totalCost : Q
}.
End ScenarioCostBreakdown.

Module ScenarioEmissionsBreakdown.
Record t : Type := {
  haulEmissions : Q;
  processingEmissions : Q;
  totalEmissions : Q
}.
End ScenarioEmissionsBreakdown.

Module ScenarioEnvironmentalKpis.
Record t : Type := {
  co2Avoided : Q;
  carbonCapturePotential : Q;
  truckMilesAvoided : Q;
  avoidedEmissionPercentage : Q
}.
End ScenarioEnvironmentalKpis.

Module ScenarioRevenueMetrics.
Record t : Type := {
  materialRevenue : Q;
  carbonCreditRevenue : Q;
  totalRevenue : Q;
  netCashFlow : Q;
  costPerKgRecovered : option Q;
  grossMarginPercentage : option Q
}.
End ScenarioRevenueMetrics.

Module ScenarioAnalysisResult.
Record t : Type := {
  mode : ScenarioMode;
  simulationResult : Simulation.SimulationResult;
  costBreakdown : ScenarioCostBreakdown.t;
  emissionsBreakdown : ScenarioEmissionsBreakdown.t;
  environmentalKpis : ScenarioEnvironmentalKpis.t;
  financialMetrics : ScenarioRevenueMetrics.t;
  assumptionTrace : list ScenarioAssumptionTraceItem.t
}.
End ScenarioAnalysisResult.

Definition validatePositive (value : Q) (name : string) : result unit :=
  if value <=? 0
  then Throw (name ++ " must be > 0")%string
  else Ok tt.

Definition validateNonNegative (value : Q) (name : string) : result unit :=
  if value <? 0
  then Throw (name ++ " must be >= 0")%string
  else Ok tt.

Definition validateAssumptions (assumptions : ScenarioAssumptions.t)
    : result unit :=
  validatePositive (ScenarioAssumptions.truckSpeedKmPerHour assumptions)
    "truckSpeedKmPerHour" ;;
  validatePositive (ScenarioAssumptions.loadUnloadHoursPerTrip assumptions)
    "loadUnloadHoursPerTrip" ;;
  validateNonNegative
    (ScenarioAssumptions.recoveredMaterialPricePerKg assumptions)
    "recoveredMaterialPricePerKg" ;;
  validateNonNegative
    (ScenarioAssumptions.carbonCreditPricePerTonCO2e assumptions)
    "carbonCreditPricePerTonCO2e" ;;
  validateNonNegative
    (ScenarioAssumptions.co2AvoidedPerKgRecovered assumptions)
    "co2AvoidedPerKgRecovered" ;;
  validateNonNegative
    (ScenarioAssumptions.carbonCapturePotentialPerKgRecovered assumptions)
    "carbonCapturePotentialPerKgRecovered" ;;
  validateNonNegative
    (ScenarioAssumptions.baselineTruckMilesPerTrip assumptions)
    "baselineTruckMilesPerTrip" ;;
  validateNonNegative
    (ScenarioAssumptions.optimizedTruckMilesPerTrip assumptions)
    "optimizedTruckMilesPerTrip".

Definition factorOverridesFromAssumptions
    (assumptions : ScenarioAssumptions.t)
    : Kpi.PartialEnvironmentalKpiFactors :=
  {| Kpi.co2AvoidedPerKgRecovered_override :=
       Some (ScenarioAssumptions.co2AvoidedPerKgRecovered assumptions);
     Kpi.carbonCapturePotentialPerKgRecovered_override :=
       Some (ScenarioAssumptions.carbonCapturePotentialPerKgRecovered
               assumptions);
     Kpi.baselineTruckMilesPerTrip_override :=
       Some (ScenarioAssumptions.baselineTruckMilesPerTrip assumptions);
     Kpi.optimizedTruckMilesPerTrip_override :=
       Some (ScenarioAssumptions.optimizedTruckMilesPerTrip assumptions) |}.

Definition traceAssumptions (assumptions : ScenarioAssumptions.t)
    : list ScenarioAssumptionTraceItem.t :=
  [ {| ScenarioAssumptionTraceItem.name := "truckSpeedKmPerHour";
       ScenarioAssumptionTraceItem.category := operational;
       ScenarioAssumptionTraceItem.unit := "km/hour";
       ScenarioAssumptionTraceItem.value := ScenarioAssumptions.truckSpeedKmPerHour assumptions |};
    {| ScenarioAssumptionTraceItem.name := "loadUnloadHoursPerTrip";
       ScenarioAssumptionTraceItem.category := operational;
       ScenarioAssumptionTraceItem.unit := "hours/trip";
       ScenarioAssumptionTraceItem.value := ScenarioAssumptions.loadUnloadHoursPerTrip assumptions |};
    {| ScenarioAssumptionTraceItem.name := "recoveredMaterialPricePerKg";
       ScenarioAssumptionTraceItem.category := financial;
       ScenarioAssumptionTraceItem.unit := "USD/kg";
       ScenarioAssumptionTraceItem.value := ScenarioAssumptions.recoveredMaterialPricePerKg assumptions |};
    {| ScenarioAssumptionTraceItem.name := "carbonCreditPricePerTonCO2e";
       ScenarioAssumptionTraceItem.category := financial;
       ScenarioAssumptionTraceItem.unit := "USD/tCO2e";
       ScenarioAssumptionTraceItem.value := ScenarioAssumptions.carbonCreditPricePerTonCO2e assumptions |};
    {| ScenarioAssumptionTraceItem.name := "co2AvoidedPerKgRecovered";
       ScenarioAssumptionTraceItem.category := environmental;
       ScenarioAssumptionTraceItem.unit := "tCO2e/kg";
       ScenarioAssumptionTraceItem.value := ScenarioAssumptions.co2AvoidedPerKgRecovered assumptions |};
    {| ScenarioAssumptionTraceItem.name := "carbonCapturePotentialPerKgRecovered";
       ScenarioAssumptionTraceItem.category := environmental;
       ScenarioAssumptionTraceItem.unit := "tCO2e/kg";
       ScenarioAssumptionTraceItem.value :=
         ScenarioAssumptions.carbonCapturePotentialPerKgRecovered assumptions |};
    {| ScenarioAssumptionTraceItem.name := "baselineTruckMilesPerTrip";
       ScenarioAssumptionTraceItem.category := environmental;
       ScenarioAssumptionTraceItem.unit := "miles/trip";
       ScenarioAssumptionTraceItem.value := ScenarioAssumptions.baselineTruckMilesPerTrip assumptions |};
    {| ScenarioAssumptionTraceItem.name := "optimizedTruckMilesPerTrip";
       ScenarioAssumptionTraceItem.category := environmental;
       ScenarioAssumptionTraceItem.unit := "miles/trip";
       ScenarioAssumptionTraceItem.value := ScenarioAssumptions.optimizedTruckMilesPerTrip assumptions |} ].

(** [input.mode === "Crusher"] *)
Definition isCrusher (mode : ScenarioMode) : bool :=
  match mode with
  | Crusher => true
  | Grinder => false
  end.

Definition analyzeScenario (input : ScenarioInput.t)
    : result ScenarioAnalysisResult.t :=
  let assumptions := ScenarioInput.assumptions input in
  let unitOfWork := ScenarioInput.unitOfWork input in
  let costDrivers := ScenarioInput.costDrivers input in
  let sustainabilityDrivers := ScenarioInput.sustainabilityDrivers input in
  validateAssumptions assumptions ;;
  simulationResult <-
    Simulation.simulatePanelFlow unitOfWork costDrivers sustainabilityDrivers
      {| Simulation.useCrusher := isCrusher (ScenarioInput.mode input);
         Simulation.truckSpeedKmPerHour :=
           Some (ScenarioAssumptions.truckSpeedKmPerHour assumptions);
         Simulation.loadUnloadHoursPerTrip :=
           Some (ScenarioAssumptions.loadUnloadHoursPerTrip assumptions) |} ;;
  let overrides := Some (factorOverridesFromAssumptions assumptions) in
  let recoveredKg := Simulation.materialRecovered simulationResult in
  let totalEmissions := Simulation.totalEmissions simulationResult in
  let totalDistanceKm :=
    Simulation.truckTrips simulationResult
    * Simulation.haulDistancePerTrip unitOfWork in
  let inputKg := Simulation.inboundMaterial unitOfWork in
  let processingCostPerKg :=
    if isCrusher (ScenarioInput.mode input)
    then Simulation.crusherProcessingCostPerKg costDrivers
    else Simulation.grinderProcessingCostPerKg costDrivers in
  let processingEmissionsPerKg :=
    if isCrusher (ScenarioInput.mode input)
    then Simulation.crusherEmissionsPerKg sustainabilityDrivers
    else Simulation.grinderEmissionsPerKg sustainabilityDrivers in
  let haulCost := totalDistanceKm * Simulation.haulCostPerKm costDrivers in
  let processingCost := inputKg * processingCostPerKg in
  let laborCost :=
    Simulation.totalTime simulationResult
    * Simulation.laborCostPerHour costDrivers in
  let haulEmissions :=
    totalDistanceKm * Simulation.haulEmissionsPerKm sustainabilityDrivers in
  let processingEmissions := inputKg * processingEmissionsPerKg in
  co2Avoided <- Kpi.computeCO2Avoided simulationResult overrides ;;
  carbonCapturePotential <-
    Kpi.computeCarbonCapturePotential simulationResult overrides ;;
  truckMilesAvoided <- Kpi.computeTruckMilesAvoided simulationResult overrides ;;
  let avoidedEmissionPercentage :=
    if 0 <? totalEmissions then co2Avoided / totalEmissions * 100 else 0 in
  let materialRevenue :=
    recoveredKg * ScenarioAssumptions.recoveredMaterialPricePerKg assumptions in
  let carbonCreditRevenue :=
    co2Avoided * ScenarioAssumptions.carbonCreditPricePerTonCO2e assumptions in
  let totalRevenue := materialRevenue + carbonCreditRevenue in
  let netCashFlow := totalRevenue - Simulation.totalCost simulationResult in
  Ok {| ScenarioAnalysisResult.mode := ScenarioInput.mode input;
        ScenarioAnalysisResult.simulationResult := simulationResult;
        ScenarioAnalysisResult.costBreakdown :=
          {| ScenarioCostBreakdown.haulCost := haulCost;
             ScenarioCostBreakdown.processingCost := processingCost;
             ScenarioCostBreakdown.laborCost := laborCost;
             ScenarioCostBreakdown.totalCost :=
               Simulation.totalCost simulationResult |};
        ScenarioAnalysisResult.emissionsBreakdown :=
          {| ScenarioEmissionsBreakdown.haulEmissions := haulEmissions;
             ScenarioEmissionsBreakdown.processingEmissions :=
               processingEmissions;
             ScenarioEmissionsBreakdown.totalEmissions :=
               Simulation.totalEmissions simulationResult |};
        ScenarioAnalysisResult.environmentalKpis :=
          {| ScenarioEnvironmentalKpis.co2Avoided := co2Avoided;
             ScenarioEnvironmentalKpis.carbonCapturePotential :=
               carbonCapturePotential;
             ScenarioEnvironmentalKpis.truckMilesAvoided := truckMilesAvoided;
             ScenarioEnvironmentalKpis.avoidedEmissionPercentage :=
               avoidedEmissionPercentage |};
        ScenarioAnalysisResult.financialMetrics :=
          {| ScenarioRevenueMetrics.materialRevenue := materialRevenue;
             ScenarioRevenueMetrics.carbonCreditRevenue := carbonCreditRevenue;
             ScenarioRevenueMetrics.totalRevenue := totalRevenue;
             ScenarioRevenueMetrics.netCashFlow := netCashFlow;
             ScenarioRevenueMetrics.costPerKgRecovered :=
               if 0 <? recoveredKg
               then Some (Simulation.totalCost simulationResult / recoveredKg)
               else None;
             ScenarioRevenueMetrics.grossMarginPercentage :=
               if 0 <? totalRevenue
               then Some (netCashFlow / totalRevenue * 100)
               else None |};
        ScenarioAnalysisResult.assumptionTrace :=
          traceAssumptions assumptions |}.

End ScenarioModel.

(** ** scenarioModel.ts: the hash of [scenarioFingerprint]

    [scenarioFingerprint] hashes the text [stableScenarioJson] returns.
    The text is taken as given, as the list of its UTF-16 code units
    ([JSON.stringify] of a number is not modelled); the loop over the
    text and the rendering of the hash are embedded as written.  All
    numbers involved are integers below 2^53, so [Z] is exact. *)

Module Fingerprint.

(** [ToInt32] and [ToUint32], which the bitwise operators apply to their
    operands. *)
Definition ToInt32 (z : Z) : Z := ((z + 2 ^ 31) mod 2 ^ 32 - 2 ^ 31)%Z.
Definition ToUint32 (z : Z) : Z := (z mod 2 ^ 32)%Z.

(** [a ^ b] and [a << count] *)
Definition bitXor (a b : Z) : Z := Z.lxor (ToInt32 a) (ToInt32 b).

Definition shiftLeft (a count : Z) : Z :=
  ToInt32 (Z.shiftl (ToInt32 a) (Z.land (ToUint32 count) 31)).

(** One round of the loop:
    [hash ^= code; hash += (hash << 1) + (hash << 4) + (hash << 7)
                           + (hash << 8) + (hash << 24)]. *)
Definition hashStep (hash code : Z) : Z :=
  let hash := bitXor hash code in
  (hash
   + (shiftLeft hash 1 + shiftLeft hash 4 + shiftLeft hash 7
      + shiftLeft hash 8 + shiftLeft hash 24))%Z.

Definition hashLoop (text : list Z) : Z :=
  fold_left hashStep text 2166136261%Z.

(** [n.toString(16)] on a non-negative integer. *)
Definition hexDigit (d : Z) : ascii :=
  nth (Z.to_nat d) (list_ascii_of_string "0123456789abcdef") "0"%char.

Fixpoint hexDigits (fuel : nat) (n : Z) (acc : string) : string :=
  match fuel with
  | O => acc
  | S fuel' =>
      let acc := String (hexDigit (n mod 16)) acc in
      if (n / 16 =? 0)%Z then acc else hexDigits fuel' (n / 16)%Z acc
  end.

Definition toString16 (n : Z) : string :=
  hexDigits (S (Z.to_nat (Z.log2 n))) n "".

(** [text.padStart(targetLength, pad)] with a one-character pad. *)
Fixpoint repeatChar (pad : ascii) (count : nat) : string :=
  match count with
  | O => ""
  | S count' => String pad (repeatChar pad count')
  end.

Definition padStart (text : string) (targetLength : nat) (pad : ascii)
    : string :=
  (repeatChar pad (targetLength - String.length text) ++ text)%string.

(** [`fnv1a-${(hash >>> 0).toString(16).padStart(8, "0")}`] *)
Definition fingerprintOfText (text : list Z) : string :=
  ("fnv1a-"
   ++ padStart (toString16 (ToUint32 (hashLoop text))) 8 "0"%char)%string.

End Fingerprint.

(** ** reporting/showYourWork.ts

    The worksheet of [showYourWork].  The narrative (a text rendering of
    the same figures) is output only and is not modelled. *)

Module ShowYourWork.

(** [Math.round]: the nearest integer, a tie going up. *)
Definition Math_round (x : Q) : Q := inject_Z (Qfloor (x + 0.5)).

(** [round(value)] with its default [digits = 6]. *)
Definition round (value : Q) : Q :=
  let scale := inject_Z (10 ^ 6) in
  Math_round (value * scale) / scale.

Module Assumptions.
Record t : Type := {
  inferredRecoveryRate : Q;
  bulkDensityKgPerCubicMeter : Q;
  milesPerTrip : Q;
  dieselTruckMpg : Q;
  dieselEmissionFactorKgCO2ePerGallon : Q;
  laborRateUsdPerHour : Q;
  haulShareOfNonLaborCost : Q;
  co2AvoidedPerKgRecovered : Q;
  carbonCapturePotentialPerKgRecovered : Q
}.
End Assumptions.

(** [Partial<ShowYourWorkAssumptions>] *)
Module Overrides.
Record t : Type := {
  inferredRecoveryRate : option Q;
  bulkDensityKgPerCubicMeter : option Q;
  milesPerTrip : option Q;
  dieselTruckMpg : option Q;
  dieselEmissionFactorKgCO2ePerGallon : option Q;
  laborRateUsdPerHour : option Q;
  haulShareOfNonLaborCost : option Q;
  co2AvoidedPerKgRecovered : option Q;
  carbonCapturePotentialPerKgRecovered : option Q
}.
End Overrides.

Definition DEFAULT_SHOW_YOUR_WORK_ASSUMPTIONS : Assumptions.t :=
  {| Assumptions.inferredRecoveryRate := 0.8;
     Assumptions.bulkDensityKgPerCubicMeter := 2000;
     Assumptions.milesPerTrip :=
       Kpi.optimizedTruckMilesPerTrip Kpi.DEFAULT_ENVIRONMENTAL_KPI_FACTORS;
     Assumptions.dieselTruckMpg := 6;
     Assumptions.dieselEmissionFactorKgCO2ePerGallon := 10.21;
     Assumptions.laborRateUsdPerHour := 40;
     Assumptions.haulShareOfNonLaborCost := 0.6;
     Assumptions.co2AvoidedPerKgRecovered :=
       Kpi.co2AvoidedPerKgRecovered Kpi.DEFAULT_ENVIRONMENTAL_KPI_FACTORS;
     Assumptions.carbonCapturePotentialPerKgRecovered :=
       Kpi.carbonCapturePotentialPerKgRecovered
         Kpi.DEFAULT_ENVIRONMENTAL_KPI_FACTORS |}.

Module WorksheetInput.
Record t : Type := {
  totalCostUsd : Q;
  totalTimeHours : Q;
  totalEmissionsTonsCO2e : Q;
  truckTrips : Q;
  materialRecoveredKg : Q
}.
End WorksheetInput.

Module Material.
Record t : Type := {
  inboundKg : Q;
  recoveredKg : Q;
  residualKg : Q;
  inboundVolumeM3 : Q;
  recoveredVolumeM3 : Q;
  residualVolumeM3 : Q
}.
End Material.

Module Transport.
Record t : Type := {
  trips : Q;
  milesPerTrip : Q;
  totalMiles : Q;
  dieselGallonsEstimate : Q
}.
End Transport.

Module EmissionFactors.
Record t : Type := {
  operationalTonsCO2eFromSimulation : Q;
  co2AvoidedPerKgRecovered : Q;
  carbonCapturePotentialPerKgRecovered : Q;
  dieselEmissionFactorKgCO2ePerGallon : Q
}.
End EmissionFactors.

Module Emissions.
Record t : Type := {
  factors : EmissionFactors.t;
  dieselTailpipeEstimateTonsCO2e : Q;
  avoidedEmissionsTonsCO2e : Q;
  uptakeEstimateTonsCO2e : Q;
  netClimateBenefitTonsCO2e : Q
}.
End Emissions.

Module Financial.
Record t : Type := {
  totalCostUsd : Q;
  laborCostUsd : Q;
  nonLaborCostUsd : Q;
  haulCostUsd : Q;
  processingCostUsd : Q;
  costPerTripUsd : Q;
  costPerRecoveredKgUsd : Q;
  costPerRecoveredTonUsd : Q
}.
End Financial.

Module Intermediates.
Record t : Type := {
  material : Material.t;
  transport : Transport.t;
  emissions : Emissions.t;
  financial : Financial.t
}.
End Intermediates.

Module Worksheet.
Record t : Type := {
  version : string;
  deterministic : bool;
  input : WorksheetInput.t;
  assumptions : Assumptions.t;
  intermediates : Intermediates.t
}.
End Worksheet.

(** [{ ...DEFAULT_SHOW_YOUR_WORK_ASSUMPTIONS, ...overrides }] *)
Definition resolveAssumptions (overrides : option Overrides.t)
    : Assumptions.t :=
  match overrides with
  | None => DEFAULT_SHOW_YOUR_WORK_ASSUMPTIONS
  | Some o =>
      let d := DEFAULT_SHOW_YOUR_WORK_ASSUMPTIONS in
      {| Assumptions.inferredRecoveryRate :=
           Js.nullish (Overrides.inferredRecoveryRate o)
                      (Assumptions.inferredRecoveryRate d);
         Assumptions.bulkDensityKgPerCubicMeter :=
           Js.nullish (Overrides.bulkDensityKgPerCubicMeter o)
                      (Assumptions.bulkDensityKgPerCubicMeter d);
         Assumptions.milesPerTrip :=
           Js.nullish (Overrides.milesPerTrip o) (Assumptions.milesPerTrip d);
         Assumptions.dieselTruckMpg :=
           Js.nullish (Overrides.dieselTruckMpg o)
                      (Assumptions.dieselTruckMpg d);
         Assumptions.dieselEmissionFactorKgCO2ePerGallon :=
           Js.nullish (Overrides.dieselEmissionFactorKgCO2ePerGallon o)
                      (Assumptions.dieselEmissionFactorKgCO2ePerGallon d);
         Assumptions.laborRateUsdPerHour :=
           Js.nullish (Overrides.laborRateUsdPerHour o)
                      (Assumptions.laborRateUsdPerHour d);
         Assumptions.haulShareOfNonLaborCost :=
           Js.nullish (Overrides.haulShareOfNonLaborCost o)
                      (Assumptions.haulShareOfNonLaborCost d);
         Assumptions.co2AvoidedPerKgRecovered :=
           Js.nullish (Overrides.co2AvoidedPerKgRecovered o)
                      (Assumptions.co2AvoidedPerKgRecovered d);
         Assumptions.carbonCapturePotentialPerKgRecovered :=
           Js.nullish (Overrides.carbonCapturePotentialPerKgRecovered o)
                      (Assumptions.carbonCapturePotentialPerKgRecovered d) |}
  end.

Definition validateAssumptions (assumptions : Assumptions.t) : result unit :=
  if (Assumptions.inferredRecoveryRate assumptions <=? 0)
     || (1 <? Assumptions.inferredRecoveryRate assumptions)
  then Throw "inferredRecoveryRate must be > 0 and <= 1"
  else if Assumptions.bulkDensityKgPerCubicMeter assumptions <=? 0
  then Throw "bulkDensityKgPerCubicMeter must be > 0"
  else if Assumptions.milesPerTrip assumptions <? 0
  then Throw "milesPerTrip must be >= 0"
  else if Assumptions.dieselTruckMpg assumptions <=? 0
  then Throw "dieselTruckMpg must be > 0"
  else if Assumptions.dieselEmissionFactorKgCO2ePerGallon assumptions <=? 0
  then Throw "dieselEmissionFactorKgCO2ePerGallon must be > 0"
  else if Assumptions.laborRateUsdPerHour assumptions <? 0
  then Throw "laborRateUsdPerHour must be >= 0"
  else if (Assumptions.haulShareOfNonLaborCost assumptions <? 0)
          || (1 <? Assumptions.haulShareOfNonLaborCost assumptions)
  then Throw "haulShareOfNonLaborCost must be between 0 and 1"
  else if Assumptions.co2AvoidedPerKgRecovered assumptions <? 0
  then Throw "co2AvoidedPerKgRecovered must be >= 0"
  else if Assumptions.carbonCapturePotentialPerKgRecovered assumptions <? 0
  then Throw "carbonCapturePotentialPerKgRecovered must be >= 0"
  else Ok tt.

(** The [worksheet] of [showYourWork(simulationResult, overrides)]. *)
Definition showYourWork (simulationResult : Simulation.SimulationResult)
    (overrides : option Overrides.t) : result Worksheet.t :=
  let assumptions := resolveAssumptions overrides in
  validateAssumptions assumptions ;;
  let recoveredKg := Simulation.materialRecovered simulationResult in
  let inboundKg := recoveredKg / Assumptions.inferredRecoveryRate assumptions in
  let residualKg := Js.Math_max 0 (inboundKg - recoveredKg) in
  let inboundVolumeM3 :=
    inboundKg / Assumptions.bulkDensityKgPerCubicMeter assumptions in
  let recoveredVolumeM3 :=
    recoveredKg / Assumptions.bulkDensityKgPerCubicMeter assumptions in
  let residualVolumeM3 :=
    residualKg / Assumptions.bulkDensityKgPerCubicMeter assumptions in
  let trips := Simulation.truckTrips simulationResult in
  let totalMiles := trips * Assumptions.milesPerTrip assumptions in
  let dieselGallonsEstimate :=
    totalMiles / Assumptions.dieselTruckMpg assumptions in
  let operationalTonsCO2e := Simulation.totalEmissions simulationResult in
  let dieselTailpipeEstimateTonsCO2e :=
    dieselGallonsEstimate
    * Assumptions.dieselEmissionFactorKgCO2ePerGallon assumptions / 1000 in
  avoidedEmissionsTonsCO2e <-
    Kpi.computeCO2Avoided simulationResult
      (Some {| Kpi.co2AvoidedPerKgRecovered_override :=
                 Some (Assumptions.co2AvoidedPerKgRecovered assumptions);
               Kpi.carbonCapturePotentialPerKgRecovered_override := None;
               Kpi.baselineTruckMilesPerTrip_override := None;
               Kpi.optimizedTruckMilesPerTrip_override := None |}) ;;
  uptakeEstimateTonsCO2e <-
    Kpi.computeCarbonCapturePotential simulationResult
      (Some {| Kpi.co2AvoidedPerKgRecovered_override := None;
               Kpi.carbonCapturePotentialPerKgRecovered_override :=
                 Some (Assumptions.carbonCapturePotentialPerKgRecovered
                         assumptions);
               Kpi.baselineTruckMilesPerTrip_override := None;
               Kpi.optimizedTruckMilesPerTrip_override := None |}) ;;
  let netClimateBenefitTonsCO2e :=
    avoidedEmissionsTonsCO2e + uptakeEstimateTonsCO2e - operationalTonsCO2e in
  let totalCostUsd := Simulation.totalCost simulationResult in
  let laborCostUsd :=
    Qmin totalCostUsd
         (Simulation.totalTime simulationResult
          * Assumptions.laborRateUsdPerHour assumptions) in
  let nonLaborCostUsd := Js.Math_max 0 (totalCostUsd - laborCostUsd) in
  let haulCostUsd :=
    nonLaborCostUsd * Assumptions.haulShareOfNonLaborCost assumptions in
  let processingCostUsd := nonLaborCostUsd - haulCostUsd in
  let costPerTripUsd := if 0 <? trips then totalCostUsd / trips else 0 in
  let costPerRecoveredKgUsd :=
    if 0 <? recoveredKg then totalCostUsd / recoveredKg else 0 in
  let costPerRecoveredTonUsd :=
    if 0 <? recoveredKg then totalCostUsd / (recoveredKg / 1000) else 0 in
  Ok {| Worksheet.version := "1.0";
        Worksheet.deterministic := true;
        Worksheet.input :=
          {| WorksheetInput.totalCostUsd := round totalCostUsd;
             WorksheetInput.totalTimeHours :=
               round (Simulation.totalTime simulationResult);
             WorksheetInput.totalEmissionsTonsCO2e :=
               round operationalTonsCO2e;
             WorksheetInput.truckTrips := trips;
             WorksheetInput.materialRecoveredKg := round recoveredKg |};
        Worksheet.assumptions :=
          {| Assumptions.inferredRecoveryRate :=
               round (Assumptions.inferredRecoveryRate assumptions);
             Assumptions.bulkDensityKgPerCubicMeter :=
               round (Assumptions.bulkDensityKgPerCubicMeter assumptions);
             Assumptions.milesPerTrip :=
               round (Assumptions.milesPerTrip assumptions);
             Assumptions.dieselTruckMpg :=
               round (Assumptions.dieselTruckMpg assumptions);
             Assumptions.dieselEmissionFactorKgCO2ePerGallon :=
               round (Assumptions.dieselEmissionFactorKgCO2ePerGallon
                        assumptions);
             Assumptions.laborRateUsdPerHour :=
               round (Assumptions.laborRateUsdPerHour assumptions);
             Assumptions.haulShareOfNonLaborCost :=
               round (Assumptions.haulShareOfNonLaborCost assumptions);
             Assumptions.co2AvoidedPerKgRecovered :=
               round (Assumptions.co2AvoidedPerKgRecovered assumptions);
             Assumptions.carbonCapturePotentialPerKgRecovered :=
               round (Assumptions.carbonCapturePotentialPerKgRecovered
                        assumptions) |};
        Worksheet.intermediates :=
          {| Intermediates.material :=
               {| Material.inboundKg := round inboundKg;
                  Material.recoveredKg := round recoveredKg;
                  Material.residualKg := round residualKg;
                  Material.inboundVolumeM3 := round inboundVolumeM3;
                  Material.recoveredVolumeM3 := round recoveredVolumeM3;
                  Material.residualVolumeM3 := round residualVolumeM3 |};
             Intermediates.transport :=
               {| Transport.trips := trips;
                  Transport.milesPerTrip :=
                    round (Assumptions.milesPerTrip assumptions);
                  Transport.totalMiles := round totalMiles;
                  Transport.dieselGallonsEstimate :=
                    round dieselGallonsEstimate |};
             Intermediates.emissions :=
               {| Emissions.factors :=
                    {| EmissionFactors.operationalTonsCO2eFromSimulation :=
                         round operationalTonsCO2e;
                       EmissionFactors.co2AvoidedPerKgRecovered :=
                         round (Assumptions.co2AvoidedPerKgRecovered
                                  assumptions);
                       EmissionFactors.carbonCapturePotentialPerKgRecovered :=
                         round (Assumptions.carbonCapturePotentialPerKgRecovered
                                  assumptions);
                       EmissionFactors.dieselEmissionFactorKgCO2ePerGallon :=
                         round (Assumptions.dieselEmissionFactorKgCO2ePerGallon
                                  assumptions) |};
                  Emissions.dieselTailpipeEstimateTonsCO2e :=
                    round dieselTailpipeEstimateTonsCO2e;
                  Emissions.avoidedEmissionsTonsCO2e :=
                    round avoidedEmissionsTonsCO2e;
                  Emissions.uptakeEstimateTonsCO2e :=
                    round uptakeEstimateTonsCO2e;
                  Emissions.netClimateBenefitTonsCO2e :=
                    round netClimateBenefitTonsCO2e |};
             Intermediates.financial :=
               {| Financial.totalCostUsd := round totalCostUsd;
                  Financial.laborCostUsd := round laborCostUsd;
                  Financial.nonLaborCostUsd := round nonLaborCostUsd;
                  Financial.haulCostUsd := round haulCostUsd;
                  Financial.processingCostUsd := round processingCostUsd;
                  Financial.costPerTripUsd := round costPerTripUsd;
                  Financial.costPerRecoveredKgUsd :=
                    round costPerRecoveredKgUsd;
                  Financial.costPerRecoveredTonUsd :=
                    round costPerRecoveredTonUsd |} |} |}.

End ShowYourWork.

(** ** api/simulate/simulation.ts

    [buildSimulationResponse] without the two texts it passes through
    ([audit.methodology], the narrative of the worksheet, and
    [traceId]). *)

Module SimulateApi.

(** ["baseline" | "grinder" | "grinder+reuse"] *)
Inductive ScenarioModeName : Type := baseline | grinder | grinderReuse.

Definition modeEqb (a b : ScenarioModeName) : bool :=
  match a, b with
  | baseline, baseline => true
  | grinder, grinder => true
  | grinderReuse, grinderReuse => true
  | _, _ => false
  end.

Module ScenarioOptions.
Record t : Type := {
  mode : option ScenarioModeName;
  reuseUptakeRate : option Q
}.
End ScenarioOptions.

Module EmissionsFactors.
Record t : Type := {
  co2AvoidedPerKgRecovered : option Q;
  carbonCapturePotentialPerKgRecovered : option Q;
  baselineTruckMilesPerTrip : option Q;
  optimizedTruckMilesPerTrip : option Q
}.
End EmissionsFactors.

Module Payload.
Record t : Type := {
  unitOfWork : Simulation.UnitOfWork;
  costDrivers : Simulation.CostDrivers;
  sustainabilityDrivers : Simulation.SustainabilityDrivers;
  scenarioOptions : option ScenarioOptions.t;
  emissionsFactors : option EmissionsFactors.t
}.
End Payload.

Definition scenarioOptionsSchema (o : option ScenarioOptions.t) : bool :=
  Sensitivity.optional
    (fun o => Sensitivity.optional Sensitivity.unitInterval
                (ScenarioOptions.reuseUptakeRate o))
    o.

Definition emissionsFactorsSchema (e : option EmissionsFactors.t) : bool :=
  Sensitivity.optional
    (fun e =>
       Sensitivity.optional Sensitivity.nonnegative
         (EmissionsFactors.co2AvoidedPerKgRecovered e)
       && Sensitivity.optional Sensitivity.nonnegative
            (EmissionsFactors.carbonCapturePotentialPerKgRecovered e)
       && Sensitivity.optional Sensitivity.nonnegative
            (EmissionsFactors.baselineTruckMilesPerTrip e)
       && Sensitivity.optional Sensitivity.nonnegative
            (EmissionsFactors.optimizedTruckMilesPerTrip e))
    e.

Definition simulateRequestSchema (payload : Payload.t) : bool :=
  Sensitivity.unitOfWorkSchema (Payload.unitOfWork payload)
  && Sensitivity.costDriversSchema (Payload.costDrivers payload)
  && Sensitivity.sustainabilityDriversSchema
       (Payload.sustainabilityDrivers payload)
  && scenarioOptionsSchema (Payload.scenarioOptions payload)
  && emissionsFactorsSchema (Payload.emissionsFactors payload).

Definition ROUTE_DEFAULTS_scenarioMode : ScenarioModeName := baseline.
Definition ROUTE_DEFAULTS_reuseUptakeRate : Q := 0.

(** [AssumptionUsed]: the value is a number or a string. *)
Inductive AssumptionValue : Type :=
| numberValue (value : Q)
| stringValue (value : string).

Inductive AssumptionSource : Type := coreDefault | routeDefault.

Module AssumptionUsed.
Record t : Type := {
  name : string;
  value : AssumptionValue;
  source : AssumptionSource
}.
End AssumptionUsed.

Definition modeName (mode : ScenarioModeName) : string :=
  match mode with
  | baseline => "baseline"
  | grinder => "grinder"
  | grinderReuse => "grinder+reuse"
  end.

Module NormalizedScenarioOptions.
Record t : Type := {
  mode : ScenarioModeName;
  reuseUptakeRate : Q
}.
End NormalizedScenarioOptions.

Module Normalized.
Record t : Type := {
  unitOfWork : Simulation.UnitOfWork;
  costDrivers : Simulation.CostDrivers;
  sustainabilityDrivers : Simulation.SustainabilityDrivers;
  scenarioOptions : NormalizedScenarioOptions.t;
  emissionsFactors : Kpi.EnvironmentalKpiFactors
}.
End Normalized.

Definition coreEmissionDefaults : Kpi.EnvironmentalKpiFactors :=
  {| Kpi.co2AvoidedPerKgRecovered :=
       Kpi.co2AvoidedPerKgRecovered Kpi.DEFAULT_ENVIRONMENTAL_KPI_FACTORS;
     Kpi.carbonCapturePotentialPerKgRecovered :=
       Kpi.carbonCapturePotentialPerKgRecovered
         Kpi.DEFAULT_ENVIRONMENTAL_KPI_FACTORS;
     Kpi.baselineTruckMilesPerTrip :=
       Kpi.baselineTruckMilesPerTrip Kpi.DEFAULT_ENVIRONMENTAL_KPI_FACTORS;
     Kpi.optimizedTruckMilesPerTrip :=
       Kpi.optimizedTruckMilesPerTrip Kpi.DEFAULT_ENVIRONMENTAL_KPI_FACTORS |}.

(** [if (condition) assumptionsUsed.push(entry)] *)
Definition pushIf (condition : bool) (entry : AssumptionUsed.t)
    (assumptionsUsed : list AssumptionUsed.t) : list AssumptionUsed.t :=
  if condition then assumptionsUsed ++ [entry] else assumptionsUsed.

Definition isUndefined {A : Type} (value : option A) : bool :=
  negb (Sensitivity.isSome value).

Definition resolveNormalizedInput (payload : Payload.t)
    : Normalized.t * list AssumptionUsed.t :=
  let assumptionsUsed := [] in
  let modeRaw :=
    Sensitivity.optionalField (Payload.scenarioOptions payload)
      ScenarioOptions.mode in
  let scenarioMode := Js.nullish modeRaw ROUTE_DEFAULTS_scenarioMode in
  let assumptionsUsed :=
    pushIf (isUndefined modeRaw)
      {| AssumptionUsed.name := "scenarioOptions.mode";
         AssumptionUsed.value :=
           stringValue (modeName ROUTE_DEFAULTS_scenarioMode);
         AssumptionUsed.source := routeDefault |}
      assumptionsUsed in
  let reuseUptakeRateRaw :=
    Sensitivity.optionalField (Payload.scenarioOptions payload)
      ScenarioOptions.reuseUptakeRate in
  let reuseUptakeRate :=
    if modeEqb scenarioMode grinderReuse
    then Js.nullish reuseUptakeRateRaw ROUTE_DEFAULTS_reuseUptakeRate
    else 0 in
  let assumptionsUsed :=
    pushIf (modeEqb scenarioMode grinderReuse && isUndefined reuseUptakeRateRaw)
      {| AssumptionUsed.name := "scenarioOptions.reuseUptakeRate";
         AssumptionUsed.value := numberValue ROUTE_DEFAULTS_reuseUptakeRate;
         AssumptionUsed.source := routeDefault |}
      assumptionsUsed in
  let e := Payload.emissionsFactors payload in
  let co2Raw :=
    Sensitivity.optionalField e EmissionsFactors.co2AvoidedPerKgRecovered in
  let captureRaw :=
    Sensitivity.optionalField e
      EmissionsFactors.carbonCapturePotentialPerKgRecovered in
  let baselineMilesRaw :=
    Sensitivity.optionalField e EmissionsFactors.baselineTruckMilesPerTrip in
  let optimizedMilesRaw :=
    Sensitivity.optionalField e EmissionsFactors.optimizedTruckMilesPerTrip in
  let resolvedEmissions :=
    {| Kpi.co2AvoidedPerKgRecovered :=
         Js.nullish co2Raw
           (Kpi.co2AvoidedPerKgRecovered coreEmissionDefaults);
       Kpi.carbonCapturePotentialPerKgRecovered :=
         Js.nullish captureRaw
           (Kpi.carbonCapturePotentialPerKgRecovered coreEmissionDefaults);
       Kpi.baselineTruckMilesPerTrip :=
         Js.nullish baselineMilesRaw
           (Kpi.baselineTruckMilesPerTrip coreEmissionDefaults);
       Kpi.optimizedTruckMilesPerTrip :=
         Js.nullish optimizedMilesRaw
           (Kpi.optimizedTruckMilesPerTrip coreEmissionDefaults) |} in
  let assumptionsUsed :=
    pushIf (isUndefined co2Raw)
      {| AssumptionUsed.name := "emissionsFactors.co2AvoidedPerKgRecovered";
         AssumptionUsed.value :=
           numberValue (Kpi.co2AvoidedPerKgRecovered coreEmissionDefaults);
         AssumptionUsed.source := coreDefault |}
      assumptionsUsed in
  let assumptionsUsed :=
    pushIf (isUndefined captureRaw)
      {| AssumptionUsed.name :=
           "emissionsFactors.carbonCapturePotentialPerKgRecovered";
         AssumptionUsed.value :=
           numberValue
             (Kpi.carbonCapturePotentialPerKgRecovered coreEmissionDefaults);
         AssumptionUsed.source := coreDefault |}
      assumptionsUsed in
  let assumptionsUsed :=
    pushIf (isUndefined baselineMilesRaw)
      {| AssumptionUsed.name := "emissionsFactors.baselineTruckMilesPerTrip";
         AssumptionUsed.value :=
           numberValue (Kpi.baselineTruckMilesPerTrip coreEmissionDefaults);
         AssumptionUsed.source := coreDefault |}
      assumptionsUsed in
  let assumptionsUsed :=
    pushIf (isUndefined optimizedMilesRaw)
      {| AssumptionUsed.name := "emissionsFactors.optimizedTruckMilesPerTrip";
         AssumptionUsed.value :=
           numberValue (Kpi.optimizedTruckMilesPerTrip coreEmissionDefaults);
         AssumptionUsed.source := coreDefault |}
      assumptionsUsed in
  let assumptionsUsed :=
    assumptionsUsed
    ++ [{| AssumptionUsed.name := "simulationOptions.truckSpeedKmPerHour";
           AssumptionUsed.value :=
             numberValue Simulation.DEFAULT_TRUCK_SPEED_KM_PER_HOUR;
           AssumptionUsed.source := coreDefault |}] in
  let assumptionsUsed :=
    assumptionsUsed
    ++ [{| AssumptionUsed.name := "simulationOptions.loadUnloadHoursPerTrip";
           AssumptionUsed.value :=
             numberValue Simulation.DEFAULT_LOAD_UNLOAD_HOURS_PER_TRIP;
           AssumptionUsed.source := coreDefault |}] in
  ({| Normalized.unitOfWork := Payload.unitOfWork payload;
      Normalized.costDrivers := Payload.costDrivers payload;
      Normalized.sustainabilityDrivers := Payload.sustainabilityDrivers payload;
      Normalized.scenarioOptions :=
        {| NormalizedScenarioOptions.mode := scenarioMode;
           NormalizedScenarioOptions.reuseUptakeRate := reuseUptakeRate |};
      Normalized.emissionsFactors := resolvedEmissions |},
   assumptionsUsed).

Definition costPerRecoveredKg (costUsd recoveredKg : Q) : option Q :=
  if 0 <? recoveredKg then Some (costUsd / recoveredKg) else None.

Module MaterialFlows.
Record t : Type := {
  inboundKg : Q;
  recoveredKg : Q;
  residualKg : Q;
  estimatedReuseUptakeKg : Q;
  landfillKg : Q
}.
End MaterialFlows.

Module Outputs.
Record t : Type := {
  costUsd : Q;
  timeHours : Q;
  truckTrips : Q;
  materialFlows : MaterialFlows.t
}.
End Outputs.

Module Emissions.
Record t : Type := {
  operationalTonsCO2e : Q;
  avoidedTonsCO2e : Q;
  estimatedUptakeTonsCO2e : Q;
  baselineOperationalTonsCO2e : Q;
  operationalDeltaTonsCO2e : Q
}.
End Emissions.

Module FinancialDeltas.
Record t : Type := {
  baselineCostUsd : Q;
  scenarioCostUsd : Q;
  deltaCostUsd : Q;
  baselineCostPerRecoveredKg : option Q;
  scenarioCostPerRecoveredKg : option Q;
  deltaCostPerRecoveredKg : option Q
}.
End FinancialDeltas.

Module SimulateResponse.
Record t : Type := {
  inputsEcho : Normalized.t;
  outputs : Outputs.t;
  emissions : Emissions.t;
  financialDeltas : FinancialDeltas.t;
  audit_worksheet : ShowYourWork.Worksheet.t;
  assumptionsUsed : list AssumptionUsed.t
}.
End SimulateResponse.

Definition buildSimulationResponse (payload : Payload.t)
    : result SimulateResponse.t :=
  let resolved := resolveNormalizedInput payload in
  let normalized := fst resolved in
  let assumptionsUsed := snd resolved in
  let unitOfWork := Normalized.unitOfWork normalized in
  let costDrivers := Normalized.costDrivers normalized in
  let sustainabilityDrivers := Normalized.sustainabilityDrivers normalized in
  let mode :=
    NormalizedScenarioOptions.mode (Normalized.scenarioOptions normalized) in
  baselineSimulation <-
    Simulation.simulatePanelFlow unitOfWork costDrivers sustainabilityDrivers
      {| Simulation.useCrusher := true;
         Simulation.truckSpeedKmPerHour :=
           Some Simulation.DEFAULT_TRUCK_SPEED_KM_PER_HOUR;
         Simulation.loadUnloadHoursPerTrip :=
           Some Simulation.DEFAULT_LOAD_UNLOAD_HOURS_PER_TRIP |} ;;
  scenarioSimulation <-
    Simulation.simulatePanelFlow unitOfWork costDrivers sustainabilityDrivers
      {| Simulation.useCrusher := modeEqb mode baseline;
         Simulation.truckSpeedKmPerHour :=
           Some Simulation.DEFAULT_TRUCK_SPEED_KM_PER_HOUR;
         Simulation.loadUnloadHoursPerTrip :=
           Some Simulation.DEFAULT_LOAD_UNLOAD_HOURS_PER_TRIP |} ;;
  let factorOverrides :=
    Some {| Kpi.co2AvoidedPerKgRecovered_override :=
              Some (Kpi.co2AvoidedPerKgRecovered
                      (Normalized.emissionsFactors normalized));
            Kpi.carbonCapturePotentialPerKgRecovered_override :=
              Some (Kpi.carbonCapturePotentialPerKgRecovered
                      (Normalized.emissionsFactors normalized));
            Kpi.baselineTruckMilesPerTrip_override := None;
            Kpi.optimizedTruckMilesPerTrip_override := None |} in
  let inboundKg := Simulation.inboundMaterial unitOfWork in
  let recoveredKg := Simulation.materialRecovered scenarioSimulation in
  let residualKg := Js.Math_max 0 (inboundKg - recoveredKg) in
  let estimatedReuseUptakeKg :=
    if modeEqb mode grinderReuse
    then residualKg
         * NormalizedScenarioOptions.reuseUptakeRate
             (Normalized.scenarioOptions normalized)
    else 0 in
  let landfillKg := Js.Math_max 0 (residualKg - estimatedReuseUptakeKg) in
  avoidedTonsCO2e <- Kpi.computeCO2Avoided scenarioSimulation factorOverrides ;;
  captureFromRecoveredTonsCO2e <-
    Kpi.computeCarbonCapturePotential scenarioSimulation factorOverrides ;;
  let reuseUptakeTonsCO2e :=
    estimatedReuseUptakeKg
    * Kpi.carbonCapturePotentialPerKgRecovered
        (Normalized.emissionsFactors normalized) in
  let scenarioCostUsd := Simulation.totalCost scenarioSimulation in
  let baselineCostUsd := Simulation.totalCost baselineSimulation in
  let scenarioRecoveredKg := Simulation.materialRecovered scenarioSimulation in
  let baselineRecoveredKg := Simulation.materialRecovered baselineSimulation in
  let scenarioCostPerRecoveredKg :=
    costPerRecoveredKg scenarioCostUsd scenarioRecoveredKg in
  let baselineCostPerRecoveredKg :=
    costPerRecoveredKg baselineCostUsd baselineRecoveredKg in
  worksheet <- ShowYourWork.showYourWork scenarioSimulation None ;;
  Ok {| SimulateResponse.inputsEcho := normalized;
        SimulateResponse.outputs :=
          {| Outputs.costUsd := scenarioCostUsd;
             Outputs.timeHours := Simulation.totalTime scenarioSimulation;
             Outputs.truckTrips := Simulation.truckTrips scenarioSimulation;
             Outputs.materialFlows :=
               {| MaterialFlows.inboundKg := inboundKg;
                  MaterialFlows.recoveredKg := recoveredKg;
                  MaterialFlows.residualKg := residualKg;
                  MaterialFlows.estimatedReuseUptakeKg :=
                    estimatedReuseUptakeKg;
                  MaterialFlows.landfillKg := landfillKg |} |};
        SimulateResponse.emissions :=
          {| Emissions.operationalTonsCO2e :=
               Simulation.totalEmissions scenarioSimulation;
             Emissions.avoidedTonsCO2e := avoidedTonsCO2e;
             Emissions.estimatedUptakeTonsCO2e :=
               captureFromRecoveredTonsCO2e + reuseUptakeTonsCO2e;
             Emissions.baselineOperationalTonsCO2e :=
               Simulation.totalEmissions baselineSimulation;
             Emissions.operationalDeltaTonsCO2e :=
               Simulation.totalEmissions scenarioSimulation
               - Simulation.totalEmissions baselineSimulation |};
        SimulateResponse.financialDeltas :=
          {| FinancialDeltas.baselineCostUsd := baselineCostUsd;
             FinancialDeltas.scenarioCostUsd := scenarioCostUsd;
             FinancialDeltas.deltaCostUsd := scenarioCostUsd - baselineCostUsd;
             FinancialDeltas.baselineCostPerRecoveredKg :=
               baselineCostPerRecoveredKg;
             FinancialDeltas.scenarioCostPerRecoveredKg :=
               scenarioCostPerRecoveredKg;
             FinancialDeltas.deltaCostPerRecoveredKg :=
               match baselineCostPerRecoveredKg, scenarioCostPerRecoveredKg with
               | Some b, Some s => Some (s - b)
               | _, _ => None
               end |};
        SimulateResponse.audit_worksheet := worksheet;
        SimulateResponse.assumptionsUsed := assumptionsUsed |}.

End SimulateApi.

(** ** reporting/pilotPlan.ts

    The plan of [generatePilotPlan] without its two texts ([testLocation]
    and the [paragraph] rendered from the other fields). *)

Module PilotPlan.

Definition clamp (value min max : Q) : Q := Qmax min (Qmin max value).

(** ["baseline" | "grinder" | "grinder+reuse"] *)
Inductive PilotScenarioMode : Type := baseline | grinder | grinderReuse.

Module PilotScenarioOptions.
Record t : Type := {
  mode : PilotScenarioMode;
  reuseUptakeRate : Q;
  specReadiness : Q;
  grinderUtilization : option Q
}.
End PilotScenarioOptions.

Module PilotMetricsInput.
Record t : Type := {
  truckTripsAvoidedPerPanel : Q;
  tonsDivertedPerPanel : Q;
  marginDeltaUsdPerPanel : Q;
  co2AvoidedTonsPerPanel : Q
}.
End PilotMetricsInput.

Module PilotPlanInput.
Record t : Type := {
  scenarioOptions : PilotScenarioOptions.t;
  metrics : PilotMetricsInput.t;
  panelsPerWeek : option Q;
  durationWeeks : option Q
}.
End PilotPlanInput.

Inductive PilotMetricId : Type :=
| truckTripsAvoided
| tonsDiverted
| marginDeltaUsdPerPanel
| co2Avoided.

Module PilotMetricPlan.
Record t : Type := {
  id : PilotMetricId;
  label : string;
  perPanel : Q;
  pilotTotal : Q
}.
End PilotMetricPlan.

Inductive PilotRiskType : Type :=
| qualitySpecCompliance
| grinderUptime
| scheduleRisk.

Module PilotRiskPlan.
Record t : Type := {
  type : PilotRiskType;
  mitigation : string
}.
End PilotRiskPlan.

Module PilotPlanResult.
Record t : Type := {
  durationWeeks : Q;
  panelsPerWeek : Q;
  totalPanels : Q;
  selectedMetrics : list PilotMetricPlan.t;
  dataSources : list string;
  keyRisk : PilotRiskPlan.t
}.
End PilotPlanResult.

Definition DEFAULT_PILOT_DATA_SOURCES : list string :=
  ["tickets"; "scale slips"; "dispatch logs"; "batch tickets"]%string.

Definition ensureUnitInterval (value : Q) (name : string) : result unit :=
  if (value <? 0) || (1 <? value)
  then Throw (name ++ " must be between 0 and 1")%string
  else Ok tt.

Definition ensureNonNegative (value : Q) (name : string) : result unit :=
  if value <? 0
  then Throw (name ++ " must be >= 0")%string
  else Ok tt.

(** [[2, 3, 4].includes(value)] *)
Definition isCadence (value : Q) : bool :=
  Qeq_bool value 2 || Qeq_bool value 3 || Qeq_bool value 4.

Definition validateInput (input : PilotPlanInput.t) : result unit :=
  let scenario := PilotPlanInput.scenarioOptions input in
  let metrics := PilotPlanInput.metrics input in
  ensureUnitInterval (PilotScenarioOptions.reuseUptakeRate scenario)
    "reuseUptakeRate" ;;
  ensureUnitInterval (PilotScenarioOptions.specReadiness scenario)
    "specReadiness" ;;
  match PilotScenarioOptions.grinderUtilization scenario with
  | Some utilization => ensureUnitInterval utilization "grinderUtilization"
  | None => Ok tt
  end ;;
  ensureNonNegative (PilotMetricsInput.truckTripsAvoidedPerPanel metrics)
    "truckTripsAvoidedPerPanel" ;;
  ensureNonNegative (PilotMetricsInput.tonsDivertedPerPanel metrics)
    "tonsDivertedPerPanel" ;;
  ensureNonNegative (PilotMetricsInput.co2AvoidedTonsPerPanel metrics)
    "co2AvoidedTonsPerPanel" ;;
  match PilotPlanInput.panelsPerWeek input with
  | Some panels =>
      if negb (isCadence panels)
      then Throw "panelsPerWeek must be 2, 3, or 4"
      else Ok tt
  | None => Ok tt
  end ;;
  match PilotPlanInput.durationWeeks input with
  | Some weeks =>
      if (weeks <? 4) || (8 <? weeks)
      then Throw "durationWeeks must be between 4 and 8"
      else Ok tt
  | None => Ok tt
  end.

Definition isGrinderReuse (mode : PilotScenarioMode) : bool :=
  match mode with
  | grinderReuse => true
  | _ => false
  end.

Definition derivePanelsPerWeek (scenario : PilotScenarioOptions.t) : Q :=
  let cadence :=
    match PilotScenarioOptions.mode scenario with
    | baseline => 4
    | grinder => 3
    | grinderReuse => 2
    end in
  let cadence :=
    if PilotScenarioOptions.specReadiness scenario <? 0.6 then 2
    else if (0.9 <? PilotScenarioOptions.specReadiness scenario)
            && negb (isGrinderReuse (PilotScenarioOptions.mode scenario))
    then Qmin 4 (cadence + 1)
    else cadence in
  clamp cadence 2 4.

Definition deriveDurationWeeks (scenario : PilotScenarioOptions.t) : Q :=
  let weeks :=
    match PilotScenarioOptions.mode scenario with
    | baseline => 4
    | grinder => 5
    | grinderReuse => 6
    end in
  let weeks :=
    if 0.35 <=? PilotScenarioOptions.reuseUptakeRate scenario
    then weeks + 1 else weeks in
  let weeks :=
    if PilotScenarioOptions.specReadiness scenario <? 0.7
    then weeks + 1 else weeks in
  clamp weeks 4 8.

Definition selectMetricIds (scenario : PilotScenarioOptions.t)
    : list PilotMetricId :=
  match PilotScenarioOptions.mode scenario with
  | grinderReuse => [tonsDiverted; marginDeltaUsdPerPanel; co2Avoided]
  | grinder => [truckTripsAvoided; tonsDiverted; co2Avoided]
  | baseline => [truckTripsAvoided; marginDeltaUsdPerPanel]
  end.

Definition metricFromId (metricId : PilotMetricId)
    (metrics : PilotMetricsInput.t) (totalPanels : Q) : PilotMetricPlan.t :=
  match metricId with
  | truckTripsAvoided =>
      {| PilotMetricPlan.id := metricId;
         PilotMetricPlan.label := "truck trips avoided";
         PilotMetricPlan.perPanel :=
           PilotMetricsInput.truckTripsAvoidedPerPanel metrics;
         PilotMetricPlan.pilotTotal :=
           PilotMetricsInput.truckTripsAvoidedPerPanel metrics * totalPanels |}
  | tonsDiverted =>
      {| PilotMetricPlan.id := metricId;
         PilotMetricPlan.label := "tons diverted";
         PilotMetricPlan.perPanel :=
           PilotMetricsInput.tonsDivertedPerPanel metrics;
         PilotMetricPlan.pilotTotal :=
           PilotMetricsInput.tonsDivertedPerPanel metrics * totalPanels |}
  | marginDeltaUsdPerPanel =>
      {| PilotMetricPlan.id := metricId;
         PilotMetricPlan.label := "$/panel margin delta";
         PilotMetricPlan.perPanel :=
           PilotMetricsInput.marginDeltaUsdPerPanel metrics;
         PilotMetricPlan.pilotTotal :=
           PilotMetricsInput.marginDeltaUsdPerPanel metrics * totalPanels |}
  | co2Avoided =>
      {| PilotMetricPlan.id := metricId;
         PilotMetricPlan.label := "CO2 avoided";
         PilotMetricPlan.perPanel :=
           PilotMetricsInput.co2AvoidedTonsPerPanel metrics;
         PilotMetricPlan.pilotTotal :=
           PilotMetricsInput.co2AvoidedTonsPerPanel metrics * totalPanels |}
  end.

Definition chooseRisk (scenario : PilotScenarioOptions.t) : PilotRiskPlan.t :=
  if isGrinderReuse (PilotScenarioOptions.mode scenario)
     || (0.35 <=? PilotScenarioOptions.reuseUptakeRate scenario)
  then
    {| PilotRiskPlan.type := qualitySpecCompliance;
       PilotRiskPlan.mitigation :=
         "locking gradation bands, running hold-point tests on early pours, and routing out-of-spec grind to non-structural use to protect schedule" |}
  else if 0.85 <=? Js.nullish (PilotScenarioOptions.grinderUtilization scenario) 0
  then
    {| PilotRiskPlan.type := grinderUptime;
       PilotRiskPlan.mitigation :=
         "pre-staging wear parts, using preventive maintenance checks each shift, and keeping a backup haul path for missed grind windows" |}
  else
    {| PilotRiskPlan.type := scheduleRisk;
       PilotRiskPlan.mitigation :=
         "holding a 72-hour freeze window, running daily dispatch/spec coordination, and carrying one buffer panel each week" |}.

Definition generatePilotPlan (input : PilotPlanInput.t)
    : result PilotPlanResult.t :=
  validateInput input ;;
  let scenario := PilotPlanInput.scenarioOptions input in
  let durationWeeks :=
    Js.nullish (PilotPlanInput.durationWeeks input)
               (deriveDurationWeeks scenario) in
  let panelsPerWeek :=
    Js.nullish (PilotPlanInput.panelsPerWeek input)
               (derivePanelsPerWeek scenario) in
  let totalPanels := durationWeeks * panelsPerWeek in
  let selectedMetricIds := selectMetricIds scenario in
  let selectedMetrics :=
    map (fun metricId =>
           metricFromId metricId (PilotPlanInput.metrics input) totalPanels)
        selectedMetricIds in
  let keyRisk := chooseRisk scenario in
  Ok {| PilotPlanResult.durationWeeks := durationWeeks;
        PilotPlanResult.panelsPerWeek := panelsPerWeek;
        PilotPlanResult.totalPanels := totalPanels;
        PilotPlanResult.selectedMetrics := selectedMetrics;
        PilotPlanResult.dataSources := DEFAULT_PILOT_DATA_SOURCES;
        PilotPlanResult.keyRisk := keyRisk |}.

End PilotPlan.

(** ** Specification-side notions for the further properties *)

Module CoreSpec.

(** The sign conditions the request schemas put on costs and emission
    factors. *)
Definition nonNegativeDrivers (cd : Simulation.CostDrivers)
    (sd : Simulation.SustainabilityDrivers) : Prop :=
  0 <= Simulation.haulCostPerKm cd
  /\ 0 <= Simulation.laborCostPerHour cd
  /\ 0 <= Simulation.crusherProcessingCostPerKg cd
  /\ 0 <= Simulation.grinderProcessingCostPerKg cd
  /\ 0 <= Simulation.haulEmissionsPerKm sd
  /\ 0 <= Simulation.crusherEmissionsPerKg sd
  /\ 0 <= Simulation.grinderEmissionsPerKg sd.

(** The same unit of work hauled over another distance. *)
Definition withHaulDistance (u : Simulation.UnitOfWork) (km : Q)
    : Simulation.UnitOfWork :=
  {| Simulation.inboundMaterial := Simulation.inboundMaterial u;
     Simulation.haulDistancePerTrip := km |}.

End CoreSpec.

Module ScenarioSpec.
Import ScenarioModel.

(** What [validateAssumptions] accepts. *)
Definition assumptionsValid (a : ScenarioAssumptions.t) : Prop :=
  0 < ScenarioAssumptions.truckSpeedKmPerHour a
  /\ 0 < ScenarioAssumptions.loadUnloadHoursPerTrip a
  /\ 0 <= ScenarioAssumptions.recoveredMaterialPricePerKg a
  /\ 0 <= ScenarioAssumptions.carbonCreditPricePerTonCO2e a
  /\ 0 <= ScenarioAssumptions.co2AvoidedPerKgRecovered a
  /\ 0 <= ScenarioAssumptions.carbonCapturePotentialPerKgRecovered a
  /\ 0 <= ScenarioAssumptions.baselineTruckMilesPerTrip a
  /\ 0 <= ScenarioAssumptions.optimizedTruckMilesPerTrip a.

(** The options [analyzeScenario] simulates with. *)
Definition optionsOf (input : ScenarioInput.t) : Simulation.SimulationOptions :=
  {| Simulation.useCrusher := isCrusher (ScenarioInput.mode input);
     Simulation.truckSpeedKmPerHour :=
       Some (ScenarioAssumptions.truckSpeedKmPerHour
               (ScenarioInput.assumptions input));
     Simulation.loadUnloadHoursPerTrip :=
       Some (ScenarioAssumptions.loadUnloadHoursPerTrip
               (ScenarioInput.assumptions input)) |}.

(** The simulation guards that remain once the assumptions are valid
    (truck speed and load/unload hours come from the assumptions). *)
Definition inputValid (input : ScenarioInput.t) : Prop :=
  assumptionsValid (ScenarioInput.assumptions input)
  /\ SimulationSpec.guardsHold (ScenarioInput.unitOfWork input)
       (ScenarioInput.costDrivers input)
       (ScenarioInput.sustainabilityDrivers input) (optionsOf input).

(** The fixtures of [scenarioModel.test.ts]. *)
Definition testAssumptions : ScenarioAssumptions.t :=
  {| ScenarioAssumptions.truckSpeedKmPerHour := 60;
     ScenarioAssumptions.loadUnloadHoursPerTrip := 0.5;
     ScenarioAssumptions.recoveredMaterialPricePerKg := 0.06;
     ScenarioAssumptions.carbonCreditPricePerTonCO2e := 45;
     ScenarioAssumptions.co2AvoidedPerKgRecovered := 0.00012;
     ScenarioAssumptions.carbonCapturePotentialPerKgRecovered := 0.00003;
     ScenarioAssumptions.baselineTruckMilesPerTrip := 42;
     ScenarioAssumptions.optimizedTruckMilesPerTrip := 30 |}.

Definition makeInput (mode : ScenarioMode) : ScenarioInput.t :=
  {| ScenarioInput.mode := mode;
     ScenarioInput.unitOfWork := SimulationSpec.testUnitOfWork;
     ScenarioInput.costDrivers := SimulationSpec.testCostDrivers;
     ScenarioInput.sustainabilityDrivers :=
       SimulationSpec.testSustainabilityDrivers;
     ScenarioInput.assumptions := testAssumptions |}.

End ScenarioSpec.

Module CashFlowSpec.
Import Simulation Investment.

(** Two cash-flow series subtracted period by period. *)
Fixpoint difference (a b : list Q) : list Q :=
  match a, b with
  | x :: a', y :: b' => (x - y) :: difference a' b'
  | _, _ => []
  end.

(** What [seriesFromScenario] accepts as the period of a point. *)
Definition validPeriod (point : SimulationCashFlowPoint) : Prop :=
  1 <= period point /\ Js.isInteger (period point) = true.

Definition scenarioValid (scenario : InvestmentScenarioInput) : Prop :=
  Forall validPeriod (points scenario).

(** The net cash flow one point contributes, and the total the points of
    one period contribute. *)
Definition net (point : SimulationCashFlowPoint) : Q :=
  recoveredMaterialRevenue point - totalCost (simulationResult point)
  + Js.nullish (otherCashFlow point) 0.

Definition netAt (pts : list SimulationCashFlowPoint) (p : Q) : Q :=
  sumList (map net (filter (fun point => Qeq_bool (period point) p) pts)).

(** Some point of the scenario is dated [p]. *)
Definition hasPeriod (pts : list SimulationCashFlowPoint) (p : Q) : Prop :=
  exists point, In point pts /\ period point == p.

(** Membership and order of numbers up to [==]. *)
Definition memQ (p : Q) (l : list Q) : Prop := exists q, In q l /\ q == p.

Fixpoint distinctQ (l : list Q) : Prop :=
  match l with
  | [] => True
  | x :: rest => ~ memQ x rest /\ distinctQ rest
  end.

Fixpoint strictlyAscending (l : list Q) : Prop :=
  match l with
  | [] => True
  | x :: rest => (forall y, In y rest -> x < y) /\ strictlyAscending rest
  end.

Fixpoint nonDecreasing (l : list Q) : Prop :=
  match l with
  | [] => True
  | x :: rest => (forall y, In y rest -> x <= y) /\ nonDecreasing rest
  end.

End CashFlowSpec.

Module SimulateSpec.
Import SimulateApi.

(** The mode a request is answered in. *)
Definition modeOf (payload : Payload.t) : ScenarioModeName :=
  Js.nullish
    (Sensitivity.optionalField (Payload.scenarioOptions payload)
       ScenarioOptions.mode)
    ROUTE_DEFAULTS_scenarioMode.

(** The options of the simulations of a request. *)
Definition routeOptions (crusher : bool) : Simulation.SimulationOptions :=
  {| Simulation.useCrusher := crusher;
     Simulation.truckSpeedKmPerHour :=
       Some Simulation.DEFAULT_TRUCK_SPEED_KM_PER_HOUR;
     Simulation.loadUnloadHoursPerTrip :=
       Some Simulation.DEFAULT_LOAD_UNLOAD_HOURS_PER_TRIP |}.

(** The recovery rate of the processor the mode selects. *)
Definition recoveryRateOf (payload : Payload.t) : Q :=
  if modeEqb (modeOf payload) baseline
  then Simulation.crusherRecoveryRate (Payload.sustainabilityDrivers payload)
  else Simulation.grinderRecoveryRate (Payload.sustainabilityDrivers payload).

(** The same request with other scenario options. *)
Definition withScenarioOptions (payload : Payload.t)
    (mode : option ScenarioModeName) (reuseUptakeRate : option Q)
    : Payload.t :=
  {| Payload.unitOfWork := Payload.unitOfWork payload;
     Payload.costDrivers := Payload.costDrivers payload;
     Payload.sustainabilityDrivers := Payload.sustainabilityDrivers payload;
     Payload.scenarioOptions :=
       Some {| ScenarioOptions.mode := mode;
               ScenarioOptions.reuseUptakeRate := reuseUptakeRate |};
     Payload.emissionsFactors := Payload.emissionsFactors payload |}.

(** The names of the defaults a request was answered with. *)
Definition namesUsed (payload : Payload.t) : list string :=
  map AssumptionUsed.name (snd (resolveNormalizedInput payload)).

(** The two requests of [simulate/simulation.test.ts]. *)
Definition basePayload : Payload.t :=
  {| Payload.unitOfWork := SimulationSpec.testUnitOfWork;
     Payload.costDrivers := SimulationSpec.testCostDrivers;
     Payload.sustainabilityDrivers := SimulationSpec.testSustainabilityDrivers;
     Payload.scenarioOptions := None;
     Payload.emissionsFactors := None |}.

Definition grinderReusePayload : Payload.t :=
  {| Payload.unitOfWork := SimulationSpec.testUnitOfWork;
     Payload.costDrivers := SimulationSpec.testCostDrivers;
     Payload.sustainabilityDrivers := SimulationSpec.testSustainabilityDrivers;
     Payload.scenarioOptions :=
       Some {| ScenarioOptions.mode := Some grinderReuse;
               ScenarioOptions.reuseUptakeRate := Some 0.4 |};
     Payload.emissionsFactors :=
       Some {| EmissionsFactors.co2AvoidedPerKgRecovered := Some 0.0002;
               EmissionsFactors.carbonCapturePotentialPerKgRecovered :=
                 Some 0.00005;
               EmissionsFactors.baselineTruckMilesPerTrip := None;
               EmissionsFactors.optimizedTruckMilesPerTrip := None |} |}.

End SimulateSpec.

Module PilotSpec.
Import PilotPlan.

(** The input of [pilotPlan.test.ts]. *)
Definition sampleInput : PilotPlanInput.t :=
  {| PilotPlanInput.scenarioOptions :=
       {| PilotScenarioOptions.mode := grinderReuse;
          PilotScenarioOptions.reuseUptakeRate := 0.4;
          PilotScenarioOptions.specReadiness := 0.72;
          PilotScenarioOptions.grinderUtilization := Some 0.84 |};
     PilotPlanInput.metrics :=
       {| PilotMetricsInput.truckTripsAvoidedPerPanel := 1.3;
          PilotMetricsInput.tonsDivertedPerPanel := 0.82;
          PilotMetricsInput.marginDeltaUsdPerPanel := 36.5;
          PilotMetricsInput.co2AvoidedTonsPerPanel := 0.038 |};
     PilotPlanInput.panelsPerWeek := None;
     PilotPlanInput.durationWeeks := None |}.

(** A whole number of weeks or panels. *)
Definition wholeNumber (x : Q) : Prop := exists n : Z, x == inject_Z n.

(** The input leaves the schedule to be derived. *)
Definition scheduleDerived (input : PilotPlanInput.t) : Prop :=
  PilotPlanInput.panelsPerWeek input = None
  /\ PilotPlanInput.durationWeeks input = None.

End PilotSpec.

Module FingerprintSpec.

(** 32-bit FNV-1a as it is specified: offset basis 2166136261, prime
    16777619, each unit xor-ed in before the multiplication. *)
Definition fnvPrime : Z := 16777619.

Definition fnvRound (hash code : Z) : Z :=
  (Z.lxor hash code * fnvPrime mod 2 ^ 32)%Z.

Definition fnv1a32 (text : list Z) : Z :=
  fold_left fnvRound text 2166136261%Z.

(** A UTF-16 code unit. *)
Definition codeUnit (code : Z) : Prop := (0 <= code < 65536)%Z.

(** The value of a string of lower-case hexadecimal digits. *)
Definition hexValue (c : ascii) : Z :=
  let n := Z.of_nat (nat_of_ascii c) in
  if (n <? 58)%Z then (n - 48)%Z else (n - 87)%Z.

Fixpoint parseHexFrom (acc : Z) (digits : string) : Z :=
  match digits with
  | EmptyString => acc
  | String c rest => parseHexFrom (acc * 16 + hexValue c)%Z rest
  end.

Definition parseHex (digits : string) : Z := parseHexFrom 0 digits.

(** A lower-case hexadecimal digit, and a string made of such digits. *)
Definition isHexDigit (c : ascii) : bool :=
  existsb (Ascii.eqb c) (list_ascii_of_string "0123456789abcdef").

Fixpoint allHexDigits (digits : string) : bool :=
  match digits with
  | EmptyString => true
  | String c rest => isHexDigit c && allHexDigits rest
  end.

(** The code units of the text [{"mode":"Crusher"}]. *)
Definition sampleText : list Z :=
  [123; 34; 109; 111; 100; 101; 34; 58; 34; 67; 114; 117; 115; 104; 101;
   114; 34; 125]%Z.

End FingerprintSpec.

Module SimulateRoute.
Import SimulateApi.

(** [simulateRequestSchema.parse(json)], as the route and the tests call
    it before [buildSimulationResponse], on a value of the right shape:
    nothing when the schema rejects the value (zod throws); otherwise the
    value with the default of the schema filled in, which is the mode
    [baseline] of a [scenarioOptions] object that names no mode
    ([mode: z.enum([...]).default("baseline")]).  An absent
    [scenarioOptions] stays absent. *)
Definition withDefaultMode (options : option ScenarioOptions.t)
    : option ScenarioOptions.t :=
  match options with
  | None => None
  | Some o =>
      Some {| ScenarioOptions.mode :=
                Some (Js.nullish (ScenarioOptions.mode o)
                        ROUTE_DEFAULTS_scenarioMode);
              ScenarioOptions.reuseUptakeRate :=
                ScenarioOptions.reuseUptakeRate o |}
  end.

Definition parse (json : Payload.t) : option Payload.t :=
  if simulateRequestSchema json
  then Some {| Payload.unitOfWork := Payload.unitOfWork json;
               Payload.costDrivers := Payload.costDrivers json;
               Payload.sustainabilityDrivers :=
                 Payload.sustainabilityDrivers json;
               Payload.scenarioOptions :=
                 withDefaultMode (Payload.scenarioOptions json);
               Payload.emissionsFactors := Payload.emissionsFactors json |}
  else None.

(** A request that gives scenario options without a mode. *)
Definition modelessRequest : Payload.t :=
  {| Payload.unitOfWork := SimulationSpec.testUnitOfWork;
     Payload.costDrivers := SimulationSpec.testCostDrivers;
     Payload.sustainabilityDrivers := SimulationSpec.testSustainabilityDrivers;
     Payload.scenarioOptions :=
       Some {| ScenarioOptions.mode := None;
               ScenarioOptions.reuseUptakeRate := Some 0.4 |};
     Payload.emissionsFactors := None |}.

End SimulateRoute.

Module GridSpec.
Import Sensitivity SensitivitySpec.





End GridSpec.

From Stdlib Require Import Floats.

(* ================================================================== *)
(** * Double precision: the functions decided by a rounded comparison

    A JavaScript [number] is an IEEE 754 binary64 value.  The rational
    model above answers what survives rounding: orders, monotonicity,
    the shape of lists, identities that hold up to the last bit.  Three
    functions return a result that a rounded comparison selects - the
    whole number of trips [Math.ceil(inputKg / truckCapacity)], the period
    in which the running sum of [PaybackPeriod] turns non-negative, the
    bracket [IRR] accepts - and on inputs as plain as 2.1 / 0.7 or
    -1 + 0.1 + ... + 0.1 the exact quotient or sum and the rounded one lie
    on different sides of the comparison.  These functions are embedded
    here a second time, on the kernel's primitive binary64 numbers
    ([PrimFloat]): [+], [-], [*], [/] round to nearest, ties to even; a
    comparison with [NaN] is false; decimal literals denote the nearest
    double, as they do in the source. *)
(* ================================================================== *)

#[local] Set Warnings "-inexact-float".

Module Binary64.
Local Open Scope float_scope.

(** The rational a finite double stands for ([None] for an infinity and
    for [NaN]). *)
Definition valueSF (negative : bool) (mantissa : positive) (exponent : Z)
    : Q :=
  let magnitude := (inject_Z (Z.pos mantissa) * 2 ^ exponent)%Q in
  if negative then (- magnitude)%Q else magnitude.

Definition valueOf (x : float) : option Q :=
  match Prim2SF x with
  | S754_zero _ => Some 0%Q
  | S754_finite negative mantissa exponent =>
      Some (valueSF negative mantissa exponent)
  | S754_infinity _ | S754_nan => None
  end.

(** The double nearest to an integer; the integer itself up to 2^53 and
    whenever it is representable. *)
Definition ofInteger (k : Z) : float :=
  SF2Prim (binary_normalize prec emax k 0 false).

(** [Math.ceil]: the smallest integral number not below [x]; [x] itself
    when [x] is a zero, an infinity or [NaN]; [-0] when -1 < x < 0. *)
Definition Math_ceil (x : float) : float :=
  match Prim2SF x with
  | S754_finite negative mantissa exponent =>
      let k := Qceiling (valueSF negative mantissa exponent) in
      if (k =? 0)%Z then (if negative then neg_zero else zero)
      else ofInteger k
  | _ => x
  end.

(** ** simulatePanelFlow.ts *)

Module Simulation.

Definition DEFAULT_TRUCK_SPEED_KM_PER_HOUR : float := 50.
Definition DEFAULT_LOAD_UNLOAD_HOURS_PER_TRIP : float := 0.25.

Record UnitOfWork : Type := {
  inboundMaterial : float;
  haulDistancePerTrip : float
}.

Record CostDrivers : Type := {
  truckCapacity : float;
  haulCostPerKm : float;
  laborCostPerHour : float;
  crusherProcessingCostPerKg : float;
  grinderProcessingCostPerKg : float;
  crusherThroughputKgPerHour : float;
  grinderThroughputKgPerHour : float
}.

Record SustainabilityDrivers : Type := {
  haulEmissionsPerKm : float;
  crusherEmissionsPerKg : float;
  grinderEmissionsPerKg : float;
  crusherRecoveryRate : float;
  grinderRecoveryRate : float
}.

Record SimulationOptions : Type := {
  useCrusher : bool;
  truckSpeedKmPerHour : option float;
  loadUnloadHoursPerTrip : option float
}.

Record SimulationResult : Type := {
  totalCost : float;
  totalTime : float;
  totalEmissions : float;
  truckTrips : float;
  materialRecovered : float
}.

Definition validateRate (rate : float) (name : string) : result unit :=
  if (rate <? 0) || (1 <? rate)
  then Throw (name ++ " must be between 0 and 1")%string
  else Ok tt.

Definition validatePositive (value : float) (name : string) : result unit :=
  if value <=? 0
  then Throw (name ++ " must be > 0")%string
  else Ok tt.

Definition simulatePanelFlow
    (unitOfWork : UnitOfWork) (costDrivers : CostDrivers)
    (sustainabilityDrivers : SustainabilityDrivers)
    (options : SimulationOptions) : result SimulationResult :=
  let truckSpeed :=
    Js.nullish (truckSpeedKmPerHour options) DEFAULT_TRUCK_SPEED_KM_PER_HOUR in
  let loadUnloadHours :=
    Js.nullish (loadUnloadHoursPerTrip options)
               DEFAULT_LOAD_UNLOAD_HOURS_PER_TRIP in
  validatePositive truckSpeed "truckSpeedKmPerHour" ;;
  validatePositive loadUnloadHours "loadUnloadHoursPerTrip" ;;
  validatePositive (truckCapacity costDrivers) "truckCapacity" ;;
  validatePositive (inboundMaterial unitOfWork) "inboundMaterial" ;;
  validatePositive (haulDistancePerTrip unitOfWork) "haulDistancePerTrip" ;;
  validateRate (crusherRecoveryRate sustainabilityDrivers)
               "crusherRecoveryRate" ;;
  validateRate (grinderRecoveryRate sustainabilityDrivers)
               "grinderRecoveryRate" ;;
  let inputKg := inboundMaterial unitOfWork in
  let distancePerTripKm := haulDistancePerTrip unitOfWork in
  let trips := Math_ceil (inputKg / truckCapacity costDrivers) in
  let processingThroughput :=
    if useCrusher options
    then crusherThroughputKgPerHour costDrivers
    else grinderThroughputKgPerHour costDrivers in
  validatePositive processingThroughput "processingThroughputKgPerHour" ;;
  let processingCostPerKg :=
    if useCrusher options
    then crusherProcessingCostPerKg costDrivers
    else grinderProcessingCostPerKg costDrivers in
  let processEmissionsPerKg :=
    if useCrusher options
    then crusherEmissionsPerKg sustainabilityDrivers
    else grinderEmissionsPerKg sustainabilityDrivers in
  let recoveryRate :=
    if useCrusher options
    then crusherRecoveryRate sustainabilityDrivers
    else grinderRecoveryRate sustainabilityDrivers in
  let totalDistanceKm := trips * distancePerTripKm in
  let haulTimeHours := totalDistanceKm / truckSpeed + trips * loadUnloadHours in
  let processingTimeHours := inputKg / processingThroughput in
  let totalTimeHours := haulTimeHours + processingTimeHours in
  let haulCost := totalDistanceKm * haulCostPerKm costDrivers in
  let processingCost := inputKg * processingCostPerKg in
  let laborCost := totalTimeHours * laborCostPerHour costDrivers in
  let totalCostValue := haulCost + processingCost + laborCost in
  let haulEmissions :=
    totalDistanceKm * haulEmissionsPerKm sustainabilityDrivers in
  let processEmissions := inputKg * processEmissionsPerKg in
  let totalEmissionsValue := haulEmissions + processEmissions in
  let recoveredKg := inputKg * recoveryRate in
  Ok {| totalCost := totalCostValue;
        totalTime := totalTimeHours;
        totalEmissions := totalEmissionsValue;
        truckTrips := trips;
        materialRecovered := recoveredKg |}.

End Simulation.

(** ** investmentEvaluator.ts: NPV, PaybackPeriod, IRR *)

Module Investment.

Section Exponentiation.

(** [base ** periodIndex], the exponent an array index.  The language
    leaves the last bits of a power to the implementation, so the power
    is a parameter here; two instances are given below. *)
Variable exponentiate : float -> nat -> float.

(** The [reduce] of [NPV]: [periodIndex] is the array index of the flow. *)
Fixpoint NPV_reduce (discountRate : float) (periodIndex : nat) (acc : float)
    (cashFlows : list float) : float :=
  match cashFlows with
  | [] => acc
  | cashFlow :: rest =>
      NPV_reduce discountRate (S periodIndex)
        (acc + cashFlow / exponentiate (1 + discountRate) periodIndex) rest
  end.

Definition NPV (discountRate : float) (cashFlows : list float)
    : result float :=
  if discountRate <=? -1
  then Throw "discountRate must be greater than -1"
  else Ok (NPV_reduce discountRate 0 0 cashFlows).

(** [while (fLow * fHigh > 0 && expansions < 20)], with
    [remaining = 20 - expansions]; returns the final [high], [fHigh]. *)
Fixpoint IRR_expand (cashFlows : list float) (remaining : nat)
    (fLow high fHigh : float) : result (float * float) :=
  match remaining with
  | O => Ok (high, fHigh)
  | S remaining' =>
      if 0 <? fLow * fHigh then
        let high := high * 2 in
        fHigh <- NPV high cashFlows ;;
        IRR_expand cashFlows remaining' fLow high fHigh
      else Ok (high, fHigh)
  end.

(** [for (let i = 0; i < maxIterations; i += 1)] followed by the final
    [return (low + high) / 2], with [remaining = maxIterations - i]. *)
Fixpoint IRR_bisect (cashFlows : list float) (tolerance : float)
    (remaining : nat) (low high fLow fHigh : float) : result float :=
  match remaining with
  | O => Ok ((low + high) / 2)
  | S remaining' =>
      let mid := (low + high) / 2 in
      fMid <- NPV mid cashFlows ;;
      if abs fMid <? tolerance then Ok mid
      else if fLow * fMid <? 0
      then IRR_bisect cashFlows tolerance remaining' low mid fLow fMid
      else IRR_bisect cashFlows tolerance remaining' mid high fMid fHigh
  end.

(** [IRR(cashFlows)] with its default arguments [maxIterations = 200],
    [tolerance = 1e-7]. *)
Definition IRR (cashFlows : list float) : result (option float) :=
  if (List.length cashFlows <? 2)%nat then Ok None
  else
    let hasPositive := existsb (fun value => 0 <? value) cashFlows in
    let hasNegative := existsb (fun value => value <? 0) cashFlows in
    if negb hasPositive || negb hasNegative then Ok None
    else
      let low := -0.9999 in
      let high := 1 in
      fLow <- NPV low cashFlows ;;
      fHigh <- NPV high cashFlows ;;
      expanded <- IRR_expand cashFlows 20 fLow high fHigh ;;
      let high := fst expanded in
      let fHigh := snd expanded in
      if 0 <? fLow * fHigh then Ok None
      else
        root <- IRR_bisect cashFlows 1e-7 200 low high fLow fHigh ;;
        Ok (Some root).

End Exponentiation.

(** The [for (let i = 1; ...)] loop of [PaybackPeriod]; [rest] holds
    [cashFlows[i]], [cashFlows[i+1]], ...; the counter [i] is a number. *)
Fixpoint PaybackPeriod_loop (i : float) (cumulative : float)
    (rest : list float) : option float :=
  match rest with
  | [] => None
  | flow :: rest' =>
      let previous := cumulative in
      let cumulative := cumulative + flow in
      if 0 <=? cumulative then
        if flow <=? 0 then Some i
        else
          let fraction := (- previous) / flow in
          Some ((i - 1) + fraction)
      else PaybackPeriod_loop (i + 1) cumulative rest'
  end.

Definition PaybackPeriod (cashFlows : list float) : option float :=
  match cashFlows with
  | [] => None
  | first :: rest =>
      let cumulative := first in
      if 0 <=? cumulative then Some 0
      else PaybackPeriod_loop 1 cumulative rest
  end.

End Investment.

End Binary64.

(** ** What the claims on double precision say *)

Module Binary64Spec.
Import Binary64.
Local Open Scope float_scope.

(** *** Trips *)

Import Binary64.Simulation.




(** The fixtures of [simulatePanelFlow.test.ts] with a given load and
    truck capacity. *)
Definition loadOf (inbound : float) : UnitOfWork :=
  {| inboundMaterial := inbound; haulDistancePerTrip := 10 |}.

Definition fleetOf (capacity : float) : CostDrivers :=
  {| truckCapacity := capacity;
     haulCostPerKm := 3;
     laborCostPerHour := 40;
     crusherProcessingCostPerKg := 0.02;
     grinderProcessingCostPerKg := 0.03;
     crusherThroughputKgPerHour := 2500;
     grinderThroughputKgPerHour := 2000 |}.

Definition testSustainabilityDrivers : SustainabilityDrivers :=
  {| haulEmissionsPerKm := 0.001;
     crusherEmissionsPerKg := 0.00004;
     grinderEmissionsPerKg := 0.00006;
     crusherRecoveryRate := 0.82;
     grinderRecoveryRate := 0.75 |}.

Definition crusherOptions : SimulationOptions :=
  {| useCrusher := true;
     truckSpeedKmPerHour := Some 50;
     loadUnloadHoursPerTrip := Some 0.25 |}.

(** The trips the simulation reports for a load and a capacity. *)
Definition tripsFor (inbound capacity : float) : option float :=
  match simulatePanelFlow (loadOf inbound) (fleetOf capacity)
          testSustainabilityDrivers crusherOptions with
  | Ok r => Some (truckTrips r)
  | Throw _ => None
  end.

(** *** Payback *)


(** The running sum the code holds after period [i]: the flows added one
    by one, from period 0 on, each sum rounded. *)
Definition cumulative (flows : list float) (i : nat) : float :=
  fold_left PrimFloat.add (firstn i (tl flows)) (hd 0 flows).






(** The exact sum of a list of finite doubles. *)
Fixpoint exactSum (flows : list float) : option Q :=
  match flows with
  | [] => Some 0%Q
  | flow :: rest =>
      match valueOf flow, exactSum rest with
      | Some v, Some total => Some (Qred (v + total))
      | _, _ => None
      end
  end.

(** *** Internal rate of return *)

Import Binary64.Investment.

(** Two ways to compute an integer power in double arithmetic: by
    repeated multiplication, and by repeated squaring (the bits of the
    exponent from the lowest up). *)
Fixpoint powerByProduct (base : float) (exponent : nat) : float :=
  match exponent with
  | O => 1
  | S exponent' => powerByProduct base exponent' * base
  end.

Fixpoint powerBySquaring_from (bits : nat) (base : float) (exponent : N)
    (acc : float) : float :=
  match bits with
  | O => acc
  | S bits' =>
      match exponent with
      | N0 => acc
      | Npos _ =>
          powerBySquaring_from bits' (base * base) (N.div2 exponent)
            (if N.odd exponent then acc * base else acc)
      end
  end.

Definition powerBySquaring (base : float) (exponent : nat) : float :=
  powerBySquaring_from 64 base (N.of_nat exponent) 1.

(** The value of NPV at a rate it accepts ([NaN] stands in for the
    exception, which these rates never raise). *)
Definition npvOf (power : float -> nat -> float) (flows : list float)
    (rate : float) : float :=
  match NPV power rate flows with
  | Ok value => value
  | Throw _ => nan
  end.

(** A sign change as the specification means it: one value negative,
    the other positive.  [NaN] has no sign. *)
Definition signChange (a b : float) : bool :=
  ((a <? 0) && (0 <? b)) || ((0 <? a) && (b <? 0)).

(** The upper ends [IRR] may try: 1 and its 20 doublings. *)
Fixpoint doublings (times : nat) (high : float) : list float :=
  match times with
  | O => [high]
  | S times' => high :: doublings times' (high * 2)
  end.

Definition upperBounds : list float := doublings 20 1.

(** Ten years of monthly flows: an outlay of 1000, an income of 10 a
    month for 119 months and a final payment of 500. *)
Definition decommissionedPlant : list float :=
  -1000 :: repeat 10 119 ++ [-500].

End Binary64Spec.


(* ================================================================== *)
(** * Proofs *)
(* ================================================================== *)

(** ** Comparisons and rounding of rationals *)

Lemma ltb_spec (x y : Q) : BoolSpec (x < y) (y <= x) (x <? y).
Proof.
  unfold Js.ltb. destruct (Qle_bool y x) eqn:E; constructor.
  - now apply Qle_bool_iff.
  - apply Qnot_le_lt. intros H. apply Qle_bool_iff in H. congruence.
Qed.

Lemma leb_spec (x y : Q) : BoolSpec (x <= y) (y < x) (x <=? y).
Proof.
  unfold Js.leb. destruct (Qle_bool x y) eqn:E; constructor.
  - now apply Qle_bool_iff.
  - apply Qnot_le_lt. intros H. apply Qle_bool_iff in H. congruence.
Qed.

Lemma Qhalf (x : Q) : x / 2 == x * (1 # 2).
Proof. reflexivity. Qed.

Ltac qcases :=
  repeat match goal with
  | |- context [?x <? ?y] => destruct (ltb_spec x y)
  | |- context [?x <=? ?y] => destruct (leb_spec x y)
  | H : context [?x <? ?y] |- _ => destruct (ltb_spec x y)
  | H : context [?x <=? ?y] |- _ => destruct (leb_spec x y)
  end.

(** ** simulatePanelFlow *)

Section SimulationFacts.
Import Simulation SimulationSpec.

Variables (u : UnitOfWork) (cd : CostDrivers) (sd : SustainabilityDrivers)
          (o : SimulationOptions).

Lemma validatePositive_ok (value : Q) (name : string) :
  0 < value -> validatePositive value name = Ok tt.
Proof. intros H. unfold validatePositive. qcases; [lra | reflexivity]. Qed.


Lemma validateRate_ok (rate : Q) (name : string) :
  0 <= rate <= 1 -> validateRate rate name = Ok tt.
Proof.
  intros [H0 H1]. unfold validateRate. qcases; simpl; try reflexivity; lra.
Qed.

Lemma validateRate_throw (rate : Q) (name : string) :
  rate < 0 \/ 1 < rate ->
  validateRate rate name = Throw (name ++ " must be between 0 and 1")%string.
Proof.
  intros H. unfold validateRate. qcases; simpl; try reflexivity.
  destruct H; lra.
Qed.

(** When its eight guards hold, [simulatePanelFlow] returns the record
    computed by steps 1 to 8 of the specification. *)
Lemma simulatePanelFlow_ok :
  guardsHold u cd sd o -> simulatePanelFlow u cd sd o = Ok (outcome u cd sd o).
Proof.
  intros (H1 & H2 & H3 & H4 & H5 & H6 & H7 & H8).
  unfold simulatePanelFlow.
  unfold truckSpeedOf in H1. unfold loadUnloadOf in H2.
  unfold selectedThroughput in H8.
  rewrite (validatePositive_ok _ _ H1); cbn [bind].
  rewrite (validatePositive_ok _ _ H2); cbn [bind].
  rewrite (validatePositive_ok _ _ H3); cbn [bind].
  rewrite (validatePositive_ok _ _ H4); cbn [bind].
  rewrite (validatePositive_ok _ _ H5); cbn [bind].
  rewrite (validateRate_ok _ _ H6); cbn [bind].
  rewrite (validateRate_ok _ _ H7); cbn [bind].
  rewrite (validatePositive_ok _ _ H8); cbn [bind].
  reflexivity.
Qed.

Lemma simulatePanelFlow_throws :
  guardViolated u cd sd o -> exists msg, simulatePanelFlow u cd sd o = Throw msg.
Proof.
  unfold guardViolated, simulatePanelFlow, truckSpeedOf, loadUnloadOf,
    selectedThroughput.
  intros H.
  unfold validatePositive at 1.
  destruct (leb_spec (Js.nullish (truckSpeedKmPerHour o)
                        DEFAULT_TRUCK_SPEED_KM_PER_HOUR) 0);
    [eexists; reflexivity | cbn [bind]].
  unfold validatePositive at 1.
  destruct (leb_spec (Js.nullish (loadUnloadHoursPerTrip o)
                        DEFAULT_LOAD_UNLOAD_HOURS_PER_TRIP) 0);
    [eexists; reflexivity | cbn [bind]].
  unfold validatePositive at 1.
  destruct (leb_spec (truckCapacity cd) 0);
    [eexists; reflexivity | cbn [bind]].
  unfold validatePositive at 1.
  destruct (leb_spec (inboundMaterial u) 0);
    [eexists; reflexivity | cbn [bind]].
  unfold validatePositive at 1.
  destruct (leb_spec (haulDistancePerTrip u) 0);
    [eexists; reflexivity | cbn [bind]].
  unfold validateRate at 1.
  destruct (ltb_spec (crusherRecoveryRate sd) 0);
    [eexists; reflexivity | ].
  destruct (ltb_spec 1 (crusherRecoveryRate sd));
    [eexists; reflexivity | cbn [bind orb]].
  unfold validateRate at 1.
  destruct (ltb_spec (grinderRecoveryRate sd) 0);
    [eexists; reflexivity | ].
  destruct (ltb_spec 1 (grinderRecoveryRate sd));
    [eexists; reflexivity | cbn [bind orb]].
  unfold validatePositive at 1.
  match goal with
  | |- context [?x <=? 0] => destruct (leb_spec x 0)
  end; [eexists; reflexivity | cbn [bind]].
  exfalso.
  destruct H as [H | [H | [H | [H | [H | [[H | H] | [[H | H] | H]]]]]]]; lra.
Qed.

Lemma guards_dichotomy : guardsHold u cd sd o \/ guardViolated u cd sd o.
Proof.
  unfold guardsHold, guardViolated.
  destruct (Qlt_le_dec 0 (truckSpeedOf o)); [| tauto].
  destruct (Qlt_le_dec 0 (loadUnloadOf o)); [| tauto].
  destruct (Qlt_le_dec 0 (truckCapacity cd)); [| tauto].
  destruct (Qlt_le_dec 0 (inboundMaterial u)); [| tauto].
  destruct (Qlt_le_dec 0 (haulDistancePerTrip u)); [| tauto].
  destruct (Qlt_le_dec (crusherRecoveryRate sd) 0); [tauto |].
  destruct (Qlt_le_dec 1 (crusherRecoveryRate sd)); [tauto |].
  destruct (Qlt_le_dec (grinderRecoveryRate sd) 0); [tauto |].
  destruct (Qlt_le_dec 1 (grinderRecoveryRate sd)); [tauto |].
  destruct (Qlt_le_dec 0 (selectedThroughput cd o)); [| tauto].
  left. repeat split; assumption.
Qed.

End SimulationFacts.

Section SimulationClaims.
Import Simulation SimulationSpec.

(** C2, as amended.  [simulatePanelFlow] throws exactly when one of its
    eight guards is violated: truck speed, load/unload hours, truck
    capacity, inbound material or haul distance not positive, a recovery
    rate outside [0,1], or the throughput of the active mode not
    positive.  No cost (and no emission factor) is among the guards; when
    the guards hold the call returns the record of steps 1 to 8, whatever
    the signs of the costs. *)
Theorem simulatePanelFlow_throws_iff_guard_violated :
  forall (u : UnitOfWork) (cd : CostDrivers) (sd : SustainabilityDrivers)
         (o : SimulationOptions),
    ((exists msg, simulatePanelFlow u cd sd o = Throw msg)
     <-> guardViolated u cd sd o)
    /\ (guardsHold u cd sd o ->
        simulatePanelFlow u cd sd o = Ok (outcome u cd sd o)).
Proof.
  intros u cd sd o. split; [split |].
  - intros [msg Hthrow].
    destruct (guards_dichotomy u cd sd o) as [Hok | Hbad]; [| exact Hbad].
    rewrite (simulatePanelFlow_ok u cd sd o Hok) in Hthrow. discriminate.
  - apply simulatePanelFlow_throws.
  - apply simulatePanelFlow_ok.
Qed.

Lemma testGuards_negative_cost :
  guardsHold testUnitOfWork negativeHaulCostDrivers
             testSustainabilityDrivers knownOptions.
Proof. unfold guardsHold; cbn; repeat split; lra. Qed.

Lemma simulatePanelFlow_throws_iff_guard_violated_witness :
  simulatePanelFlow testUnitOfWork negativeHaulCostDrivers
    testSustainabilityDrivers knownOptions
  = Ok (outcome testUnitOfWork negativeHaulCostDrivers
          testSustainabilityDrivers knownOptions).
Proof.
  apply (proj2 (simulatePanelFlow_throws_iff_guard_violated
                  testUnitOfWork negativeHaulCostDrivers
                  testSustainabilityDrivers knownOptions)).
  unfold guardsHold; cbn; repeat split; lra.
Defined.

(** C2, as stated, fails: a request with haul cost -3 USD/km is simulated,
    not rejected, and the negative cost flows into [totalCost]. *)
Lemma negative_haul_cost_is_accepted :
  haulCostPerKm negativeHaulCostDrivers < 0
  /\ (exists r,
        simulatePanelFlow testUnitOfWork negativeHaulCostDrivers
          testSustainabilityDrivers knownOptions = Ok r
        /\ totalCost r == 110)
  /\ ~ (exists msg,
          simulatePanelFlow testUnitOfWork negativeHaulCostDrivers
            testSustainabilityDrivers knownOptions = Throw msg).
Proof.
  split; [cbn; lra |].
  rewrite (simulatePanelFlow_ok _ _ _ _ testGuards_negative_cost).
  split.
  - eexists; split; [reflexivity | vm_compute; reflexivity].
  - intros [msg H]; discriminate.
Qed.





End SimulationClaims.

(** ** Environmental KPIs *)

Section KpiClaims.
Import Simulation Kpi KpiSpec.

Lemma validateFactors_ok (factors : EnvironmentalKpiFactors) :
  factorsValid factors -> validateFactors factors = Ok tt.
Proof.
  intros (H1 & H2 & H3 & H4). unfold validateFactors.
  qcases; simpl; try reflexivity; lra.
Qed.

Lemma Math_max_floor_nonneg (x : Q) : 0 <= Js.Math_max 0 x.
Proof. unfold Js.Math_max. apply Q.le_max_l. Qed.

(** [Math.max(0, x)] is the literal 0 when [x] is negative. *)
Lemma Math_max_floor_zero (x : Q) : x < 0 -> Js.Math_max 0 x = 0.
Proof.
  intros H. unfold Js.Math_max, Qmax, GenericMinMax.gmax.
  apply Qgt_alt in H. rewrite H. reflexivity.
Qed.

(** C9.  For every simulation result and every factor set that passes
    validation (all four factors non-negative after the overrides are
    merged into the defaults), [computeCO2Avoided] returns
    max(0, materialRecovered * co2AvoidedPerKgRecovered - totalEmissions);
    the value is never negative and is exactly 0 when the gross avoided
    emissions are below the operational emissions. *)
Theorem computeCO2Avoided_is_floored_net :
  forall (sim : SimulationResult)
         (overrides : option PartialEnvironmentalKpiFactors),
    factorsValid (resolvedFactors overrides) ->
    let gross :=
      materialRecovered sim
      * co2AvoidedPerKgRecovered (resolvedFactors overrides) in
    computeCO2Avoided sim overrides
    = Ok (Qmax 0 (gross - totalEmissions sim))
    /\ (forall v, computeCO2Avoided sim overrides = Ok v -> 0 <= v)
    /\ (gross < totalEmissions sim -> computeCO2Avoided sim overrides = Ok 0).
Proof.
  intros sim overrides Hvalid gross.
  assert (Heq : computeCO2Avoided sim overrides
                = Ok (Qmax 0 (gross - totalEmissions sim))).
  { unfold computeCO2Avoided.
    rewrite (validateFactors_ok _ Hvalid). reflexivity. }
  split; [exact Heq | split].
  - intros v Hv. rewrite Heq in Hv. injection Hv as <-.
    apply Math_max_floor_nonneg.
  - intros Hlt. rewrite Heq. f_equal.
    apply Math_max_floor_zero. lra.
Qed.

Lemma computeCO2Avoided_is_floored_net_witness :
  computeCO2Avoided floorTestResult (Some floorTestOverrides) = Ok 0.
Proof.
  apply (computeCO2Avoided_is_floored_net floorTestResult
           (Some floorTestOverrides)).
  - unfold factorsValid; cbn; repeat split; lra.
  - cbn. lra.
Defined.

End KpiClaims.

(** ** Internal rate of return *)

Section IrrFacts.
Import Investment InvestmentSpec.

Lemma ltb_comp (x x' y y' : Q) :
  x == x' -> y == y' -> (x <? y) = (x' <? y').
Proof. intros Hx Hy. unfold Js.ltb. now rewrite Hx, Hy. Qed.

Lemma NPV_reduce_comp (flows : list Q) :
  forall (i : nat) (r r' acc acc' : Q),
    r == r' -> acc == acc' ->
    NPV_reduce r i acc flows == NPV_reduce r' i acc' flows.
Proof.
  induction flows as [| cf flows IH]; intros i r r' acc acc' Hr Hacc.
  - exact Hacc.
  - cbn [NPV_reduce]. apply IH; [exact Hr |].
    rewrite Hr, Hacc. reflexivity.
Qed.

Lemma npvAt_comp (flows : list Q) (r r' : Q) :
  r == r' -> npvAt flows r == npvAt flows r'.
Proof. intros H. apply NPV_reduce_comp; [exact H | reflexivity]. Qed.

Variable flows : list Q.

(** A call of [f] at a rate above -1 returns the NPV and is recorded. *)
Lemma f_run (rate : Q) (calls : list Q) :
  -1 < rate -> f flows rate calls = (Ok (npvAt flows rate), calls ++ [rate]).
Proof.
  intros H. unfold f, NPV. destruct (leb_spec rate (-1)); [lra | reflexivity].
Qed.

Lemma rateInRange_above_minus_one (rate : Q) : rateInRange rate -> -1 < rate.
Proof. unfold rateInRange. intros [H _]. lra. Qed.

Lemma rateInRange_inject (z : Z) :
  (1 <= z <= 2 ^ 20)%Z -> rateInRange (inject_Z z).
Proof.
  intros [H1 H2]. unfold rateInRange. split.
  - apply Qle_trans with (inject_Z 1); [vm_compute; discriminate |].
    now rewrite <- Zle_Qle.
  - change 1048576 with (inject_Z (2 ^ 20)). now rewrite <- Zle_Qle.
Qed.

Lemma Forall_snoc (P : Q -> Prop) (calls : list Q) (rate : Q) :
  Forall P calls -> P rate -> Forall P (calls ++ [rate]).
Proof.
  intros Hc Hr. apply Forall_app. split; [exact Hc |].
  constructor; [exact Hr | constructor].
Qed.

(** The doubling loop: it stops at the first candidate upper bound at
    which the signs no longer agree, or at the last candidate. *)
Lemma IRR_expand_run (fLow : Q) :
  forall (remaining : nat) (z : Z) (calls : list Q),
    (1 <= z)%Z ->
    (z * 2 ^ Z.of_nat remaining <= 2 ^ 20)%Z ->
    Forall rateInRange calls ->
    exists (z' : Z) (calls' : list Q),
      IRR_expand flows remaining fLow (inject_Z z)
        (npvAt flows (inject_Z z)) calls
      = (Ok (inject_Z z', npvAt flows (inject_Z z')), calls')
      /\ (1 <= z' <= 2 ^ 20)%Z
      /\ Forall rateInRange calls'
      /\ match find (fun h => negb (signsAgree fLow (npvAt flows h)))
                    (doublings remaining (inject_Z z)) with
         | Some h =>
             h = inject_Z z'
             /\ signsAgree fLow (npvAt flows (inject_Z z')) = false
         | None => signsAgree fLow (npvAt flows (inject_Z z')) = true
         end.
Proof.
  induction remaining as [| remaining IH]; intros z calls Hz Hbound Hcalls.
  - exists z, calls. cbn [IRR_expand doublings find].
    change (2 ^ Z.of_nat 0)%Z with 1%Z in Hbound.
    repeat split; try assumption; try lia.
    destruct (signsAgree fLow (npvAt flows (inject_Z z))) eqn:E; cbn;
      [reflexivity | split; reflexivity].
  - cbn [IRR_expand doublings find].
    rewrite Nat2Z.inj_succ, Z.pow_succ_r in Hbound by lia.
    assert (Hpow : (0 < 2 ^ Z.of_nat remaining)%Z)
      by (apply Z.pow_pos_nonneg; lia).
    unfold signsAgree at 1.
    destruct (0 <? fLow * npvAt flows (inject_Z z)) eqn:E.
    + cbn [negb].
      change (inject_Z z * 2) with (inject_Z (z * 2)).
      unfold mbind.
      rewrite f_run
        by (apply rateInRange_above_minus_one, rateInRange_inject; nia).
      destruct (IH (z * 2)%Z (calls ++ [inject_Z (z * 2)]))
        as (z' & calls' & Hrun & Hz' & Hc' & Hfind).
      * lia.
      * nia.
      * apply Forall_snoc; [exact Hcalls |].
        apply rateInRange_inject. nia.
      * exists z', calls'. repeat split; try assumption; lia.
    + cbn [negb]. exists z, calls. unfold mret.
      repeat split; try assumption; try lia; nia.
Qed.

(** The bisection loop agrees with the bisection of the specification and
    never leaves the bracket. *)
Lemma IRR_bisect_run (tolerance : Q) :
  forall (remaining : nat) (low high fLow fHigh low' high' : Q)
         (calls : list Q),
    low == low' -> high == high' -> fLow == npvAt flows low' ->
    -0.9999 <= low -> low <= high -> high <= 1048576 ->
    Forall rateInRange calls ->
    exists (r : Q) (calls' : list Q),
      IRR_bisect flows tolerance remaining low high fLow fHigh calls
      = (Ok r, calls')
      /\ rateInRange r
      /\ Forall rateInRange calls'
      /\ r == bisection flows tolerance remaining low' high'.
Proof.
  induction remaining as [| remaining IH];
    intros low high fLow fHigh low' high' calls
           Hlow Hhigh HfLow Hlo Hord Hhi Hcalls.
  - exists ((low + high) / 2), calls. cbn [IRR_bisect bisection].
    unfold mret, rateInRange.
    repeat split; try assumption; try (rewrite Qhalf; lra).
    rewrite Hlow, Hhigh. reflexivity.
  - cbn [IRR_bisect bisection].
    set (mid := Qred ((low + high) / 2)).
    set (mid' := (low' + high') / 2).
    assert (Hmid : mid == (low + high) / 2) by apply Qred_correct.
    assert (Hmm : mid == mid').
    { rewrite Hmid. unfold mid'. rewrite Hlow, Hhigh. reflexivity. }
    rewrite Qhalf in Hmid.
    assert (Hrange : rateInRange mid).
    { unfold rateInRange. rewrite Hmid. lra. }
    unfold mbind.
    rewrite f_run by (apply rateInRange_above_minus_one; exact Hrange).
    assert (Hf : npvAt flows mid == npvAt flows mid')
      by (apply npvAt_comp; exact Hmm).
    assert (Hcalls' : Forall rateInRange (calls ++ [mid]))
      by (apply Forall_snoc; assumption).
    unfold Js.Math_abs.
    rewrite (ltb_comp (Qabs (npvAt flows mid)) (Qabs (npvAt flows mid'))
               tolerance tolerance)
      by (rewrite ?Hf; reflexivity).
    destruct (Qabs (npvAt flows mid') <? tolerance).
    + exists mid, (calls ++ [mid]). unfold mret.
      split; [reflexivity | split; [exact Hrange |]].
      split; [exact Hcalls' | exact Hmm].
    + rewrite (ltb_comp (fLow * npvAt flows mid)
                 (npvAt flows low' * npvAt flows mid') 0 0)
        by (rewrite ?HfLow, ?Hf; reflexivity).
      destruct (npvAt flows low' * npvAt flows mid' <? 0);
        apply IH; try assumption; try (rewrite Hmid; lra).
Qed.

End IrrFacts.

Section IrrRun.
Import Investment InvestmentSpec.

Ltac irr_null :=
  unfold mret; cbn [andb];
  split; [reflexivity | split; [constructor | split; [discriminate | exact I]]].

Lemma short_list_no_mixed_signs (l : list Q) :
  (List.length l < 2)%nat ->
  existsb (fun v => 0 <? v) l && existsb (fun v => v <? 0) l = false.
Proof.
  destruct l as [| x [| y l]]; cbn [List.length]; intros H;
    [reflexivity | | lia].
  cbn [existsb]. rewrite !orb_false_r.
  destruct (ltb_spec 0 x); destruct (ltb_spec x 0); try reflexivity. lra.
Qed.

(** One run of [IRR] on exact numbers: it returns without throwing,
    every rate it hands to [NPV] and every root it returns lie in
    [-0.9999, 2^20], and its result is that of the specification.  (The
    rates are the same in double arithmetic; the results are not, where
    NPV overflows: see the section on double precision.) *)
Lemma IRR_traced_run (flows : list Q) (maxIterations : nat) (tolerance : Q) :
  exists (res : option Q) (calls : list Q),
    IRR_traced flows maxIterations tolerance [] = (Ok res, calls)
    /\ Forall rateInRange calls
    /\ (forall r, res = Some r -> rateInRange r)
    /\ optionQeq res (IRR_spec_with maxIterations tolerance flows).
Proof.
  unfold IRR_traced, IRR_spec_with.
  destruct (Nat.ltb_spec (List.length flows) 2) as [Hshort | Hlong].
  { exists None, [].
    rewrite (short_list_no_mixed_signs flows Hshort). irr_null. }
  destruct (existsb (fun value => 0 <? value) flows);
    [| exists None, []; irr_null].
  destruct (existsb (fun value => value <? 0) flows);
    [| exists None, []; irr_null].
  cbn [negb orb andb].
  unfold mbind at 1. rewrite f_run by lra.
  unfold mbind at 1. rewrite f_run by lra.
  assert (Hcalls : Forall rateInRange (([] ++ [-0.9999]) ++ [1])).
  { cbn. repeat constructor; unfold rateInRange; lra. }
  destruct (IRR_expand_run flows (npvAt flows (-0.9999)) 20 1%Z
              (([] ++ [-0.9999]) ++ [1]))
    as (z' & calls' & Hrun & Hz' & Hc' & Hfind);
    [lia | vm_compute; discriminate | exact Hcalls |].
  change (inject_Z 1) with 1 in Hrun, Hfind.
  unfold mbind at 1. rewrite Hrun. cbn [fst snd].
  unfold firstSignChange, upperBounds, lowerBound.
  destruct (find (fun h => negb (signsAgree (npvAt flows (-0.9999))
                                   (npvAt flows h)))
                 (doublings 20 1)) as [h |].
  - destruct Hfind as [-> Hsign]. unfold signsAgree in Hsign.
    rewrite Hsign.
    destruct (IRR_bisect_run flows tolerance maxIterations
                (-0.9999) (inject_Z z') (npvAt flows (-0.9999))
                (npvAt flows (inject_Z z')) (-0.9999) (inject_Z z') calls')
      as (r & calls'' & Hb & Hr & Hc'' & Hspec);
      try reflexivity; try exact Hc'; try lra.
    + apply (rateInRange_inject z' Hz').
    + apply (rateInRange_inject z' Hz').
    + unfold mbind. rewrite Hb. exists (Some r), calls''. unfold mret.
      split; [reflexivity | split; [exact Hc'' | split]].
      * intros r' Hr'. injection Hr' as <-. exact Hr.
      * exact Hspec.
  - unfold signsAgree in Hfind. rewrite Hfind.
    exists None, calls'. unfold mret.
    split; [reflexivity | split; [exact Hc' | split]];
      [discriminate | exact I].
Qed.

End IrrRun.

Section IrrClaims.
Import Investment InvestmentSpec.

(** C10.  [IRR] is total and never makes [NPV] throw: for every list of
    cash flows (and every iteration budget and tolerance) the call
    returns a value; every rate it hands to [NPV] lies in
    [-0.9999, 2^20], so that [NPV] accepts it; and a root it returns lies
    in the same interval. *)
Theorem IRR_rates_stay_in_bracket :
  forall (flows : list Q) (maxIterations : nat) (tolerance : Q),
    exists (res : option Q) (calls : list Q),
      IRR_traced flows maxIterations tolerance [] = (Ok res, calls)
      /\ Forall rateInRange calls
      /\ Forall (fun rate => -1 < rate
                             /\ NPV rate flows = Ok (npvAt flows rate)) calls
      /\ match res with
         | Some r => rateInRange r
         | None => True
         end
      /\ exists res', IRR flows = Ok res'
                      /\ match res' with
                         | Some r => rateInRange r
                         | None => True
                         end.
Proof.
  intros flows maxIterations tolerance.
  destruct (IRR_traced_run flows maxIterations tolerance)
    as (res & calls & Hrun & Hcalls & Hres & _).
  exists res, calls. split; [exact Hrun | split; [exact Hcalls | split]].
  - apply Forall_impl with (P := rateInRange); [| exact Hcalls].
    intros rate Hr. apply rateInRange_above_minus_one in Hr.
    split; [exact Hr |].
    unfold NPV. destruct (leb_spec rate (-1)); [lra | reflexivity].
  - split.
    + destruct res; [apply Hres; reflexivity | exact I].
    + destruct (IRR_traced_run flows 200 0.0000001)
        as (res' & calls' & Hrun' & _ & Hres' & _).
      exists res'. unfold IRR. rewrite Hrun'. split; [reflexivity |].
      destruct res'; [apply Hres'; reflexivity | exact I].
Qed.

End IrrClaims.

Section InvestmentClaims.
Import Investment InvestmentSpec.

(** The comparison of the repository's test: with contiguous periods the
    three series are aligned and the grinder purchase is preferred. *)
Example evaluateInvestment_test_fixture :
  exists res,
    evaluateInvestment testInput = Ok res
    /\ cashFlows (baselineMetrics res) = [0; 20; 20; 20]
    /\ cashFlows (grinderPurchaseMetrics res) = [-100; 90; 90; 90]
    /\ cashFlows (incrementalMetrics res) = [-100; 70; 70; 70]
    /\ preferredOption res = preferGrinderPurchase.
Proof.
  eexists. split; [vm_compute; reflexivity |].
  repeat split; vm_compute; reflexivity.
Qed.

(** C1, evaluated where it fails.  The baseline has points at periods 1,
    2 and 3, the grinder purchase at periods 1 and 3 only.  The grinder
    series is built over the grinder's own periods, [-100, 90, 90], with
    no entry for period 2, while the incremental series is built over the
    union of the periods and has four entries; the period-3 flow of the
    grinder purchase is therefore discounted at exponent 2, not 3. *)
Theorem evaluateInvestment_drops_missing_periods :
  exists res,
    evaluateInvestment gapInput = Ok res
    /\ cashFlows (baselineMetrics res) = [0; 20; 20; 20]
    /\ cashFlows (grinderPurchaseMetrics res) = [-100; 90; 90]
    /\ cashFlows (incrementalMetrics res) = [-100; 70; -20; 70]
    /\ npv (grinderPurchaseMetrics res)
       == -100 + 90 / (1 + 0.1) ^ 1 + 90 / (1 + 0.1) ^ 2
    /\ ~ npv (grinderPurchaseMetrics res)
         == -100 + 90 / (1 + 0.1) ^ 1 + 0 / (1 + 0.1) ^ 2
            + 90 / (1 + 0.1) ^ 3.
Proof.
  eexists. split; [vm_compute; reflexivity |].
  repeat split; try (vm_compute; reflexivity).
  vm_compute. discriminate.
Qed.

End InvestmentClaims.

(** ** Rounding to six decimals *)

Section RoundingFacts.

Lemma Qdiv_le_compat (a b s : Q) : 0 < s -> a <= b -> a / s <= b / s.
Proof.
  intros Hs Hab. unfold Qdiv. apply Qmult_le_compat_r; [exact Hab |].
  apply Qlt_le_weak, Qinv_lt_0_compat, Hs.
Qed.

Lemma scale_positive (digits : nat) : 0 < inject_Z (10 ^ Z.of_nat digits).
Proof.
  change 0 with (inject_Z 0). rewrite <- Zlt_Qlt.
  apply Z.pow_pos_nonneg; lia.
Qed.

Lemma Qfloor_nonneg (x : Q) : 0 <= x -> (0 <= Qfloor x)%Z.
Proof. intros H. apply (Qfloor_resp_le 0 x H). Qed.

Lemma Qfloor_half (n : Z) : Qfloor (inject_Z n + 0.5) = n.
Proof.
  pose proof (Qfloor_le (inject_Z n + 0.5)) as Hle.
  pose proof (Qlt_floor (inject_Z n + 0.5)) as Hlt.
  set (m := Qfloor (inject_Z n + 0.5)) in *.
  assert (H1 : inject_Z m < inject_Z (n + 1)).
  { rewrite inject_Z_plus. change (inject_Z 1) with 1. lra. }
  assert (H2 : inject_Z n < inject_Z (m + 1)) by lra.
  rewrite <- Zlt_Qlt in H1, H2. lia.
Qed.

Variable digits : nat.

Lemma toFixed_mono (x y : Q) :
  x <= y -> Js.toFixed x digits <= Js.toFixed y digits.
Proof.
  intros Hxy. unfold Js.toFixed.
  pose proof (scale_positive digits) as Hs.
  set (s := inject_Z (10 ^ Z.of_nat digits)) in *.
  assert (Hn : forall v, 0 <= inject_Z (Qfloor (Qabs v * s + 0.5)) / s).
  { intros v. apply Qle_shift_div_l; [exact Hs |].
    rewrite Qmult_0_l. change 0 with (inject_Z 0). rewrite <- Zle_Qle.
    apply Qfloor_nonneg.
    pose proof (Qabs_nonneg v).
    assert (0 <= Qabs v * s) by (apply Qmult_le_0_compat; lra). lra. }
  destruct (ltb_spec x 0) as [Hx | Hx]; destruct (ltb_spec y 0) as [Hy | Hy].
  - apply Qopp_le_compat. apply Qdiv_le_compat; [exact Hs |].
    rewrite <- Zle_Qle. apply Qfloor_resp_le.
    rewrite (Qabs_neg x), (Qabs_neg y) by lra.
    assert (- y * s <= - x * s) by (apply Qmult_le_compat_r; lra). lra.
  - pose proof (Hn x). pose proof (Hn y). lra.
  - lra.
  - apply Qdiv_le_compat; [exact Hs |].
    rewrite <- Zle_Qle. apply Qfloor_resp_le.
    rewrite (Qabs_pos x), (Qabs_pos y) by lra.
    assert (x * s <= y * s) by (apply Qmult_le_compat_r; lra). lra.
Qed.

Lemma toFixed_idempotent (x : Q) :
  Js.toFixed (Js.toFixed x digits) digits == Js.toFixed x digits.
Proof.
  pose proof (scale_positive digits) as Hs.
  set (s := inject_Z (10 ^ Z.of_nat digits)) in *.
  set (n := Qfloor (Qabs x * s + 0.5)).
  assert (Hval : Js.toFixed x digits
                 = if x <? 0 then - (inject_Z n / s) else inject_Z n / s)
    by reflexivity.
  rewrite Hval. clear Hval.
  assert (Hn0 : (0 <= n)%Z).
  { apply Qfloor_nonneg. pose proof (Qabs_nonneg x).
    assert (0 <= Qabs x * s) by (apply Qmult_le_0_compat; lra). lra. }
  assert (Hq : 0 <= inject_Z n / s).
  { apply Qle_shift_div_l; [exact Hs |]. rewrite Qmult_0_l.
    change 0 with (inject_Z 0). now rewrite <- Zle_Qle. }
  assert (Hfloor : forall r, Qabs r == inject_Z n / s ->
                             Qfloor (Qabs r * s + 0.5) = n).
  { intros r Hr. rewrite <- (Qfloor_half n).
    apply Qfloor_comp. rewrite Hr. field. lra. }
  destruct (x <? 0).
  - assert (Habs : Qabs (- (inject_Z n / s)) == inject_Z n / s)
      by (rewrite Qabs_opp; apply Qabs_pos; exact Hq).
    unfold Js.toFixed. fold s. rewrite (Hfloor _ Habs).
    destruct (ltb_spec (- (inject_Z n / s)) 0); [reflexivity | lra].
  - assert (Habs : Qabs (inject_Z n / s) == inject_Z n / s)
      by (apply Qabs_pos; exact Hq).
    unfold Js.toFixed. fold s. rewrite (Hfloor _ Habs).
    destruct (ltb_spec (inject_Z n / s) 0); [lra | reflexivity].
Qed.

End RoundingFacts.

(** ** The sensitivity sweep *)

Section SweepLists.
Import Sensitivity SensitivitySpec.

Lemma round_mono (x y : Q) : x <= y -> round x <= round y.
Proof. apply toFixed_mono. Qed.

Lemma round_idempotent (x : Q) : round (round x) == round x.
Proof. apply toFixed_idempotent. Qed.

Lemma dedupe_from_In (values : list Q) :
  forall (seen : list Q) (v : Q),
    In v (Js.dedupe_from seen values) -> In v values.
Proof.
  induction values as [| x values IH]; intros seen v Hin; [exact Hin |].
  cbn [Js.dedupe_from] in Hin.
  destruct (existsb (Qeq_bool x) seen).
  - right. exact (IH seen v Hin).
  - destruct Hin as [<- | Hin]; [now left | right; exact (IH _ v Hin)].
Qed.

(** Every value of an expanded axis is a rounded number. *)
Lemma expandRangeValues_rounded (range : Range.t) (v : Q) :
  In v (expandRangeValues range) -> exists x, v = round x.
Proof.
  unfold expandRangeValues. intros Hin.
  apply dedupe_from_In in Hin.
  set (values := map _ (stepIndices _)) in Hin.
  assert (Hvalues : forall w, In w values -> exists x, w = round x).
  { intros w Hw. unfold values in Hw. apply in_map_iff in Hw.
    destruct Hw as (idx & <- & _). eexists; reflexivity. }
  destruct (List.rev values) as [| lastValue rest]; [now apply Hvalues |].
  destruct (EPSILON <? Range.end_ range - lastValue); [| now apply Hvalues].
  apply in_app_or in Hin. destruct Hin as [Hin | [<- | []]].
  - now apply Hvalues.
  - eexists; reflexivity.
Qed.

Lemma axis_value_is_fixed_by_round (range : Range.t) (v : Q) :
  In v (expandRangeValues range) -> round v == v.
Proof.
  intros Hin. destruct (expandRangeValues_rounded range v Hin) as (x & ->).
  apply round_idempotent.
Qed.

Lemma flat_map_length_const {A B : Type} (g : A -> list B) (l : list A)
    (m : nat) :
  (forall a, In a l -> List.length (g a) = m) ->
  List.length (flat_map g l) = (List.length l * m)%nat.
Proof.
  induction l as [| a l IH]; intros Hg; [reflexivity |].
  cbn [flat_map List.length]. rewrite length_app, IH, Hg.
  - lia.
  - now left.
  - intros b Hb. apply Hg. now right.
Qed.

Lemma gridInputs_length (payload : Payload.t) (mode : GrinderAxisMode)
    (hs rs gs : list Q) :
  List.length (gridInputs payload mode hs rs gs)
  = (List.length hs * List.length rs * List.length gs)%nat.
Proof.
  unfold gridInputs.
  rewrite (flat_map_length_const _ hs (List.length rs * List.length gs)%nat).
  - lia.
  - intros h _.
    rewrite (flat_map_length_const _ rs (List.length gs)); [reflexivity |].
    intros r _. apply length_map.
Qed.

(** Where the fields of a grid input come from. *)
Lemma gridInputs_In (payload : Payload.t) (mode : GrinderAxisMode)
    (hs rs gs : list Q) (input : SensitivityPointInput.t) :
  In input (gridInputs payload mode hs rs gs) ->
  In (SensitivityPointInput.haulDistancePerTripKm input) hs
  /\ In (SensitivityPointInput.reuseUptakeRate input) rs
  /\ exists g,
       In g gs
       /\ SensitivityPointInput.grinderThroughputKgPerHour input
          = match mode with
            | utilization =>
                Simulation.grinderThroughputKgPerHour
                  (Payload.costDrivers payload) * g
            | throughput => g
            end.
Proof.
  unfold gridInputs. intros Hin.
  apply in_flat_map in Hin. destruct Hin as (h & Hh & Hin).
  apply in_flat_map in Hin. destruct Hin as (r & Hr & Hin).
  apply in_map_iff in Hin. destruct Hin as (g & <- & Hg).
  cbn. repeat split; try assumption. exists g. split; [exact Hg | reflexivity].
Qed.

End SweepLists.

Section MapM.
Context {S A B : Type}.
Variable step : A -> M S B.

Lemma mapM_inv (xs : list A) :
  forall (s s' : S) (ys : list B),
    mapM step xs s = (Ok ys, s') ->
    List.length ys = List.length xs
    /\ forall y, In y ys ->
         exists x s1 s2, In x xs /\ step x s1 = (Ok y, s2).
Proof.
  induction xs as [| x xs IH]; intros s s' ys Hrun.
  - cbn in Hrun. injection Hrun as <- _. split; [reflexivity | intros y []].
  - cbn [mapM] in Hrun. unfold mbind in Hrun.
    destruct (step x s) as [[y0 | msg] s1] eqn:Hx; [| discriminate].
    destruct (mapM step xs s1) as [[ys0 | msg] s2] eqn:Hxs; [| discriminate].
    unfold mret in Hrun. injection Hrun as <- _.
    destruct (IH s1 s2 ys0 Hxs) as [Hlen Hall].
    split; [cbn; now rewrite Hlen |].
    intros y [<- | Hy].
    + exists x, s, s1. split; [now left | exact Hx].
    + destruct (Hall y Hy) as (x' & t1 & t2 & Hin & Hstep).
      exists x', t1, t2. split; [now right | exact Hstep].
Qed.

End MapM.

Section MapMCount.
Context {A B : Type}.
Variable step : A -> M nat B.



End MapMCount.

Section SweepPoint.
Import Sensitivity SensitivitySpec.

Variable Math_pow : Q -> Q -> Q.

Lemma computeSensitivityPoint_ok (input : SensitivityPointInput.t)
    (context : SensitivityContext.t) (runs : nat) :
  SimulationSpec.guardsHold (coreUnitOfWork input context)
    (coreCostDrivers input context) (coreSustainabilityDrivers context)
    baselineOptions ->
  SimulationSpec.guardsHold (coreUnitOfWork input context)
    (coreCostDrivers input context) (coreSustainabilityDrivers context)
    scenarioOptions ->
  computeSensitivityPoint Math_pow input context runs
  = (Ok (assemblePoint Math_pow input context
           (SimulationSpec.outcome (coreUnitOfWork input context)
              (coreCostDrivers input context)
              (coreSustainabilityDrivers context) baselineOptions)
           (SimulationSpec.outcome (coreUnitOfWork input context)
              (coreCostDrivers input context)
              (coreSustainabilityDrivers context) scenarioOptions)),
     2 + runs)%nat.
Proof.
  intros Hb Hs.
  unfold computeSensitivityPoint, mbind, Sensitivity.simulatePanelFlow.
  fold baselineOptions. fold scenarioOptions.
  fold (coreUnitOfWork input context). fold (coreCostDrivers input context).
  fold (coreSustainabilityDrivers context).
  rewrite (simulatePanelFlow_ok _ _ _ _ Hb).
  rewrite (simulatePanelFlow_ok _ _ _ _ Hs).
  reflexivity.
Qed.

Lemma computeSensitivityPoint_inv (input : SensitivityPointInput.t)
    (context : SensitivityContext.t) (runs runs' : nat)
    (p : SensitivityPointComputation) :
  computeSensitivityPoint Math_pow input context runs = (Ok p, runs') ->
  SimulationSpec.guardsHold (coreUnitOfWork input context)
    (coreCostDrivers input context) (coreSustainabilityDrivers context)
    baselineOptions
  /\ SimulationSpec.guardsHold (coreUnitOfWork input context)
       (coreCostDrivers input context) (coreSustainabilityDrivers context)
       scenarioOptions
  /\ p = assemblePoint Math_pow input context
           (SimulationSpec.outcome (coreUnitOfWork input context)
              (coreCostDrivers input context)
              (coreSustainabilityDrivers context) baselineOptions)
           (SimulationSpec.outcome (coreUnitOfWork input context)
              (coreCostDrivers input context)
              (coreSustainabilityDrivers context) scenarioOptions).
Proof.
  intros Hrun.
  destruct (guards_dichotomy (coreUnitOfWork input context)
              (coreCostDrivers input context)
              (coreSustainabilityDrivers context) baselineOptions)
    as [Hb | Hb].
  - destruct (guards_dichotomy (coreUnitOfWork input context)
                (coreCostDrivers input context)
                (coreSustainabilityDrivers context) scenarioOptions)
      as [Hs | Hs].
    + rewrite (computeSensitivityPoint_ok input context runs Hb Hs) in Hrun.
      injection Hrun as <- _.
      split; [exact Hb | split; [exact Hs | reflexivity]].
    + exfalso. apply simulatePanelFlow_throws in Hs. destruct Hs as [msg Hs].
      unfold computeSensitivityPoint, mbind, Sensitivity.simulatePanelFlow
        in Hrun.
      fold baselineOptions in Hrun. fold scenarioOptions in Hrun.
      fold (coreUnitOfWork input context) in Hrun.
      fold (coreCostDrivers input context) in Hrun.
      fold (coreSustainabilityDrivers context) in Hrun.
      rewrite (simulatePanelFlow_ok _ _ _ _ Hb), Hs in Hrun. discriminate.
  - exfalso. apply simulatePanelFlow_throws in Hb. destruct Hb as [msg Hb].
    unfold computeSensitivityPoint, mbind, Sensitivity.simulatePanelFlow
      in Hrun.
    fold baselineOptions in Hrun.
    fold (coreUnitOfWork input context) in Hrun.
    fold (coreCostDrivers input context) in Hrun.
    fold (coreSustainabilityDrivers context) in Hrun.
    rewrite Hb in Hrun. discriminate.
Qed.

Lemma penalty_emissions_comp (h1 h2 : Q) (proxy : NormalizedPenaltyProxy.t) :
  h1 == h2 ->
  emissionsPenaltyTonsCO2e (computeExpeditePenaltyProxy Math_pow h1 proxy)
  == emissionsPenaltyTonsCO2e (computeExpeditePenaltyProxy Math_pow h2 proxy).
Proof.
  intros H. unfold computeExpeditePenaltyProxy.
  destruct (negb (NormalizedPenaltyProxy.enabled proxy));
    cbn [emissionsPenaltyTonsCO2e]; [reflexivity |].
  unfold Js.Math_max. rewrite H. reflexivity.
Qed.

End SweepPoint.

Section SweepMonotone.
Import Sensitivity SensitivitySpec.

Variable Math_pow : Q -> Q -> Q.

Lemma avoided_arith (bE1 bE2 sE1 sE2 bd1 bd2 sd1 sd2 bv1 bv2 sv1 sv2 p1 p2 : Q) :
  bE1 == bE2 -> sE1 == sE2 -> bd1 == bd2 -> sd1 <= sd2 -> bv1 == bv2 ->
  sv1 <= sv2 -> p1 == p2 ->
  bE2 + bd2 + bv2 - (sE2 + sd2 + sv2 + p2)
  <= bE1 + bd1 + bv1 - (sE1 + sd1 + sv1 + p1).
Proof. intros. lra. Qed.

Lemma assemblePoint_monotone (context : SensitivityContext.t)
    (i1 i2 : SensitivityPointInput.t)
    (b1 s1 b2 s2 : Simulation.SimulationResult) :
  SensitivityPointInput.haulDistancePerTripKm i1
  == SensitivityPointInput.haulDistancePerTripKm i2 ->
  SensitivityPointInput.reuseUptakeRate i2
  <= SensitivityPointInput.reuseUptakeRate i1 ->
  Simulation.totalEmissions b1 == Simulation.totalEmissions b2 ->
  Simulation.totalEmissions s1 == Simulation.totalEmissions s2 ->
  Simulation.materialRecovered b1 == Simulation.materialRecovered b2 ->
  Simulation.materialRecovered s1 == Simulation.materialRecovered s2 ->
  0 < Simulation.truckCapacity (SensitivityContext.costDrivers context) ->
  0 <= SensitivityPointInput.haulDistancePerTripKm i1 ->
  0 <= Simulation.haulEmissionsPerKm
         (SensitivityContext.sustainabilityDrivers context) ->
  0 <= NormalizedSensitivityAssumptions.virginAggregateEmissionsPerKg
         (SensitivityContext.assumptions context) ->
  SensitivityPointDiagnostics.scenarioVirginAggregateEmissionsTonsCO2e
    (diagnostics (assemblePoint Math_pow i1 context b1 s1))
  <= SensitivityPointDiagnostics.scenarioVirginAggregateEmissionsTonsCO2e
       (diagnostics (assemblePoint Math_pow i2 context b2 s2))
  /\ SensitivityPlotPoint.emissionsAvoidedTonsCO2e
       (point (assemblePoint Math_pow i2 context b2 s2))
     <= SensitivityPlotPoint.emissionsAvoidedTonsCO2e
          (point (assemblePoint Math_pow i1 context b1 s1)).
Proof.
  intros Hh Hr HbE HsE HbR HsR Hcap Hh0 Hhe Hve.
  unfold assemblePoint.
  cbn [diagnostics point
       SensitivityPointDiagnostics.scenarioVirginAggregateEmissionsTonsCO2e
       SensitivityPlotPoint.emissionsAvoidedTonsCO2e].
  set (inbound :=
         Simulation.inboundMaterial (SensitivityContext.unitOfWork context)).
  set (cap := Simulation.truckCapacity (SensitivityContext.costDrivers context))
    in *.
  set (he := Simulation.haulEmissionsPerKm
               (SensitivityContext.sustainabilityDrivers context)) in *.
  set (ve := NormalizedSensitivityAssumptions.virginAggregateEmissionsPerKg
               (SensitivityContext.assumptions context)) in *.
  set (h1 := SensitivityPointInput.haulDistancePerTripKm i1) in *.
  set (h2 := SensitivityPointInput.haulDistancePerTripKm i2) in *.
  set (r1 := SensitivityPointInput.reuseUptakeRate i1) in *.
  set (r2 := SensitivityPointInput.reuseUptakeRate i2) in *.
  unfold Js.Math_max, Js.Math_ceil.
  set (res1 := Qmax 0 (inbound - Simulation.materialRecovered s1)).
  set (res2 := Qmax 0 (inbound - Simulation.materialRecovered s2)).
  assert (Hres : res1 == res2) by (unfold res1, res2; now rewrite HsR).
  assert (Hres0 : 0 <= res1) by apply Q.le_max_l.
  assert (Hreuse : res2 * r2 <= res1 * r1).
  { rewrite <- Hres. rewrite !(Qmult_comm res1).
    apply Qmult_le_compat_r; assumption. }
  assert (Hvirgin : Qmax 0 (inbound - res1 * r1) <= Qmax 0 (inbound - res2 * r2))
    by (apply Q.max_le_compat_l; lra).
  assert (Hland : Qmax 0 (res1 - res1 * r1) <= Qmax 0 (res2 - res2 * r2))
    by (apply Q.max_le_compat_l; lra).
  assert (Htrips : inject_Z (Qceiling (Qmax 0 (res1 - res1 * r1) / cap))
                   <= inject_Z (Qceiling (Qmax 0 (res2 - res2 * r2) / cap))).
  { rewrite <- Zle_Qle. apply Qceiling_resp_le.
    apply Qdiv_le_compat; assumption. }
  split; apply round_mono.
  - apply Qmult_le_compat_r; assumption.
  - apply avoided_arith.
    + exact HbE.
    + exact HsE.
    + rewrite HbR, Hh. reflexivity.
    + rewrite <- Hh.
      apply Qmult_le_compat_r; [| exact Hhe].
      apply Qmult_le_compat_r; [exact Htrips | exact Hh0].
    + reflexivity.
    + apply Qmult_le_compat_r; assumption.
    + apply penalty_emissions_comp. exact Hh.
Qed.

End SweepMonotone.

Section SweepGrid.
Import Sensitivity SensitivitySpec.

Variable Math_pow : Q -> Q -> Q.

Lemma outcome_emissions_comp (context : SensitivityContext.t)
    (i1 i2 : SensitivityPointInput.t) (o : Simulation.SimulationOptions) :
  SensitivityPointInput.haulDistancePerTripKm i1
  == SensitivityPointInput.haulDistancePerTripKm i2 ->
  Simulation.totalEmissions
    (SimulationSpec.outcome (coreUnitOfWork i1 context)
       (coreCostDrivers i1 context) (coreSustainabilityDrivers context) o)
  == Simulation.totalEmissions
       (SimulationSpec.outcome (coreUnitOfWork i2 context)
          (coreCostDrivers i2 context) (coreSustainabilityDrivers context) o).
Proof.
  intros H.
  unfold SimulationSpec.outcome, coreUnitOfWork, coreCostDrivers,
    toCoreUnitOfWork, toCoreCostDrivers.
  cbn [Simulation.totalEmissions Simulation.inboundMaterial
       Simulation.haulDistancePerTrip Simulation.truckCapacity].
  rewrite H. reflexivity.
Qed.

Lemma outcome_recovered_eq (context : SensitivityContext.t)
    (i1 i2 : SensitivityPointInput.t) (o : Simulation.SimulationOptions) :
  Simulation.materialRecovered
    (SimulationSpec.outcome (coreUnitOfWork i1 context)
       (coreCostDrivers i1 context) (coreSustainabilityDrivers context) o)
  = Simulation.materialRecovered
      (SimulationSpec.outcome (coreUnitOfWork i2 context)
         (coreCostDrivers i2 context) (coreSustainabilityDrivers context) o).
Proof. reflexivity. Qed.

(** The points of a successful sweep are the points computed, one by one,
    from the grid inputs. *)
Lemma buildSensitivityGrid_inv (payload : Payload.t) (runs runs' : nat)
    (grid : SensitivityGridResult.t) :
  buildSensitivityGrid Math_pow payload runs = (Ok grid, runs') ->
  List.length (SensitivityGridResult.points grid) = gridPointCount payload
  /\ forall p, In p (SensitivityGridResult.points grid) ->
       exists input s1 s2,
         In input (gridInputs payload (axisModeOf payload) (haulAxis payload)
                     (reuseAxis payload) (grinderAxis payload))
         /\ computeSensitivityPoint Math_pow input (contextOf payload) s1
            = (Ok p, s2).
Proof.
  unfold buildSensitivityGrid.
  fold (haulAxis payload). fold (reuseAxis payload).
  fold (grinderAxis payload). fold (axisModeOf payload).
  fold (contextOf payload).
  destruct (MAX_GRID_POINTS <? _)%nat; [discriminate |].
  unfold mbind.
  destruct (mapM _ _ runs) as [[points | msg] s] eqn:Hmap; [| discriminate].
  unfold mret. intros Hgrid. injection Hgrid as <- _.
  cbn [SensitivityGridResult.points].
  destruct (mapM_inv _ _ _ _ _ Hmap) as [Hlen Hall].
  split.
  - rewrite Hlen, gridInputs_length. reflexivity.
  - exact Hall.
Qed.

Lemma schema_nonnegative_factors (payload : Payload.t) :
  sensitivityRequestSchema payload = true ->
  0 <= Simulation.haulEmissionsPerKm
         (SensitivityContext.sustainabilityDrivers (contextOf payload))
  /\ 0 <= NormalizedSensitivityAssumptions.virginAggregateEmissionsPerKg
            (SensitivityContext.assumptions (contextOf payload)).
Proof.
  unfold sensitivityRequestSchema. intros H.
  repeat (apply andb_prop in H; destruct H as [H ?]).
  split.
  - match goal with
    | Hs : sustainabilityDriversSchema _ = true |- _ =>
        unfold sustainabilityDriversSchema in Hs;
        repeat (apply andb_prop in Hs; destruct Hs as [Hs ?])
    end.
    cbn [contextOf SensitivityContext.sustainabilityDrivers].
    match goal with
    | Hn : nonnegative (Simulation.haulEmissionsPerKm _) = true |- _ =>
        unfold nonnegative in Hn;
        destruct (leb_spec 0 (Simulation.haulEmissionsPerKm
                                (Payload.sustainabilityDrivers payload)));
        [assumption | discriminate]
    end.
  - match goal with
    | Ha : sensitivityAssumptionsSchema _ = true |- _ =>
        unfold sensitivityAssumptionsSchema in Ha
    end.
    cbn [contextOf SensitivityContext.assumptions resolveNormalizedInput fst
         NormalizedSensitivityAssumptions.virginAggregateEmissionsPerKg].
    unfold resolveAssumption, optionalField, Js.nullish.
    destruct (Payload.assumptions payload) as [a |];
      [| cbn; lra].
    match goal with
    | Ha : optional _ (Some a) = true |- _ =>
        cbn [optional] in Ha;
        repeat (apply andb_prop in Ha; destruct Ha as [Ha ?])
    end.
    destruct (Assumptions.virginAggregateEmissionsPerKg a) as [v |];
      [| cbn; lra].
    match goal with
    | Hn : optional nonnegative (Some v) = true |- _ =>
        cbn [optional] in Hn; unfold nonnegative in Hn;
        destruct (leb_spec 0 v); [assumption | discriminate]
    end.
Qed.

End SweepGrid.

Section SweepClaims.
Import Sensitivity SensitivitySpec GridSpec.

Lemma gridPoints_In (Math_pow : Q -> Q -> Q) (payload : Payload.t)
    (runs : nat) (p : SensitivityPointComputation) :
  In p (gridPoints Math_pow payload runs) ->
  exists input s1 s2,
    In input (gridInputs payload (axisModeOf payload) (haulAxis payload)
                (reuseAxis payload) (grinderAxis payload))
    /\ computeSensitivityPoint Math_pow input (contextOf payload) s1
       = (Ok p, s2).
Proof.
  unfold gridPoints. intros Hin.
  destruct (buildSensitivityGrid Math_pow payload runs)
    as [[grid | msg] runs'] eqn:Hgrid; cbn [fst] in Hin; [| destruct Hin].
  destruct (buildSensitivityGrid_inv Math_pow payload runs runs' grid Hgrid)
    as [_ Hall].
  exact (Hall p Hin).
Qed.

(** Holding the haul distance fixed, a larger reuse uptake rate gives no
    larger scenario virgin-aggregate emissions and no smaller avoided
    emissions (as reported, after rounding, and without any tolerance). *)
Lemma sweep_monotone_in_reuse (Math_pow : Q -> Q -> Q) (payload : Payload.t)
    (runs : nat) (p1 p2 : SensitivityPointComputation) :
  sensitivityRequestSchema payload = true ->
  In p1 (gridPoints Math_pow payload runs) ->
  In p2 (gridPoints Math_pow payload runs) ->
  SensitivityPlotPoint.haulDistancePerTripKm (point p1)
  == SensitivityPlotPoint.haulDistancePerTripKm (point p2) ->
  SensitivityPlotPoint.reuseUptakeRate (point p2)
  < SensitivityPlotPoint.reuseUptakeRate (point p1) ->
  SensitivityPointDiagnostics.scenarioVirginAggregateEmissionsTonsCO2e
    (diagnostics p1)
  <= SensitivityPointDiagnostics.scenarioVirginAggregateEmissionsTonsCO2e
       (diagnostics p2)
  /\ SensitivityPlotPoint.emissionsAvoidedTonsCO2e (point p2)
     <= SensitivityPlotPoint.emissionsAvoidedTonsCO2e (point p1).
Proof.
  intros Hschema Hin1 Hin2 Hhaul Hrate.
  destruct (gridPoints_In _ _ _ _ Hin1) as (i1 & a1 & a2 & Hi1 & Hrun1).
  destruct (gridPoints_In _ _ _ _ Hin2) as (i2 & c1 & c2 & Hi2 & Hrun2).
  apply computeSensitivityPoint_inv in Hrun1.
  apply computeSensitivityPoint_inv in Hrun2.
  destruct Hrun1 as (Hg1 & _ & ->). destruct Hrun2 as (_ & _ & ->).
  apply gridInputs_In in Hi1. apply gridInputs_In in Hi2.
  destruct Hi1 as (Hh1 & _ & _). destruct Hi2 as (Hh2 & _ & _).
  apply axis_value_is_fixed_by_round in Hh1, Hh2.
  cbn [assemblePoint point SensitivityPlotPoint.haulDistancePerTripKm
       SensitivityPlotPoint.reuseUptakeRate] in Hhaul, Hrate.
  destruct (schema_nonnegative_factors payload Hschema) as [Hhe Hve].
  destruct Hg1 as (_ & _ & Hcap & _ & Hpos & _).
  apply assemblePoint_monotone.
  - rewrite <- Hh1, <- Hh2. exact Hhaul.
  - destruct (Qlt_le_dec (SensitivityPointInput.reuseUptakeRate i1)
                (SensitivityPointInput.reuseUptakeRate i2)) as [Hlt | Hle];
      [| exact Hle].
    apply Qlt_le_weak, round_mono in Hlt. lra.
  - apply outcome_emissions_comp. rewrite <- Hh1, <- Hh2. exact Hhaul.
  - apply outcome_emissions_comp. rewrite <- Hh1, <- Hh2. exact Hhaul.
  - reflexivity.
  - reflexivity.
  - exact Hcap.
  - apply Qlt_le_weak. exact Hpos.
  - exact Hhe.
  - exact Hve.
Qed.

(** C4.  For every request accepted by the schema and every two points of
    its grid with the same haul distance and the same grinder-axis value,
    the point with the greater reuseUptakeRate reports scenario
    virgin-aggregate emissions not above the other's plus 1e-9 and avoided
    emissions not below the other's minus 1e-9. *)
Theorem sweep_monotone_within_tolerance :
  forall (Math_pow : Q -> Q -> Q) (payload : Payload.t) (runs : nat)
         (p1 p2 : SensitivityPointComputation),
    sensitivityRequestSchema payload = true ->
    In p1 (gridPoints Math_pow payload runs) ->
    In p2 (gridPoints Math_pow payload runs) ->
    SensitivityPlotPoint.haulDistancePerTripKm (point p1)
    == SensitivityPlotPoint.haulDistancePerTripKm (point p2) ->
    sameGrinderAxis (point p1) (point p2) ->
    SensitivityPlotPoint.reuseUptakeRate (point p2)
    < SensitivityPlotPoint.reuseUptakeRate (point p1) ->
    SensitivityPointDiagnostics.scenarioVirginAggregateEmissionsTonsCO2e
      (diagnostics p1)
    <= SensitivityPointDiagnostics.scenarioVirginAggregateEmissionsTonsCO2e
         (diagnostics p2) + 0.000000001
    /\ SensitivityPlotPoint.emissionsAvoidedTonsCO2e (point p2) - 0.000000001
       <= SensitivityPlotPoint.emissionsAvoidedTonsCO2e (point p1).
Proof.
  intros Math_pow payload runs p1 p2 Hschema Hin1 Hin2 Hhaul _ Hrate.
  destruct (sweep_monotone_in_reuse Math_pow payload runs p1 p2
              Hschema Hin1 Hin2 Hhaul Hrate) as [Hv He].
  split; lra.
Qed.

Lemma sweep_monotone_within_tolerance_witness :
  exists p1 p2 : SensitivityPointComputation,
    In p1 (gridPoints integerPower basePayload 0%nat)
    /\ In p2 (gridPoints integerPower basePayload 0%nat)
    /\ SensitivityPlotPoint.reuseUptakeRate (point p2)
       < SensitivityPlotPoint.reuseUptakeRate (point p1)
    /\ SensitivityPointDiagnostics.scenarioVirginAggregateEmissionsTonsCO2e
         (diagnostics p1)
       <= SensitivityPointDiagnostics.scenarioVirginAggregateEmissionsTonsCO2e
            (diagnostics p2) + 0.000000001
    /\ SensitivityPlotPoint.emissionsAvoidedTonsCO2e (point p2) - 0.000000001
       <= SensitivityPlotPoint.emissionsAvoidedTonsCO2e (point p1).
Proof.
  assert (H : exists p1 p2,
             nth_error (gridPoints integerPower basePayload 0%nat) 2 = Some p1
             /\ nth_error (gridPoints integerPower basePayload 0%nat) 0 = Some p2).
  { vm_compute. eexists. eexists. split; reflexivity. }
  destruct H as (p1 & p2 & H1 & H2).
  assert (Hin1 : In p1 (gridPoints integerPower basePayload 0%nat))
    by (eapply nth_error_In; exact H1).
  assert (Hin2 : In p2 (gridPoints integerPower basePayload 0%nat))
    by (eapply nth_error_In; exact H2).
  vm_compute in H1. injection H1 as <-.
  vm_compute in H2. injection H2 as <-.
  eexists. eexists.
  split; [exact Hin1 | split; [exact Hin2 |]].
  split; [vm_compute; reflexivity |].
  apply (sweep_monotone_within_tolerance integerPower basePayload 0%nat _ _).
  - vm_compute. reflexivity.
  - exact Hin1.
  - exact Hin2.
  - vm_compute. reflexivity.
  - split; vm_compute; reflexivity.
  - vm_compute. reflexivity.
Defined.







(** The sizes and the message of the two fixtures. *)
Example oversized_grid_message :
  gridPointCount oversizedPayload = 2550%nat
  /\ gridPointCount basePayload = 12%nat
  /\ fst (buildSensitivityGrid integerPower oversizedPayload 0%nat)
     = Throw "Grid too large: 2550 points exceeds limit 2500".
Proof. repeat split; vm_compute; reflexivity. Qed.


End SweepClaims.

(* ================================================================== *)
(** * Further properties of the code *)
(* ================================================================== *)

(** ** The simulation: trips, bounds, haul distance *)

Section SimulationExtras.
Import Simulation SimulationSpec CoreSpec.

Lemma outcome_trips_positive (u : UnitOfWork) (cd : CostDrivers)
    (sd : SustainabilityDrivers) (o : SimulationOptions) :
  guardsHold u cd sd o -> 1 <= truckTrips (outcome u cd sd o).
Proof.
  intros (_ & _ & Hc & Hi & _). cbn [outcome truckTrips].
  assert (Hx : 0 < inboundMaterial u / truckCapacity cd)
    by (apply Qlt_shift_div_l; lra).
  pose proof (Qle_ceiling (inboundMaterial u / truckCapacity cd)) as Hle.
  set (x := inboundMaterial u / truckCapacity cd) in *. clearbody x.
  assert (0 < Qceiling x)%Z.
  { rewrite Zlt_Qlt. change (inject_Z 0) with 0. lra. }
  change 1 with (inject_Z 1). rewrite <- Zle_Qle. lia.
Qed.

Lemma outcome_in_range (u : UnitOfWork) (cd : CostDrivers)
    (sd : SustainabilityDrivers) (o : SimulationOptions) :
  guardsHold u cd sd o ->
  nonNegativeDrivers cd sd ->
  0 <= totalCost (outcome u cd sd o)
  /\ 0 < totalTime (outcome u cd sd o)
  /\ 0 <= totalEmissions (outcome u cd sd o)
  /\ 0 <= materialRecovered (outcome u cd sd o) <= inboundMaterial u.
Proof.
  intros Hg Hn.
  pose proof (outcome_trips_positive u cd sd o Hg) as Ht.
  destruct Hg as (Hs & Hl & Hc & Hi & Hh & Hcr & Hgr & Hth).
  destruct Hn as (Hhc & Hlc & Hcc & Hgc & Hhe & Hce & Hge).
  cbn [outcome truckTrips] in Ht.
  cbn [outcome totalCost totalTime totalEmissions materialRecovered].
  set (t := inject_Z (Qceiling (inboundMaterial u / truckCapacity cd))) in *.
  clearbody t.
  assert (Hd : 0 < t * haulDistancePerTrip u)
    by (apply Qmult_lt_0_compat; lra).
  assert (Hdt : 0 < t * haulDistancePerTrip u / truckSpeedOf o)
    by (apply Qlt_shift_div_l; lra).
  assert (Hlt : 0 < t * loadUnloadOf o) by (apply Qmult_lt_0_compat; lra).
  assert (Hpt : 0 < inboundMaterial u / selectedThroughput cd o)
    by (apply Qlt_shift_div_l; lra).
  assert (Hpc : 0 <= (if useCrusher o then crusherProcessingCostPerKg cd
                      else grinderProcessingCostPerKg cd))
    by (destruct (useCrusher o); assumption).
  assert (Hpe : 0 <= (if useCrusher o then crusherEmissionsPerKg sd
                      else grinderEmissionsPerKg sd))
    by (destruct (useCrusher o); assumption).
  assert (Hrr : 0 <= (if useCrusher o then crusherRecoveryRate sd
                      else grinderRecoveryRate sd) <= 1)
    by (destruct (useCrusher o); assumption).
  set (time := t * haulDistancePerTrip u / truckSpeedOf o
               + t * loadUnloadOf o
               + inboundMaterial u / selectedThroughput cd o) in *.
  assert (Htime : 0 < time) by (unfold time; lra).
  repeat split.
  - assert (0 <= t * haulDistancePerTrip u * haulCostPerKm cd)
      by (apply Qmult_le_0_compat; lra).
    assert (0 <= inboundMaterial u
                 * (if useCrusher o then crusherProcessingCostPerKg cd
                    else grinderProcessingCostPerKg cd))
      by (apply Qmult_le_0_compat; lra).
    assert (0 <= time * laborCostPerHour cd)
      by (apply Qmult_le_0_compat; lra).
    lra.
  - exact Htime.
  - assert (0 <= t * haulDistancePerTrip u * haulEmissionsPerKm sd)
      by (apply Qmult_le_0_compat; lra).
    assert (0 <= inboundMaterial u
                 * (if useCrusher o then crusherEmissionsPerKg sd
                    else grinderEmissionsPerKg sd))
      by (apply Qmult_le_0_compat; lra).
    lra.
  - apply Qmult_le_0_compat; lra.
  - rewrite <- (Qmult_1_r (inboundMaterial u)) at 2.
    rewrite !(Qmult_comm (inboundMaterial u)).
    apply Qmult_le_compat_r; lra.
Qed.



End SimulationExtras.

Section HaulDistance.
Import Simulation SimulationSpec CoreSpec.

(** X2.  A longer haul never makes a run cheaper, faster or cleaner: with
    non-negative costs and emission factors, raising the haul distance per
    trip (everything else unchanged) leaves the trips and the recovered
    mass as they are and does not lower cost, time or emissions. *)
Theorem longer_haul_never_cheaper :
  forall (u : UnitOfWork) (cd : CostDrivers) (sd : SustainabilityDrivers)
         (o : SimulationOptions) (km : Q),
    guardsHold u cd sd o ->
    nonNegativeDrivers cd sd ->
    haulDistancePerTrip u <= km ->
    exists near far,
      simulatePanelFlow u cd sd o = Ok near
      /\ simulatePanelFlow (withHaulDistance u km) cd sd o = Ok far
      /\ truckTrips far == truckTrips near
      /\ materialRecovered far == materialRecovered near
      /\ totalCost near <= totalCost far
      /\ totalTime near <= totalTime far
      /\ totalEmissions near <= totalEmissions far.
Proof.
  intros u cd sd o km Hg Hn Hkm.
  assert (Hg' : guardsHold (withHaulDistance u km) cd sd o).
  { destruct Hg as (Hs & Hl & Hc & Hi & Hh & Hcr & Hgr & Hth).
    unfold guardsHold. cbn [withHaulDistance inboundMaterial haulDistancePerTrip].
    split; [exact Hs |]. split; [exact Hl |]. split; [exact Hc |].
    split; [exact Hi |]. split; [lra |]. split; [exact Hcr |].
    split; [exact Hgr | exact Hth]. }
  pose proof (outcome_trips_positive u cd sd o Hg) as Ht.
  rewrite (simulatePanelFlow_ok u cd sd o Hg).
  rewrite (simulatePanelFlow_ok _ cd sd o Hg').
  eexists; eexists; split; [reflexivity |]. split; [reflexivity |].
  destruct Hg as (Hs & Hl & Hc & Hi & Hh & Hcr & Hgr & Hth).
  destruct Hn as (Hhc & Hlc & Hcc & Hgc & Hhe & Hce & Hge).
  cbn [outcome truckTrips] in Ht.
  cbn [outcome totalCost totalTime totalEmissions materialRecovered truckTrips
       withHaulDistance inboundMaterial haulDistancePerTrip].
  set (t := inject_Z (Qceiling (inboundMaterial u / truckCapacity cd))) in *.
  clearbody t.
  set (d := haulDistancePerTrip u) in *. clearbody d.
  assert (Hdist : t * d <= t * km).
  { rewrite !(Qmult_comm t). apply Qmult_le_compat_r; lra. }
  assert (Hhaul : t * d / truckSpeedOf o <= t * km / truckSpeedOf o)
    by (apply Qdiv_le_compat; assumption).
  set (rest := t * loadUnloadOf o
               + inboundMaterial u / selectedThroughput cd o).
  assert (Htime : t * d / truckSpeedOf o + t * loadUnloadOf o
                  + inboundMaterial u / selectedThroughput cd o
                  <= t * km / truckSpeedOf o + t * loadUnloadOf o
                     + inboundMaterial u / selectedThroughput cd o) by lra.
  split; [reflexivity |]. split; [reflexivity |].
  split; [| split; [exact Htime |]].
  - assert (t * d * haulCostPerKm cd <= t * km * haulCostPerKm cd)
      by (apply Qmult_le_compat_r; assumption).
    assert ((t * d / truckSpeedOf o + t * loadUnloadOf o
             + inboundMaterial u / selectedThroughput cd o)
            * laborCostPerHour cd
            <= (t * km / truckSpeedOf o + t * loadUnloadOf o
                + inboundMaterial u / selectedThroughput cd o)
               * laborCostPerHour cd)
      by (apply Qmult_le_compat_r; assumption).
    lra.
  - assert (t * d * haulEmissionsPerKm sd <= t * km * haulEmissionsPerKm sd)
      by (apply Qmult_le_compat_r; assumption).
    lra.
Qed.

Lemma longer_haul_never_cheaper_witness :
  exists near far,
    simulatePanelFlow testUnitOfWork testCostDrivers
      testSustainabilityDrivers knownOptions = Ok near
    /\ simulatePanelFlow (withHaulDistance testUnitOfWork 45) testCostDrivers
         testSustainabilityDrivers knownOptions = Ok far
    /\ truckTrips far == truckTrips near
    /\ materialRecovered far == materialRecovered near
    /\ totalCost near <= totalCost far
    /\ totalTime near <= totalTime far
    /\ totalEmissions near <= totalEmissions far.
Proof.
  apply (longer_haul_never_cheaper testUnitOfWork testCostDrivers
           testSustainabilityDrivers knownOptions 45).
  - unfold guardsHold; cbn; repeat split; lra.
  - unfold nonNegativeDrivers; cbn; repeat split; lra.
  - cbn. lra.
Defined.

End HaulDistance.

(** ** The environmental KPIs *)

Section KpiExtras.
Import Simulation Kpi KpiSpec CoreSpec.

Lemma validateFactors_throws (f : EnvironmentalKpiFactors) :
  ~ factorsValid f -> exists m, validateFactors f = Throw m.
Proof.
  intros Hbad. unfold validateFactors.
  destruct (ltb_spec (co2AvoidedPerKgRecovered f) 0); [eexists; reflexivity |].
  destruct (ltb_spec (carbonCapturePotentialPerKgRecovered f) 0);
    [eexists; reflexivity |].
  destruct (ltb_spec (baselineTruckMilesPerTrip f) 0);
    [eexists; reflexivity |].
  destruct (ltb_spec (optimizedTruckMilesPerTrip f) 0);
    [eexists; reflexivity |].
  exfalso. apply Hbad. unfold factorsValid. tauto.
Qed.

Lemma factorsValid_dec (f : EnvironmentalKpiFactors) :
  factorsValid f \/ ~ factorsValid f.
Proof.
  unfold factorsValid.
  destruct (Qlt_le_dec (co2AvoidedPerKgRecovered f) 0);
    [right; intros (H & _); lra |].
  destruct (Qlt_le_dec (carbonCapturePotentialPerKgRecovered f) 0);
    [right; intros (_ & H & _); lra |].
  destruct (Qlt_le_dec (baselineTruckMilesPerTrip f) 0);
    [right; intros (_ & _ & H & _); lra |].
  destruct (Qlt_le_dec (optimizedTruckMilesPerTrip f) 0);
    [right; intros (_ & _ & _ & H); lra |].
  left. tauto.
Qed.

(** X3.  The three KPI functions validate the whole factor set, not only
    the factors they read: on the same overrides either all three return a
    value (every resolved factor is non-negative) or all three throw, with
    one and the same message, whatever the simulation results are.  So a
    negative truck-miles factor makes [computeCO2Avoided] throw. *)
Theorem kpi_functions_accept_the_same_factors :
  forall (r1 r2 r3 : SimulationResult)
         (overrides : option PartialEnvironmentalKpiFactors),
    (factorsValid (resolvedFactors overrides)
     /\ exists a c t,
          computeCO2Avoided r1 overrides = Ok a
          /\ computeCarbonCapturePotential r2 overrides = Ok c
          /\ computeTruckMilesAvoided r3 overrides = Ok t)
    \/ (~ factorsValid (resolvedFactors overrides)
        /\ exists m,
             computeCO2Avoided r1 overrides = Throw m
             /\ computeCarbonCapturePotential r2 overrides = Throw m
             /\ computeTruckMilesAvoided r3 overrides = Throw m).
Proof.
  intros r1 r2 r3 overrides.
  destruct (factorsValid_dec (resolvedFactors overrides)) as [Hv | Hbad].
  - left. split; [exact Hv |].
    unfold computeCO2Avoided, computeCarbonCapturePotential,
      computeTruckMilesAvoided.
    rewrite (validateFactors_ok _ Hv). cbn [bind].
    eexists; eexists; eexists. repeat split; reflexivity.
  - right. split; [exact Hbad |].
    destruct (validateFactors_throws _ Hbad) as (m & Hm).
    exists m.
    unfold computeCO2Avoided, computeCarbonCapturePotential,
      computeTruckMilesAvoided.
    rewrite Hm. cbn [bind]. repeat split; reflexivity.
Qed.

(** X4.  Truck miles avoided are never negative and never more than the
    baseline mileage of the trips: with valid factors and a non-negative
    trip count the result lies between 0 and trips x baseline miles, and
    it is 0 as soon as the optimized route is not shorter than the
    baseline route. *)
Theorem truck_miles_avoided_bounds :
  forall (r : SimulationResult)
         (overrides : option PartialEnvironmentalKpiFactors),
    factorsValid (resolvedFactors overrides) ->
    0 <= truckTrips r ->
    exists avoided,
      computeTruckMilesAvoided r overrides = Ok avoided
      /\ 0 <= avoided
      /\ avoided
         <= truckTrips r * baselineTruckMilesPerTrip (resolvedFactors overrides)
      /\ (baselineTruckMilesPerTrip (resolvedFactors overrides)
          <= optimizedTruckMilesPerTrip (resolvedFactors overrides) ->
          avoided == 0).
Proof.
  intros r overrides Hv Ht.
  unfold computeTruckMilesAvoided.
  rewrite (validateFactors_ok _ Hv). cbn [bind].
  eexists; split; [reflexivity |].
  destruct Hv as (_ & _ & Hb & Ho).
  set (f := resolvedFactors overrides) in *. clearbody f.
  unfold Js.Math_max.
  set (b := baselineTruckMilesPerTrip f) in *.
  set (p := optimizedTruckMilesPerTrip f) in *.
  clearbody b p.
  assert (Hm0 : 0 <= Qmax 0 (b - p)) by apply Q.le_max_l.
  assert (Hmb : Qmax 0 (b - p) <= b) by (apply Q.max_lub; lra).
  split; [apply Qmult_le_0_compat; assumption |].
  split.
  - rewrite !(Qmult_comm (truckTrips r)).
    apply Qmult_le_compat_r; assumption.
  - intros Hle. rewrite Q.max_l by lra. ring.
Qed.

Lemma truck_miles_avoided_bounds_witness :
  exists avoided,
    computeTruckMilesAvoided floorTestResult (Some floorTestOverrides)
    = Ok avoided
    /\ 0 <= avoided
    /\ avoided
       <= truckTrips floorTestResult
          * baselineTruckMilesPerTrip
              (resolvedFactors (Some floorTestOverrides))
    /\ (baselineTruckMilesPerTrip (resolvedFactors (Some floorTestOverrides))
        <= optimizedTruckMilesPerTrip
             (resolvedFactors (Some floorTestOverrides)) ->
        avoided == 0).
Proof.
  apply (truck_miles_avoided_bounds floorTestResult (Some floorTestOverrides)).
  - unfold factorsValid; cbn; repeat split; lra.
  - cbn. lra.
Defined.

End KpiExtras.

(** ** Net present value *)

Section NpvExtras.
Import Investment InvestmentSpec CashFlowSpec.

Lemma NPV_reduce_acc (flows : list Q) :
  forall (i : nat) (r acc : Q),
    NPV_reduce r i acc flows == acc + NPV_reduce r i 0 flows.
Proof.
  induction flows as [| c flows IH]; intros i r acc; cbn [NPV_reduce].
  - ring.
  - rewrite (IH (S i) r (acc + c / (1 + r) ^ Z.of_nat i)).
    rewrite (IH (S i) r (0 + c / (1 + r) ^ Z.of_nat i)). ring.
Qed.

Lemma NPV_reduce_difference (a : list Q) :
  forall (b : list Q) (i : nat) (r x y : Q),
    List.length a = List.length b ->
    NPV_reduce r i (x - y) (difference a b)
    == NPV_reduce r i x a - NPV_reduce r i y b.
Proof.
  induction a as [| ca a IH]; intros [| cb b] i r x y Hlen;
    try discriminate; cbn [NPV_reduce difference].
  - reflexivity.
  - rewrite <- (IH b (S i) r) by (cbn in Hlen; lia).
    apply NPV_reduce_comp; [reflexivity |].
    unfold Qdiv. ring.
Qed.

Lemma NPV_reduce_pointwise (a : list Q) :
  forall (b : list Q) (i : nat) (r x y : Q),
    Forall2 Qeq a b -> x == y ->
    NPV_reduce r i x a == NPV_reduce r i y b.
Proof.
  induction a as [| ca a IH]; intros b i r x y Hab Hxy;
    inversion Hab as [| ? cb ? b' Hc Hrest]; subst; cbn [NPV_reduce].
  - exact Hxy.
  - apply IH; [exact Hrest |]. rewrite Hxy, Hc. reflexivity.
Qed.

Lemma NPV_reduce_shift (flows : list Q) :
  forall (i : nat) (r acc : Q),
    -1 < r ->
    NPV_reduce r (S i) acc flows
    == acc + NPV_reduce r i 0 flows / (1 + r).
Proof.
  induction flows as [| c flows IH]; intros i r acc Hr; cbn [NPV_reduce].
  - unfold Qdiv. ring.
  - rewrite (IH (S i) r _ Hr).
    rewrite (NPV_reduce_acc flows (S i) r (0 + c / (1 + r) ^ Z.of_nat i)).
    rewrite (IH i r 0 Hr).
    assert (Hne : ~ 1 + r == 0) by lra.
    assert (Hpow : (1 + r) ^ Z.of_nat (S i)
                   == (1 + r) ^ Z.of_nat i * (1 + r)).
    { rewrite Nat2Z.inj_succ. unfold Z.succ.
      rewrite Qpower_plus by exact Hne. reflexivity. }
    rewrite Hpow.
    assert (Hpne : ~ (1 + r) ^ Z.of_nat i == 0).
    { intros H0. apply Qpower_not_0 in H0; [exact H0 | exact Hne]. }
    field. split; assumption.
Qed.

(** X5.  Net present value is linear in the cash flows: at every accepted
    rate the NPV of the period-by-period difference of two series of the
    same length is the difference of their NPVs. *)
Theorem NPV_of_difference :
  forall (rate : Q) (a b : list Q),
    -1 < rate ->
    List.length a = List.length b ->
    exists va vb vd,
      NPV rate a = Ok va
      /\ NPV rate b = Ok vb
      /\ NPV rate (difference a b) = Ok vd
      /\ vd == va - vb.
Proof.
  intros rate a b Hr Hlen. unfold NPV.
  destruct (leb_spec rate (-1)); [lra |].
  eexists; eexists; eexists.
  split; [reflexivity |]. split; [reflexivity |]. split; [reflexivity |].
  rewrite <- (NPV_reduce_difference a b 0 rate 0 0 Hlen).
  apply NPV_reduce_comp; [reflexivity | ring].
Qed.

Lemma NPV_of_difference_witness :
  exists va vb vd,
    NPV 0.1 [-100; 90; 90] = Ok va
    /\ NPV 0.1 [0; 20; 20] = Ok vb
    /\ NPV 0.1 (difference [-100; 90; 90] [0; 20; 20]) = Ok vd
    /\ vd == va - vb.
Proof.
  apply (NPV_of_difference 0.1 [-100; 90; 90] [0; 20; 20]).
  - lra.
  - reflexivity.
Defined.

(** X6.  Each position of the series costs one discount factor: at every
    accepted rate, NPV(c :: flows) = c + NPV(flows) / (1 + rate); in
    particular the period-0 flow is not discounted.  At a rate of -1 or
    below NPV throws instead. *)
Theorem NPV_discounts_one_period_per_position :
  forall (rate c : Q) (flows : list Q),
    (-1 < rate ->
     exists whole tail,
       NPV rate (c :: flows) = Ok whole
       /\ NPV rate flows = Ok tail
       /\ whole == c + tail / (1 + rate))
    /\ (rate <= -1 ->
        NPV rate (c :: flows)
        = Throw "discountRate must be greater than -1").
Proof.
  intros rate c flows. split; intros Hr; unfold NPV.
  - destruct (leb_spec rate (-1)); [lra |].
    eexists; eexists. split; [reflexivity |]. split; [reflexivity |].
    cbn [NPV_reduce].
    rewrite (NPV_reduce_shift flows 0 rate _ Hr).
    change (Z.of_nat 0) with 0%Z. change ((1 + rate) ^ 0) with 1.
    field. lra.
  - destruct (leb_spec rate (-1)); [reflexivity | lra].
Qed.

End NpvExtras.

Lemma NPV_discounts_one_period_per_position_witness :
  exists whole tail,
    Investment.NPV 0.1 [-100; 60; 60] = Ok whole
    /\ Investment.NPV 0.1 [60; 60] = Ok tail
    /\ whole == -100 + tail / (1 + 0.1).
Proof.
  destruct (NPV_discounts_one_period_per_position 0.1 (-100) [60; 60])
    as [Haccepted _].
  apply Haccepted. lra.
Defined.

(** ** Cash-flow series of a scenario *)

Section MapFacts.
Import Investment CashFlowSpec.

Lemma Qeq_bool_comp_r (k p p' : Q) : p == p' -> Qeq_bool k p = Qeq_bool k p'.
Proof.
  intros H. destruct (Qeq_bool k p) eqn:E; symmetry.
  - apply Qeq_bool_iff. apply Qeq_bool_iff in E. rewrite E. exact H.
  - destruct (Qeq_bool k p') eqn:E'; [| reflexivity].
    apply Qeq_bool_iff in E'. rewrite <- H in E'.
    apply Qeq_bool_iff in E'. congruence.
Qed.

Lemma Qeq_bool_false (k p : Q) : ~ k == p -> Qeq_bool k p = false.
Proof.
  intros H. destruct (Qeq_bool k p) eqn:E; [| reflexivity].
  apply Qeq_bool_iff in E. contradiction.
Qed.

Lemma Qeq_bool_true (k p : Q) : k == p -> Qeq_bool k p = true.
Proof. intros H. apply Qeq_bool_iff. exact H. Qed.

Lemma Map_get_comp (m : NumberMap) (p p' : Q) :
  p == p' -> Map_get m p = Map_get m p'.
Proof.
  intros H. induction m as [| [k v] m IH]; [reflexivity |].
  cbn [Map_get]. rewrite (Qeq_bool_comp_r k p p' H), IH. reflexivity.
Qed.

Lemma Map_get_set_same (m : NumberMap) (k v p : Q) :
  k == p -> Map_get (Map_set m k v) p = Some v.
Proof.
  intros H. induction m as [| [k0 v0] m IH]; cbn [Map_set Map_get].
  - rewrite (Qeq_bool_true k p H). reflexivity.
  - destruct (Qeq_bool k0 k) eqn:E; cbn [Map_get].
    + apply Qeq_bool_iff in E.
      rewrite (Qeq_bool_true k0 p) by (rewrite E; exact H). reflexivity.
    + rewrite (Qeq_bool_false k0 p); [exact IH |].
      intros Hk. apply Qeq_bool_neq in E. apply E. rewrite Hk, H. reflexivity.
Qed.

Lemma Map_get_set_other (m : NumberMap) (k v p : Q) :
  ~ k == p -> Map_get (Map_set m k v) p = Map_get m p.
Proof.
  intros H. induction m as [| [k0 v0] m IH]; cbn [Map_set Map_get].
  - rewrite (Qeq_bool_false k p H). reflexivity.
  - destruct (Qeq_bool k0 k) eqn:E; cbn [Map_get].
    + apply Qeq_bool_iff in E.
      rewrite (Qeq_bool_false k0 p); [reflexivity |].
      intros Hk. apply H. rewrite <- E. exact Hk.
    + rewrite IH. reflexivity.
Qed.

Lemma memQ_comp (p p' : Q) (l : list Q) : p == p' -> memQ p l -> memQ p' l.
Proof.
  intros H (q & Hin & Hq). exists q. split; [exact Hin |].
  rewrite Hq. exact H.
Qed.

Lemma memQ_cons (p x : Q) (l : list Q) :
  memQ p (x :: l) <-> x == p \/ memQ p l.
Proof.
  unfold memQ. split.
  - intros (q & [<- | Hin] & Hq); [left; exact Hq |].
    right. exists q. tauto.
  - intros [Hx | (q & Hin & Hq)].
    + exists x. split; [left; reflexivity | exact Hx].
    + exists q. split; [right; exact Hin | exact Hq].
Qed.

Lemma memQ_nil (p : Q) : ~ memQ p [].
Proof. intros (q & [] & _). Qed.

Lemma Map_keys_set (m : NumberMap) (k v p : Q) :
  memQ p (Map_keys (Map_set m k v)) <-> memQ p (Map_keys m) \/ k == p.
Proof.
  induction m as [| [k0 v0] m IH]; cbn [Map_set Map_keys map fst].
  - rewrite memQ_cons. split; [tauto |].
    intros [H | H]; [destruct (memQ_nil p H) | tauto].
  - destruct (Qeq_bool k0 k) eqn:E;
      cbn [Map_keys map fst]; rewrite !memQ_cons.
    + apply Qeq_bool_iff in E. split; [tauto |].
      intros [H | H]; [exact H |]. left. rewrite E. exact H.
    + fold (Map_keys (Map_set m k v)). fold (Map_keys m).
      rewrite IH. tauto.
Qed.

Lemma Map_keys_set_distinct (m : NumberMap) (k v : Q) :
  distinctQ (Map_keys m) -> distinctQ (Map_keys (Map_set m k v)).
Proof.
  induction m as [| [k0 v0] m IH]; cbn [Map_set Map_keys map fst distinctQ].
  - intros _. split; [apply memQ_nil | exact I].
  - fold (Map_keys m). intros [Hnot Hrest].
    destruct (Qeq_bool k0 k) eqn:E; cbn [Map_keys map fst distinctQ].
    + fold (Map_keys m). split; assumption.
    + fold (Map_keys (Map_set m k v)). split; [| apply IH; exact Hrest].
      rewrite Map_keys_set. intros [H | H]; [contradiction |].
      apply Qeq_bool_neq in E. apply E. symmetry. exact H.
Qed.

Lemma Map_get_none (m : NumberMap) (p : Q) :
  ~ memQ p (Map_keys m) -> Map_get m p = None.
Proof.
  induction m as [| [k v] m IH]; [reflexivity |].
  cbn [Map_keys map fst Map_get]. fold (Map_keys m).
  rewrite memQ_cons. intros H.
  rewrite (Qeq_bool_false k p) by tauto. apply IH. tauto.
Qed.

(** The sum of the values of a map grows by what a [set] adds. *)
Lemma Map_set_total (m : NumberMap) (k v : Q) :
  sumList (map snd (Map_set m k v))
  == sumList (map snd m) + v - Js.nullish (Map_get m k) 0.
Proof.
  induction m as [| [k0 v0] m IH]; cbn [Map_set Map_get].
  - cbn. ring.
  - destruct (Qeq_bool k0 k); cbn [map snd sumList fold_right Js.nullish].
    + fold (sumList (map snd m)). ring.
    + fold (sumList (map snd (Map_set m k v))). fold (sumList (map snd m)).
      rewrite IH. ring.
Qed.

Lemma Map_values_by_key (m : NumberMap) :
  distinctQ (Map_keys m) ->
  sumList (map (fun p => Js.nullish (Map_get m p) 0) (Map_keys m))
  == sumList (map snd m).
Proof.
  induction m as [| [k v] m IH]; [reflexivity |].
  cbn [Map_keys map fst snd distinctQ]. fold (Map_keys m).
  intros [Hnot Hrest].
  cbn [sumList fold_right Map_get].
  rewrite (Qeq_bool_true k k) by reflexivity. cbn [Js.nullish].
  fold (sumList (map snd m)). rewrite <- (IH Hrest).
  apply Qplus_comp; [reflexivity |].
  assert (Hmap : map (fun p => Js.nullish
                          (if Qeq_bool k p then Some v else Map_get m p) 0)
                     (Map_keys m)
                 = map (fun p => Js.nullish (Map_get m p) 0) (Map_keys m)).
  { apply map_ext_in. intros p Hp.
    rewrite (Qeq_bool_false k p); [reflexivity |].
    intros Hk. apply Hnot. exists p. split; [exact Hp |].
    symmetry. exact Hk. }
  unfold sumList at 1. rewrite Hmap. reflexivity.
Qed.

End MapFacts.

Section SortFacts.
Import CashFlowSpec.

Lemma insert_sorted_In (x y : Q) (l : list Q) :
  In y (Js.insert_sorted x l) <-> y = x \/ In y l.
Proof.
  induction l as [| z l IH]; cbn [Js.insert_sorted].
  - cbn. intuition congruence.
  - destruct (Qle_bool x z); cbn [In].
    + intuition congruence.
    + rewrite IH. intuition congruence.
Qed.

Lemma sort_ascending_In (y : Q) (l : list Q) :
  In y (Js.sort_ascending l) <-> In y l.
Proof.
  induction l as [| x l IH]; [reflexivity |].
  unfold Js.sort_ascending in *. cbn [fold_right].
  rewrite insert_sorted_In, IH. cbn [In]. intuition congruence.
Qed.

Lemma sort_ascending_memQ (p : Q) (l : list Q) :
  memQ p (Js.sort_ascending l) <-> memQ p l.
Proof.
  unfold memQ. split; intros (q & Hin & Hq); exists q;
    (split; [apply sort_ascending_In; exact Hin | exact Hq]).
Qed.

Lemma insert_sorted_length (x : Q) (l : list Q) :
  List.length (Js.insert_sorted x l) = S (List.length l).
Proof.
  induction l as [| z l IH]; [reflexivity |].
  cbn [Js.insert_sorted]. destruct (Qle_bool x z); cbn [List.length].
  - reflexivity.
  - rewrite IH. reflexivity.
Qed.

Lemma insert_sorted_strict (x : Q) (l : list Q) :
  strictlyAscending l -> ~ memQ x l ->
  strictlyAscending (Js.insert_sorted x l).
Proof.
  induction l as [| z l IH]; cbn [Js.insert_sorted strictlyAscending].
  - intros _ _. split; [intros y [] | exact I].
  - intros [Hz Hl] Hnot.
    assert (Hxz : ~ z == x).
    { intros H. apply Hnot. exists z. split; [left; reflexivity | exact H]. }
    assert (Hnot' : ~ memQ x l).
    { intros (q & Hin & Hq). apply Hnot. exists q.
      split; [right; exact Hin | exact Hq]. }
    destruct (Qle_bool x z) eqn:E; cbn [strictlyAscending].
    + apply Qle_bool_iff in E.
      assert (Hlt : x < z).
      { destruct (Qlt_le_dec x z) as [H | H]; [exact H |].
        exfalso. apply Hxz. apply Qle_antisym; assumption. }
      split; [| split; assumption].
      intros y [<- | Hy]; [exact Hlt |].
      apply Qlt_trans with z; [exact Hlt | apply Hz; exact Hy].
    + assert (Hlt : z < x).
      { destruct (Qlt_le_dec z x) as [H | H]; [exact H |].
        apply Qle_bool_iff in H. congruence. }
      split; [| apply IH; assumption].
      intros y Hy. apply insert_sorted_In in Hy.
      destruct Hy as [-> | Hy]; [exact Hlt | apply Hz; exact Hy].
Qed.

Lemma sort_ascending_strict (l : list Q) :
  distinctQ l -> strictlyAscending (Js.sort_ascending l).
Proof.
  induction l as [| x l IH]; [intros _; exact I |].
  cbn [distinctQ]. intros [Hnot Hl].
  unfold Js.sort_ascending in *. cbn [fold_right].
  apply insert_sorted_strict; [apply IH; exact Hl |].
  intros H. apply Hnot. apply (sort_ascending_memQ x l). exact H.
Qed.

Lemma insert_sorted_total (g : Q -> Q) (x : Q) (l : list Q) :
  sumList (map g (Js.insert_sorted x l)) == g x + sumList (map g l).
Proof.
  induction l as [| z l IH]; cbn [Js.insert_sorted].
  - reflexivity.
  - destruct (Qle_bool x z); cbn [map sumList fold_right].
    + reflexivity.
    + fold (sumList (map g (Js.insert_sorted x l))).
      fold (sumList (map g l)). rewrite IH. ring.
Qed.

Lemma sort_ascending_total (g : Q -> Q) (l : list Q) :
  sumList (map g (Js.sort_ascending l)) == sumList (map g l).
Proof.
  induction l as [| x l IH]; [reflexivity |].
  unfold Js.sort_ascending in *. cbn [fold_right map].
  rewrite insert_sorted_total, IH. reflexivity.
Qed.

(** Sorting a list that is already in strict ascending order changes
    nothing. *)
Lemma sort_ascending_fixed (l : list Q) :
  strictlyAscending l -> Js.sort_ascending l = l.
Proof.
  induction l as [| x l IH]; [reflexivity |].
  cbn [strictlyAscending]. intros [Hx Hl].
  unfold Js.sort_ascending in *. cbn [fold_right]. rewrite (IH Hl).
  destruct l as [| z l]; [reflexivity |].
  cbn [Js.insert_sorted].
  assert (Hle : Qle_bool x z = true).
  { apply Qle_bool_iff, Qlt_le_weak, Hx. left. reflexivity. }
  rewrite Hle. reflexivity.
Qed.

End SortFacts.

Section SeriesFacts.
Import Simulation Investment CashFlowSpec.

Lemma validPeriod_test (point : SimulationCashFlowPoint) :
  validPeriod point ->
  (period point <? 1) || negb (Js.isInteger (period point)) = false.
Proof.
  intros [Hge Hint]. rewrite Hint.
  destruct (ltb_spec (period point) 1); [lra | reflexivity].
Qed.

Lemma invalidPeriod_test (point : SimulationCashFlowPoint) :
  ~ validPeriod point ->
  (period point <? 1) || negb (Js.isInteger (period point)) = true.
Proof.
  intros Hbad. unfold validPeriod in Hbad.
  destruct (ltb_spec (period point) 1); [reflexivity |].
  destruct (Js.isInteger (period point)); [| reflexivity].
  exfalso. apply Hbad. split; [assumption | reflexivity].
Qed.

Lemma validPeriod_dec (point : SimulationCashFlowPoint) :
  validPeriod point \/ ~ validPeriod point.
Proof.
  unfold validPeriod.
  destruct (Qlt_le_dec (period point) 1) as [H | H];
    [right; intros [H1 _]; lra |].
  destruct (Js.isInteger (period point));
    [left; split; [exact H | reflexivity] | right; intros [_ H2]; discriminate].
Qed.

Lemma scenarioValid_dec (pts : list SimulationCashFlowPoint) :
  Forall validPeriod pts \/ ~ Forall validPeriod pts.
Proof.
  induction pts as [| point pts IH]; [left; constructor |].
  destruct (validPeriod_dec point) as [Hp | Hp].
  - destruct IH as [IH | IH]; [left; constructor; assumption |].
    right. intros H. inversion H; contradiction.
  - right. intros H. inversion H; contradiction.
Qed.

Lemma accumulatePoints_throws (pts : list SimulationCashFlowPoint) :
  forall m,
    ~ Forall validPeriod pts ->
    accumulatePoints pts m
    = Throw "period must be a positive integer starting at 1".
Proof.
  induction pts as [| point pts IH]; intros m Hbad.
  - exfalso. apply Hbad. constructor.
  - cbn [accumulatePoints].
    destruct (validPeriod_dec point) as [Hp | Hp].
    + rewrite (validPeriod_test point Hp). apply IH.
      intros H. apply Hbad. constructor; assumption.
    + rewrite (invalidPeriod_test point Hp). reflexivity.
Qed.

Lemma netAt_comp (pts : list SimulationCashFlowPoint) (p p' : Q) :
  p == p' -> netAt pts p = netAt pts p'.
Proof.
  intros H. unfold netAt. f_equal. f_equal.
  apply filter_ext. intros point. apply Qeq_bool_comp_r. exact H.
Qed.

Lemma accumulatePoints_ok (pts : list SimulationCashFlowPoint) :
  forall m,
    Forall validPeriod pts ->
    distinctQ (Map_keys m) ->
    exists m',
      accumulatePoints pts m = Ok m'
      /\ distinctQ (Map_keys m')
      /\ (forall p, memQ p (Map_keys m')
                    <-> memQ p (Map_keys m) \/ hasPeriod pts p)
      /\ (forall p, Js.nullish (Map_get m' p) 0
                    == Js.nullish (Map_get m p) 0 + netAt pts p)
      /\ sumList (map snd m')
         == sumList (map snd m) + sumList (map net pts).
Proof.
  induction pts as [| point pts IH]; intros m Hvalid Hdistinct.
  - exists m. cbn [accumulatePoints].
    split; [reflexivity |]. split; [exact Hdistinct |].
    split; [| split].
    + intros p. split; [tauto |].
      intros [H | (pt & [] & _)]. exact H.
    + intros p. unfold netAt. cbn. ring.
    + cbn. ring.
  - inversion Hvalid as [| ? ? Hp Hrest]; subst.
    cbn [accumulatePoints]. rewrite (validPeriod_test point Hp).
    fold (net point).
    set (m1 := Map_set m (period point)
                 (Js.nullish (Map_get m (period point)) 0 + net point)).
    destruct (IH m1 Hrest) as (m' & Hrun & Hd & Hkeys & Hget & Hsum).
    { apply Map_keys_set_distinct. exact Hdistinct. }
    exists m'. split; [exact Hrun |]. split; [exact Hd |].
    split; [| split].
    + intros p. rewrite Hkeys. unfold m1. rewrite Map_keys_set.
      unfold hasPeriod. split.
      * intros [[H | H] | (pt & Hin & Hpt)].
        -- left. exact H.
        -- right. exists point. split; [left; reflexivity | exact H].
        -- right. exists pt. split; [right; exact Hin | exact Hpt].
      * intros [H | (pt & [<- | Hin] & Hpt)].
        -- left. left. exact H.
        -- left. right. exact Hpt.
        -- right. exists pt. split; [exact Hin | exact Hpt].
    + intros p. rewrite Hget. unfold m1, netAt. cbn [filter].
      destruct (Qeq_bool (period point) p) eqn:E.
      * apply Qeq_bool_iff in E.
        rewrite (Map_get_set_same m _ _ p E).
        rewrite (Map_get_comp m (period point) p E).
        unfold sumList. cbn [Js.nullish map fold_right]. ring.
      * apply Qeq_bool_neq in E.
        rewrite (Map_get_set_other m _ _ p E). ring.
    + rewrite Hsum. unfold m1. rewrite Map_set_total.
      unfold sumList. cbn [map fold_right]. ring.
Qed.

End SeriesFacts.

Section SeriesExtras.
Import Simulation Investment CashFlowSpec.

(** One run of [seriesFromScenario] on valid periods. *)
Lemma seriesFromScenario_run (scenario : InvestmentScenarioInput) :
  scenarioValid scenario ->
  exists m,
    seriesFromScenario scenario
    = Ok {| periods := Js.sort_ascending (Map_keys m);
            netByPeriod := m;
            seriesCashFlows :=
              - Js.nullish (initialInvestment scenario) 0
              :: map (fun p => Js.nullish (Map_get m p) 0)
                     (Js.sort_ascending (Map_keys m)) |}
    /\ distinctQ (Map_keys m)
    /\ (forall p, memQ p (Map_keys m) <-> hasPeriod (points scenario) p)
    /\ (forall p, Js.nullish (Map_get m p) 0 == netAt (points scenario) p)
    /\ sumList (map snd m) == sumList (map net (points scenario)).
Proof.
  intros Hvalid.
  destruct (accumulatePoints_ok (points scenario) [] Hvalid I)
    as (m & Hrun & Hd & Hkeys & Hget & Hsum).
  exists m. unfold seriesFromScenario. rewrite Hrun. cbn [bind].
  split; [reflexivity |]. split; [exact Hd |]. split; [| split].
  - intros p. rewrite Hkeys. split; [| tauto].
    intros [H | H]; [destruct (memQ_nil p H) | exact H].
  - intros p. rewrite Hget. cbn [Map_get Js.nullish]. ring.
  - rewrite Hsum. cbn. ring.
Qed.

Lemma Forall2_map_r {A B : Type} (R : A -> B -> Prop) (g : A -> B)
    (l : list A) :
  (forall a, R a (g a)) -> Forall2 R l (map g l).
Proof.
  intros H. induction l as [| a l IH]; cbn [map]; constructor; auto.
Qed.

(** X8.  What [seriesFromScenario] builds from points with valid
    periods: the period-0 flow is minus the initial investment (0 if
    absent); after it comes exactly one flow for each distinct period
    that occurs among the points, in strictly ascending order of period,
    and that flow is the sum of the net amounts (revenue - cost + other)
    of all points dated that period.  The points may come in any order
    and may repeat a period. *)
Theorem series_has_one_flow_per_period :
  forall scenario : InvestmentScenarioInput,
    scenarioValid scenario ->
    exists series flows,
      seriesFromScenario scenario = Ok series
      /\ seriesCashFlows series
         = - Js.nullish (initialInvestment scenario) 0 :: flows
      /\ strictlyAscending (periods series)
      /\ (forall p, memQ p (periods series)
                    <-> hasPeriod (points scenario) p)
      /\ Forall2 (fun p flow => flow == netAt (points scenario) p)
           (periods series) flows.
Proof.
  intros scenario Hvalid.
  destruct (seriesFromScenario_run scenario Hvalid)
    as (m & Hrun & Hd & Hkeys & Hget & _).
  eexists; eexists. split; [exact Hrun |]. cbn [seriesCashFlows periods].
  split; [reflexivity |].
  split; [apply sort_ascending_strict; exact Hd |].
  split.
  - intros p. rewrite sort_ascending_memQ. apply Hkeys.
  - apply Forall2_map_r. exact Hget.
Qed.

Lemma series_has_one_flow_per_period_witness :
  exists series flows,
    seriesFromScenario
      {| points := [InvestmentSpec.pointAt 3 170 80;
                    InvestmentSpec.pointAt 1 170 80;
                    InvestmentSpec.pointAt 3 10 0];
         initialInvestment := Some 100 |} = Ok series
    /\ seriesCashFlows series = - Js.nullish (Some 100) 0 :: flows
    /\ strictlyAscending (periods series)
    /\ (forall p, memQ p (periods series)
                  <-> hasPeriod [InvestmentSpec.pointAt 3 170 80;
                                 InvestmentSpec.pointAt 1 170 80;
                                 InvestmentSpec.pointAt 3 10 0] p)
    /\ Forall2 (fun p flow =>
                  flow == netAt [InvestmentSpec.pointAt 3 170 80;
                                 InvestmentSpec.pointAt 1 170 80;
                                 InvestmentSpec.pointAt 3 10 0] p)
         (periods series) flows.
Proof.
  apply (series_has_one_flow_per_period
           {| points := [InvestmentSpec.pointAt 3 170 80;
                         InvestmentSpec.pointAt 1 170 80;
                         InvestmentSpec.pointAt 3 10 0];
              initialInvestment := Some 100 |}).
  unfold scenarioValid, validPeriod. cbn [points].
  repeat constructor; cbn; discriminate.
Defined.

(** X9.  No cash is lost or counted twice on the way into the series:
    for points with valid periods the flows of the series add up to the
    net amounts of all points minus the initial investment. *)
Theorem series_total_is_conserved :
  forall scenario : InvestmentScenarioInput,
    scenarioValid scenario ->
    exists series,
      seriesFromScenario scenario = Ok series
      /\ sumList (seriesCashFlows series)
         == sumList (map net (points scenario))
            - Js.nullish (initialInvestment scenario) 0.
Proof.
  intros scenario Hvalid.
  destruct (seriesFromScenario_run scenario Hvalid)
    as (m & Hrun & Hd & _ & _ & Hsum).
  eexists. split; [exact Hrun |]. cbn [seriesCashFlows].
  unfold sumList at 1. cbn [fold_right].
  fold (sumList (map (fun p => Js.nullish (Map_get m p) 0)
                     (Js.sort_ascending (Map_keys m)))).
  rewrite sort_ascending_total, (Map_values_by_key m Hd), Hsum. ring.
Qed.

Lemma series_total_is_conserved_witness :
  exists series,
    seriesFromScenario
      {| points := [InvestmentSpec.pointAt 3 170 80;
                    InvestmentSpec.pointAt 1 170 80;
                    InvestmentSpec.pointAt 3 10 0];
         initialInvestment := Some 100 |} = Ok series
    /\ sumList (seriesCashFlows series)
       == sumList (map net [InvestmentSpec.pointAt 3 170 80;
                            InvestmentSpec.pointAt 1 170 80;
                            InvestmentSpec.pointAt 3 10 0])
          - Js.nullish (Some 100) 0.
Proof.
  apply (series_total_is_conserved
           {| points := [InvestmentSpec.pointAt 3 170 80;
                         InvestmentSpec.pointAt 1 170 80;
                         InvestmentSpec.pointAt 3 10 0];
              initialInvestment := Some 100 |}).
  unfold scenarioValid, validPeriod. cbn [points].
  repeat constructor; cbn; discriminate.
Defined.

End SeriesExtras.

(** ** Comparison of two scenarios *)

Section DedupeFacts.
Import CashFlowSpec.

Lemma existsb_Qeq_memQ (v : Q) (seen : list Q) :
  existsb (Qeq_bool v) seen = true <-> memQ v seen.
Proof.
  rewrite existsb_exists. unfold memQ.
  split; intros (q & Hin & Hq); exists q; (split; [exact Hin |]).
  - apply Qeq_bool_iff in Hq. symmetry. exact Hq.
  - apply Qeq_bool_iff. symmetry. exact Hq.
Qed.

Lemma dedupe_from_memQ (values : list Q) :
  forall (seen : list Q) (p : Q),
    memQ p (Js.dedupe_from seen values)
    <-> memQ p values /\ ~ memQ p seen.
Proof.
  induction values as [| v values IH]; intros seen p; cbn [Js.dedupe_from].
  - split; [intros H; destruct (memQ_nil p H) | intros [H _]; exact H].
  - destruct (existsb (Qeq_bool v) seen) eqn:E.
    + apply existsb_Qeq_memQ in E. rewrite IH, memQ_cons.
      split; [tauto |]. intros [[Hv | Hin] Hnot]; [| tauto].
      exfalso. apply Hnot. apply (memQ_comp v p seen Hv E).
    + assert (Hnot : ~ memQ v seen).
      { intros H. apply existsb_Qeq_memQ in H. congruence. }
      rewrite !memQ_cons, IH, memQ_cons.
      split.
      * intros [Hv | [Hin Hn]]; [| tauto].
        split; [left; exact Hv |].
        intros H. apply Hnot. apply (memQ_comp p v seen); [| exact H].
        symmetry. exact Hv.
      * intros [[Hv | Hin] Hn]; [left; exact Hv |].
        destruct (Qeq_dec v p) as [Hvp | Hvp]; [left; exact Hvp |].
        right. tauto.
Qed.

Lemma dedupe_from_distinct (values : list Q) :
  forall seen : list Q, distinctQ (Js.dedupe_from seen values).
Proof.
  induction values as [| v values IH]; intros seen; cbn [Js.dedupe_from].
  - exact I.
  - destruct (existsb (Qeq_bool v) seen); [apply IH |].
    cbn [distinctQ]. split; [| apply IH].
    rewrite dedupe_from_memQ. intros [_ Hnot]. apply Hnot.
    exists v. split; [left; reflexivity | reflexivity].
Qed.

(** Two strictly ascending lists with the same members are equal member
    by member. *)
Lemma strictlyAscending_unique (l1 : list Q) :
  forall l2 : list Q,
    strictlyAscending l1 -> strictlyAscending l2 ->
    (forall p, memQ p l1 <-> memQ p l2) ->
    Forall2 Qeq l1 l2.
Proof.
  induction l1 as [| x l1 IH]; intros [| y l2] H1 H2 Hsame.
  - constructor.
  - exfalso. apply (memQ_nil y). apply Hsame.
    exists y. split; [left; reflexivity | reflexivity].
  - exfalso. apply (memQ_nil x). apply Hsame.
    exists x. split; [left; reflexivity | reflexivity].
  - cbn [strictlyAscending] in H1, H2.
    destruct H1 as [Hx H1]. destruct H2 as [Hy H2].
    assert (Hxy : x == y).
    { assert (Hx2 : memQ x (y :: l2)).
      { apply Hsame. exists x. split; [left; reflexivity | reflexivity]. }
      assert (Hy1 : memQ y (x :: l1)).
      { apply Hsame. exists y. split; [left; reflexivity | reflexivity]. }
      apply memQ_cons in Hx2. apply memQ_cons in Hy1.
      destruct Hx2 as [Hx2 | (q & Hq & Hqx)]; [symmetry; exact Hx2 |].
      destruct Hy1 as [Hy1 | (q' & Hq' & Hqy)]; [exact Hy1 |].
      pose proof (Hy q Hq) as Hlt1. pose proof (Hx q' Hq') as Hlt2.
      rewrite Hqx in Hlt1. rewrite Hqy in Hlt2. lra. }
    constructor; [exact Hxy |].
    apply IH; [exact H1 | exact H2 |].
    intros p. split; intros (q & Hq & Hqp).
    + assert (Hm : memQ p (y :: l2)).
      { apply Hsame. exists q. split; [right; exact Hq | exact Hqp]. }
      apply memQ_cons in Hm. destruct Hm as [Hm | Hm]; [| exact Hm].
      pose proof (Hx q Hq) as Hlt. rewrite Hqp, <- Hm, Hxy in Hlt. lra.
    + assert (Hm : memQ p (x :: l1)).
      { apply Hsame. exists q. split; [right; exact Hq | exact Hqp]. }
      apply memQ_cons in Hm. destruct Hm as [Hm | Hm]; [| exact Hm].
      pose proof (Hy q Hq) as Hlt. rewrite Hqp, <- Hm, Hxy in Hlt. lra.
Qed.

Lemma memQ_app (p : Q) (l1 l2 : list Q) :
  memQ p (l1 ++ l2) <-> memQ p l1 \/ memQ p l2.
Proof.
  unfold memQ. split.
  - intros (q & Hin & Hq). apply in_app_or in Hin.
    destruct Hin; [left | right]; exists q; tauto.
  - intros [(q & Hin & Hq) | (q & Hin & Hq)]; exists q;
      (split; [apply in_or_app; tauto | exact Hq]).
Qed.

End DedupeFacts.

Section ComparisonExtras.
Import Simulation Investment InvestmentSpec CashFlowSpec.

Lemma IRR_total (flows : list Q) : exists r, IRR flows = Ok r.
Proof.
  destruct (IRR_traced_run flows 200 0.0000001) as (res & calls & Hrun & _).
  exists res. unfold IRR. rewrite Hrun. reflexivity.
Qed.

Lemma makeMetrics_ok (rate : Q) (flows : list Q) :
  -1 < rate ->
  exists r,
    makeMetrics rate flows
    = Ok {| cashFlows := flows;
            npv := npvAt flows rate;
            irr := r;
            paybackPeriod := PaybackPeriod flows |}.
Proof.
  intros Hr. destruct (IRR_total flows) as (r & Hirr). exists r.
  unfold makeMetrics, NPV.
  destruct (leb_spec rate (-1)); [lra |]. cbn [bind]. rewrite Hirr.
  reflexivity.
Qed.

Lemma makeMetrics_throw (rate : Q) (flows : list Q) :
  rate <= -1 ->
  makeMetrics rate flows = Throw "discountRate must be greater than -1".
Proof.
  intros Hr. unfold makeMetrics, NPV.
  destruct (leb_spec rate (-1)); [reflexivity | lra].
Qed.

Lemma seriesFromScenario_throws (scenario : InvestmentScenarioInput) :
  ~ scenarioValid scenario ->
  seriesFromScenario scenario
  = Throw "period must be a positive integer starting at 1".
Proof.
  intros Hbad. unfold seriesFromScenario.
  rewrite (accumulatePoints_throws (points scenario) [] Hbad). reflexivity.
Qed.

(** X10.  [evaluateInvestment] fails for two reasons only, and reports a
    bad period before a bad rate: it throws the period message when some
    point of either scenario has a period below 1 or not an integer, it
    throws the rate message when all periods are valid and the discount
    rate is -1 or below, and in every other case it returns a comparison
    (the three IRR searches inside never throw). *)
Theorem evaluateInvestment_fails_only_on_period_or_rate :
  forall input : EvaluateInvestmentInput,
    (~ (scenarioValid (baseline input)
        /\ scenarioValid (grinderPurchase input)) ->
     evaluateInvestment input
     = Throw "period must be a positive integer starting at 1")
    /\ (scenarioValid (baseline input) ->
        scenarioValid (grinderPurchase input) ->
        discountRate input <= -1 ->
        evaluateInvestment input
        = Throw "discountRate must be greater than -1")
    /\ (scenarioValid (baseline input) ->
        scenarioValid (grinderPurchase input) ->
        -1 < discountRate input ->
        exists res, evaluateInvestment input = Ok res).
Proof.
  intros input. split; [| split].
  - intros Hbad. unfold evaluateInvestment.
    destruct (scenarioValid_dec (points (baseline input))) as [Hb | Hb].
    + destruct (seriesFromScenario_run (baseline input) Hb)
        as (mb & Hrun & _).
      rewrite Hrun. cbn [bind].
      rewrite seriesFromScenario_throws; [reflexivity |].
      intros Hg. apply Hbad. split; assumption.
    + rewrite (seriesFromScenario_throws (baseline input) Hb). reflexivity.
  - intros Hb Hg Hr. unfold evaluateInvestment.
    destruct (seriesFromScenario_run (baseline input) Hb) as (mb & Hrb & _).
    destruct (seriesFromScenario_run (grinderPurchase input) Hg)
      as (mg & Hrg & _).
    rewrite Hrb. cbn [bind]. rewrite Hrg. cbn [bind].
    rewrite (makeMetrics_throw _ _ Hr). reflexivity.
  - intros Hb Hg Hr. unfold evaluateInvestment.
    destruct (seriesFromScenario_run (baseline input) Hb) as (mb & Hrb & _).
    destruct (seriesFromScenario_run (grinderPurchase input) Hg)
      as (mg & Hrg & _).
    rewrite Hrb. cbn [bind]. rewrite Hrg. cbn [bind].
    cbn [seriesCashFlows periods netByPeriod].
    match goal with
    | |- context [makeMetrics ?r ?fl] =>
        destruct (makeMetrics_ok r fl Hr) as (r1 & ->)
    end. cbn [bind].
    match goal with
    | |- context [makeMetrics ?r ?fl] =>
        destruct (makeMetrics_ok r fl Hr) as (r2 & ->)
    end. cbn [bind].
    match goal with
    | |- context [makeMetrics ?r ?fl] =>
        destruct (makeMetrics_ok r fl Hr) as (r3 & ->)
    end. cbn [bind].
    eexists. reflexivity.
Qed.

Lemma evaluateInvestment_fails_only_on_period_or_rate_witness :
  exists res, evaluateInvestment testInput = Ok res.
Proof.
  destruct (evaluateInvestment_fails_only_on_period_or_rate testInput)
    as (_ & _ & Hok).
  apply Hok.
  - unfold scenarioValid, validPeriod. cbn [points baseline testInput].
    repeat constructor; cbn; discriminate.
  - unfold scenarioValid, validPeriod.
    cbn [points grinderPurchase testInput].
    repeat constructor; cbn; discriminate.
  - cbn. lra.
Defined.

Lemma Forall2_Qeq_sym (l1 l2 : list Q) :
  Forall2 Qeq l1 l2 -> Forall2 Qeq l2 l1.
Proof.
  induction 1; constructor; [symmetry; assumption | assumption].
Qed.

Lemma difference_pointwise (mg mb : NumberMap) (pa : list Q) :
  forall pg pb : list Q,
    Forall2 Qeq pa pg -> Forall2 Qeq pa pb ->
    Forall2 Qeq
      (map (fun p => Js.nullish (Map_get mg p) 0
                     - Js.nullish (Map_get mb p) 0) pa)
      (difference (map (fun p => Js.nullish (Map_get mg p) 0) pg)
                  (map (fun p => Js.nullish (Map_get mb p) 0) pb)).
Proof.
  induction pa as [| a pa IH]; intros pg pb Hg Hb;
    inversion Hg as [| ? g ? pg' Hag Hg']; subst;
    inversion Hb as [| ? b ? pb' Hab Hb']; subst;
    cbn [map difference]; constructor.
  - rewrite (Map_get_comp mg a g Hag), (Map_get_comp mb a b Hab).
    reflexivity.
  - apply IH; assumption.
Qed.

(** X11.  When both scenarios have points for the same periods, the
    three series of a comparison are aligned: the incremental series is
    the grinder series minus the baseline series period by period, and
    the incremental NPV is the grinder NPV minus the baseline NPV (in
    double arithmetic, up to the rounding of the three sums).  The
    preferred option is decided by the two scenario NPVs themselves, not
    by the incremental one: grinder purchase exactly when the grinder NPV
    is the greater, baseline exactly when it is the smaller. *)
Theorem aligned_scenarios_incremental_is_difference :
  forall input : EvaluateInvestmentInput,
    scenarioValid (baseline input) ->
    scenarioValid (grinderPurchase input) ->
    -1 < discountRate input ->
    (forall p, hasPeriod (points (baseline input)) p
               <-> hasPeriod (points (grinderPurchase input)) p) ->
    exists res,
      evaluateInvestment input = Ok res
      /\ Forall2 Qeq (cashFlows (incrementalMetrics res))
           (difference (cashFlows (grinderPurchaseMetrics res))
                       (cashFlows (baselineMetrics res)))
      /\ npv (incrementalMetrics res)
         == npv (grinderPurchaseMetrics res) - npv (baselineMetrics res)
      /\ (preferredOption res = preferGrinderPurchase
          <-> npv (baselineMetrics res) < npv (grinderPurchaseMetrics res))
      /\ (preferredOption res = preferBaseline
          <-> npv (grinderPurchaseMetrics res) < npv (baselineMetrics res)).
Proof.
  intros input Hb Hg Hr Hsame. unfold evaluateInvestment.
  destruct (seriesFromScenario_run (baseline input) Hb)
    as (mb & Hrb & Hdb & Hkb & _).
  destruct (seriesFromScenario_run (grinderPurchase input) Hg)
    as (mg & Hrg & Hdg & Hkg & _).
  rewrite Hrb. cbn [bind]. rewrite Hrg. cbn [bind].
  cbn [seriesCashFlows periods netByPeriod].
  set (pb := Js.sort_ascending (Map_keys mb)).
  set (pg := Js.sort_ascending (Map_keys mg)).
  set (pa := Js.sort_ascending (Js.dedupe (pb ++ pg))).
  assert (Hpb : strictlyAscending pb)
    by (apply sort_ascending_strict; exact Hdb).
  assert (Hpg : strictlyAscending pg)
    by (apply sort_ascending_strict; exact Hdg).
  assert (Hpa : strictlyAscending pa)
    by (apply sort_ascending_strict, dedupe_from_distinct).
  assert (Hmb : forall p, memQ p pb <-> hasPeriod (points (baseline input)) p).
  { intros p. unfold pb. rewrite sort_ascending_memQ. apply Hkb. }
  assert (Hmg : forall p,
             memQ p pg <-> hasPeriod (points (grinderPurchase input)) p).
  { intros p. unfold pg. rewrite sort_ascending_memQ. apply Hkg. }
  assert (Hma : forall p, memQ p pa <-> memQ p pb).
  { intros p. unfold pa, Js.dedupe.
    rewrite sort_ascending_memQ, dedupe_from_memQ, memQ_app.
    rewrite (Hmg p), <- (Hsame p), <- (Hmb p).
    split; [tauto |]. intros H. split; [tauto | apply memQ_nil]. }
  assert (Hab : Forall2 Qeq pa pb)
    by (apply strictlyAscending_unique; assumption).
  assert (Hag : Forall2 Qeq pa pg).
  { apply strictlyAscending_unique; try assumption.
    intros p. rewrite (Hma p), (Hmb p), (Hmg p). apply Hsame. }
  match goal with
  | |- context [makeMetrics ?r ?fl] =>
      destruct (makeMetrics_ok r fl Hr) as (r1 & ->)
  end. cbn [bind].
  match goal with
  | |- context [makeMetrics ?r ?fl] =>
      destruct (makeMetrics_ok r fl Hr) as (r2 & ->)
  end. cbn [bind].
  match goal with
  | |- context [makeMetrics ?r ?fl] =>
      destruct (makeMetrics_ok r fl Hr) as (r3 & ->)
  end. cbn [bind].
  eexists. split; [reflexivity |].
  cbn [cashFlows npv incrementalMetrics grinderPurchaseMetrics
       baselineMetrics preferredOption].
  set (bi := Js.nullish (initialInvestment (baseline input)) 0).
  set (gi := Js.nullish (initialInvestment (grinderPurchase input)) 0).
  set (fb := - bi :: map (fun p => Js.nullish (Map_get mb p) 0) pb).
  set (fg := - gi :: map (fun p => Js.nullish (Map_get mg p) 0) pg).
  set (fi := - gi + bi
             :: map (fun p => Js.nullish (Map_get mg p) 0
                              - Js.nullish (Map_get mb p) 0) pa).
  assert (Hflows : Forall2 Qeq fi (difference fg fb)).
  { unfold fi, fg, fb. cbn [difference]. constructor; [ring |].
    apply difference_pointwise; assumption. }
  assert (Hlen : List.length fg = List.length fb).
  { unfold fg, fb. cbn [List.length]. rewrite !length_map.
    f_equal. rewrite <- (Forall2_length Hag). apply (Forall2_length Hab). }
  assert (Hnpv : npvAt fi (discountRate input)
                 == npvAt fg (discountRate input)
                    - npvAt fb (discountRate input)).
  { unfold npvAt.
    rewrite (NPV_reduce_pointwise fi (difference fg fb) 0
               (discountRate input) 0 (0 - 0) Hflows) by ring.
    apply NPV_reduce_difference. exact Hlen. }
  split; [exact Hflows |]. split; [exact Hnpv |].
  set (nb := npvAt fb (discountRate input)) in *.
  set (ng := npvAt fg (discountRate input)) in *.
  clearbody nb ng.
  split.
  - destruct (ltb_spec nb ng).
    + split; [intros _; lra | reflexivity].
    + destruct (ltb_spec ng nb); (split; [discriminate | lra]).
  - destruct (ltb_spec nb ng).
    + split; [discriminate | lra].
    + destruct (ltb_spec ng nb).
      * split; [intros _; lra | reflexivity].
      * split; [discriminate | lra].
Qed.

Lemma aligned_scenarios_incremental_is_difference_witness :
  exists res,
    evaluateInvestment testInput = Ok res
    /\ Forall2 Qeq (cashFlows (incrementalMetrics res))
         (difference (cashFlows (grinderPurchaseMetrics res))
                     (cashFlows (baselineMetrics res)))
    /\ npv (incrementalMetrics res)
       == npv (grinderPurchaseMetrics res) - npv (baselineMetrics res)
    /\ (preferredOption res = preferGrinderPurchase
        <-> npv (baselineMetrics res) < npv (grinderPurchaseMetrics res))
    /\ (preferredOption res = preferBaseline
        <-> npv (grinderPurchaseMetrics res) < npv (baselineMetrics res)).
Proof.
  apply (aligned_scenarios_incremental_is_difference testInput).
  - unfold scenarioValid, validPeriod. cbn [points baseline testInput].
    repeat constructor; cbn; discriminate.
  - unfold scenarioValid, validPeriod.
    cbn [points grinderPurchase testInput].
    repeat constructor; cbn; discriminate.
  - cbn. lra.
  - intros p. unfold hasPeriod.
    cbn [points baseline grinderPurchase testInput].
    split; intros (point & Hin & Hp); cbn [In] in Hin;
      destruct Hin as [<- | [<- | [<- | []]]]; cbn [period pointAt] in Hp.
    + exists (pointAt 1 170 80). split; [cbn; tauto | exact Hp].
    + exists (pointAt 2 170 80). split; [cbn; tauto | exact Hp].
    + exists (pointAt 3 170 80). split; [cbn; tauto | exact Hp].
    + exists (pointAt 1 120 100). split; [cbn; tauto | exact Hp].
    + exists (pointAt 2 120 100). split; [cbn; tauto | exact Hp].
    + exists (pointAt 3 120 100). split; [cbn; tauto | exact Hp].
Defined.

End ComparisonExtras.

(** ** Scenario analysis (scenarioModel.ts) *)

Section ScenarioFacts.
Import Simulation SimulationSpec Kpi KpiSpec CoreSpec.
Import ScenarioModel ScenarioSpec.

Lemma scenario_validatePositive_ok (value : Q) (name : string) :
  0 < value -> ScenarioModel.validatePositive value name = Ok tt.
Proof.
  intros H. unfold ScenarioModel.validatePositive.
  destruct (leb_spec value 0); [lra | reflexivity].
Qed.

Lemma validateNonNegative_ok (value : Q) (name : string) :
  0 <= value -> validateNonNegative value name = Ok tt.
Proof.
  intros H. unfold validateNonNegative.
  destruct (ltb_spec value 0); [lra | reflexivity].
Qed.

Lemma validateAssumptions_ok (a : ScenarioAssumptions.t) :
  assumptionsValid a -> validateAssumptions a = Ok tt.
Proof.
  intros (H1 & H2 & H3 & H4 & H5 & H6 & H7 & H8).
  unfold validateAssumptions.
  rewrite !scenario_validatePositive_ok by assumption.
  rewrite !validateNonNegative_ok by assumption.
  reflexivity.
Qed.

Lemma validateAssumptions_throws (a : ScenarioAssumptions.t) :
  ~ assumptionsValid a -> exists m, validateAssumptions a = Throw m.
Proof.
  intros Hbad. unfold validateAssumptions.
  unfold ScenarioModel.validatePositive at 1.
  destruct (leb_spec (ScenarioAssumptions.truckSpeedKmPerHour a) 0);
    [eexists; reflexivity | cbn [bind]].
  unfold ScenarioModel.validatePositive at 1.
  destruct (leb_spec (ScenarioAssumptions.loadUnloadHoursPerTrip a) 0);
    [eexists; reflexivity | cbn [bind]].
  unfold validateNonNegative at 1.
  destruct (ltb_spec (ScenarioAssumptions.recoveredMaterialPricePerKg a) 0);
    [eexists; reflexivity | cbn [bind]].
  unfold validateNonNegative at 1.
  destruct (ltb_spec (ScenarioAssumptions.carbonCreditPricePerTonCO2e a) 0);
    [eexists; reflexivity | cbn [bind]].
  unfold validateNonNegative at 1.
  destruct (ltb_spec (ScenarioAssumptions.co2AvoidedPerKgRecovered a) 0);
    [eexists; reflexivity | cbn [bind]].
  unfold validateNonNegative at 1.
  destruct (ltb_spec
              (ScenarioAssumptions.carbonCapturePotentialPerKgRecovered a) 0);
    [eexists; reflexivity | cbn [bind]].
  unfold validateNonNegative at 1.
  destruct (ltb_spec (ScenarioAssumptions.baselineTruckMilesPerTrip a) 0);
    [eexists; reflexivity | cbn [bind]].
  unfold validateNonNegative at 1.
  destruct (ltb_spec (ScenarioAssumptions.optimizedTruckMilesPerTrip a) 0);
    [eexists; reflexivity | cbn [bind]].
  exfalso. apply Hbad. unfold assumptionsValid. tauto.
Qed.

Lemma assumptionsValid_dec (a : ScenarioAssumptions.t) :
  assumptionsValid a \/ ~ assumptionsValid a.
Proof.
  unfold assumptionsValid.
  destruct (Qlt_le_dec 0 (ScenarioAssumptions.truckSpeedKmPerHour a));
    [| right; intros (H & _); lra].
  destruct (Qlt_le_dec 0 (ScenarioAssumptions.loadUnloadHoursPerTrip a));
    [| right; intros (_ & H & _); lra].
  destruct (Qlt_le_dec (ScenarioAssumptions.recoveredMaterialPricePerKg a) 0);
    [right; intros (_ & _ & H & _); lra |].
  destruct (Qlt_le_dec (ScenarioAssumptions.carbonCreditPricePerTonCO2e a) 0);
    [right; intros (_ & _ & _ & H & _); lra |].
  destruct (Qlt_le_dec (ScenarioAssumptions.co2AvoidedPerKgRecovered a) 0);
    [right; intros (_ & _ & _ & _ & H & _); lra |].
  destruct (Qlt_le_dec
              (ScenarioAssumptions.carbonCapturePotentialPerKgRecovered a) 0);
    [right; intros (_ & _ & _ & _ & _ & H & _); lra |].
  destruct (Qlt_le_dec (ScenarioAssumptions.baselineTruckMilesPerTrip a) 0);
    [right; intros (_ & _ & _ & _ & _ & _ & H & _); lra |].
  destruct (Qlt_le_dec (ScenarioAssumptions.optimizedTruckMilesPerTrip a) 0);
    [right; intros (_ & _ & _ & _ & _ & _ & _ & H); lra |].
  left. tauto.
Qed.

Lemma overrides_valid (a : ScenarioAssumptions.t) :
  assumptionsValid a ->
  factorsValid (resolvedFactors (Some (factorOverridesFromAssumptions a))).
Proof.
  intros (_ & _ & _ & _ & H5 & H6 & H7 & H8).
  unfold factorsValid. cbn. tauto.
Qed.

End ScenarioFacts.

Section ScenarioExtras.
Import Simulation SimulationSpec Kpi KpiSpec CoreSpec.
Import ScenarioModel ScenarioSpec.

(** Runs [analyzeScenario] on a valid input up to its result record. *)
Ltac run_analysis input Hvalid :=
  let Ha := fresh "Ha" in
  let Hg := fresh "Hg" in
  destruct Hvalid as [Ha Hg];
  unfold analyzeScenario;
  rewrite (validateAssumptions_ok _ Ha); cbn [bind];
  fold (optionsOf input);
  rewrite (simulatePanelFlow_ok _ _ _ _ Hg); cbn [bind];
  unfold computeCO2Avoided, computeCarbonCapturePotential,
    computeTruckMilesAvoided;
  rewrite (validateFactors_ok _ (overrides_valid _ Ha)); cbn [bind].

(** X13.  [analyzeScenario] returns an analysis exactly when the
    assumptions are valid (speed and load/unload hours positive, prices
    and factors non-negative) and the guards of the simulation hold; in
    every other case it throws.  The validation inside the three KPI
    functions can therefore never fire here, and the simulation result
    embedded in the analysis is the one [simulatePanelFlow] returns for
    the mode and the two operational assumptions. *)
Theorem analyzeScenario_succeeds_iff_input_valid :
  forall input : ScenarioInput.t,
    (inputValid input ->
     exists res,
       analyzeScenario input = Ok res
       /\ ScenarioAnalysisResult.mode res = ScenarioInput.mode input
       /\ simulatePanelFlow (ScenarioInput.unitOfWork input)
            (ScenarioInput.costDrivers input)
            (ScenarioInput.sustainabilityDrivers input) (optionsOf input)
          = Ok (ScenarioAnalysisResult.simulationResult res))
    /\ (~ inputValid input -> exists m, analyzeScenario input = Throw m).
Proof.
  intros input. split.
  - intros Hvalid. run_analysis input Hvalid.
    eexists. split; [reflexivity |]. split; reflexivity.
  - intros Hbad.
    destruct (assumptionsValid_dec (ScenarioInput.assumptions input))
      as [Ha | Ha].
    + destruct (guards_dichotomy (ScenarioInput.unitOfWork input)
                  (ScenarioInput.costDrivers input)
                  (ScenarioInput.sustainabilityDrivers input)
                  (optionsOf input)) as [Hg | Hg].
      * exfalso. apply Hbad. split; assumption.
      * apply simulatePanelFlow_throws in Hg. destruct Hg as (m & Hm).
        exists m. unfold analyzeScenario.
        rewrite (validateAssumptions_ok _ Ha). cbn [bind].
        fold (optionsOf input). rewrite Hm. reflexivity.
    + destruct (validateAssumptions_throws _ Ha) as (m & Hm).
      exists m. unfold analyzeScenario. rewrite Hm. reflexivity.
Qed.

Lemma makeInput_valid (mode : ScenarioMode) : inputValid (makeInput mode).
Proof.
  split.
  - unfold assumptionsValid. cbn. repeat split; lra.
  - unfold guardsHold. destruct mode; cbn; repeat split; lra.
Qed.

Lemma analyzeScenario_succeeds_iff_input_valid_witness :
  exists res,
    analyzeScenario (makeInput Grinder) = Ok res
    /\ ScenarioAnalysisResult.mode res = ScenarioInput.mode (makeInput Grinder)
    /\ simulatePanelFlow (ScenarioInput.unitOfWork (makeInput Grinder))
         (ScenarioInput.costDrivers (makeInput Grinder))
         (ScenarioInput.sustainabilityDrivers (makeInput Grinder))
         (optionsOf (makeInput Grinder))
       = Ok (ScenarioAnalysisResult.simulationResult res).
Proof.
  destruct (analyzeScenario_succeeds_iff_input_valid (makeInput Grinder))
    as [Hok _].
  apply Hok. apply makeInput_valid.
Defined.

(** X14.  The cost and emission breakdowns that [analyzeScenario]
    recomputes from the inputs are consistent with the totals the
    simulation reports: haul + processing + labor cost is the total cost
    and haul + processing emissions are the total emissions. *)
Theorem scenario_breakdowns_add_up :
  forall input : ScenarioInput.t,
    inputValid input ->
    exists res,
      analyzeScenario input = Ok res
      /\ ScenarioCostBreakdown.haulCost (ScenarioAnalysisResult.costBreakdown res)
         + ScenarioCostBreakdown.processingCost
             (ScenarioAnalysisResult.costBreakdown res)
         + ScenarioCostBreakdown.laborCost
             (ScenarioAnalysisResult.costBreakdown res)
         == ScenarioCostBreakdown.totalCost
              (ScenarioAnalysisResult.costBreakdown res)
      /\ ScenarioEmissionsBreakdown.haulEmissions
           (ScenarioAnalysisResult.emissionsBreakdown res)
         + ScenarioEmissionsBreakdown.processingEmissions
             (ScenarioAnalysisResult.emissionsBreakdown res)
         == ScenarioEmissionsBreakdown.totalEmissions
              (ScenarioAnalysisResult.emissionsBreakdown res)
      /\ ScenarioCostBreakdown.totalCost
           (ScenarioAnalysisResult.costBreakdown res)
         = totalCost (ScenarioAnalysisResult.simulationResult res)
      /\ ScenarioEmissionsBreakdown.totalEmissions
           (ScenarioAnalysisResult.emissionsBreakdown res)
         = totalEmissions (ScenarioAnalysisResult.simulationResult res).
Proof.
  intros input Hvalid. run_analysis input Hvalid.
  eexists. split; [reflexivity |].
  cbn [ScenarioAnalysisResult.costBreakdown
       ScenarioAnalysisResult.emissionsBreakdown
       ScenarioAnalysisResult.simulationResult
       ScenarioCostBreakdown.haulCost ScenarioCostBreakdown.processingCost
       ScenarioCostBreakdown.laborCost ScenarioCostBreakdown.totalCost
       ScenarioEmissionsBreakdown.haulEmissions
       ScenarioEmissionsBreakdown.processingEmissions
       ScenarioEmissionsBreakdown.totalEmissions].
  split; [| split; [| split; reflexivity]].
  - cbn [outcome totalCost totalTime truckTrips optionsOf useCrusher].
    reflexivity.
  - cbn [outcome totalEmissions truckTrips optionsOf useCrusher].
    reflexivity.
Qed.

Lemma scenario_breakdowns_add_up_witness :
  exists res,
    analyzeScenario (makeInput Crusher) = Ok res
    /\ ScenarioCostBreakdown.haulCost (ScenarioAnalysisResult.costBreakdown res)
       + ScenarioCostBreakdown.processingCost
           (ScenarioAnalysisResult.costBreakdown res)
       + ScenarioCostBreakdown.laborCost
           (ScenarioAnalysisResult.costBreakdown res)
       == ScenarioCostBreakdown.totalCost
            (ScenarioAnalysisResult.costBreakdown res)
    /\ ScenarioEmissionsBreakdown.haulEmissions
         (ScenarioAnalysisResult.emissionsBreakdown res)
       + ScenarioEmissionsBreakdown.processingEmissions
           (ScenarioAnalysisResult.emissionsBreakdown res)
       == ScenarioEmissionsBreakdown.totalEmissions
            (ScenarioAnalysisResult.emissionsBreakdown res)
    /\ ScenarioCostBreakdown.totalCost
         (ScenarioAnalysisResult.costBreakdown res)
       = totalCost (ScenarioAnalysisResult.simulationResult res)
    /\ ScenarioEmissionsBreakdown.totalEmissions
         (ScenarioAnalysisResult.emissionsBreakdown res)
       = totalEmissions (ScenarioAnalysisResult.simulationResult res).
Proof.
  apply (scenario_breakdowns_add_up (makeInput Crusher)).
  apply makeInput_valid.
Defined.

(** X15.  The derived figures of an analysis are well defined.  With
    valid input and non-negative costs and emission factors: the avoided
    emission percentage and the total revenue are non-negative; a gross
    margin, when reported, is at most 100 percent; a cost per recovered
    kilogram, when reported, is non-negative, and it is null exactly when
    nothing was recovered. *)
Theorem scenario_metrics_are_well_defined :
  forall input : ScenarioInput.t,
    inputValid input ->
    nonNegativeDrivers (ScenarioInput.costDrivers input)
      (ScenarioInput.sustainabilityDrivers input) ->
    exists res,
      analyzeScenario input = Ok res
      /\ 0 <= ScenarioEnvironmentalKpis.avoidedEmissionPercentage
                (ScenarioAnalysisResult.environmentalKpis res)
      /\ 0 <= ScenarioRevenueMetrics.totalRevenue
                (ScenarioAnalysisResult.financialMetrics res)
      /\ (forall margin,
            ScenarioRevenueMetrics.grossMarginPercentage
              (ScenarioAnalysisResult.financialMetrics res) = Some margin ->
            margin <= 100)
      /\ (forall cost,
            ScenarioRevenueMetrics.costPerKgRecovered
              (ScenarioAnalysisResult.financialMetrics res) = Some cost ->
            0 <= cost)
      /\ (ScenarioRevenueMetrics.costPerKgRecovered
            (ScenarioAnalysisResult.financialMetrics res) = None
          <-> materialRecovered (ScenarioAnalysisResult.simulationResult res)
              == 0).
Proof.
  intros input Hvalid Hn.
  destruct (outcome_in_range _ _ _ _ (proj2 Hvalid) Hn)
    as (Hcost & _ & Hem & Hrec0 & _).
  pose proof (proj1 Hvalid) as (_ & _ & Hprice & Hcredit & _).
  run_analysis input Hvalid.
  eexists. split; [reflexivity |].
  cbn [ScenarioAnalysisResult.environmentalKpis
       ScenarioAnalysisResult.financialMetrics
       ScenarioAnalysisResult.simulationResult
       ScenarioEnvironmentalKpis.avoidedEmissionPercentage
       ScenarioRevenueMetrics.totalRevenue
       ScenarioRevenueMetrics.grossMarginPercentage
       ScenarioRevenueMetrics.costPerKgRecovered].
  set (out := outcome (ScenarioInput.unitOfWork input)
                (ScenarioInput.costDrivers input)
                (ScenarioInput.sustainabilityDrivers input)
                (optionsOf input)) in *.
  set (factors := resolvedFactors
                    (Some (factorOverridesFromAssumptions
                             (ScenarioInput.assumptions input)))).
  set (avoided := Js.Math_max 0
                    (materialRecovered out * co2AvoidedPerKgRecovered factors
                     - totalEmissions out)).
  assert (Havoided : 0 <= avoided) by apply Math_max_floor_nonneg.
  set (price := ScenarioAssumptions.recoveredMaterialPricePerKg
                  (ScenarioInput.assumptions input)) in *.
  set (credit := ScenarioAssumptions.carbonCreditPricePerTonCO2e
                   (ScenarioInput.assumptions input)) in *.
  assert (Hrev : 0 <= materialRecovered out * price + avoided * credit).
  { assert (0 <= materialRecovered out * price)
      by (apply Qmult_le_0_compat; assumption).
    assert (0 <= avoided * credit) by (apply Qmult_le_0_compat; assumption).
    lra. }
  clearbody avoided out price credit.
  split; [| split; [exact Hrev | split; [| split]]].
  - destruct (ltb_spec 0 (totalEmissions out)) as [Hpos | _]; [| lra].
    assert (0 <= avoided / totalEmissions out)
      by (apply Qle_shift_div_l; lra).
    apply Qmult_le_0_compat; lra.
  - intros margin.
    destruct (ltb_spec 0 (materialRecovered out * price + avoided * credit))
      as [Hpos | _]; [| discriminate].
    intros Hm. injection Hm as <-.
    set (rev := materialRecovered out * price + avoided * credit) in *.
    clearbody rev.
    assert (Hq : (rev - totalCost out) / rev <= 1)
      by (apply Qle_shift_div_r; lra).
    assert (Hmul : (rev - totalCost out) / rev * 100 <= 1 * 100)
      by (apply Qmult_le_compat_r; lra).
    lra.
  - intros cost.
    destruct (ltb_spec 0 (materialRecovered out)) as [Hpos | _];
      [| discriminate].
    intros Hc. injection Hc as <-. apply Qle_shift_div_l; lra.
  - destruct (ltb_spec 0 (materialRecovered out)) as [Hpos | Hzero].
    + split; [discriminate | intros H0; rewrite H0 in Hpos; lra].
    + split; [intros _; apply Qle_antisym; assumption | reflexivity].
Qed.

Lemma scenario_metrics_are_well_defined_witness :
  exists res,
    analyzeScenario (makeInput Crusher) = Ok res
    /\ 0 <= ScenarioEnvironmentalKpis.avoidedEmissionPercentage
              (ScenarioAnalysisResult.environmentalKpis res)
    /\ 0 <= ScenarioRevenueMetrics.totalRevenue
              (ScenarioAnalysisResult.financialMetrics res)
    /\ (forall margin,
          ScenarioRevenueMetrics.grossMarginPercentage
            (ScenarioAnalysisResult.financialMetrics res) = Some margin ->
          margin <= 100)
    /\ (forall cost,
          ScenarioRevenueMetrics.costPerKgRecovered
            (ScenarioAnalysisResult.financialMetrics res) = Some cost ->
          0 <= cost)
    /\ (ScenarioRevenueMetrics.costPerKgRecovered
          (ScenarioAnalysisResult.financialMetrics res) = None
        <-> materialRecovered (ScenarioAnalysisResult.simulationResult res)
            == 0).
Proof.
  apply (scenario_metrics_are_well_defined (makeInput Crusher)).
  - apply makeInput_valid.
  - unfold nonNegativeDrivers; cbn; repeat split; lra.
Defined.

(** The two runs of [scenarioModel.test.ts]. *)
Example analyzeScenario_test_fixture :
  exists crusher grinder,
    analyzeScenario (makeInput Crusher) = Ok crusher
    /\ analyzeScenario (makeInput Grinder) = Ok grinder
    /\ totalCost (ScenarioAnalysisResult.simulationResult crusher) == 1010
    /\ ScenarioCostBreakdown.haulCost
         (ScenarioAnalysisResult.costBreakdown crusher) == 450
    /\ ScenarioCostBreakdown.processingCost
         (ScenarioAnalysisResult.costBreakdown crusher) == 200
    /\ ScenarioCostBreakdown.laborCost
         (ScenarioAnalysisResult.costBreakdown crusher) == 360
    /\ ScenarioEnvironmentalKpis.co2Avoided
         (ScenarioAnalysisResult.environmentalKpis crusher) == 0.434
    /\ ScenarioEnvironmentalKpis.truckMilesAvoided
         (ScenarioAnalysisResult.environmentalKpis crusher) == 60
    /\ ScenarioRevenueMetrics.netCashFlow
         (ScenarioAnalysisResult.financialMetrics crusher) == -498.47
    /\ totalCost (ScenarioAnalysisResult.simulationResult grinder) == 1150
    /\ materialRecovered (ScenarioAnalysisResult.simulationResult grinder)
       == 7500.
Proof.
  eexists; eexists.
  split; [vm_compute; reflexivity |]. split; [vm_compute; reflexivity |].
  repeat split; vm_compute; reflexivity.
Qed.

End ScenarioExtras.

(** ** Rounding and range expansion of the sensitivity sweep *)

Section RoundingExtras.
Import Sensitivity.

Lemma toFixed_error (x : Q) (digits : nat) :
  Qabs (Js.toFixed x digits - x) <= 0.5 / inject_Z (10 ^ Z.of_nat digits).
Proof.
  pose proof (scale_positive digits) as Hs.
  unfold Js.toFixed.
  set (s := inject_Z (10 ^ Z.of_nat digits)) in *.
  set (y := Qabs x * s + 0.5).
  pose proof (Qfloor_le y) as Hle. pose proof (Qlt_floor y) as Hlt.
  rewrite inject_Z_plus in Hlt. change (inject_Z 1) with 1 in Hlt.
  set (n := inject_Z (Qfloor y)) in *. clearbody n.
  assert (Hlow : Qabs x - 0.5 / s <= n / s).
  { apply Qle_shift_div_l; [exact Hs |].
    assert (Heq : (Qabs x - 0.5 / s) * s == Qabs x * s - 0.5)
      by (field; lra).
    rewrite Heq. unfold y in Hlt. lra. }
  assert (Hhigh : n / s <= Qabs x + 0.5 / s).
  { apply Qle_shift_div_r; [exact Hs |].
    assert (Heq : (Qabs x + 0.5 / s) * s == Qabs x * s + 0.5)
      by (field; lra).
    rewrite Heq. unfold y in Hle. lra. }
  set (q := n / s) in *. set (e := 0.5 / s) in *. clearbody q e.
  destruct (ltb_spec x 0) as [Hx | Hx].
  - rewrite (Qabs_neg x) in Hlow, Hhigh by lra.
    apply Qabs_Qle_condition. split; lra.
  - rewrite (Qabs_pos x) in Hlow, Hhigh by lra.
    apply Qabs_Qle_condition. split; lra.
Qed.

Lemma toFixed_opp (x : Q) (digits : nat) :
  Js.toFixed (- x) digits == - Js.toFixed x digits.
Proof.
  pose proof (scale_positive digits) as Hs.
  unfold Js.toFixed.
  set (s := inject_Z (10 ^ Z.of_nat digits)) in *.
  assert (Hn : Qfloor (Qabs (- x) * s + 0.5) = Qfloor (Qabs x * s + 0.5)).
  { apply Qfloor_comp. rewrite Qabs_opp. reflexivity. }
  rewrite Hn.
  destruct (ltb_spec (- x) 0) as [H1 | H1];
    destruct (ltb_spec x 0) as [H2 | H2]; try lra; try reflexivity;
    try (unfold Qdiv; ring).
  assert (Hx : x == 0) by lra.
  assert (Hz : Qfloor (Qabs x * s + 0.5) = 0%Z).
  { rewrite <- (Qfloor_half 0). apply Qfloor_comp.
    rewrite Hx. change (Qabs 0) with 0. change (inject_Z 0) with 0. ring. }
  rewrite Hz. unfold Qdiv. change (inject_Z 0) with 0. ring.
Qed.

(** X16.  Rounding to six decimals, as applied to every reported figure
    of the sweep, moves a value by at most half a millionth, is stable
    (a rounded value rounds to itself), preserves order and commutes with
    negation (ties go away from zero on both sides). *)
Theorem round_is_accurate_and_stable :
  forall x y : Q,
    Qabs (round x - x) <= 0.0000005
    /\ round (round x) == round x
    /\ (x <= y -> round x <= round y)
    /\ round (- x) == - round x.
Proof.
  intros x y. split; [| split; [| split]].
  - unfold round. pose proof (toFixed_error x 6) as H.
    assert (Hs : 0.5 / inject_Z (10 ^ Z.of_nat 6) == 0.0000005)
      by reflexivity.
    rewrite Hs in H. exact H.
  - apply round_idempotent.
  - apply round_mono.
  - apply toFixed_opp.
Qed.

End RoundingExtras.

Section RangeExtras.
Import Sensitivity SensitivitySpec CashFlowSpec.

Lemma round_comp (x y : Q) : x == y -> round x == round y.
Proof.
  intros H. apply Qle_antisym; apply round_mono; rewrite H; apply Qle_refl.
Qed.

Lemma nonDecreasing_app (l : list Q) (x : Q) :
  nonDecreasing l -> (forall y, In y l -> y <= x) -> nonDecreasing (l ++ [x]).
Proof.
  induction l as [| a l IH]; cbn [app nonDecreasing].
  - intros _ _. split; [intros y [] | exact I].
  - intros [Ha Hl] Hx. split.
    + intros y Hy. apply in_app_or in Hy. destruct Hy as [Hy | [<- | []]].
      * apply Ha. exact Hy.
      * apply Hx. left. reflexivity.
    + apply IH; [exact Hl |]. intros y Hy. apply Hx. right. exact Hy.
Qed.

Lemma nonDecreasing_map_seq (g : Z -> Q) (len : nat) :
  (forall i j, (i <= j)%Z -> g i <= g j) ->
  forall first : nat,
    nonDecreasing (map g (map Z.of_nat (seq first len))).
Proof.
  intros Hmono. induction len as [| len IH]; intros first;
    cbn [seq map nonDecreasing]; [exact I |].
  split; [| apply IH].
  intros y Hy. apply in_map_iff in Hy. destruct Hy as (z & <- & Hz).
  apply in_map_iff in Hz. destruct Hz as (k & <- & Hk).
  apply in_seq in Hk. apply Hmono. lia.
Qed.

Lemma dedupe_from_strict (values : list Q) :
  forall seen : list Q,
    nonDecreasing values -> strictlyAscending (Js.dedupe_from seen values).
Proof.
  induction values as [| v values IH]; intros seen; cbn [Js.dedupe_from].
  - intros _. exact I.
  - cbn [nonDecreasing]. intros [Hv Hrest].
    destruct (existsb (Qeq_bool v) seen); [apply IH; exact Hrest |].
    cbn [strictlyAscending]. split; [| apply IH; exact Hrest].
    intros y Hy.
    assert (Hmem : memQ y (Js.dedupe_from (v :: seen) values)).
    { exists y. split; [exact Hy | reflexivity]. }
    apply dedupe_from_memQ in Hmem. destruct Hmem as [_ Hnot].
    apply dedupe_from_In in Hy. apply Hv in Hy.
    destruct (Qle_lt_or_eq _ _ Hy) as [Hlt | Heq]; [exact Hlt |].
    exfalso. apply Hnot. exists v. split; [left; reflexivity | exact Heq].
Qed.

Lemma stepIndices_snoc (steps : Z) :
  (0 <= steps)%Z ->
  stepIndices steps
  = map Z.of_nat (seq 0 (Z.to_nat steps)) ++ [steps].
Proof.
  intros H. unfold stepIndices.
  destruct (Z.ltb_spec steps 0) as [Hneg | _]; [lia |].
  rewrite seq_S, map_app. cbn [map]. rewrite Nat.add_0_l, Z2Nat.id by lia.
  reflexivity.
Qed.

Lemma stepIndices_bounds (steps idx : Z) :
  In idx (stepIndices steps) -> (0 <= idx <= steps)%Z.
Proof.
  unfold stepIndices.
  destruct (Z.ltb_spec steps 0) as [Hneg | Hpos]; [intros [] |].
  intros Hin. apply in_map_iff in Hin. destruct Hin as (k & <- & Hk).
  apply in_seq in Hk. lia.
Qed.

(** X17.  The axis expanded from a range the schema accepts (step > 0,
    end >= start) is never empty, starts at the rounded start of the
    range, is strictly ascending (so free of duplicates), holds only
    values that rounding to six decimals leaves unchanged, and reaches
    the end of the range: one of its values is the rounded end, or lies
    no more than 1e-9 below the end. *)
Theorem expandRangeValues_shape :
  forall range : Range.t,
    numericRangeSchema range = true ->
    exists first rest,
      expandRangeValues range = first :: rest
      /\ first == round (Range.start range)
      /\ strictlyAscending (first :: rest)
      /\ (forall v, In v (first :: rest) -> round v == v)
      /\ exists top,
           In top (first :: rest)
           /\ (Range.end_ range - top <= EPSILON
               \/ top == round (Range.end_ range)).
Proof.
  intros range Hschema.
  unfold numericRangeSchema, positive in Hschema.
  apply andb_prop in Hschema. destruct Hschema as [Hstep Hend].
  destruct (ltb_spec 0 (Range.step range)) as [Hstep0 | ]; [| discriminate].
  destruct (ltb_spec (Range.end_ range) (Range.start range)) as [| Hspan];
    [discriminate |].
  clear Hstep Hend.
  assert (Hshape : exists first rest, expandRangeValues range = first :: rest
             /\ first == round (Range.start range)
             /\ strictlyAscending (first :: rest)
             /\ exists top,
                  memQ top (first :: rest)
                  /\ (Range.end_ range - top <= EPSILON
                      \/ top == round (Range.end_ range))).
  { unfold expandRangeValues.
    set (g := fun idx : Z =>
                round (Range.start range + inject_Z idx * Range.step range)).
    set (steps := Qfloor ((Range.end_ range - Range.start range)
                          / Range.step range + EPSILON)).
    assert (Hsteps : (0 <= steps)%Z).
    { apply Qfloor_nonneg.
      assert (0 <= (Range.end_ range - Range.start range) / Range.step range)
        by (apply Qle_shift_div_l; lra).
      unfold EPSILON. lra. }
    assert (Hmono : forall i j, (i <= j)%Z -> g i <= g j).
    { intros i j Hij. unfold g. apply round_mono.
      rewrite Zle_Qle in Hij.
      assert (inject_Z i * Range.step range <= inject_Z j * Range.step range)
        by (apply Qmult_le_compat_r; lra).
      lra. }
    assert (Hsorted : nonDecreasing (map g (stepIndices steps))).
    { unfold stepIndices.
      destruct (Z.ltb_spec steps 0); [exact I |].
      apply nonDecreasing_map_seq. exact Hmono. }
    assert (Hhead : exists tail,
               map g (stepIndices steps) = g 0%Z :: tail).
    { unfold stepIndices.
      destruct (Z.ltb_spec steps 0); [lia |].
      cbn [seq map]. eexists. reflexivity. }
    assert (Hlast : List.rev (map g (stepIndices steps))
                    = g steps
                      :: List.rev (map g (map Z.of_nat
                                            (seq 0 (Z.to_nat steps))))).
    { rewrite (stepIndices_snoc steps Hsteps), map_app, rev_app_distr.
      reflexivity. }
    rewrite Hlast.
    assert (Hg0 : g 0%Z == round (Range.start range)).
    { unfold g. apply round_comp. change (inject_Z 0) with 0. ring. }
    assert (Hfinal : forall values tail top,
               values = g 0%Z :: tail ->
               nonDecreasing values ->
               In top values ->
               (Range.end_ range - top <= EPSILON
                \/ top == round (Range.end_ range)) ->
               exists first rest,
                 Js.dedupe values = first :: rest
                 /\ first == round (Range.start range)
                 /\ strictlyAscending (first :: rest)
                 /\ exists top',
                      memQ top' (first :: rest)
                      /\ (Range.end_ range - top' <= EPSILON
                          \/ top' == round (Range.end_ range))).
    { intros values tail top Hvalues Hnd Htop Hreach.
      pose proof (dedupe_from_strict values [] Hnd) as Hstrict.
      assert (Hmem : memQ top (Js.dedupe values)).
      { unfold Js.dedupe. apply dedupe_from_memQ.
        split; [| apply memQ_nil].
        exists top. split; [exact Htop | reflexivity]. }
      fold (Js.dedupe values) in Hstrict.
      subst values. unfold Js.dedupe in *. cbn [Js.dedupe_from existsb] in *.
      eexists; eexists. split; [reflexivity |].
      split; [exact Hg0 |]. split; [exact Hstrict |].
      exists top. split; [exact Hmem | exact Hreach]. }
    destruct Hhead as (tail & Hhead).
    destruct (ltb_spec EPSILON (Range.end_ range - g steps)) as [Hfar | Hnear].
    - apply (Hfinal _ (tail ++ [round (Range.end_ range)])
               (round (Range.end_ range))).
      + rewrite Hhead. reflexivity.
      + apply nonDecreasing_app; [exact Hsorted |].
        intros y Hy. apply in_map_iff in Hy. destruct Hy as (idx & <- & Hidx).
        apply stepIndices_bounds in Hidx.
        apply Qle_trans with (g steps); [apply Hmono; lia |].
        assert (Hfix : round (g steps) == g steps)
          by (unfold g; apply round_idempotent).
        rewrite <- Hfix. apply round_mono. unfold EPSILON in Hfar. lra.
      + apply in_or_app. right. left. reflexivity.
      + right. reflexivity.
    - apply (Hfinal _ tail (g steps)).
      + exact Hhead.
      + exact Hsorted.
      + apply in_map. rewrite (stepIndices_snoc steps Hsteps).
        apply in_or_app. right. left. reflexivity.
      + left. exact Hnear. }
  destruct Hshape as (first & rest & Heq & Hfirst & Hstrict & top & Hmem & Hreach).
  exists first, rest. split; [exact Heq |]. split; [exact Hfirst |].
  split; [exact Hstrict |]. split.
  - intros v Hv. apply (axis_value_is_fixed_by_round range).
    rewrite Heq. exact Hv.
  - destruct Hmem as (q & Hq & Hqtop). exists q. split; [exact Hq |].
    destruct Hreach as [Hreach | Hreach].
    + left. rewrite Hqtop. exact Hreach.
    + right. rewrite Hqtop. exact Hreach.
Qed.

Lemma expandRangeValues_shape_witness :
  exists first rest,
    expandRangeValues {| Range.start := 0; Range.end_ := 1;
                         Range.step := 0.3 |} = first :: rest
    /\ first == round 0
    /\ strictlyAscending (first :: rest)
    /\ (forall v, In v (first :: rest) -> round v == v)
    /\ exists top,
         In top (first :: rest)
         /\ (1 - top <= EPSILON \/ top == round 1).
Proof.
  apply (expandRangeValues_shape
           {| Range.start := 0; Range.end_ := 1; Range.step := 0.3 |}).
  vm_compute. reflexivity.
Defined.

End RangeExtras.

(** ** Cost and payback across the sweep *)

Section SweepCostFacts.
Import Sensitivity SensitivitySpec.

Variable Math_pow : Q -> Q -> Q.

Lemma penalty_cost_comp (h1 h2 : Q) (proxy : NormalizedPenaltyProxy.t) :
  h1 == h2 ->
  costPenaltyUsd (computeExpeditePenaltyProxy Math_pow h1 proxy)
  == costPenaltyUsd (computeExpeditePenaltyProxy Math_pow h2 proxy).
Proof.
  intros H. unfold computeExpeditePenaltyProxy.
  destruct (negb (NormalizedPenaltyProxy.enabled proxy));
    cbn [costPenaltyUsd]; [reflexivity |].
  unfold Js.Math_max. rewrite H. reflexivity.
Qed.

Lemma cost_delta_arith (s1 s2 b1 b2 sh1 sh2 bh1 bh2 sd1 sd2 bd1 bd2
    sv1 sv2 bv1 bv2 p1 p2 : Q) :
  s1 == s2 -> b1 == b2 -> sh1 <= sh2 -> bh1 == bh2 -> sd1 <= sd2 ->
  bd1 == bd2 -> sv1 <= sv2 -> bv1 == bv2 -> p1 == p2 ->
  s1 + sh1 + sd1 + sv1 + p1 - (b1 + bh1 + bd1 + bv1)
  <= s2 + sh2 + sd2 + sv2 + p2 - (b2 + bh2 + bd2 + bv2).
Proof. intros. lra. Qed.

Lemma assemblePoint_cost_monotone (context : SensitivityContext.t)
    (i1 i2 : SensitivityPointInput.t)
    (b1 s1 b2 s2 : Simulation.SimulationResult) :
  SensitivityPointInput.haulDistancePerTripKm i1
  == SensitivityPointInput.haulDistancePerTripKm i2 ->
  SensitivityPointInput.reuseUptakeRate i2
  <= SensitivityPointInput.reuseUptakeRate i1 ->
  Simulation.totalCost b1 == Simulation.totalCost b2 ->
  Simulation.totalCost s1 == Simulation.totalCost s2 ->
  Simulation.materialRecovered b1 == Simulation.materialRecovered b2 ->
  Simulation.materialRecovered s1 == Simulation.materialRecovered s2 ->
  0 < Simulation.truckCapacity (SensitivityContext.costDrivers context) ->
  0 <= SensitivityPointInput.haulDistancePerTripKm i1 ->
  0 <= Simulation.haulCostPerKm (SensitivityContext.costDrivers context) ->
  0 <= NormalizedSensitivityAssumptions.virginAggregateCostPerKg
         (SensitivityContext.assumptions context) ->
  0 <= NormalizedSensitivityAssumptions.landfillDisposalCostPerKg
         (SensitivityContext.assumptions context) ->
  SensitivityPlotPoint.costDeltaUsd
    (point (assemblePoint Math_pow i1 context b1 s1))
  <= SensitivityPlotPoint.costDeltaUsd
       (point (assemblePoint Math_pow i2 context b2 s2)).
Proof.
  intros Hh Hr HbC HsC HbR HsR Hcap Hh0 Hhc Hvc Hlc.
  unfold assemblePoint.
  cbn [point SensitivityPlotPoint.costDeltaUsd].
  set (inbound :=
         Simulation.inboundMaterial (SensitivityContext.unitOfWork context)).
  set (cap := Simulation.truckCapacity (SensitivityContext.costDrivers context))
    in *.
  set (hc := Simulation.haulCostPerKm (SensitivityContext.costDrivers context))
    in *.
  set (vc := NormalizedSensitivityAssumptions.virginAggregateCostPerKg
               (SensitivityContext.assumptions context)) in *.
  set (lc := NormalizedSensitivityAssumptions.landfillDisposalCostPerKg
               (SensitivityContext.assumptions context)) in *.
  set (h1 := SensitivityPointInput.haulDistancePerTripKm i1) in *.
  set (h2 := SensitivityPointInput.haulDistancePerTripKm i2) in *.
  set (r1 := SensitivityPointInput.reuseUptakeRate i1) in *.
  set (r2 := SensitivityPointInput.reuseUptakeRate i2) in *.
  unfold Js.Math_max, Js.Math_ceil.
  set (res1 := Qmax 0 (inbound - Simulation.materialRecovered s1)).
  set (res2 := Qmax 0 (inbound - Simulation.materialRecovered s2)).
  assert (Hres : res1 == res2) by (unfold res1, res2; now rewrite HsR).
  assert (Hres0 : 0 <= res1) by apply Q.le_max_l.
  assert (Hreuse : res2 * r2 <= res1 * r1).
  { rewrite <- Hres. rewrite !(Qmult_comm res1).
    apply Qmult_le_compat_r; assumption. }
  assert (Hvirgin : Qmax 0 (inbound - res1 * r1) <= Qmax 0 (inbound - res2 * r2))
    by (apply Q.max_le_compat_l; lra).
  assert (Hland : Qmax 0 (res1 - res1 * r1) <= Qmax 0 (res2 - res2 * r2))
    by (apply Q.max_le_compat_l; lra).
  assert (Htrips : inject_Z (Qceiling (Qmax 0 (res1 - res1 * r1) / cap))
                   <= inject_Z (Qceiling (Qmax 0 (res2 - res2 * r2) / cap))).
  { rewrite <- Zle_Qle. apply Qceiling_resp_le.
    apply Qdiv_le_compat; assumption. }
  apply round_mono. apply cost_delta_arith.
  - exact HsC.
  - exact HbC.
  - rewrite <- Hh.
    apply Qmult_le_compat_r; [| exact Hhc].
    apply Qmult_le_compat_r; [exact Htrips | exact Hh0].
  - rewrite HbR, Hh. reflexivity.
  - apply Qmult_le_compat_r; assumption.
  - rewrite HbR. reflexivity.
  - apply Qmult_le_compat_r; assumption.
  - reflexivity.
  - apply penalty_cost_comp. exact Hh.
Qed.

Lemma outcome_cost_comp (context : SensitivityContext.t)
    (i1 i2 : SensitivityPointInput.t) (o : Simulation.SimulationOptions) :
  SensitivityPointInput.haulDistancePerTripKm i1
  == SensitivityPointInput.haulDistancePerTripKm i2 ->
  SensitivityPointInput.grinderThroughputKgPerHour i1
  == SensitivityPointInput.grinderThroughputKgPerHour i2 ->
  Simulation.totalCost
    (SimulationSpec.outcome (coreUnitOfWork i1 context)
       (coreCostDrivers i1 context) (coreSustainabilityDrivers context) o)
  == Simulation.totalCost
       (SimulationSpec.outcome (coreUnitOfWork i2 context)
          (coreCostDrivers i2 context) (coreSustainabilityDrivers context) o).
Proof.
  intros Hh Hg.
  unfold SimulationSpec.outcome, SimulationSpec.selectedThroughput,
    coreUnitOfWork, coreCostDrivers, toCoreUnitOfWork, toCoreCostDrivers.
  cbn [Simulation.totalCost Simulation.inboundMaterial
       Simulation.haulDistancePerTrip Simulation.truckCapacity
       Simulation.haulCostPerKm Simulation.laborCostPerHour
       Simulation.crusherProcessingCostPerKg
       Simulation.grinderProcessingCostPerKg
       Simulation.crusherThroughputKgPerHour
       Simulation.grinderThroughputKgPerHour].
  destruct (Simulation.useCrusher o); rewrite ?Hh, ?Hg; reflexivity.
Qed.

Lemma gridInputs_axis (payload : Payload.t) (mode : GrinderAxisMode)
    (hs rs gs : list Q) (input : SensitivityPointInput.t) :
  In input (gridInputs payload mode hs rs gs) ->
  exists g,
    In g gs
    /\ SensitivityPointInput.grinderUtilization input
       = match mode with
         | utilization => Some g
         | throughput => None
         end
    /\ SensitivityPointInput.grinderThroughputKgPerHour input
       = match mode with
         | utilization =>
             Simulation.grinderThroughputKgPerHour
               (Payload.costDrivers payload) * g
         | throughput => g
         end.
Proof.
  unfold gridInputs. intros Hin.
  apply in_flat_map in Hin. destruct Hin as (h & Hh & Hin).
  apply in_flat_map in Hin. destruct Hin as (r & Hr & Hin).
  apply in_map_iff in Hin. destruct Hin as (g & <- & Hg).
  exists g. cbn. split; [exact Hg | split; reflexivity].
Qed.

Lemma schema_nonnegative_costs (payload : Payload.t) :
  sensitivityRequestSchema payload = true ->
  0 <= Simulation.haulCostPerKm
         (SensitivityContext.costDrivers (contextOf payload))
  /\ 0 <= NormalizedSensitivityAssumptions.virginAggregateCostPerKg
            (SensitivityContext.assumptions (contextOf payload))
  /\ 0 <= NormalizedSensitivityAssumptions.landfillDisposalCostPerKg
            (SensitivityContext.assumptions (contextOf payload))
  /\ 0 < NormalizedSensitivityAssumptions.grinderCapitalCostUsd
           (SensitivityContext.assumptions (contextOf payload))
  /\ 0 < NormalizedSensitivityAssumptions.runsPerDay
           (SensitivityContext.assumptions (contextOf payload)).
Proof.
  unfold sensitivityRequestSchema. intros H.
  repeat (apply andb_prop in H; destruct H as [H ?]).
  match goal with
  | Hc : costDriversSchema _ = true |- _ =>
      unfold costDriversSchema in Hc;
      repeat (apply andb_prop in Hc; destruct Hc as [Hc ?])
  end.
  match goal with
  | Ha : sensitivityAssumptionsSchema _ = true |- _ =>
      unfold sensitivityAssumptionsSchema in Ha
  end.
  cbn [contextOf SensitivityContext.costDrivers SensitivityContext.assumptions
       resolveNormalizedInput fst
       NormalizedSensitivityAssumptions.virginAggregateCostPerKg
       NormalizedSensitivityAssumptions.landfillDisposalCostPerKg
       NormalizedSensitivityAssumptions.grinderCapitalCostUsd
       NormalizedSensitivityAssumptions.runsPerDay].
  unfold resolveAssumption, optionalField, Js.nullish.
  split.
  { match goal with
    | Hn : nonnegative (Simulation.haulCostPerKm _) = true |- _ =>
        unfold nonnegative in Hn;
        destruct (leb_spec 0 (Simulation.haulCostPerKm
                                (Payload.costDrivers payload)));
        [assumption | discriminate]
    end. }
  destruct (Payload.assumptions payload) as [a |];
    [| cbn; repeat split; lra].
  match goal with
  | Ha : optional _ (Some a) = true |- _ =>
      cbn [optional] in Ha;
      repeat (apply andb_prop in Ha; destruct Ha as [Ha ?])
  end.
  repeat split.
  - destruct (Assumptions.virginAggregateCostPerKg a) as [v |]; [| cbn; lra].
    match goal with
    | Hn : optional nonnegative (Some v) = true |- _ =>
        cbn [optional] in Hn; unfold nonnegative in Hn;
        destruct (leb_spec 0 v); [assumption | discriminate]
    end.
  - destruct (Assumptions.landfillDisposalCostPerKg a) as [v |]; [| cbn; lra].
    match goal with
    | Hn : optional nonnegative (Some v) = true |- _ =>
        cbn [optional] in Hn; unfold nonnegative in Hn;
        destruct (leb_spec 0 v); [assumption | discriminate]
    end.
  - destruct (Assumptions.grinderCapitalCostUsd a) as [v |]; [| cbn; lra].
    match goal with
    | Hn : optional positive (Some v) = true |- _ =>
        cbn [optional] in Hn; unfold positive in Hn;
        destruct (ltb_spec 0 v); [assumption | discriminate]
    end.
  - destruct (Assumptions.runsPerDay a) as [v |]; [| cbn; lra].
    match goal with
    | Hn : optional positive (Some v) = true |- _ =>
        cbn [optional] in Hn; unfold positive in Hn;
        destruct (ltb_spec 0 v); [assumption | discriminate]
    end.
Qed.

End SweepCostFacts.

Section SweepCostExtras.
Import Sensitivity SensitivitySpec.

Lemma round_zero : round 0 == 0.
Proof. reflexivity. Qed.

(** The grinder throughput two grid inputs were simulated with is the
    same as soon as their reported grinder-axis values are. *)
Lemma same_axis_same_throughput (payload : Payload.t)
    (i1 i2 : SensitivityPointInput.t) (context : SensitivityContext.t)
    (Math_pow : Q -> Q -> Q) (b1 s1 b2 s2 : Simulation.SimulationResult) :
  In i1 (gridInputs payload (axisModeOf payload) (haulAxis payload)
           (reuseAxis payload) (grinderAxis payload)) ->
  In i2 (gridInputs payload (axisModeOf payload) (haulAxis payload)
           (reuseAxis payload) (grinderAxis payload)) ->
  sameGrinderAxis (point (assemblePoint Math_pow i1 context b1 s1))
                  (point (assemblePoint Math_pow i2 context b2 s2)) ->
  SensitivityPointInput.grinderThroughputKgPerHour i1
  == SensitivityPointInput.grinderThroughputKgPerHour i2.
Proof.
  intros Hi1 Hi2 [Hu Ht].
  cbn [assemblePoint point SensitivityPlotPoint.grinderUtilization
       SensitivityPlotPoint.grinderThroughputKgPerHour] in Hu, Ht.
  apply gridInputs_axis in Hi1. apply gridInputs_axis in Hi2.
  destruct Hi1 as (g1 & Hg1 & Hu1 & Ht1).
  destruct Hi2 as (g2 & Hg2 & Hu2 & Ht2).
  apply axis_value_is_fixed_by_round in Hg1, Hg2.
  rewrite Hu1, Hu2 in Hu. rewrite Ht1, Ht2 in Ht. rewrite Ht1, Ht2.
  destruct (axisModeOf payload).
  - cbn [optionQeq] in Hu. rewrite Hg1, Hg2 in Hu. rewrite Hu. reflexivity.
  - rewrite Hg1, Hg2 in Ht. exact Ht.
Qed.

(** X18.  More reuse never costs more: for every request the schema
    accepts and every two points of its grid at the same haul distance
    and the same grinder-axis value, the point with the greater
    reuseUptakeRate reports a cost delta (scenario minus baseline) that
    is not above the other's. *)
Theorem sweep_cost_delta_monotone_in_reuse :
  forall (Math_pow : Q -> Q -> Q) (payload : Payload.t) (runs : nat)
         (p1 p2 : SensitivityPointComputation),
    sensitivityRequestSchema payload = true ->
    In p1 (gridPoints Math_pow payload runs) ->
    In p2 (gridPoints Math_pow payload runs) ->
    SensitivityPlotPoint.haulDistancePerTripKm (point p1)
    == SensitivityPlotPoint.haulDistancePerTripKm (point p2) ->
    sameGrinderAxis (point p1) (point p2) ->
    SensitivityPlotPoint.reuseUptakeRate (point p2)
    < SensitivityPlotPoint.reuseUptakeRate (point p1) ->
    SensitivityPlotPoint.costDeltaUsd (point p1)
    <= SensitivityPlotPoint.costDeltaUsd (point p2).
Proof.
  intros Math_pow payload runs p1 p2 Hschema Hin1 Hin2 Hhaul Haxis Hrate.
  destruct (gridPoints_In _ _ _ _ Hin1) as (i1 & a1 & a2 & Hi1 & Hrun1).
  destruct (gridPoints_In _ _ _ _ Hin2) as (i2 & c1 & c2 & Hi2 & Hrun2).
  apply computeSensitivityPoint_inv in Hrun1.
  apply computeSensitivityPoint_inv in Hrun2.
  destruct Hrun1 as (Hg1 & _ & ->). destruct Hrun2 as (_ & _ & ->).
  pose proof (same_axis_same_throughput _ _ _ _ _ _ _ _ _ Hi1 Hi2 Haxis)
    as Hthroughput.
  apply gridInputs_In in Hi1. apply gridInputs_In in Hi2.
  destruct Hi1 as (Hh1 & _ & _). destruct Hi2 as (Hh2 & _ & _).
  apply axis_value_is_fixed_by_round in Hh1, Hh2.
  cbn [assemblePoint point SensitivityPlotPoint.haulDistancePerTripKm
       SensitivityPlotPoint.reuseUptakeRate] in Hhaul, Hrate.
  destruct (schema_nonnegative_costs payload Hschema)
    as (Hhc & Hvc & Hlc & _ & _).
  destruct Hg1 as (_ & _ & Hcap & _ & Hpos & _).
  assert (Hsame : SensitivityPointInput.haulDistancePerTripKm i1
                  == SensitivityPointInput.haulDistancePerTripKm i2)
    by (rewrite <- Hh1, <- Hh2; exact Hhaul).
  apply assemblePoint_cost_monotone.
  - exact Hsame.
  - destruct (Qlt_le_dec (SensitivityPointInput.reuseUptakeRate i1)
                (SensitivityPointInput.reuseUptakeRate i2)) as [Hlt | Hle];
      [| exact Hle].
    apply Qlt_le_weak, round_mono in Hlt. lra.
  - apply outcome_cost_comp; assumption.
  - apply outcome_cost_comp; assumption.
  - reflexivity.
  - reflexivity.
  - exact Hcap.
  - apply Qlt_le_weak. exact Hpos.
  - exact Hhc.
  - exact Hvc.
  - exact Hlc.
Qed.

Lemma sweep_cost_delta_monotone_in_reuse_witness :
  exists p1 p2 : SensitivityPointComputation,
    In p1 (gridPoints integerPower basePayload 0%nat)
    /\ In p2 (gridPoints integerPower basePayload 0%nat)
    /\ SensitivityPlotPoint.reuseUptakeRate (point p2)
       < SensitivityPlotPoint.reuseUptakeRate (point p1)
    /\ SensitivityPlotPoint.costDeltaUsd (point p1)
       <= SensitivityPlotPoint.costDeltaUsd (point p2).
Proof.
  assert (H : exists p1 p2,
             nth_error (gridPoints integerPower basePayload 0%nat) 2 = Some p1
             /\ nth_error (gridPoints integerPower basePayload 0%nat) 0
                = Some p2).
  { vm_compute. eexists. eexists. split; reflexivity. }
  destruct H as (p1 & p2 & H1 & H2).
  assert (Hin1 : In p1 (gridPoints integerPower basePayload 0%nat))
    by (eapply nth_error_In; exact H1).
  assert (Hin2 : In p2 (gridPoints integerPower basePayload 0%nat))
    by (eapply nth_error_In; exact H2).
  vm_compute in H1. injection H1 as <-.
  vm_compute in H2. injection H2 as <-.
  eexists. eexists.
  split; [exact Hin1 |]. split; [exact Hin2 |].
  split; [vm_compute; reflexivity |].
  apply (sweep_cost_delta_monotone_in_reuse integerPower basePayload 0%nat);
    try assumption.
  - vm_compute. reflexivity.
  - vm_compute. reflexivity.
  - split; vm_compute; reflexivity.
  - vm_compute. reflexivity.
Defined.

(** X19.  A payback time is reported only for a scenario that saves
    money.  For every request the schema accepts and every point of its
    grid: if paybackDays is a number it is non-negative and the reported
    cost delta is not positive; and a point with a positive cost delta
    has paybackDays null. *)
Theorem payback_only_when_scenario_saves :
  forall (Math_pow : Q -> Q -> Q) (payload : Payload.t) (runs : nat)
         (p : SensitivityPointComputation),
    sensitivityRequestSchema payload = true ->
    In p (gridPoints Math_pow payload runs) ->
    (forall days,
        SensitivityPlotPoint.paybackDays (point p) = Some days ->
        0 <= days /\ SensitivityPlotPoint.costDeltaUsd (point p) <= 0)
    /\ (0 < SensitivityPlotPoint.costDeltaUsd (point p) ->
        SensitivityPlotPoint.paybackDays (point p) = None).
Proof.
  intros Math_pow payload runs p Hschema Hin.
  destruct (gridPoints_In _ _ _ _ Hin) as (i & a1 & a2 & Hi & Hrun).
  apply computeSensitivityPoint_inv in Hrun. destruct Hrun as (_ & _ & ->).
  destruct (schema_nonnegative_costs payload Hschema)
    as (_ & _ & _ & Hcapital & Hruns).
  unfold assemblePoint.
  cbn [point SensitivityPlotPoint.paybackDays
       SensitivityPlotPoint.costDeltaUsd].
  set (capital := NormalizedSensitivityAssumptions.grinderCapitalCostUsd
                    (SensitivityContext.assumptions (contextOf payload))) in *.
  set (perDay := NormalizedSensitivityAssumptions.runsPerDay
                   (SensitivityContext.assumptions (contextOf payload))) in *.
  match goal with
  | |- context [round (?s - ?b)] =>
      set (scenarioCost := s); set (baselineCost := b)
  end.
  clearbody capital perDay scenarioCost baselineCost.
  assert (Hsign : 0 < (baselineCost - scenarioCost) * perDay ->
                  scenarioCost - baselineCost < 0).
  { intros Hs.
    destruct (Qlt_le_dec (scenarioCost - baselineCost) 0) as [H | H];
      [exact H |].
    assert ((baselineCost - scenarioCost) * perDay <= 0 * perDay)
      by (apply Qmult_le_compat_r; lra).
    lra. }
  destruct (ltb_spec 0 ((baselineCost - scenarioCost) * perDay))
    as [Hsave | Hnone]; cbn [roundNullable].
  - split.
    + intros days Hd. injection Hd as <-.
      specialize (Hsign Hsave). split.
      * rewrite <- round_zero. apply round_mono.
        apply Qle_shift_div_l; lra.
      * rewrite <- round_zero. apply round_mono. lra.
    + intros Hpos. exfalso. specialize (Hsign Hsave).
      assert (round (scenarioCost - baselineCost) <= round 0)
        by (apply round_mono; lra).
      rewrite round_zero in *. lra.
  - split; [intros days Hd; discriminate | reflexivity].
Qed.

Lemma payback_only_when_scenario_saves_witness :
  exists (p : SensitivityPointComputation) (days : Q),
    In p (gridPoints integerPower basePayload 0%nat)
    /\ SensitivityPlotPoint.paybackDays (point p) = Some days
    /\ 0 <= days
    /\ SensitivityPlotPoint.costDeltaUsd (point p) <= 0.
Proof.
  assert (H : exists p,
             nth_error (gridPoints integerPower basePayload 0%nat) 4 = Some p).
  { vm_compute. eexists. reflexivity. }
  destruct H as (p & Hp).
  assert (Hin : In p (gridPoints integerPower basePayload 0%nat))
    by (eapply nth_error_In; exact Hp).
  vm_compute in Hp. injection Hp as <-.
  eexists. eexists. split; [exact Hin |].
  split; [vm_compute; reflexivity |].
  apply (payback_only_when_scenario_saves integerPower basePayload 0%nat _
           ltac:(vm_compute; reflexivity) Hin).
  vm_compute. reflexivity.
Defined.

(** X20.  The grinder axis moves cost and payback only, never emissions:
    for every request the schema accepts, two points of its grid at the
    same haul distance and the same reuse uptake rate report the same
    avoided emissions and the same scenario virgin-aggregate emissions,
    whatever their grinder utilization or throughput. *)
Theorem sweep_emissions_ignore_grinder_axis :
  forall (Math_pow : Q -> Q -> Q) (payload : Payload.t) (runs : nat)
         (p1 p2 : SensitivityPointComputation),
    sensitivityRequestSchema payload = true ->
    In p1 (gridPoints Math_pow payload runs) ->
    In p2 (gridPoints Math_pow payload runs) ->
    SensitivityPlotPoint.haulDistancePerTripKm (point p1)
    == SensitivityPlotPoint.haulDistancePerTripKm (point p2) ->
    SensitivityPlotPoint.reuseUptakeRate (point p1)
    == SensitivityPlotPoint.reuseUptakeRate (point p2) ->
    SensitivityPlotPoint.emissionsAvoidedTonsCO2e (point p1)
    == SensitivityPlotPoint.emissionsAvoidedTonsCO2e (point p2)
    /\ SensitivityPointDiagnostics.scenarioVirginAggregateEmissionsTonsCO2e
         (diagnostics p1)
       == SensitivityPointDiagnostics.scenarioVirginAggregateEmissionsTonsCO2e
            (diagnostics p2).
Proof.
  intros Math_pow payload runs p1 p2 Hschema Hin1 Hin2 Hhaul Hrate.
  destruct (gridPoints_In _ _ _ _ Hin1) as (i1 & a1 & a2 & Hi1 & Hrun1).
  destruct (gridPoints_In _ _ _ _ Hin2) as (i2 & c1 & c2 & Hi2 & Hrun2).
  apply computeSensitivityPoint_inv in Hrun1.
  apply computeSensitivityPoint_inv in Hrun2.
  destruct Hrun1 as (Hg1 & _ & ->). destruct Hrun2 as (Hg2 & _ & ->).
  apply gridInputs_In in Hi1. apply gridInputs_In in Hi2.
  destruct Hi1 as (Hh1 & Hr1 & _). destruct Hi2 as (Hh2 & Hr2 & _).
  apply axis_value_is_fixed_by_round in Hh1, Hh2, Hr1, Hr2.
  cbn [assemblePoint point SensitivityPlotPoint.haulDistancePerTripKm
       SensitivityPlotPoint.reuseUptakeRate] in Hhaul, Hrate.
  destruct (schema_nonnegative_factors payload Hschema) as [Hhe Hve].
  destruct Hg1 as (_ & _ & Hcap & _ & Hpos1 & _).
  destruct Hg2 as (_ & _ & _ & _ & Hpos2 & _).
  assert (Hsame : SensitivityPointInput.haulDistancePerTripKm i1
                  == SensitivityPointInput.haulDistancePerTripKm i2)
    by (rewrite <- Hh1, <- Hh2; exact Hhaul).
  assert (Hreuse : SensitivityPointInput.reuseUptakeRate i1
                   == SensitivityPointInput.reuseUptakeRate i2)
    by (rewrite <- Hr1, <- Hr2; exact Hrate).
  destruct (assemblePoint_monotone Math_pow (contextOf payload) i1 i2
              (SimulationSpec.outcome (coreUnitOfWork i1 (contextOf payload))
                 (coreCostDrivers i1 (contextOf payload))
                 (coreSustainabilityDrivers (contextOf payload))
                 baselineOptions)
              (SimulationSpec.outcome (coreUnitOfWork i1 (contextOf payload))
                 (coreCostDrivers i1 (contextOf payload))
                 (coreSustainabilityDrivers (contextOf payload))
                 scenarioOptions)
              (SimulationSpec.outcome (coreUnitOfWork i2 (contextOf payload))
                 (coreCostDrivers i2 (contextOf payload))
                 (coreSustainabilityDrivers (contextOf payload))
                 baselineOptions)
              (SimulationSpec.outcome (coreUnitOfWork i2 (contextOf payload))
                 (coreCostDrivers i2 (contextOf payload))
                 (coreSustainabilityDrivers (contextOf payload))
                 scenarioOptions))
    as [Hv12 He12];
    [ exact Hsame | rewrite Hreuse; apply Qle_refl
    | apply outcome_emissions_comp; exact Hsame
    | apply outcome_emissions_comp; exact Hsame
    | reflexivity | reflexivity | exact Hcap
    | apply Qlt_le_weak; exact Hpos1 | exact Hhe | exact Hve | ].
  destruct (assemblePoint_monotone Math_pow (contextOf payload) i2 i1
              (SimulationSpec.outcome (coreUnitOfWork i2 (contextOf payload))
                 (coreCostDrivers i2 (contextOf payload))
                 (coreSustainabilityDrivers (contextOf payload))
                 baselineOptions)
              (SimulationSpec.outcome (coreUnitOfWork i2 (contextOf payload))
                 (coreCostDrivers i2 (contextOf payload))
                 (coreSustainabilityDrivers (contextOf payload))
                 scenarioOptions)
              (SimulationSpec.outcome (coreUnitOfWork i1 (contextOf payload))
                 (coreCostDrivers i1 (contextOf payload))
                 (coreSustainabilityDrivers (contextOf payload))
                 baselineOptions)
              (SimulationSpec.outcome (coreUnitOfWork i1 (contextOf payload))
                 (coreCostDrivers i1 (contextOf payload))
                 (coreSustainabilityDrivers (contextOf payload))
                 scenarioOptions))
    as [Hv21 He21];
    [ symmetry; exact Hsame | rewrite Hreuse; apply Qle_refl
    | apply outcome_emissions_comp; symmetry; exact Hsame
    | apply outcome_emissions_comp; symmetry; exact Hsame
    | reflexivity | reflexivity | exact Hcap
    | apply Qlt_le_weak; exact Hpos2 | exact Hhe | exact Hve | ].
  split; apply Qle_antisym; assumption.
Qed.

Lemma sweep_emissions_ignore_grinder_axis_witness :
  exists p1 p2 : SensitivityPointComputation,
    In p1 (gridPoints integerPower basePayload 0%nat)
    /\ In p2 (gridPoints integerPower basePayload 0%nat)
    /\ ~ sameGrinderAxis (point p1) (point p2)
    /\ SensitivityPlotPoint.emissionsAvoidedTonsCO2e (point p1)
       == SensitivityPlotPoint.emissionsAvoidedTonsCO2e (point p2)
    /\ SensitivityPointDiagnostics.scenarioVirginAggregateEmissionsTonsCO2e
         (diagnostics p1)
       == SensitivityPointDiagnostics.scenarioVirginAggregateEmissionsTonsCO2e
            (diagnostics p2).
Proof.
  assert (H : exists p1 p2,
             nth_error (gridPoints integerPower basePayload 0%nat) 0 = Some p1
             /\ nth_error (gridPoints integerPower basePayload 0%nat) 1
                = Some p2).
  { vm_compute. eexists. eexists. split; reflexivity. }
  destruct H as (p1 & p2 & H1 & H2).
  assert (Hin1 : In p1 (gridPoints integerPower basePayload 0%nat))
    by (eapply nth_error_In; exact H1).
  assert (Hin2 : In p2 (gridPoints integerPower basePayload 0%nat))
    by (eapply nth_error_In; exact H2).
  vm_compute in H1. injection H1 as <-.
  vm_compute in H2. injection H2 as <-.
  eexists. eexists.
  split; [exact Hin1 |]. split; [exact Hin2 |].
  split; [intros [Hu _]; vm_compute in Hu; discriminate |].
  apply (sweep_emissions_ignore_grinder_axis integerPower basePayload 0%nat);
    try assumption; vm_compute; reflexivity.
Defined.

End SweepCostExtras.

(** ** The simulate route (api/simulate/simulation.ts) *)

Section SimulateGolden.
Import Simulation SimulateApi SimulateSpec.

(** The two golden responses of [simulate/simulation.test.ts]. *)
Example buildSimulationResponse_baseline_golden :
  exists response,
    buildSimulationResponse basePayload = Ok response
    /\ NormalizedScenarioOptions.mode
         (Normalized.scenarioOptions (SimulateResponse.inputsEcho response))
       = baseline
    /\ Outputs.costUsd (SimulateResponse.outputs response) == 980
    /\ Outputs.timeHours (SimulateResponse.outputs response) == 8.25
    /\ Outputs.truckTrips (SimulateResponse.outputs response) == 5
    /\ MaterialFlows.recoveredKg
         (Outputs.materialFlows (SimulateResponse.outputs response)) == 8200
    /\ MaterialFlows.landfillKg
         (Outputs.materialFlows (SimulateResponse.outputs response)) == 1800
    /\ Emissions.operationalTonsCO2e (SimulateResponse.emissions response)
       == 0.55
    /\ Emissions.avoidedTonsCO2e (SimulateResponse.emissions response)
       == 0.434
    /\ Emissions.estimatedUptakeTonsCO2e (SimulateResponse.emissions response)
       == 0.246
    /\ ShowYourWork.WorksheetInput.totalCostUsd
         (ShowYourWork.Worksheet.input
            (SimulateResponse.audit_worksheet response)) == 980
    /\ map AssumptionUsed.name (SimulateResponse.assumptionsUsed response)
       = ["scenarioOptions.mode";
          "emissionsFactors.co2AvoidedPerKgRecovered";
          "emissionsFactors.carbonCapturePotentialPerKgRecovered";
          "emissionsFactors.baselineTruckMilesPerTrip";
          "emissionsFactors.optimizedTruckMilesPerTrip";
          "simulationOptions.truckSpeedKmPerHour";
          "simulationOptions.loadUnloadHoursPerTrip"]%string.
Proof.
  eexists. split; [vm_compute; reflexivity |].
  repeat split; vm_compute; reflexivity.
Qed.

Example buildSimulationResponse_grinder_reuse_golden :
  exists response,
    buildSimulationResponse grinderReusePayload = Ok response
    /\ Outputs.costUsd (SimulateResponse.outputs response) == 1120
    /\ Outputs.timeHours (SimulateResponse.outputs response) == 9.25
    /\ MaterialFlows.recoveredKg
         (Outputs.materialFlows (SimulateResponse.outputs response)) == 7500
    /\ MaterialFlows.residualKg
         (Outputs.materialFlows (SimulateResponse.outputs response)) == 2500
    /\ MaterialFlows.estimatedReuseUptakeKg
         (Outputs.materialFlows (SimulateResponse.outputs response)) == 1000
    /\ MaterialFlows.landfillKg
         (Outputs.materialFlows (SimulateResponse.outputs response)) == 1500
    /\ Emissions.avoidedTonsCO2e (SimulateResponse.emissions response) == 0.75
    /\ Emissions.estimatedUptakeTonsCO2e (SimulateResponse.emissions response)
       == 0.425
    /\ Emissions.operationalDeltaTonsCO2e (SimulateResponse.emissions response)
       == 0.2
    /\ FinancialDeltas.deltaCostUsd (SimulateResponse.financialDeltas response)
       == 140
    /\ map AssumptionUsed.name (SimulateResponse.assumptionsUsed response)
       = ["emissionsFactors.baselineTruckMilesPerTrip";
          "emissionsFactors.optimizedTruckMilesPerTrip";
          "simulationOptions.truckSpeedKmPerHour";
          "simulationOptions.loadUnloadHoursPerTrip"]%string.
Proof.
  eexists. split; [vm_compute; reflexivity |].
  repeat split; vm_compute; reflexivity.
Qed.

End SimulateGolden.

Section SchemaFacts.
Import Sensitivity.

Lemma positive_true (x : Q) : positive x = true -> 0 < x.
Proof.
  unfold positive. destruct (ltb_spec 0 x); [auto | discriminate].
Qed.

Lemma nonnegative_true (x : Q) : nonnegative x = true -> 0 <= x.
Proof.
  unfold nonnegative. destruct (leb_spec 0 x); [auto | discriminate].
Qed.

Lemma unitInterval_true (x : Q) : unitInterval x = true -> 0 <= x <= 1.
Proof.
  unfold unitInterval. intros H. apply andb_prop in H. destruct H as [H0 H1].
  destruct (leb_spec 0 x); [| discriminate].
  destruct (leb_spec x 1); [| discriminate]. split; assumption.
Qed.

Lemma optional_nonnegative (value : option Q) (fallback : Q) :
  optional nonnegative value = true -> 0 <= fallback ->
  0 <= Js.nullish value fallback.
Proof.
  destruct value as [v |]; cbn [optional Js.nullish]; intros H Hf;
    [apply nonnegative_true; exact H | exact Hf].
Qed.

End SchemaFacts.

Section SimulateFacts.
Import Simulation SimulationSpec Kpi KpiSpec CoreSpec.
Import SimulateApi SimulateSpec.

Lemma request_guards (payload : Payload.t) (crusher : bool) :
  simulateRequestSchema payload = true ->
  guardsHold (Payload.unitOfWork payload) (Payload.costDrivers payload)
    (Payload.sustainabilityDrivers payload) (routeOptions crusher)
  /\ nonNegativeDrivers (Payload.costDrivers payload)
       (Payload.sustainabilityDrivers payload).
Proof.
  unfold simulateRequestSchema. intros H.
  repeat (apply andb_prop in H; destruct H as [H ?]).
  match goal with
  | Hc : Sensitivity.costDriversSchema _ = true |- _ =>
      unfold Sensitivity.costDriversSchema in Hc;
      repeat (apply andb_prop in Hc; destruct Hc as [Hc ?])
  end.
  match goal with
  | Hs : Sensitivity.sustainabilityDriversSchema _ = true |- _ =>
      unfold Sensitivity.sustainabilityDriversSchema in Hs;
      repeat (apply andb_prop in Hs; destruct Hs as [Hs ?])
  end.
  repeat match goal with
         | Hp : Sensitivity.positive _ = true |- _ =>
             apply positive_true in Hp
         | Hn : Sensitivity.nonnegative _ = true |- _ =>
             apply nonnegative_true in Hn
         | Hu : Sensitivity.unitInterval _ = true |- _ =>
             apply unitInterval_true in Hu
         end.
  split.
  - unfold guardsHold, truckSpeedOf, loadUnloadOf, selectedThroughput.
    cbn [routeOptions truckSpeedKmPerHour loadUnloadHoursPerTrip useCrusher
         Js.nullish].
    unfold DEFAULT_TRUCK_SPEED_KM_PER_HOUR, DEFAULT_LOAD_UNLOAD_HOURS_PER_TRIP.
    split; [lra |]. split; [lra |]. split; [assumption |].
    split; [assumption |]. split; [assumption |]. split; [assumption |].
    split; [assumption |]. destruct crusher; assumption.
  - unfold nonNegativeDrivers. tauto.
Qed.

Lemma request_factors_valid (payload : Payload.t) :
  simulateRequestSchema payload = true ->
  0 <= co2AvoidedPerKgRecovered
         (Normalized.emissionsFactors (fst (resolveNormalizedInput payload)))
  /\ 0 <= carbonCapturePotentialPerKgRecovered
            (Normalized.emissionsFactors
               (fst (resolveNormalizedInput payload))).
Proof.
  unfold simulateRequestSchema. intros H.
  repeat (apply andb_prop in H; destruct H as [H ?]).
  match goal with
  | He : emissionsFactorsSchema _ = true |- _ =>
      unfold emissionsFactorsSchema in He
  end.
  cbn [resolveNormalizedInput fst Normalized.emissionsFactors
       co2AvoidedPerKgRecovered carbonCapturePotentialPerKgRecovered].
  destruct (Payload.emissionsFactors payload) as [e |];
    cbn [Sensitivity.optionalField Sensitivity.optional] in *.
  - match goal with
    | He : _ && _ = true |- _ =>
        repeat (apply andb_prop in He; destruct He as [He ?])
    end.
    split; apply optional_nonnegative; try assumption; cbn; lra.
  - cbn. split; lra.
Qed.

Lemma showYourWork_default_total (r : SimulationResult) :
  exists worksheet, ShowYourWork.showYourWork r None = Ok worksheet.
Proof.
  unfold ShowYourWork.showYourWork.
  assert (Hv : ShowYourWork.validateAssumptions
                 (ShowYourWork.resolveAssumptions None) = Ok tt)
    by (vm_compute; reflexivity).
  rewrite Hv. cbn [bind].
  unfold computeCO2Avoided, computeCarbonCapturePotential.
  match goal with
  | |- context [validateFactors ?f] =>
      assert (Hf : validateFactors f = Ok tt) by (vm_compute; reflexivity);
      rewrite Hf
  end. cbn [bind].
  match goal with
  | |- context [validateFactors ?f] =>
      assert (Hf' : validateFactors f = Ok tt) by (vm_compute; reflexivity);
      rewrite Hf'
  end. cbn [bind].
  eexists. reflexivity.
Qed.

End SimulateFacts.

Section SimulateExtras.
Import Simulation SimulationSpec Kpi KpiSpec CoreSpec.
Import SimulateApi SimulateSpec.

Lemma normalized_mode (payload : Payload.t) :
  NormalizedScenarioOptions.mode
    (Normalized.scenarioOptions (fst (resolveNormalizedInput payload)))
  = modeOf payload.
Proof. reflexivity. Qed.

Lemma normalized_inputs (payload : Payload.t) :
  Normalized.unitOfWork (fst (resolveNormalizedInput payload))
  = Payload.unitOfWork payload
  /\ Normalized.costDrivers (fst (resolveNormalizedInput payload))
     = Payload.costDrivers payload
  /\ Normalized.sustainabilityDrivers (fst (resolveNormalizedInput payload))
     = Payload.sustainabilityDrivers payload.
Proof. repeat split. Qed.

Lemma request_overrides_valid (payload : Payload.t) :
  simulateRequestSchema payload = true ->
  validateFactors
    (resolvedFactors
       (Some {| co2AvoidedPerKgRecovered_override :=
                  Some (co2AvoidedPerKgRecovered
                          (Normalized.emissionsFactors
                             (fst (resolveNormalizedInput payload))));
                carbonCapturePotentialPerKgRecovered_override :=
                  Some (carbonCapturePotentialPerKgRecovered
                          (Normalized.emissionsFactors
                             (fst (resolveNormalizedInput payload))));
                baselineTruckMilesPerTrip_override := None;
                optimizedTruckMilesPerTrip_override := None |}))
  = Ok tt.
Proof.
  intros Hschema.
  destruct (request_factors_valid payload Hschema) as [Hco2 Hcap].
  apply validateFactors_ok. unfold factorsValid.
  cbn [resolvedFactors Js.nullish co2AvoidedPerKgRecovered
       carbonCapturePotentialPerKgRecovered baselineTruckMilesPerTrip
       optimizedTruckMilesPerTrip co2AvoidedPerKgRecovered_override
       carbonCapturePotentialPerKgRecovered_override
       baselineTruckMilesPerTrip_override
       optimizedTruckMilesPerTrip_override
       DEFAULT_ENVIRONMENTAL_KPI_FACTORS].
  split; [exact Hco2 |]. split; [exact Hcap |]. split; lra.
Qed.

(** Runs [buildSimulationResponse] on a request the schema accepts, up
    to its response record. *)
Ltac run_response payload Hschema :=
  let Hb := fresh "Hb" in
  let Hs := fresh "Hs" in
  let w := fresh "worksheet" in
  let Hw := fresh "Hw" in
  pose proof (proj1 (request_guards payload true Hschema)) as Hb;
  pose proof (proj1 (request_guards payload
                       (modeEqb (modeOf payload) baseline) Hschema)) as Hs;
  unfold buildSimulationResponse;
  rewrite (normalized_mode payload);
  destruct (normalized_inputs payload) as (-> & -> & ->);
  fold (routeOptions true);
  fold (routeOptions (modeEqb (modeOf payload) baseline));
  rewrite (simulatePanelFlow_ok _ _ _ _ Hb); cbn [bind];
  rewrite (simulatePanelFlow_ok _ _ _ _ Hs); cbn [bind];
  unfold computeCO2Avoided, computeCarbonCapturePotential;
  rewrite (request_overrides_valid payload Hschema); cbn [bind];
  destruct (showYourWork_default_total
              (outcome (Payload.unitOfWork payload)
                 (Payload.costDrivers payload)
                 (Payload.sustainabilityDrivers payload)
                 (routeOptions (modeEqb (modeOf payload) baseline))))
    as (w & Hw);
  rewrite Hw; cbn [bind].

(** X21.  A request the schema accepts is always answered: for such a
    payload [buildSimulationResponse] returns a response, none of the two
    simulations, the KPI functions and the worksheet inside it throws,
    and the response reports the scenario simulation of the mode asked
    for (the crusher in mode baseline, the grinder otherwise) next to
    the crusher baseline, with the worksheet of that scenario simulation
    under the default worksheet assumptions. *)
Theorem accepted_request_is_always_answered :
  forall payload : Payload.t,
    simulateRequestSchema payload = true ->
    exists response baselineRun scenarioRun,
      buildSimulationResponse payload = Ok response
      /\ simulatePanelFlow (Payload.unitOfWork payload)
           (Payload.costDrivers payload)
           (Payload.sustainabilityDrivers payload) (routeOptions true)
         = Ok baselineRun
      /\ simulatePanelFlow (Payload.unitOfWork payload)
           (Payload.costDrivers payload)
           (Payload.sustainabilityDrivers payload)
           (routeOptions (modeEqb (modeOf payload) baseline))
         = Ok scenarioRun
      /\ Outputs.costUsd (SimulateResponse.outputs response)
         = totalCost scenarioRun
      /\ Outputs.timeHours (SimulateResponse.outputs response)
         = totalTime scenarioRun
      /\ Outputs.truckTrips (SimulateResponse.outputs response)
         = truckTrips scenarioRun
      /\ Emissions.operationalTonsCO2e (SimulateResponse.emissions response)
         = totalEmissions scenarioRun
      /\ FinancialDeltas.baselineCostUsd
           (SimulateResponse.financialDeltas response)
         = totalCost baselineRun
      /\ Emissions.baselineOperationalTonsCO2e
           (SimulateResponse.emissions response)
         = totalEmissions baselineRun
      /\ ShowYourWork.showYourWork scenarioRun None
         = Ok (SimulateResponse.audit_worksheet response).
Proof.
  intros payload Hschema. run_response payload Hschema.
  eexists; eexists; eexists.
  split; [reflexivity |]. split; [reflexivity |]. split; [reflexivity |].
  repeat split. exact Hw.
Qed.

Lemma accepted_request_is_always_answered_witness :
  exists response baselineRun scenarioRun,
    buildSimulationResponse grinderReusePayload = Ok response
    /\ simulatePanelFlow (Payload.unitOfWork grinderReusePayload)
         (Payload.costDrivers grinderReusePayload)
         (Payload.sustainabilityDrivers grinderReusePayload)
         (routeOptions true)
       = Ok baselineRun
    /\ simulatePanelFlow (Payload.unitOfWork grinderReusePayload)
         (Payload.costDrivers grinderReusePayload)
         (Payload.sustainabilityDrivers grinderReusePayload)
         (routeOptions (modeEqb (modeOf grinderReusePayload) baseline))
       = Ok scenarioRun
    /\ Outputs.costUsd (SimulateResponse.outputs response)
       = totalCost scenarioRun
    /\ Outputs.timeHours (SimulateResponse.outputs response)
       = totalTime scenarioRun
    /\ Outputs.truckTrips (SimulateResponse.outputs response)
       = truckTrips scenarioRun
    /\ Emissions.operationalTonsCO2e (SimulateResponse.emissions response)
       = totalEmissions scenarioRun
    /\ FinancialDeltas.baselineCostUsd
         (SimulateResponse.financialDeltas response)
       = totalCost baselineRun
    /\ Emissions.baselineOperationalTonsCO2e
         (SimulateResponse.emissions response)
       = totalEmissions baselineRun
    /\ ShowYourWork.showYourWork scenarioRun None
       = Ok (SimulateResponse.audit_worksheet response).
Proof.
  apply (accepted_request_is_always_answered grinderReusePayload).
  vm_compute. reflexivity.
Defined.

Lemma request_reuse_rate (payload : Payload.t) :
  simulateRequestSchema payload = true ->
  0 <= NormalizedScenarioOptions.reuseUptakeRate
         (Normalized.scenarioOptions (fst (resolveNormalizedInput payload)))
    <= 1.
Proof.
  unfold simulateRequestSchema. intros H.
  repeat (apply andb_prop in H; destruct H as [H ?]).
  match goal with
  | Ho : scenarioOptionsSchema _ = true |- _ =>
      unfold scenarioOptionsSchema in Ho
  end.
  cbn [resolveNormalizedInput fst Normalized.scenarioOptions
       NormalizedScenarioOptions.reuseUptakeRate].
  destruct (modeEqb _ grinderReuse); [| split; lra].
  unfold ROUTE_DEFAULTS_reuseUptakeRate.
  destruct (Payload.scenarioOptions payload) as [o |];
    cbn [Sensitivity.optionalField Sensitivity.optional Js.nullish] in *;
    [| split; lra].
  destruct (ScenarioOptions.reuseUptakeRate o) as [rate |];
    cbn [Sensitivity.optional Js.nullish] in *; [| split; lra].
  apply unitInterval_true. assumption.
Qed.

(** X22.  Material is neither lost nor created in a response to an
    accepted request: recovered + residual = inbound and
    estimated reuse + landfill = residual, with every flow non-negative
    (so each flow is at most the inbound mass). *)
Theorem response_material_flows_balance :
  forall payload : Payload.t,
    simulateRequestSchema payload = true ->
    exists response,
      buildSimulationResponse payload = Ok response
      /\ let flows :=
           Outputs.materialFlows (SimulateResponse.outputs response) in
         MaterialFlows.inboundKg flows
         = inboundMaterial (Payload.unitOfWork payload)
         /\ MaterialFlows.recoveredKg flows + MaterialFlows.residualKg flows
            == MaterialFlows.inboundKg flows
         /\ MaterialFlows.estimatedReuseUptakeKg flows
            + MaterialFlows.landfillKg flows
            == MaterialFlows.residualKg flows
         /\ 0 <= MaterialFlows.recoveredKg flows
         /\ 0 <= MaterialFlows.residualKg flows
         /\ 0 <= MaterialFlows.estimatedReuseUptakeKg flows
         /\ 0 <= MaterialFlows.landfillKg flows.
Proof.
  intros payload Hschema.
  pose proof (request_reuse_rate payload Hschema) as Hrate.
  pose proof (proj2 (request_guards payload true Hschema)) as Hn.
  run_response payload Hschema.
  destruct (outcome_in_range _ _ _ _ Hs Hn) as (_ & _ & _ & Hrec0 & Hrec1).
  eexists. split; [reflexivity |].
  cbn [SimulateResponse.outputs Outputs.materialFlows
       MaterialFlows.inboundKg MaterialFlows.recoveredKg
       MaterialFlows.residualKg MaterialFlows.estimatedReuseUptakeKg
       MaterialFlows.landfillKg].
  set (recovered := materialRecovered _) in *.
  set (inbound := inboundMaterial (Payload.unitOfWork payload)) in *.
  set (rate := NormalizedScenarioOptions.reuseUptakeRate _) in *.
  clearbody recovered inbound rate.
  unfold Js.Math_max.
  assert (Hres : Qmax 0 (inbound - recovered) == inbound - recovered)
    by (apply Q.max_r; lra).
  set (residual := Qmax 0 (inbound - recovered)) in *. clearbody residual.
  assert (Hres0 : 0 <= residual) by lra.
  set (reuse := if modeEqb (modeOf payload) grinderReuse
                then residual * rate else 0).
  assert (Hreuse : 0 <= reuse <= residual).
  { unfold reuse. destruct (modeEqb (modeOf payload) grinderReuse);
      [| split; lra].
    split; [apply Qmult_le_0_compat; lra |].
    rewrite <- (Qmult_1_r residual) at 2. rewrite !(Qmult_comm residual).
    apply Qmult_le_compat_r; lra. }
  clearbody reuse.
  assert (Hland : Qmax 0 (residual - reuse) == residual - reuse)
    by (apply Q.max_r; lra).
  split; [reflexivity |]. split; [lra |]. split; [lra |].
  split; [lra |]. split; [lra |]. split; lra.
Qed.

Lemma response_material_flows_balance_witness :
  exists response,
    buildSimulationResponse grinderReusePayload = Ok response
    /\ let flows :=
         Outputs.materialFlows (SimulateResponse.outputs response) in
       MaterialFlows.inboundKg flows
       = inboundMaterial (Payload.unitOfWork grinderReusePayload)
       /\ MaterialFlows.recoveredKg flows + MaterialFlows.residualKg flows
          == MaterialFlows.inboundKg flows
       /\ MaterialFlows.estimatedReuseUptakeKg flows
          + MaterialFlows.landfillKg flows
          == MaterialFlows.residualKg flows
       /\ 0 <= MaterialFlows.recoveredKg flows
       /\ 0 <= MaterialFlows.residualKg flows
       /\ 0 <= MaterialFlows.estimatedReuseUptakeKg flows
       /\ 0 <= MaterialFlows.landfillKg flows.
Proof.
  apply (response_material_flows_balance grinderReusePayload).
  vm_compute. reflexivity.
Defined.

(** X23.  In mode baseline (also when the request names no mode) the
    scenario is the baseline: the response to an accepted request has a
    cost delta and an operational-emissions delta of zero, a zero delta
    of the cost per recovered kilogram when one is reported, no
    estimated reuse, and the whole residual going to landfill. *)
Theorem baseline_mode_has_zero_deltas :
  forall payload : Payload.t,
    simulateRequestSchema payload = true ->
    modeOf payload = baseline ->
    exists response,
      buildSimulationResponse payload = Ok response
      /\ FinancialDeltas.deltaCostUsd
           (SimulateResponse.financialDeltas response) == 0
      /\ Emissions.operationalDeltaTonsCO2e
           (SimulateResponse.emissions response) == 0
      /\ (forall delta,
            FinancialDeltas.deltaCostPerRecoveredKg
              (SimulateResponse.financialDeltas response) = Some delta ->
            delta == 0)
      /\ MaterialFlows.estimatedReuseUptakeKg
           (Outputs.materialFlows (SimulateResponse.outputs response)) = 0
      /\ MaterialFlows.landfillKg
           (Outputs.materialFlows (SimulateResponse.outputs response))
         == MaterialFlows.residualKg
              (Outputs.materialFlows (SimulateResponse.outputs response)).
Proof.
  intros payload Hschema Hmode.
  run_response payload Hschema.
  rewrite Hmode. cbn [modeEqb].
  eexists. split; [reflexivity |].
  cbn [SimulateResponse.financialDeltas SimulateResponse.emissions
       SimulateResponse.outputs Outputs.materialFlows
       FinancialDeltas.deltaCostUsd FinancialDeltas.deltaCostPerRecoveredKg
       Emissions.operationalDeltaTonsCO2e
       MaterialFlows.estimatedReuseUptakeKg MaterialFlows.landfillKg
       MaterialFlows.residualKg].
  split; [ring |]. split; [ring |]. split; [| split; [reflexivity |]].
  - intros delta. unfold costPerRecoveredKg.
    destruct (0 <? materialRecovered _); [| discriminate].
    intros Hd. injection Hd as <-. ring.
  - unfold Js.Math_max.
    assert (H0 : 0 <= Qmax 0 (inboundMaterial (Payload.unitOfWork payload)
                              - materialRecovered
                                  (outcome (Payload.unitOfWork payload)
                                     (Payload.costDrivers payload)
                                     (Payload.sustainabilityDrivers payload)
                                     (routeOptions true))))
      by apply Q.le_max_l.
    set (residual := Qmax 0 _) in *. clearbody residual.
    rewrite Q.max_r by lra. ring.
Qed.

Lemma baseline_mode_has_zero_deltas_witness :
  exists response,
    buildSimulationResponse basePayload = Ok response
    /\ FinancialDeltas.deltaCostUsd
         (SimulateResponse.financialDeltas response) == 0
    /\ Emissions.operationalDeltaTonsCO2e
         (SimulateResponse.emissions response) == 0
    /\ (forall delta,
          FinancialDeltas.deltaCostPerRecoveredKg
            (SimulateResponse.financialDeltas response) = Some delta ->
          delta == 0)
    /\ MaterialFlows.estimatedReuseUptakeKg
         (Outputs.materialFlows (SimulateResponse.outputs response)) = 0
    /\ MaterialFlows.landfillKg
         (Outputs.materialFlows (SimulateResponse.outputs response))
       == MaterialFlows.residualKg
            (Outputs.materialFlows (SimulateResponse.outputs response)).
Proof.
  apply (baseline_mode_has_zero_deltas basePayload).
  - vm_compute. reflexivity.
  - reflexivity.
Defined.

(** X24.  A reuse uptake rate is used in mode grinder+reuse only: in
    mode baseline or grinder, and when no mode is named, two requests
    that differ in nothing but [scenarioOptions.reuseUptakeRate] get the
    same answer (the same response, or the same error). *)
Theorem reuse_rate_ignored_outside_grinder_reuse :
  forall (payload : Payload.t) (mode : option ScenarioModeName)
         (rate1 rate2 : option Q),
    mode <> Some grinderReuse ->
    buildSimulationResponse (withScenarioOptions payload mode rate1)
    = buildSimulationResponse (withScenarioOptions payload mode rate2).
Proof.
  intros payload mode rate1 rate2 Hmode.
  destruct mode as [[| |] |]; try reflexivity.
  exfalso. apply Hmode. reflexivity.
Qed.

Lemma reuse_rate_ignored_outside_grinder_reuse_witness :
  buildSimulationResponse
    (withScenarioOptions basePayload (Some grinder) (Some 0.4))
  = buildSimulationResponse
      (withScenarioOptions basePayload (Some grinder) None).
Proof.
  apply (reuse_rate_ignored_outside_grinder_reuse basePayload (Some grinder)
           (Some 0.4) None).
  discriminate.
Defined.

Lemma response_assumptions (payload : Payload.t)
    (response : SimulateResponse.t) :
  buildSimulationResponse payload = Ok response ->
  SimulateResponse.assumptionsUsed response
  = snd (resolveNormalizedInput payload).
Proof.
  unfold buildSimulationResponse.
  destruct (simulatePanelFlow _ _ _ _) as [b | m]; cbn [bind];
    [| discriminate].
  destruct (simulatePanelFlow _ _ _ _) as [sc | m]; cbn [bind];
    [| discriminate].
  destruct (computeCO2Avoided _ _) as [a | m]; cbn [bind]; [| discriminate].
  destruct (computeCarbonCapturePotential _ _) as [c | m]; cbn [bind];
    [| discriminate].
  destruct (ShowYourWork.showYourWork _ _) as [w | m]; cbn [bind];
    [| discriminate].
  intros H. injection H as <-. reflexivity.
Qed.

Ltac decide_names :=
  cbn; intuition (try discriminate; try congruence).

Import SimulateRoute.

(** X25.  What the audit list of a response names, on the way every
    caller takes: the request is parsed by [simulateRequestSchema] and
    the parsed value is handed to [buildSimulationResponse].  The default
    mode is listed exactly when the request has no scenarioOptions at
    all: a request with scenarioOptions but no mode is answered in the
    default mode, which the schema has filled in, without the list saying
    so.  The default reuse uptake rate is listed exactly in mode
    grinder+reuse when no rate was given; each of the four emission
    factors exactly when the request left it undefined; the two
    simulation options always; and no name is listed twice. *)
Theorem assumptions_used_are_the_defaults_applied :
  forall (json payload : Payload.t) (response : SimulateResponse.t),
    parse json = Some payload ->
    buildSimulationResponse payload = Ok response ->
    let used := map AssumptionUsed.name
                  (SimulateResponse.assumptionsUsed response) in
    let options := Payload.scenarioOptions json in
    let factors := Payload.emissionsFactors json in
    (In "scenarioOptions.mode"%string used <-> options = None)
    /\ (In "scenarioOptions.reuseUptakeRate"%string used
        <-> modeOf json = grinderReuse
            /\ Sensitivity.optionalField options
                 ScenarioOptions.reuseUptakeRate = None)
    /\ (In "emissionsFactors.co2AvoidedPerKgRecovered"%string used
        <-> Sensitivity.optionalField factors
              EmissionsFactors.co2AvoidedPerKgRecovered = None)
    /\ (In "emissionsFactors.carbonCapturePotentialPerKgRecovered"%string used
        <-> Sensitivity.optionalField factors
              EmissionsFactors.carbonCapturePotentialPerKgRecovered = None)
    /\ (In "emissionsFactors.baselineTruckMilesPerTrip"%string used
        <-> Sensitivity.optionalField factors
              EmissionsFactors.baselineTruckMilesPerTrip = None)
    /\ (In "emissionsFactors.optimizedTruckMilesPerTrip"%string used
        <-> Sensitivity.optionalField factors
              EmissionsFactors.optimizedTruckMilesPerTrip = None)
    /\ In "simulationOptions.truckSpeedKmPerHour"%string used
    /\ In "simulationOptions.loadUnloadHoursPerTrip"%string used
    /\ NoDup used
    /\ modeOf payload = modeOf json.
Proof.
  intros json payload response Hparse Hrun.
  rewrite (response_assumptions payload response Hrun).
  clear Hrun response.
  unfold parse in Hparse.
  destruct (simulateRequestSchema json); [| discriminate].
  injection Hparse as <-.
  unfold modeOf.
  destruct json as [u cd sd options factors].
  cbn [Payload.scenarioOptions Payload.emissionsFactors withDefaultMode].
  destruct options as [[[[| |] |] [rate |]] |];
    destruct factors as [[[c1 |] [c2 |] [c3 |] [c4 |]] |];
    (split; [decide_names |]); (split; [decide_names |]);
    (split; [decide_names |]); (split; [decide_names |]);
    (split; [decide_names |]); (split; [decide_names |]);
    (split; [decide_names |]); (split; [decide_names |]);
    (split; [| reflexivity]);
    cbn; repeat constructor; cbn; intuition discriminate.
Qed.

Lemma assumptions_used_are_the_defaults_applied_witness :
  exists response,
    parse modelessRequest
    = Some (withScenarioOptions modelessRequest (Some baseline) (Some 0.4))
    /\ buildSimulationResponse
         (withScenarioOptions modelessRequest (Some baseline) (Some 0.4))
       = Ok response
    /\ ~ In "scenarioOptions.mode"%string
           (map AssumptionUsed.name
              (SimulateResponse.assumptionsUsed response))
    /\ In "emissionsFactors.baselineTruckMilesPerTrip"%string
          (map AssumptionUsed.name
             (SimulateResponse.assumptionsUsed response)).
Proof.
  assert (Hparse : parse modelessRequest
                   = Some (withScenarioOptions modelessRequest
                             (Some baseline) (Some 0.4)))
    by (vm_compute; reflexivity).
  assert (H : exists response,
             buildSimulationResponse
               (withScenarioOptions modelessRequest (Some baseline)
                  (Some 0.4))
             = Ok response)
    by (vm_compute; eexists; reflexivity).
  destruct H as (response & Hrun).
  exists response.
  split; [exact Hparse |]. split; [exact Hrun |].
  destruct (assumptions_used_are_the_defaults_applied modelessRequest
              _ response Hparse Hrun)
    as (Hmode & _ & _ & _ & Hmiles & _).
  split.
  - intros Hin. apply Hmode in Hin. discriminate.
  - apply Hmiles. reflexivity.
Defined.

End SimulateExtras.

(** ** The audit worksheet (reporting/showYourWork.ts) *)

Section WorksheetExtras.
Import Simulation Kpi.
Import ShowYourWork.

Lemma Math_round_mono (x y : Q) : x <= y -> Math_round x <= Math_round y.
Proof.
  intros H. unfold Math_round. rewrite <- Zle_Qle.
  apply Qfloor_resp_le. lra.
Qed.

Lemma worksheet_round_mono (x y : Q) :
  x <= y -> ShowYourWork.round x <= ShowYourWork.round y.
Proof.
  intros H. unfold ShowYourWork.round.
  apply Qdiv_le_compat; [reflexivity |].
  apply Math_round_mono. apply Qmult_le_compat_r; [exact H |].
  discriminate.
Qed.

Lemma worksheet_round_zero : ShowYourWork.round 0 == 0.
Proof. reflexivity. Qed.

Lemma worksheet_validateAssumptions_inv (a : Assumptions.t) :
  ShowYourWork.validateAssumptions a = Ok tt ->
  0 < Assumptions.inferredRecoveryRate a <= 1
  /\ 0 < Assumptions.bulkDensityKgPerCubicMeter a
  /\ 0 <= Assumptions.milesPerTrip a
  /\ 0 < Assumptions.dieselTruckMpg a
  /\ 0 < Assumptions.dieselEmissionFactorKgCO2ePerGallon a
  /\ 0 <= Assumptions.laborRateUsdPerHour a
  /\ 0 <= Assumptions.haulShareOfNonLaborCost a <= 1
  /\ 0 <= Assumptions.co2AvoidedPerKgRecovered a
  /\ 0 <= Assumptions.carbonCapturePotentialPerKgRecovered a.
Proof.
  unfold ShowYourWork.validateAssumptions.
  destruct (leb_spec (Assumptions.inferredRecoveryRate a) 0);
    [discriminate |].
  destruct (ltb_spec 1 (Assumptions.inferredRecoveryRate a));
    [discriminate | cbn [orb]].
  destruct (leb_spec (Assumptions.bulkDensityKgPerCubicMeter a) 0);
    [discriminate |].
  destruct (ltb_spec (Assumptions.milesPerTrip a) 0); [discriminate |].
  destruct (leb_spec (Assumptions.dieselTruckMpg a) 0); [discriminate |].
  destruct (leb_spec (Assumptions.dieselEmissionFactorKgCO2ePerGallon a) 0);
    [discriminate |].
  destruct (ltb_spec (Assumptions.laborRateUsdPerHour a) 0);
    [discriminate |].
  destruct (ltb_spec (Assumptions.haulShareOfNonLaborCost a) 0);
    [discriminate |].
  destruct (ltb_spec 1 (Assumptions.haulShareOfNonLaborCost a));
    [discriminate | cbn [orb]].
  destruct (ltb_spec (Assumptions.co2AvoidedPerKgRecovered a) 0);
    [discriminate |].
  destruct (ltb_spec (Assumptions.carbonCapturePotentialPerKgRecovered a) 0);
    [discriminate |].
  intros _. repeat split; assumption.
Qed.

(** What a successful run of [showYourWork] has computed. *)
Lemma showYourWork_inv (r : SimulationResult) (overrides : option Overrides.t)
    (w : Worksheet.t) :
  showYourWork r overrides = Ok w ->
  let a := resolveAssumptions overrides in
  let inboundKg := materialRecovered r / Assumptions.inferredRecoveryRate a in
  let laborCostUsd :=
    Qmin (totalCost r) (totalTime r * Assumptions.laborRateUsdPerHour a) in
  let nonLaborCostUsd := Js.Math_max 0 (totalCost r - laborCostUsd) in
  let haulCostUsd := nonLaborCostUsd * Assumptions.haulShareOfNonLaborCost a in
  ShowYourWork.validateAssumptions a = Ok tt
  /\ Worksheet.intermediates w
     = {| Intermediates.material :=
            Intermediates.material (Worksheet.intermediates w);
          Intermediates.transport :=
            Intermediates.transport (Worksheet.intermediates w);
          Intermediates.emissions :=
            Intermediates.emissions (Worksheet.intermediates w);
          Intermediates.financial :=
            {| Financial.totalCostUsd := ShowYourWork.round (totalCost r);
               Financial.laborCostUsd := ShowYourWork.round laborCostUsd;
               Financial.nonLaborCostUsd :=
                 ShowYourWork.round nonLaborCostUsd;
               Financial.haulCostUsd := ShowYourWork.round haulCostUsd;
               Financial.processingCostUsd :=
                 ShowYourWork.round (nonLaborCostUsd - haulCostUsd);
               Financial.costPerTripUsd :=
                 Financial.costPerTripUsd
                   (Intermediates.financial (Worksheet.intermediates w));
               Financial.costPerRecoveredKgUsd :=
                 Financial.costPerRecoveredKgUsd
                   (Intermediates.financial (Worksheet.intermediates w));
               Financial.costPerRecoveredTonUsd :=
                 Financial.costPerRecoveredTonUsd
                   (Intermediates.financial (Worksheet.intermediates w)) |}
       |}
  /\ Material.inboundKg (Intermediates.material (Worksheet.intermediates w))
     = ShowYourWork.round inboundKg
  /\ Material.recoveredKg (Intermediates.material (Worksheet.intermediates w))
     = ShowYourWork.round (materialRecovered r)
  /\ Material.residualKg (Intermediates.material (Worksheet.intermediates w))
     = ShowYourWork.round (Js.Math_max 0 (inboundKg - materialRecovered r)).
Proof.
  unfold showYourWork.
  destruct (ShowYourWork.validateAssumptions (resolveAssumptions overrides))
    as [[] | m] eqn:Hv; cbn [bind]; [| discriminate].
  destruct (computeCO2Avoided _ _) as [avoided | m]; cbn [bind];
    [| discriminate].
  destruct (computeCarbonCapturePotential _ _) as [uptake | m]; cbn [bind];
    [| discriminate].
  intros H. injection H as <-. cbn. repeat split.
Qed.

(** X26.  The cost split of a worksheet stays inside the total.  For a
    simulation result with non-negative cost and time and any accepted
    worksheet assumptions (defaults included), the labor, non-labor,
    haul and processing amounts shown are non-negative, labor and
    non-labor are each at most the total shown, and haul and processing
    are each at most the non-labor amount shown. *)
Theorem worksheet_cost_split_is_bounded :
  forall (r : SimulationResult) (overrides : option Overrides.t)
         (w : Worksheet.t),
    showYourWork r overrides = Ok w ->
    0 <= totalCost r ->
    0 <= totalTime r ->
    let f := Intermediates.financial (Worksheet.intermediates w) in
    0 <= Financial.laborCostUsd f <= Financial.totalCostUsd f
    /\ 0 <= Financial.nonLaborCostUsd f <= Financial.totalCostUsd f
    /\ 0 <= Financial.haulCostUsd f <= Financial.nonLaborCostUsd f
    /\ 0 <= Financial.processingCostUsd f <= Financial.nonLaborCostUsd f.
Proof.
  intros r overrides w Hrun Hcost Htime.
  destruct (showYourWork_inv r overrides w Hrun) as (Hv & Hw & _).
  apply worksheet_validateAssumptions_inv in Hv.
  destruct Hv as (_ & _ & _ & _ & _ & Hrate & Hshare & _).
  cbv zeta. rewrite Hw. cbn [Intermediates.financial Financial.laborCostUsd
    Financial.totalCostUsd Financial.nonLaborCostUsd Financial.haulCostUsd
    Financial.processingCostUsd].
  set (a := resolveAssumptions overrides) in *.
  set (rate := Assumptions.laborRateUsdPerHour a) in *.
  set (share := Assumptions.haulShareOfNonLaborCost a) in *.
  clearbody rate share. clear Hw Hrun.
  set (total := totalCost r) in *. clearbody total.
  assert (Hwork : 0 <= totalTime r * rate)
    by (apply Qmult_le_0_compat; assumption).
  set (work := totalTime r * rate) in *. clearbody work.
  assert (Hlabor : 0 <= Qmin total work <= total).
  { split; [apply Q.min_glb; assumption | apply Q.le_min_l]. }
  set (labor := Qmin total work) in *. clearbody labor.
  unfold Js.Math_max.
  assert (Hnon : Qmax 0 (total - labor) == total - labor)
    by (apply Q.max_r; lra).
  assert (Hnon0 : 0 <= Qmax 0 (total - labor) <= total) by (split; lra).
  set (non := Qmax 0 (total - labor)) in *. clearbody non.
  assert (Hhaul : 0 <= non * share <= non).
  { split; [apply Qmult_le_0_compat; lra |].
    rewrite <- (Qmult_1_r non) at 2. rewrite !(Qmult_comm non).
    apply Qmult_le_compat_r; lra. }
  set (haul := non * share) in *. clearbody haul.
  repeat split;
    try (rewrite <- worksheet_round_zero; apply worksheet_round_mono; lra);
    apply worksheet_round_mono; lra.
Qed.

Lemma worksheet_cost_split_is_bounded_witness :
  exists w,
    showYourWork KpiSpec.floorTestResult None = Ok w
    /\ let f := Intermediates.financial (Worksheet.intermediates w) in
       0 <= Financial.laborCostUsd f <= Financial.totalCostUsd f
       /\ 0 <= Financial.nonLaborCostUsd f <= Financial.totalCostUsd f
       /\ 0 <= Financial.haulCostUsd f <= Financial.nonLaborCostUsd f
       /\ 0 <= Financial.processingCostUsd f <= Financial.nonLaborCostUsd f.
Proof.
  eexists. split; [vm_compute; reflexivity |].
  apply (worksheet_cost_split_is_bounded KpiSpec.floorTestResult None).
  - vm_compute. reflexivity.
  - vm_compute. discriminate.
  - vm_compute. discriminate.
Defined.

(** X27.  The masses of a worksheet are inferred, not echoed: the
    inbound mass shown is the recovered mass divided by the assumed
    recovery rate (0.8 unless overridden), whatever mass was actually
    fed in.  For a non-negative recovered mass it is therefore never
    below the recovered mass shown, and the residual shown lies between
    0 and the inbound mass shown. *)
Theorem worksheet_masses_are_inferred :
  forall (r : SimulationResult) (overrides : option Overrides.t)
         (w : Worksheet.t),
    showYourWork r overrides = Ok w ->
    0 <= materialRecovered r ->
    let m := Intermediates.material (Worksheet.intermediates w) in
    Material.inboundKg m
    = ShowYourWork.round
        (materialRecovered r
         / Assumptions.inferredRecoveryRate (resolveAssumptions overrides))
    /\ Material.recoveredKg m <= Material.inboundKg m
    /\ 0 <= Material.residualKg m <= Material.inboundKg m.
Proof.
  intros r overrides w Hrun Hrec.
  destruct (showYourWork_inv r overrides w Hrun)
    as (Hv & _ & Hin & Hre & Hres).
  apply worksheet_validateAssumptions_inv in Hv.
  destruct Hv as (Hrate & _).
  cbv zeta. rewrite Hin, Hre, Hres.
  set (rate := Assumptions.inferredRecoveryRate (resolveAssumptions overrides))
    in *.
  clearbody rate. set (rec := materialRecovered r) in *. clearbody rec.
  assert (Hinb : rec <= rec / rate).
  { apply Qle_shift_div_l; [lra |].
    rewrite <- (Qmult_1_r rec) at 2. rewrite !(Qmult_comm rec).
    apply Qmult_le_compat_r; lra. }
  set (inb := rec / rate) in *. clearbody inb.
  unfold Js.Math_max.
  assert (Hmax : Qmax 0 (inb - rec) == inb - rec) by (apply Q.max_r; lra).
  set (res := Qmax 0 (inb - rec)) in *. clearbody res.
  split; [reflexivity |].
  split; [apply worksheet_round_mono; exact Hinb |].
  split.
  - rewrite <- worksheet_round_zero. apply worksheet_round_mono. lra.
  - apply worksheet_round_mono. lra.
Qed.

Lemma worksheet_masses_are_inferred_witness :
  exists w,
    showYourWork KpiSpec.floorTestResult None = Ok w
    /\ let m := Intermediates.material (Worksheet.intermediates w) in
       Material.inboundKg m
       = ShowYourWork.round
           (materialRecovered KpiSpec.floorTestResult
            / Assumptions.inferredRecoveryRate (resolveAssumptions None))
       /\ Material.recoveredKg m <= Material.inboundKg m
       /\ 0 <= Material.residualKg m <= Material.inboundKg m.
Proof.
  eexists. split; [vm_compute; reflexivity |].
  apply (worksheet_masses_are_inferred KpiSpec.floorTestResult None).
  - vm_compute. reflexivity.
  - vm_compute. discriminate.
Defined.

End WorksheetExtras.

(** ** The pilot plan (reporting/pilotPlan.ts) *)

Section PilotExtras.
Import PilotPlan PilotSpec.

(** The plan of [pilotPlan.test.ts]. *)
Example generatePilotPlan_test_fixture :
  exists plan,
    generatePilotPlan sampleInput = Ok plan
    /\ PilotPlanResult.durationWeeks plan == 7
    /\ PilotPlanResult.panelsPerWeek plan == 2
    /\ PilotPlanResult.totalPanels plan == 14
    /\ map PilotMetricPlan.id (PilotPlanResult.selectedMetrics plan)
       = [tonsDiverted; marginDeltaUsdPerPanel; co2Avoided]
    /\ PilotRiskPlan.type (PilotPlanResult.keyRisk plan)
       = qualitySpecCompliance.
Proof.
  eexists. split; [vm_compute; reflexivity |].
  repeat split; vm_compute; reflexivity.
Qed.

Lemma deriveDurationWeeks_range (scenario : PilotScenarioOptions.t) :
  4 <= deriveDurationWeeks scenario <= 8
  /\ wholeNumber (deriveDurationWeeks scenario).
Proof.
  unfold deriveDurationWeeks, clamp, wholeNumber.
  destruct (PilotScenarioOptions.mode scenario);
    destruct (0.35 <=? PilotScenarioOptions.reuseUptakeRate scenario);
    destruct (PilotScenarioOptions.specReadiness scenario <? 0.7);
    (split; [split; vm_compute; discriminate |]).
  - exists 6%Z. reflexivity.
  - exists 5%Z. reflexivity.
  - exists 5%Z. reflexivity.
  - exists 4%Z. reflexivity.
  - exists 7%Z. reflexivity.
  - exists 6%Z. reflexivity.
  - exists 6%Z. reflexivity.
  - exists 5%Z. reflexivity.
  - exists 8%Z. reflexivity.
  - exists 7%Z. reflexivity.
  - exists 7%Z. reflexivity.
  - exists 6%Z. reflexivity.
Qed.

Lemma derivePanelsPerWeek_cadence (scenario : PilotScenarioOptions.t) :
  derivePanelsPerWeek scenario == 2
  \/ derivePanelsPerWeek scenario == 3
  \/ derivePanelsPerWeek scenario == 4.
Proof.
  unfold derivePanelsPerWeek, clamp.
  destruct (PilotScenarioOptions.mode scenario);
    destruct (PilotScenarioOptions.specReadiness scenario <? 0.6);
    destruct (0.9 <? PilotScenarioOptions.specReadiness scenario);
    cbn [isGrinderReuse negb andb];
    first [ left; reflexivity
          | right; left; reflexivity
          | right; right; reflexivity ].
Qed.

Lemma isCadence_true (panels : Q) :
  isCadence panels = true -> panels == 2 \/ panels == 3 \/ panels == 4.
Proof.
  unfold isCadence. intros H.
  apply orb_prop in H. destruct H as [H | H].
  - apply orb_prop in H. destruct H as [H | H]; apply Qeq_bool_iff in H; tauto.
  - apply Qeq_bool_iff in H. tauto.
Qed.

(** What a successful run of [generatePilotPlan] has checked and
    returned. *)
Lemma generatePilotPlan_inv (input : PilotPlanInput.t)
    (plan : PilotPlanResult.t) :
  generatePilotPlan input = Ok plan ->
  let duration :=
    Js.nullish (PilotPlanInput.durationWeeks input)
      (deriveDurationWeeks (PilotPlanInput.scenarioOptions input)) in
  let panels :=
    Js.nullish (PilotPlanInput.panelsPerWeek input)
      (derivePanelsPerWeek (PilotPlanInput.scenarioOptions input)) in
  plan
  = {| PilotPlanResult.durationWeeks := duration;
       PilotPlanResult.panelsPerWeek := panels;
       PilotPlanResult.totalPanels := duration * panels;
       PilotPlanResult.selectedMetrics :=
         map (fun metricId =>
                metricFromId metricId (PilotPlanInput.metrics input)
                  (duration * panels))
             (selectMetricIds (PilotPlanInput.scenarioOptions input));
       PilotPlanResult.dataSources := DEFAULT_PILOT_DATA_SOURCES;
       PilotPlanResult.keyRisk :=
         chooseRisk (PilotPlanInput.scenarioOptions input) |}
  /\ (forall given, PilotPlanInput.durationWeeks input = Some given ->
                    4 <= given <= 8)
  /\ (forall given, PilotPlanInput.panelsPerWeek input = Some given ->
                    isCadence given = true).
Proof.
  unfold generatePilotPlan, validateInput.
  destruct (ensureUnitInterval _ _); cbn [bind]; [| discriminate].
  destruct (ensureUnitInterval _ _); cbn [bind]; [| discriminate].
  destruct (match PilotScenarioOptions.grinderUtilization _ with
            | Some _ => _ | None => _ end); cbn [bind]; [| discriminate].
  destruct (ensureNonNegative _ _); cbn [bind]; [| discriminate].
  destruct (ensureNonNegative _ _); cbn [bind]; [| discriminate].
  destruct (ensureNonNegative _ _); cbn [bind]; [| discriminate].
  destruct (PilotPlanInput.panelsPerWeek input) as [panels |] eqn:Hp.
  - destruct (isCadence panels) eqn:Hc; cbn [negb bind]; [| discriminate].
    destruct (PilotPlanInput.durationWeeks input) as [weeks |] eqn:Hd.
    + destruct (ltb_spec weeks 4); [discriminate |].
      destruct (ltb_spec 8 weeks); [discriminate |]. cbn [orb bind].
      intros Hplan. injection Hplan as <-.
      split; [reflexivity |]. split.
      * intros given Hg. injection Hg as <-. split; assumption.
      * intros given Hg. injection Hg as <-. exact Hc.
    + cbn [bind]. intros Hplan. injection Hplan as <-.
      split; [reflexivity |]. split.
      * intros given Hg. discriminate.
      * intros given Hg. injection Hg as <-. exact Hc.
  - cbn [bind].
    destruct (PilotPlanInput.durationWeeks input) as [weeks |] eqn:Hd.
    + destruct (ltb_spec weeks 4); [discriminate |].
      destruct (ltb_spec 8 weeks); [discriminate |]. cbn [orb bind].
      intros Hplan. injection Hplan as <-.
      split; [reflexivity |]. split.
      * intros given Hg. injection Hg as <-. split; assumption.
      * intros given Hg. discriminate.
    + cbn [bind]. intros Hplan. injection Hplan as <-.
      split; [reflexivity |]. split; intros given Hg; discriminate.
Qed.

(** X28.  Every plan [generatePilotPlan] returns keeps to the bounds it
    demands of explicit inputs, whether the schedule was given or
    derived: 4 to 8 weeks at 2, 3 or 4 panels a week, hence 8 to 32
    panels in total, the total being weeks x panels; each selected
    metric's pilot total is its per-panel figure times that total; and a
    derived schedule has a whole number of weeks and of panels. *)
Theorem pilot_schedule_is_within_bounds :
  forall (input : PilotPlanInput.t) (plan : PilotPlanResult.t),
    generatePilotPlan input = Ok plan ->
    4 <= PilotPlanResult.durationWeeks plan <= 8
    /\ (PilotPlanResult.panelsPerWeek plan == 2
        \/ PilotPlanResult.panelsPerWeek plan == 3
        \/ PilotPlanResult.panelsPerWeek plan == 4)
    /\ PilotPlanResult.totalPanels plan
       == PilotPlanResult.durationWeeks plan
          * PilotPlanResult.panelsPerWeek plan
    /\ 8 <= PilotPlanResult.totalPanels plan <= 32
    /\ Forall (fun metric =>
                 PilotMetricPlan.pilotTotal metric
                 == PilotMetricPlan.perPanel metric
                    * PilotPlanResult.totalPanels plan)
         (PilotPlanResult.selectedMetrics plan)
    /\ (scheduleDerived input ->
        wholeNumber (PilotPlanResult.durationWeeks plan)
        /\ wholeNumber (PilotPlanResult.totalPanels plan)).
Proof.
  intros input plan Hrun.
  destruct (generatePilotPlan_inv input plan Hrun) as (-> & Hweeks & Hpanels).
  cbn [PilotPlanResult.durationWeeks PilotPlanResult.panelsPerWeek
       PilotPlanResult.totalPanels PilotPlanResult.selectedMetrics].
  set (scenario := PilotPlanInput.scenarioOptions input) in *.
  assert (Hd : 4 <= Js.nullish (PilotPlanInput.durationWeeks input)
                      (deriveDurationWeeks scenario) <= 8).
  { destruct (PilotPlanInput.durationWeeks input) as [weeks |];
      cbn [Js.nullish];
      [apply Hweeks; reflexivity | apply deriveDurationWeeks_range]. }
  assert (Hp : Js.nullish (PilotPlanInput.panelsPerWeek input)
                 (derivePanelsPerWeek scenario) == 2
               \/ Js.nullish (PilotPlanInput.panelsPerWeek input)
                    (derivePanelsPerWeek scenario) == 3
               \/ Js.nullish (PilotPlanInput.panelsPerWeek input)
                    (derivePanelsPerWeek scenario) == 4).
  { destruct (PilotPlanInput.panelsPerWeek input) as [panels |];
      cbn [Js.nullish];
      [apply isCadence_true, Hpanels; reflexivity
      | apply derivePanelsPerWeek_cadence]. }
  split; [exact Hd |]. split; [exact Hp |]. split; [reflexivity |].
  split; [| split].
  - set (d := Js.nullish (PilotPlanInput.durationWeeks input) _) in *.
    set (p := Js.nullish (PilotPlanInput.panelsPerWeek input) _) in *.
    clearbody d p.
    destruct Hp as [Hp | [Hp | Hp]]; rewrite Hp; split; lra.
  - apply Forall_forall. intros metric Hin.
    apply in_map_iff in Hin. destruct Hin as (metricId & <- & _).
    destruct metricId; reflexivity.
  - intros [Hnp Hnd]. rewrite Hnp, Hnd. cbn [Js.nullish].
    destruct (deriveDurationWeeks_range scenario) as [_ (n & Hn)].
    split; [exists n; exact Hn |].
    destruct (derivePanelsPerWeek_cadence scenario) as [Hc | [Hc | Hc]].
    + exists (n * 2)%Z. rewrite Hn, Hc, inject_Z_mult. reflexivity.
    + exists (n * 3)%Z. rewrite Hn, Hc, inject_Z_mult. reflexivity.
    + exists (n * 4)%Z. rewrite Hn, Hc, inject_Z_mult. reflexivity.
Qed.

Lemma pilot_schedule_is_within_bounds_witness :
  exists plan,
    generatePilotPlan sampleInput = Ok plan
    /\ 4 <= PilotPlanResult.durationWeeks plan <= 8
    /\ (PilotPlanResult.panelsPerWeek plan == 2
        \/ PilotPlanResult.panelsPerWeek plan == 3
        \/ PilotPlanResult.panelsPerWeek plan == 4)
    /\ PilotPlanResult.totalPanels plan
       == PilotPlanResult.durationWeeks plan
          * PilotPlanResult.panelsPerWeek plan
    /\ 8 <= PilotPlanResult.totalPanels plan <= 32
    /\ Forall (fun metric =>
                 PilotMetricPlan.pilotTotal metric
                 == PilotMetricPlan.perPanel metric
                    * PilotPlanResult.totalPanels plan)
         (PilotPlanResult.selectedMetrics plan)
    /\ (scheduleDerived sampleInput ->
        wholeNumber (PilotPlanResult.durationWeeks plan)
        /\ wholeNumber (PilotPlanResult.totalPanels plan)).
Proof.
  eexists. split; [vm_compute; reflexivity |].
  apply (pilot_schedule_is_within_bounds sampleInput).
  vm_compute. reflexivity.
Defined.

End PilotExtras.

(** ** The scenario fingerprint (scenarioModel.ts) *)

Section FingerprintFacts.
Import Fingerprint FingerprintSpec.
Local Open Scope Z_scope.

Lemma ToInt32_mod (z : Z) : ToInt32 z mod 2 ^ 32 = z mod 2 ^ 32.
Proof.
  unfold ToInt32. rewrite Zminus_mod_idemp_l. f_equal. lia.
Qed.

Lemma ToInt32_small (z : Z) : 0 <= z < 2 ^ 31 -> ToInt32 z = z.
Proof.
  intros H. unfold ToInt32. rewrite Z.mod_small; lia.
Qed.

Lemma lxor_mod (a c : Z) :
  0 <= c < 2 ^ 32 -> Z.lxor a c mod 2 ^ 32 = Z.lxor (a mod 2 ^ 32) c.
Proof.
  intros Hc. apply Z.bits_inj'. intros n Hn.
  destruct (Z.lt_ge_cases n 32) as [Hlow | Hhigh].
  - rewrite Z.mod_pow2_bits_low by lia.
    rewrite !Z.lxor_spec. rewrite Z.mod_pow2_bits_low by lia. reflexivity.
  - rewrite Z.mod_pow2_bits_high by lia.
    rewrite Z.lxor_spec. rewrite Z.mod_pow2_bits_high by lia.
    assert (Hbit : Z.testbit c n = false).
    { rewrite <- (Z.mod_small c (2 ^ 32)) by lia.
      apply Z.mod_pow2_bits_high. lia. }
    rewrite Hbit. reflexivity.
Qed.

Lemma add_mod_compat (a a' b b' : Z) :
  a mod 2 ^ 32 = a' mod 2 ^ 32 -> b mod 2 ^ 32 = b' mod 2 ^ 32 ->
  (a + b) mod 2 ^ 32 = (a' + b') mod 2 ^ 32.
Proof.
  intros Ha Hb. rewrite Z.add_mod by lia. rewrite Ha, Hb.
  rewrite <- Z.add_mod by lia. reflexivity.
Qed.

Lemma shiftLeft_mod (x count : Z) :
  0 <= count < 32 ->
  shiftLeft x count mod 2 ^ 32 = (x * 2 ^ count) mod 2 ^ 32.
Proof.
  intros Hc. unfold shiftLeft, ToUint32.
  rewrite (Z.mod_small count) by lia.
  assert (Hland : Z.land count 31 = count).
  { change 31 with (Z.ones 5). rewrite Z.land_ones by lia.
    apply Z.mod_small. change (2 ^ 5) with 32. lia. }
  rewrite Hland, ToInt32_mod, Z.shiftl_mul_pow2 by lia.
  rewrite Z.mul_mod by lia. rewrite ToInt32_mod.
  rewrite <- Z.mul_mod by lia. reflexivity.
Qed.

(** One round of the loop is one round of FNV-1a, modulo 2^32. *)
Lemma hashStep_mod (hash code : Z) :
  codeUnit code ->
  hashStep hash code mod 2 ^ 32 = fnvRound (hash mod 2 ^ 32) code.
Proof.
  unfold codeUnit. intros Hcode. unfold hashStep, fnvRound, bitXor.
  rewrite (ToInt32_small code) by lia.
  set (x := Z.lxor (ToInt32 hash) code).
  assert (Hx : x mod 2 ^ 32 = Z.lxor (hash mod 2 ^ 32) code).
  { unfold x. rewrite lxor_mod by lia. rewrite ToInt32_mod. reflexivity. }
  rewrite <- Hx. rewrite Z.mul_mod_idemp_l by lia.
  replace (x * fnvPrime)
    with (x + (x * 2 ^ 1 + x * 2 ^ 4 + x * 2 ^ 7 + x * 2 ^ 8 + x * 2 ^ 24))
    by (unfold fnvPrime; lia).
  apply add_mod_compat; [reflexivity |].
  repeat apply add_mod_compat; apply shiftLeft_mod; lia.
Qed.

Lemma hashLoop_mod (text : list Z) :
  Forall codeUnit text ->
  forall hash : Z,
    fold_left hashStep text hash mod 2 ^ 32
    = fold_left fnvRound text (hash mod 2 ^ 32).
Proof.
  induction 1 as [| code text Hcode _ IH]; intros hash; cbn [fold_left].
  - reflexivity.
  - rewrite IH, hashStep_mod by exact Hcode. reflexivity.
Qed.

End FingerprintFacts.

Section FingerprintExtras.
Import Fingerprint FingerprintSpec.

(** X29.  The hash loop of [scenarioFingerprint], written with signed
    32-bit shifts and an unreduced sum, computes the standard 32-bit
    FNV-1a hash of the text: offset basis 2166136261, and for each code
    unit an exclusive-or followed by a multiplication by the prime
    16777619 modulo 2^32. *)
Theorem fingerprint_hash_is_fnv1a :
  forall text : list Z,
    Forall codeUnit text ->
    ToUint32 (hashLoop text) = fnv1a32 text.
Proof.
  intros text Htext. unfold ToUint32, hashLoop, fnv1a32.
  rewrite (hashLoop_mod text Htext). reflexivity.
Qed.

Lemma fingerprint_hash_is_fnv1a_witness :
  ToUint32 (hashLoop sampleText) = fnv1a32 sampleText.
Proof.
  apply (fingerprint_hash_is_fnv1a sampleText).
  unfold sampleText, codeUnit. repeat constructor; lia.
Defined.

End FingerprintExtras.

Section FingerprintLabel.
Import Fingerprint FingerprintSpec.

(** Published FNV-1a test vectors: the empty text, [a] and [foobar]. *)
Example fingerprintOfText_test_vectors :
  fingerprintOfText [] = "fnv1a-811c9dc5"%string
  /\ fingerprintOfText [97%Z] = "fnv1a-e40c292c"%string
  /\ fingerprintOfText [102; 111; 111; 98; 97; 114]%Z
     = "fnv1a-bf9cf968"%string.
Proof. repeat split; vm_compute; reflexivity. Qed.

Local Open Scope Z_scope.

Lemma hexValue_hexDigit (d : Z) : 0 <= d < 16 -> hexValue (hexDigit d) = d.
Proof.
  intros H.
  assert (Hcases : d = 0 \/ d = 1 \/ d = 2 \/ d = 3 \/ d = 4 \/ d = 5
                   \/ d = 6 \/ d = 7 \/ d = 8 \/ d = 9 \/ d = 10 \/ d = 11
                   \/ d = 12 \/ d = 13 \/ d = 14 \/ d = 15) by lia.
  repeat (destruct Hcases as [-> | Hcases]; [reflexivity |]).
  subst d. reflexivity.
Qed.

Lemma isHexDigit_hexDigit (d : Z) : isHexDigit (hexDigit d) = true.
Proof.
  unfold hexDigit. generalize (Z.to_nat d) as n. intros n.
  do 16 (destruct n as [| n]; [reflexivity |]).
  destruct n; reflexivity.
Qed.

Lemma allHexDigits_app (s1 s2 : string) :
  allHexDigits (s1 ++ s2) = (allHexDigits s1 && allHexDigits s2)%bool.
Proof.
  induction s1 as [| c s1 IH]; cbn [append allHexDigits]; [reflexivity |].
  rewrite IH, andb_assoc. reflexivity.
Qed.

Lemma allHexDigits_zeros (count : nat) :
  allHexDigits (repeatChar "0"%char count) = true.
Proof.
  induction count as [| count IH]; cbn [repeatChar allHexDigits];
    [reflexivity | rewrite IH; reflexivity].
Qed.

Lemma parseHexFrom_app (s1 s2 : string) :
  forall acc : Z,
    parseHexFrom acc (s1 ++ s2) = parseHexFrom (parseHexFrom acc s1) s2.
Proof.
  induction s1 as [| c s1 IH]; intros acc; cbn [append parseHexFrom].
  - reflexivity.
  - apply IH.
Qed.

Lemma length_append (s1 s2 : string) :
  String.length (s1 ++ s2) = (String.length s1 + String.length s2)%nat.
Proof.
  induction s1 as [| c s1 IH]; cbn [append String.length]; [reflexivity |].
  rewrite IH. reflexivity.
Qed.

Lemma hexDigits_step (fuel : nat) (n : Z) (acc : string) :
  hexDigits (S fuel) n acc
  = if n / 16 =? 0 then String (hexDigit (n mod 16)) acc
    else hexDigits fuel (n / 16) (String (hexDigit (n mod 16)) acc).
Proof. reflexivity. Qed.

(** The digits [hexDigits] puts in front of [acc]: at most [k + 1] of
    them when [n < 16^(k+1)], all hexadecimal, and they denote [n]. *)
Lemma hexDigits_spec (k : nat) :
  forall (fuel : nat) (n : Z) (acc : string),
    (k <= fuel)%nat ->
    0 <= n < 16 ^ Z.of_nat (S k) ->
    exists digits : string,
      hexDigits (S fuel) n acc = (digits ++ acc)%string
      /\ (1 <= String.length digits <= S k)%nat
      /\ allHexDigits digits = true
      /\ forall start : Z,
           parseHexFrom start digits
           = start * 16 ^ Z.of_nat (String.length digits) + n.
Proof.
  induction k as [| k IH]; intros fuel n acc Hfuel Hn.
  - change (16 ^ Z.of_nat 1) with 16 in Hn.
    rewrite hexDigits_step.
    assert (Hq : n / 16 = 0) by (apply Z.div_small; lia).
    rewrite Hq. cbn [Z.eqb].
    exists (String (hexDigit (n mod 16)) EmptyString).
    split; [reflexivity |]. split; [cbn; lia |].
    split; [cbn [allHexDigits]; rewrite isHexDigit_hexDigit; reflexivity |].
    intros start. cbn [parseHexFrom String.length].
    rewrite hexValue_hexDigit by (apply Z.mod_pos_bound; lia).
    rewrite Z.mod_small by lia. change (16 ^ Z.of_nat 1) with 16. lia.
  - destruct fuel as [| fuel]; [lia |].
    rewrite hexDigits_step.
    destruct (Z.eqb_spec (n / 16) 0) as [Hq | Hq].
    + exists (String (hexDigit (n mod 16)) EmptyString).
      split; [reflexivity |]. split; [cbn; lia |].
      split; [cbn [allHexDigits]; rewrite isHexDigit_hexDigit; reflexivity |].
      intros start. cbn [parseHexFrom String.length].
      rewrite hexValue_hexDigit by (apply Z.mod_pos_bound; lia).
      pose proof (Z.div_mod n 16 ltac:(lia)) as Hdm.
      change (16 ^ Z.of_nat 1) with 16. lia.
    + assert (Hrange : 0 <= n / 16 < 16 ^ Z.of_nat (S k)).
      { split; [apply Z.div_pos; lia |].
        apply Z.div_lt_upper_bound; [lia |].
        replace (16 * 16 ^ Z.of_nat (S k)) with (16 ^ Z.of_nat (S (S k)));
          [lia |].
        rewrite (Nat2Z.inj_succ (S k)), Z.pow_succ_r by lia. reflexivity. }
      destruct (IH fuel (n / 16) (String (hexDigit (n mod 16)) acc)
                  ltac:(lia) Hrange)
        as (digits & Hrun & Hlen & Hhex & Hvalue).
      exists (digits ++ String (hexDigit (n mod 16)) EmptyString)%string.
      split; [| split; [| split]].
      * rewrite Hrun.
        clear. induction digits as [| c digits IHd]; cbn [append];
          [reflexivity | rewrite IHd; reflexivity].
      * rewrite length_append. cbn [String.length]. lia.
      * rewrite allHexDigits_app, Hhex. cbn [allHexDigits].
        rewrite isHexDigit_hexDigit. reflexivity.
      * intros start. rewrite parseHexFrom_app, Hvalue.
        cbn [parseHexFrom]. rewrite length_append. cbn [String.length].
        rewrite hexValue_hexDigit by (apply Z.mod_pos_bound; lia).
        pose proof (Z.div_mod n 16 ltac:(lia)) as Hdm.
        replace (Z.of_nat (String.length digits + 1))
          with (Z.succ (Z.of_nat (String.length digits))) by lia.
        rewrite Z.pow_succ_r by lia. lia.
Qed.

Lemma parseHexFrom_zeros (count : nat) (text : string) :
  parseHexFrom 0 (repeatChar "0"%char count ++ text) = parseHexFrom 0 text.
Proof.
  induction count as [| count IH]; cbn [repeatChar append parseHexFrom];
    [reflexivity | exact IH].
Qed.

Lemma length_repeatChar (pad : ascii) (count : nat) :
  String.length (repeatChar pad count) = count.
Proof.
  induction count as [| count IH]; cbn [repeatChar String.length];
    [reflexivity | rewrite IH; reflexivity].
Qed.

(** Eight hexadecimal digits render a 32-bit number, and denote it. *)
Lemma render_uint32 (n : Z) :
  0 <= n < 2 ^ 32 ->
  String.length (padStart (toString16 n) 8 "0"%char) = 8%nat
  /\ allHexDigits (padStart (toString16 n) 8 "0"%char) = true
  /\ parseHex (padStart (toString16 n) 8 "0"%char) = n.
Proof.
  intros Hn. unfold toString16.
  set (l := Z.log2 n).
  assert (Hl : 0 <= l < 32).
  { unfold l. split; [apply Z.log2_nonneg |].
    destruct (Z.eq_dec n 0) as [-> | Hne]; [cbn; lia |].
    apply Z.log2_lt_pow2; lia. }
  assert (Hbound : n < 2 ^ (l + 1)).
  { destruct (Z.eq_dec n 0) as [-> | Hne].
    - apply Z.pow_pos_nonneg; lia.
    - unfold l. replace (Z.log2 n + 1) with (Z.succ (Z.log2 n)) by lia.
      apply Z.log2_spec. lia. }
  set (k := Z.to_nat (l / 4)).
  assert (Hk : (k <= Z.to_nat l)%nat /\ (k <= 7)%nat).
  { unfold k. split.
    - apply Z2Nat.inj_le; try lia; [apply Z.div_pos; lia |].
      apply Z.div_le_upper_bound; lia.
    - assert (l / 4 < 8) by (apply Z.div_lt_upper_bound; lia).
      assert (0 <= l / 4) by (apply Z.div_pos; lia). lia. }
  assert (Hrange : 0 <= n < 16 ^ Z.of_nat (S k)).
  { split; [lia |].
    apply Z.lt_le_trans with (2 ^ (l + 1)); [exact Hbound |].
    change 16 with (2 ^ 4). rewrite <- Z.pow_mul_r by lia.
    apply Z.pow_le_mono_r; [lia |].
    unfold k. rewrite Nat2Z.inj_succ, Z2Nat.id by (apply Z.div_pos; lia).
    pose proof (Z.div_mod l 4 ltac:(lia)) as Hdm.
    pose proof (Z.mod_pos_bound l 4 ltac:(lia)). lia. }
  destruct (hexDigits_spec k (Z.to_nat l) n EmptyString (proj1 Hk) Hrange)
    as (digits & Hrun & Hlen & Hhex & Hvalue).
  rewrite Hrun.
  assert (Hnil : (digits ++ "")%string = digits).
  { clear. induction digits as [| c digits IHd]; cbn [append];
      [reflexivity | rewrite IHd; reflexivity]. }
  rewrite Hnil. unfold padStart, parseHex. split; [| split].
  - rewrite length_append, length_repeatChar. lia.
  - rewrite allHexDigits_app, allHexDigits_zeros, Hhex. reflexivity.
  - rewrite parseHexFrom_zeros, Hvalue. lia.
Qed.

(** X30.  A fingerprint has a fixed shape and can be read back: it is
    the text [fnv1a-] followed by exactly eight lower-case hexadecimal
    digits, 14 characters in all, and the eight digits denote the
    unsigned 32-bit hash of the text. *)
Theorem fingerprint_is_eight_hex_digits :
  forall text : list Z,
    exists digits : string,
      fingerprintOfText text = ("fnv1a-" ++ digits)%string
      /\ String.length digits = 8%nat
      /\ allHexDigits digits = true
      /\ String.length (fingerprintOfText text) = 14%nat
      /\ parseHex digits = ToUint32 (hashLoop text).
Proof.
  intros text.
  assert (Hrange : 0 <= ToUint32 (hashLoop text) < 2 ^ 32)
    by (unfold ToUint32; apply Z.mod_pos_bound; lia).
  destruct (render_uint32 _ Hrange) as (Hlen & Hhex & Hvalue).
  exists (padStart (toString16 (ToUint32 (hashLoop text))) 8 "0"%char).
  unfold fingerprintOfText.
  split; [reflexivity |]. split; [exact Hlen |]. split; [exact Hhex |].
  split; [| exact Hvalue].
  rewrite length_append, Hlen. reflexivity.
Qed.

End FingerprintLabel.


(* ================================================================== *)
(** * Double precision: trips, payback and the rate of return *)
(* ================================================================== *)

(** ** The ceiling of a double *)

Section CeilingFacts.
Import Binary64.





End CeilingFacts.

(** ** The sign of a quotient *)

Section QuotientFacts.
Import Binary64 Binary64Spec.





End QuotientFacts.

(** ** Trips *)

Section TripsClaim.
Import Binary64 Binary64.Simulation Binary64Spec.
Local Open Scope float_scope.




(** The load of 0.9 on trucks of 0.3: the doubles written 0.9 and 0.3
    are 0.90000000000000002 and 0.29999999999999998, their exact
    quotient is above 3, the rounded quotient is 3, and three trucks
    are booked. *)
Example trips_follow_the_rounded_quotient :
  tripsFor 0.9 0.3 = Some 3
  /\ (0.9 / 0.3 =? 3) = true
  /\ exists load capacity : Q,
       valueOf 0.9 = Some load
       /\ valueOf 0.3 = Some capacity
       /\ (3 * capacity < load)%Q.
Proof.
  split; [vm_compute; reflexivity |].
  split; [vm_compute; reflexivity |].
  eexists. eexists.
  split; [vm_compute; reflexivity |].
  split; [vm_compute; reflexivity |].
  vm_compute. reflexivity.
Qed.

End TripsClaim.

(** ** Payback period *)

Section PaybackFacts.
Import Binary64 Binary64.Investment Binary64Spec.
Local Open Scope float_scope.








End PaybackFacts.

Section PaybackClaim.
Import Binary64 Binary64.Investment Binary64Spec.
Local Open Scope float_scope.



(** The running sum is the rounded one.  Ten flows of 0.1 after an
    outlay of 1 leave the running sum at -1.4e-16, and no payback is
    reported, although the eleven doubles add up to more than zero; after
    an outlay of 1.1 the flows 0.1 and 1 bring the running sum to 0, and
    a payback of 2 is reported, although the three doubles add up to
    less than zero. *)
Example payback_follows_the_running_sum :
  PaybackPeriod (-1 :: repeat 0.1 10) = None
  /\ (exists total, exactSum (-1 :: repeat 0.1 10) = Some total
                    /\ (0 < total)%Q)
  /\ PaybackPeriod [-0.7; 0.1; 0.1; 0.1; 0.1; 0.1; 0.1; 0.1] = None
  /\ PaybackPeriod [-100; 33.3; 33.3; 33.4] = None
  /\ PaybackPeriod [-1.1; 0.1; 1] = Some 2
  /\ (exists total, exactSum [-1.1; 0.1; 1] = Some total /\ (total < 0)%Q)
  /\ PaybackPeriod (-1 :: repeat 0.1 10 ++ [-0.5; 5]) = Some 11.1.
Proof.
  split; [vm_compute; reflexivity |].
  split; [eexists; split; vm_compute; reflexivity |].
  split; [vm_compute; reflexivity |].
  split; [vm_compute; reflexivity |].
  split; [vm_compute; reflexivity |].
  split; [eexists; split; vm_compute; reflexivity |].
  vm_compute. reflexivity.
Qed.

End PaybackClaim.

Section PaybackSound.
Import Binary64 Binary64.Investment Binary64Spec.
Local Open Scope float_scope.



End PaybackSound.

(** ** Internal rate of return *)

Section IrrClaim.
Import Binary64 Binary64.Investment Binary64Spec.
Local Open Scope float_scope.

(** C6 fails on the code.  For the series [-1000, 10 (119 times), -500]
    the discount factor 0.0001^k at the lower end -0.9999 is below 1e-307
    from period 77 on (and 0 from period 81 on): the late incomes divide
    to +Infinity, the final payment to -Infinity, and NPV(-0.9999) is
    NaN.  There is then no sign change between the lower end and any of
    the 21 upper ends, so the specified answer is null; but the test
    [fLow * fHigh > 0] is false for NaN, the code neither widens the
    bracket nor returns null, bisects [-0.9999, 1] and returns 1, at
    which NPV is -990.  The same happens with either way of computing
    the power.  On [-100, 60, 60] the code returns 0.130662..., as
    specified. *)
Theorem IRR_bisects_without_a_sign_change :
  (forall power,
      In power [powerByProduct; powerBySquaring] ->
      NPV power (-0.9999) decommissionedPlant = Ok nan
      /\ (forall high, In high upperBounds ->
            signChange (npvOf power decommissionedPlant (-0.9999))
                       (npvOf power decommissionedPlant high) = false)
      /\ IRR power decommissionedPlant = Ok (Some 1)
      /\ NPV power 1 decommissionedPlant = Ok (-990))
  /\ IRR powerByProduct [-100; 60; 60] = Ok (Some 0.13066238587861878)
  /\ IRR powerBySquaring [-100; 60; 60] = Ok (Some 0.13066238587861878).
Proof.
  split; [| split; vm_compute; reflexivity].
  intros power [<- | [<- | []]].
  - split; [vm_compute; reflexivity |].
    split; [| split; vm_compute; reflexivity].
    intros high _.
    replace (npvOf powerByProduct decommissionedPlant (-0.9999)) with nan
      by (vm_compute; reflexivity).
    reflexivity.
  - split; [vm_compute; reflexivity |].
    split; [| split; vm_compute; reflexivity].
    intros high _.
    replace (npvOf powerBySquaring decommissionedPlant (-0.9999)) with nan
      by (vm_compute; reflexivity).
    reflexivity.
Qed.

End IrrClaim.
